(** * Tender document acquisition pipeline (services/geminiService.ts)

    A shallow embedding of the link-probing, download, scraping and
    classification helpers, with the properties stated for them.

    - [JS]: JavaScript strings as sequences of UTF-16 code units and the
      [String.prototype] methods the service calls.
    - [Unicode]: the case-mapping and canonical-decomposition data used by
      [toLowerCase] and [normalize("NFD")].
    - [Effects]: a state-and-exception monad over an event log; the browser
      and network are an [Env] of oracles.
    - [Service]: the functions of the service, in source order. *)

From Stdlib Require Import List NArith Bool Ascii String DecimalString Arith Lia.
From Equations Require Import Equations.
Import ListNotations.

Set Implicit Arguments.

(* ===================================================================== *)
(** ** JavaScript strings *)
(* ===================================================================== *)

Module JS.

(** A JavaScript string is a finite sequence of UTF-16 code units. *)
Definition JSString : Type := list N.

(** String literals of the source that are pure ASCII. *)
Definition js (s : string) : JSString :=
  map N_of_ascii (list_ascii_of_string s).

Definition eqb (s t : JSString) : bool :=
  if list_eq_dec N.eq_dec s t then true else false.

(** [!s] on a string: only the empty string is falsy. *)
Definition is_empty (s : JSString) : bool :=
  match s with [] => true | _ :: _ => false end.

(** [s.startsWith(p)] *)
Fixpoint startsWith (s p : JSString) : bool :=
  match p, s with
  | [], _ => true
  | _ :: _, [] => false
  | c :: p', d :: s' => (c =? d)%N && startsWith s' p'
  end.

(** [s.includes(p)]: [p] occurs at some offset of [s]. *)
Fixpoint includes (s p : JSString) : bool :=
  startsWith s p ||
  match s with
  | [] => false
  | _ :: s' => includes s' p
  end.

(** [s.endsWith(p)] *)
Definition endsWith (s p : JSString) : bool :=
  (List.length p <=? List.length s) &&
  startsWith (skipn (List.length s - List.length p) s) p.

(** [s.replace] of the class [[lo-hi]], global, by the empty string: every
    code unit in the class is dropped. *)
Definition remove_range (lo hi : N) (s : JSString) : JSString :=
  filter (fun c => negb ((lo <=? c)%N && (c <=? hi)%N)) s.

(** Decimal rendering of a non-negative integer ([`${n}`]). *)
Definition digits (n : N) : JSString :=
  js (NilEmpty.string_of_uint (N.to_uint n)).

End JS.

Import JS.

(* ===================================================================== *)
(** ** Unicode data behind [toLowerCase] and [normalize("NFD")] *)
(* ===================================================================== *)

(** The tables below are the Unicode Character Database, version 14.0, for
    all code points: the lowercase mappings, the full canonical
    decompositions, the canonical combining classes and the properties
    Cased and Case_Ignorable. Both functions work on the code points of
    the string: a surrogate pair is one code point, and a surrogate
    without its partner is a code point of its own that no table lists. *)

Module Unicode.

Open Scope N_scope.

(** *** Code points of a string *)

Definition is_high_surrogate (c : N) : bool := (0xD800 <=? c) && (c <=? 0xDBFF).
Definition is_low_surrogate (c : N) : bool := (0xDC00 <=? c) && (c <=? 0xDFFF).

(** StringToCodePoints *)
Fixpoint code_points (s : JSString) : list N :=
  match s with
  | [] => []
  | c :: s' =>
      match s' with
      | d :: s'' =>
          if is_high_surrogate c && is_low_surrogate d
          then (0x10000 + (c - 0xD800) * 0x400 + (d - 0xDC00)) :: code_points s''
          else c :: code_points s'
      | [] => [c]
      end
  end.

(** UTF16EncodeCodePoint *)
Definition code_units (cp : N) : JSString :=
  if cp <? 0x10000 then [cp]
  else [0xD800 + (cp - 0x10000) / 0x400; 0xDC00 + (cp - 0x10000) mod 0x400].

(** CodePointsToString *)
Definition of_code_points (l : list N) : JSString := flat_map code_units l.

(** *** Tables *)

(** Lowercase mappings (UnicodeData.txt field 13, and SpecialCasing.txt
    for U+0130); only code points that change are listed. *)
Definition lowercase_table : list (N * list N) :=
  [
    (0x0041, [0x0061]); (0x0042, [0x0062]); (0x0043, [0x0063]); (0x0044, [0x0064]);
    (0x0045, [0x0065]); (0x0046, [0x0066]); (0x0047, [0x0067]); (0x0048, [0x0068]);
    (0x0049, [0x0069]); (0x004A, [0x006A]); (0x004B, [0x006B]); (0x004C, [0x006C]);
    (0x004D, [0x006D]); (0x004E, [0x006E]); (0x004F, [0x006F]); (0x0050, [0x0070]);
    (0x0051, [0x0071]); (0x0052, [0x0072]); (0x0053, [0x0073]); (0x0054, [0x0074]);
    (0x0055, [0x0075]); (0x0056, [0x0076]); (0x0057, [0x0077]); (0x0058, [0x0078]);
    (0x0059, [0x0079]); (0x005A, [0x007A]); (0x00C0, [0x00E0]); (0x00C1, [0x00E1]);
    (0x00C2, [0x00E2]); (0x00C3, [0x00E3]); (0x00C4, [0x00E4]); (0x00C5, [0x00E5]);
    (0x00C6, [0x00E6]); (0x00C7, [0x00E7]); (0x00C8, [0x00E8]); (0x00C9, [0x00E9]);
    (0x00CA, [0x00EA]); (0x00CB, [0x00EB]); (0x00CC, [0x00EC]); (0x00CD, [0x00ED]);
    (0x00CE, [0x00EE]); (0x00CF, [0x00EF]); (0x00D0, [0x00F0]); (0x00D1, [0x00F1]);
    (0x00D2, [0x00F2]); (0x00D3, [0x00F3]); (0x00D4, [0x00F4]); (0x00D5, [0x00F5]);
    (0x00D6, [0x00F6]); (0x00D8, [0x00F8]); (0x00D9, [0x00F9]); (0x00DA, [0x00FA]);
    (0x00DB, [0x00FB]); (0x00DC, [0x00FC]); (0x00DD, [0x00FD]); (0x00DE, [0x00FE]);
    (0x0100, [0x0101]); (0x0102, [0x0103]); (0x0104, [0x0105]); (0x0106, [0x0107]);
    (0x0108, [0x0109]); (0x010A, [0x010B]); (0x010C, [0x010D]); (0x010E, [0x010F]);
    (0x0110, [0x0111]); (0x0112, [0x0113]); (0x0114, [0x0115]); (0x0116, [0x0117]);
    (0x0118, [0x0119]); (0x011A, [0x011B]); (0x011C, [0x011D]); (0x011E, [0x011F]);
    (0x0120, [0x0121]); (0x0122, [0x0123]); (0x0124, [0x0125]); (0x0126, [0x0127]);
    (0x0128, [0x0129]); (0x012A, [0x012B]); (0x012C, [0x012D]); (0x012E, [0x012F]);
    (0x0130, [0x0069; 0x0307]); (0x0132, [0x0133]); (0x0134, [0x0135]); (0x0136, [0x0137]);
    (0x0139, [0x013A]); (0x013B, [0x013C]); (0x013D, [0x013E]); (0x013F, [0x0140]);
    (0x0141, [0x0142]); (0x0143, [0x0144]); (0x0145, [0x0146]); (0x0147, [0x0148]);
    (0x014A, [0x014B]); (0x014C, [0x014D]); (0x014E, [0x014F]); (0x0150, [0x0151]);
    (0x0152, [0x0153]); (0x0154, [0x0155]); (0x0156, [0x0157]); (0x0158, [0x0159]);
    (0x015A, [0x015B]); (0x015C, [0x015D]); (0x015E, [0x015F]); (0x0160, [0x0161]);
    (0x0162, [0x0163]); (0x0164, [0x0165]); (0x0166, [0x0167]); (0x0168, [0x0169]);
    (0x016A, [0x016B]); (0x016C, [0x016D]); (0x016E, [0x016F]); (0x0170, [0x0171]);
    (0x0172, [0x0173]); (0x0174, [0x0175]); (0x0176, [0x0177]); (0x0178, [0x00FF]);
    (0x0179, [0x017A]); (0x017B, [0x017C]); (0x017D, [0x017E]); (0x0181, [0x0253]);
    (0x0182, [0x0183]); (0x0184, [0x0185]); (0x0186, [0x0254]); (0x0187, [0x0188]);
    (0x0189, [0x0256]); (0x018A, [0x0257]); (0x018B, [0x018C]); (0x018E, [0x01DD]);
    (0x018F, [0x0259]); (0x0190, [0x025B]); (0x0191, [0x0192]); (0x0193, [0x0260]);
    (0x0194, [0x0263]); (0x0196, [0x0269]); (0x0197, [0x0268]); (0x0198, [0x0199]);
    (0x019C, [0x026F]); (0x019D, [0x0272]); (0x019F, [0x0275]); (0x01A0, [0x01A1]);
    (0x01A2, [0x01A3]); (0x01A4, [0x01A5]); (0x01A6, [0x0280]); (0x01A7, [0x01A8]);
    (0x01A9, [0x0283]); (0x01AC, [0x01AD]); (0x01AE, [0x0288]); (0x01AF, [0x01B0]);
    (0x01B1, [0x028A]); (0x01B2, [0x028B]); (0x01B3, [0x01B4]); (0x01B5, [0x01B6]);
    (0x01B7, [0x0292]); (0x01B8, [0x01B9]); (0x01BC, [0x01BD]); (0x01C4, [0x01C6]);
    (0x01C5, [0x01C6]); (0x01C7, [0x01C9]); (0x01C8, [0x01C9]); (0x01CA, [0x01CC]);
    (0x01CB, [0x01CC]); (0x01CD, [0x01CE]); (0x01CF, [0x01D0]); (0x01D1, [0x01D2]);
    (0x01D3, [0x01D4]); (0x01D5, [0x01D6]); (0x01D7, [0x01D8]); (0x01D9, [0x01DA]);
    (0x01DB, [0x01DC]); (0x01DE, [0x01DF]); (0x01E0, [0x01E1]); (0x01E2, [0x01E3]);
    (0x01E4, [0x01E5]); (0x01E6, [0x01E7]); (0x01E8, [0x01E9]); (0x01EA, [0x01EB]);
    (0x01EC, [0x01ED]); (0x01EE, [0x01EF]); (0x01F1, [0x01F3]); (0x01F2, [0x01F3]);
    (0x01F4, [0x01F5]); (0x01F6, [0x0195]); (0x01F7, [0x01BF]); (0x01F8, [0x01F9]);
    (0x01FA, [0x01FB]); (0x01FC, [0x01FD]); (0x01FE, [0x01FF]); (0x0200, [0x0201]);
    (0x0202, [0x0203]); (0x0204, [0x0205]); (0x0206, [0x0207]); (0x0208, [0x0209]);
    (0x020A, [0x020B]); (0x020C, [0x020D]); (0x020E, [0x020F]); (0x0210, [0x0211]);
    (0x0212, [0x0213]); (0x0214, [0x0215]); (0x0216, [0x0217]); (0x0218, [0x0219]);
    (0x021A, [0x021B]); (0x021C, [0x021D]); (0x021E, [0x021F]); (0x0220, [0x019E]);
    (0x0222, [0x0223]); (0x0224, [0x0225]); (0x0226, [0x0227]); (0x0228, [0x0229]);
    (0x022A, [0x022B]); (0x022C, [0x022D]); (0x022E, [0x022F]); (0x0230, [0x0231]);
    (0x0232, [0x0233]); (0x023A, [0x2C65]); (0x023B, [0x023C]); (0x023D, [0x019A]);
    (0x023E, [0x2C66]); (0x0241, [0x0242]); (0x0243, [0x0180]); (0x0244, [0x0289]);
    (0x0245, [0x028C]); (0x0246, [0x0247]); (0x0248, [0x0249]); (0x024A, [0x024B]);
    (0x024C, [0x024D]); (0x024E, [0x024F]); (0x0370, [0x0371]); (0x0372, [0x0373]);
    (0x0376, [0x0377]); (0x037F, [0x03F3]); (0x0386, [0x03AC]); (0x0388, [0x03AD]);
    (0x0389, [0x03AE]); (0x038A, [0x03AF]); (0x038C, [0x03CC]); (0x038E, [0x03CD]);
    (0x038F, [0x03CE]); (0x0391, [0x03B1]); (0x0392, [0x03B2]); (0x0393, [0x03B3]);
    (0x0394, [0x03B4]); (0x0395, [0x03B5]); (0x0396, [0x03B6]); (0x0397, [0x03B7]);
    (0x0398, [0x03B8]); (0x0399, [0x03B9]); (0x039A, [0x03BA]); (0x039B, [0x03BB]);
    (0x039C, [0x03BC]); (0x039D, [0x03BD]); (0x039E, [0x03BE]); (0x039F, [0x03BF]);
    (0x03A0, [0x03C0]); (0x03A1, [0x03C1]); (0x03A3, [0x03C3]); (0x03A4, [0x03C4]);
    (0x03A5, [0x03C5]); (0x03A6, [0x03C6]); (0x03A7, [0x03C7]); (0x03A8, [0x03C8]);
    (0x03A9, [0x03C9]); (0x03AA, [0x03CA]); (0x03AB, [0x03CB]); (0x03CF, [0x03D7]);
    (0x03D8, [0x03D9]); (0x03DA, [0x03DB]); (0x03DC, [0x03DD]); (0x03DE, [0x03DF]);
    (0x03E0, [0x03E1]); (0x03E2, [0x03E3]); (0x03E4, [0x03E5]); (0x03E6, [0x03E7]);
    (0x03E8, [0x03E9]); (0x03EA, [0x03EB]); (0x03EC, [0x03ED]); (0x03EE, [0x03EF]);
    (0x03F4, [0x03B8]); (0x03F7, [0x03F8]); (0x03F9, [0x03F2]); (0x03FA, [0x03FB]);
    (0x03FD, [0x037B]); (0x03FE, [0x037C]); (0x03FF, [0x037D]); (0x0400, [0x0450]);
    (0x0401, [0x0451]); (0x0402, [0x0452]); (0x0403, [0x0453]); (0x0404, [0x0454]);
    (0x0405, [0x0455]); (0x0406, [0x0456]); (0x0407, [0x0457]); (0x0408, [0x0458]);
    (0x0409, [0x0459]); (0x040A, [0x045A]); (0x040B, [0x045B]); (0x040C, [0x045C]);
    (0x040D, [0x045D]); (0x040E, [0x045E]); (0x040F, [0x045F]); (0x0410, [0x0430]);
    (0x0411, [0x0431]); (0x0412, [0x0432]); (0x0413, [0x0433]); (0x0414, [0x0434]);
    (0x0415, [0x0435]); (0x0416, [0x0436]); (0x0417, [0x0437]); (0x0418, [0x0438]);
    (0x0419, [0x0439]); (0x041A, [0x043A]); (0x041B, [0x043B]); (0x041C, [0x043C]);
    (0x041D, [0x043D]); (0x041E, [0x043E]); (0x041F, [0x043F]); (0x0420, [0x0440]);
    (0x0421, [0x0441]); (0x0422, [0x0442]); (0x0423, [0x0443]); (0x0424, [0x0444]);
    (0x0425, [0x0445]); (0x0426, [0x0446]); (0x0427, [0x0447]); (0x0428, [0x0448]);
    (0x0429, [0x0449]); (0x042A, [0x044A]); (0x042B, [0x044B]); (0x042C, [0x044C]);
    (0x042D, [0x044D]); (0x042E, [0x044E]); (0x042F, [0x044F]); (0x0460, [0x0461]);
    (0x0462, [0x0463]); (0x0464, [0x0465]); (0x0466, [0x0467]); (0x0468, [0x0469]);
    (0x046A, [0x046B]); (0x046C, [0x046D]); (0x046E, [0x046F]); (0x0470, [0x0471]);
    (0x0472, [0x0473]); (0x0474, [0x0475]); (0x0476, [0x0477]); (0x0478, [0x0479]);
    (0x047A, [0x047B]); (0x047C, [0x047D]); (0x047E, [0x047F]); (0x0480, [0x0481]);
    (0x048A, [0x048B]); (0x048C, [0x048D]); (0x048E, [0x048F]); (0x0490, [0x0491]);
    (0x0492, [0x0493]); (0x0494, [0x0495]); (0x0496, [0x0497]); (0x0498, [0x0499]);
    (0x049A, [0x049B]); (0x049C, [0x049D]); (0x049E, [0x049F]); (0x04A0, [0x04A1]);
    (0x04A2, [0x04A3]); (0x04A4, [0x04A5]); (0x04A6, [0x04A7]); (0x04A8, [0x04A9]);
    (0x04AA, [0x04AB]); (0x04AC, [0x04AD]); (0x04AE, [0x04AF]); (0x04B0, [0x04B1]);
    (0x04B2, [0x04B3]); (0x04B4, [0x04B5]); (0x04B6, [0x04B7]); (0x04B8, [0x04B9]);
    (0x04BA, [0x04BB]); (0x04BC, [0x04BD]); (0x04BE, [0x04BF]); (0x04C0, [0x04CF]);
    (0x04C1, [0x04C2]); (0x04C3, [0x04C4]); (0x04C5, [0x04C6]); (0x04C7, [0x04C8]);
    (0x04C9, [0x04CA]); (0x04CB, [0x04CC]); (0x04CD, [0x04CE]); (0x04D0, [0x04D1]);
    (0x04D2, [0x04D3]); (0x04D4, [0x04D5]); (0x04D6, [0x04D7]); (0x04D8, [0x04D9]);
    (0x04DA, [0x04DB]); (0x04DC, [0x04DD]); (0x04DE, [0x04DF]); (0x04E0, [0x04E1]);
    (0x04E2, [0x04E3]); (0x04E4, [0x04E5]); (0x04E6, [0x04E7]); (0x04E8, [0x04E9]);
    (0x04EA, [0x04EB]); (0x04EC, [0x04ED]); (0x04EE, [0x04EF]); (0x04F0, [0x04F1]);
    (0x04F2, [0x04F3]); (0x04F4, [0x04F5]); (0x04F6, [0x04F7]); (0x04F8, [0x04F9]);
    (0x04FA, [0x04FB]); (0x04FC, [0x04FD]); (0x04FE, [0x04FF]); (0x0500, [0x0501]);
    (0x0502, [0x0503]); (0x0504, [0x0505]); (0x0506, [0x0507]); (0x0508, [0x0509]);
    (0x050A, [0x050B]); (0x050C, [0x050D]); (0x050E, [0x050F]); (0x0510, [0x0511]);
    (0x0512, [0x0513]); (0x0514, [0x0515]); (0x0516, [0x0517]); (0x0518, [0x0519]);
    (0x051A, [0x051B]); (0x051C, [0x051D]); (0x051E, [0x051F]); (0x0520, [0x0521]);
    (0x0522, [0x0523]); (0x0524, [0x0525]); (0x0526, [0x0527]); (0x0528, [0x0529]);
    (0x052A, [0x052B]); (0x052C, [0x052D]); (0x052E, [0x052F]); (0x0531, [0x0561]);
    (0x0532, [0x0562]); (0x0533, [0x0563]); (0x0534, [0x0564]); (0x0535, [0x0565]);
    (0x0536, [0x0566]); (0x0537, [0x0567]); (0x0538, [0x0568]); (0x0539, [0x0569]);
    (0x053A, [0x056A]); (0x053B, [0x056B]); (0x053C, [0x056C]); (0x053D, [0x056D]);
    (0x053E, [0x056E]); (0x053F, [0x056F]); (0x0540, [0x0570]); (0x0541, [0x0571]);
    (0x0542, [0x0572]); (0x0543, [0x0573]); (0x0544, [0x0574]); (0x0545, [0x0575]);
    (0x0546, [0x0576]); (0x0547, [0x0577]); (0x0548, [0x0578]); (0x0549, [0x0579]);
    (0x054A, [0x057A]); (0x054B, [0x057B]); (0x054C, [0x057C]); (0x054D, [0x057D]);
    (0x054E, [0x057E]); (0x054F, [0x057F]); (0x0550, [0x0580]); (0x0551, [0x0581]);
    (0x0552, [0x0582]); (0x0553, [0x0583]); (0x0554, [0x0584]); (0x0555, [0x0585]);
    (0x0556, [0x0586]); (0x10A0, [0x2D00]); (0x10A1, [0x2D01]); (0x10A2, [0x2D02]);
    (0x10A3, [0x2D03]); (0x10A4, [0x2D04]); (0x10A5, [0x2D05]); (0x10A6, [0x2D06]);
    (0x10A7, [0x2D07]); (0x10A8, [0x2D08]); (0x10A9, [0x2D09]); (0x10AA, [0x2D0A]);
    (0x10AB, [0x2D0B]); (0x10AC, [0x2D0C]); (0x10AD, [0x2D0D]); (0x10AE, [0x2D0E]);
    (0x10AF, [0x2D0F]); (0x10B0, [0x2D10]); (0x10B1, [0x2D11]); (0x10B2, [0x2D12]);
    (0x10B3, [0x2D13]); (0x10B4, [0x2D14]); (0x10B5, [0x2D15]); (0x10B6, [0x2D16]);
    (0x10B7, [0x2D17]); (0x10B8, [0x2D18]); (0x10B9, [0x2D19]); (0x10BA, [0x2D1A]);
    (0x10BB, [0x2D1B]); (0x10BC, [0x2D1C]); (0x10BD, [0x2D1D]); (0x10BE, [0x2D1E]);
    (0x10BF, [0x2D1F]); (0x10C0, [0x2D20]); (0x10C1, [0x2D21]); (0x10C2, [0x2D22]);
    (0x10C3, [0x2D23]); (0x10C4, [0x2D24]); (0x10C5, [0x2D25]); (0x10C7, [0x2D27]);
    (0x10CD, [0x2D2D]); (0x13A0, [0xAB70]); (0x13A1, [0xAB71]); (0x13A2, [0xAB72]);
    (0x13A3, [0xAB73]); (0x13A4, [0xAB74]); (0x13A5, [0xAB75]); (0x13A6, [0xAB76]);
    (0x13A7, [0xAB77]); (0x13A8, [0xAB78]); (0x13A9, [0xAB79]); (0x13AA, [0xAB7A]);
    (0x13AB, [0xAB7B]); (0x13AC, [0xAB7C]); (0x13AD, [0xAB7D]); (0x13AE, [0xAB7E]);
    (0x13AF, [0xAB7F]); (0x13B0, [0xAB80]); (0x13B1, [0xAB81]); (0x13B2, [0xAB82]);
    (0x13B3, [0xAB83]); (0x13B4, [0xAB84]); (0x13B5, [0xAB85]); (0x13B6, [0xAB86]);
    (0x13B7, [0xAB87]); (0x13B8, [0xAB88]); (0x13B9, [0xAB89]); (0x13BA, [0xAB8A]);
    (0x13BB, [0xAB8B]); (0x13BC, [0xAB8C]); (0x13BD, [0xAB8D]); (0x13BE, [0xAB8E]);
    (0x13BF, [0xAB8F]); (0x13C0, [0xAB90]); (0x13C1, [0xAB91]); (0x13C2, [0xAB92]);
    (0x13C3, [0xAB93]); (0x13C4, [0xAB94]); (0x13C5, [0xAB95]); (0x13C6, [0xAB96]);
    (0x13C7, [0xAB97]); (0x13C8, [0xAB98]); (0x13C9, [0xAB99]); (0x13CA, [0xAB9A]);
    (0x13CB, [0xAB9B]); (0x13CC, [0xAB9C]); (0x13CD, [0xAB9D]); (0x13CE, [0xAB9E]);
    (0x13CF, [0xAB9F]); (0x13D0, [0xABA0]); (0x13D1, [0xABA1]); (0x13D2, [0xABA2]);
    (0x13D3, [0xABA3]); (0x13D4, [0xABA4]); (0x13D5, [0xABA5]); (0x13D6, [0xABA6]);
    (0x13D7, [0xABA7]); (0x13D8, [0xABA8]); (0x13D9, [0xABA9]); (0x13DA, [0xABAA]);
    (0x13DB, [0xABAB]); (0x13DC, [0xABAC]); (0x13DD, [0xABAD]); (0x13DE, [0xABAE]);
    (0x13DF, [0xABAF]); (0x13E0, [0xABB0]); (0x13E1, [0xABB1]); (0x13E2, [0xABB2]);
    (0x13E3, [0xABB3]); (0x13E4, [0xABB4]); (0x13E5, [0xABB5]); (0x13E6, [0xABB6]);
    (0x13E7, [0xABB7]); (0x13E8, [0xABB8]); (0x13E9, [0xABB9]); (0x13EA, [0xABBA]);
    (0x13EB, [0xABBB]); (0x13EC, [0xABBC]); (0x13ED, [0xABBD]); (0x13EE, [0xABBE]);
    (0x13EF, [0xABBF]); (0x13F0, [0x13F8]); (0x13F1, [0x13F9]); (0x13F2, [0x13FA]);
    (0x13F3, [0x13FB]); (0x13F4, [0x13FC]); (0x13F5, [0x13FD]); (0x1C90, [0x10D0]);
    (0x1C91, [0x10D1]); (0x1C92, [0x10D2]); (0x1C93, [0x10D3]); (0x1C94, [0x10D4]);
    (0x1C95, [0x10D5]); (0x1C96, [0x10D6]); (0x1C97, [0x10D7]); (0x1C98, [0x10D8]);
    (0x1C99, [0x10D9]); (0x1C9A, [0x10DA]); (0x1C9B, [0x10DB]); (0x1C9C, [0x10DC]);
    (0x1C9D, [0x10DD]); (0x1C9E, [0x10DE]); (0x1C9F, [0x10DF]); (0x1CA0, [0x10E0]);
    (0x1CA1, [0x10E1]); (0x1CA2, [0x10E2]); (0x1CA3, [0x10E3]); (0x1CA4, [0x10E4]);
    (0x1CA5, [0x10E5]); (0x1CA6, [0x10E6]); (0x1CA7, [0x10E7]); (0x1CA8, [0x10E8]);
    (0x1CA9, [0x10E9]); (0x1CAA, [0x10EA]); (0x1CAB, [0x10EB]); (0x1CAC, [0x10EC]);
    (0x1CAD, [0x10ED]); (0x1CAE, [0x10EE]); (0x1CAF, [0x10EF]); (0x1CB0, [0x10F0]);
    (0x1CB1, [0x10F1]); (0x1CB2, [0x10F2]); (0x1CB3, [0x10F3]); (0x1CB4, [0x10F4]);
    (0x1CB5, [0x10F5]); (0x1CB6, [0x10F6]); (0x1CB7, [0x10F7]); (0x1CB8, [0x10F8]);
    (0x1CB9, [0x10F9]); (0x1CBA, [0x10FA]); (0x1CBD, [0x10FD]); (0x1CBE, [0x10FE]);
    (0x1CBF, [0x10FF]); (0x1E00, [0x1E01]); (0x1E02, [0x1E03]); (0x1E04, [0x1E05]);
    (0x1E06, [0x1E07]); (0x1E08, [0x1E09]); (0x1E0A, [0x1E0B]); (0x1E0C, [0x1E0D]);
    (0x1E0E, [0x1E0F]); (0x1E10, [0x1E11]); (0x1E12, [0x1E13]); (0x1E14, [0x1E15]);
    (0x1E16, [0x1E17]); (0x1E18, [0x1E19]); (0x1E1A, [0x1E1B]); (0x1E1C, [0x1E1D]);
    (0x1E1E, [0x1E1F]); (0x1E20, [0x1E21]); (0x1E22, [0x1E23]); (0x1E24, [0x1E25]);
    (0x1E26, [0x1E27]); (0x1E28, [0x1E29]); (0x1E2A, [0x1E2B]); (0x1E2C, [0x1E2D]);
    (0x1E2E, [0x1E2F]); (0x1E30, [0x1E31]); (0x1E32, [0x1E33]); (0x1E34, [0x1E35]);
    (0x1E36, [0x1E37]); (0x1E38, [0x1E39]); (0x1E3A, [0x1E3B]); (0x1E3C, [0x1E3D]);
    (0x1E3E, [0x1E3F]); (0x1E40, [0x1E41]); (0x1E42, [0x1E43]); (0x1E44, [0x1E45]);
    (0x1E46, [0x1E47]); (0x1E48, [0x1E49]); (0x1E4A, [0x1E4B]); (0x1E4C, [0x1E4D]);
    (0x1E4E, [0x1E4F]); (0x1E50, [0x1E51]); (0x1E52, [0x1E53]); (0x1E54, [0x1E55]);
    (0x1E56, [0x1E57]); (0x1E58, [0x1E59]); (0x1E5A, [0x1E5B]); (0x1E5C, [0x1E5D]);
    (0x1E5E, [0x1E5F]); (0x1E60, [0x1E61]); (0x1E62, [0x1E63]); (0x1E64, [0x1E65]);
    (0x1E66, [0x1E67]); (0x1E68, [0x1E69]); (0x1E6A, [0x1E6B]); (0x1E6C, [0x1E6D]);
    (0x1E6E, [0x1E6F]); (0x1E70, [0x1E71]); (0x1E72, [0x1E73]); (0x1E74, [0x1E75]);
    (0x1E76, [0x1E77]); (0x1E78, [0x1E79]); (0x1E7A, [0x1E7B]); (0x1E7C, [0x1E7D]);
    (0x1E7E, [0x1E7F]); (0x1E80, [0x1E81]); (0x1E82, [0x1E83]); (0x1E84, [0x1E85]);
    (0x1E86, [0x1E87]); (0x1E88, [0x1E89]); (0x1E8A, [0x1E8B]); (0x1E8C, [0x1E8D]);
    (0x1E8E, [0x1E8F]); (0x1E90, [0x1E91]); (0x1E92, [0x1E93]); (0x1E94, [0x1E95]);
    (0x1E9E, [0x00DF]); (0x1EA0, [0x1EA1]); (0x1EA2, [0x1EA3]); (0x1EA4, [0x1EA5]);
    (0x1EA6, [0x1EA7]); (0x1EA8, [0x1EA9]); (0x1EAA, [0x1EAB]); (0x1EAC, [0x1EAD]);
    (0x1EAE, [0x1EAF]); (0x1EB0, [0x1EB1]); (0x1EB2, [0x1EB3]); (0x1EB4, [0x1EB5]);
    (0x1EB6, [0x1EB7]); (0x1EB8, [0x1EB9]); (0x1EBA, [0x1EBB]); (0x1EBC, [0x1EBD]);
    (0x1EBE, [0x1EBF]); (0x1EC0, [0x1EC1]); (0x1EC2, [0x1EC3]); (0x1EC4, [0x1EC5]);
    (0x1EC6, [0x1EC7]); (0x1EC8, [0x1EC9]); (0x1ECA, [0x1ECB]); (0x1ECC, [0x1ECD]);
    (0x1ECE, [0x1ECF]); (0x1ED0, [0x1ED1]); (0x1ED2, [0x1ED3]); (0x1ED4, [0x1ED5]);
    (0x1ED6, [0x1ED7]); (0x1ED8, [0x1ED9]); (0x1EDA, [0x1EDB]); (0x1EDC, [0x1EDD]);
    (0x1EDE, [0x1EDF]); (0x1EE0, [0x1EE1]); (0x1EE2, [0x1EE3]); (0x1EE4, [0x1EE5]);
    (0x1EE6, [0x1EE7]); (0x1EE8, [0x1EE9]); (0x1EEA, [0x1EEB]); (0x1EEC, [0x1EED]);
    (0x1EEE, [0x1EEF]); (0x1EF0, [0x1EF1]); (0x1EF2, [0x1EF3]); (0x1EF4, [0x1EF5]);
    (0x1EF6, [0x1EF7]); (0x1EF8, [0x1EF9]); (0x1EFA, [0x1EFB]); (0x1EFC, [0x1EFD]);
    (0x1EFE, [0x1EFF]); (0x1F08, [0x1F00]); (0x1F09, [0x1F01]); (0x1F0A, [0x1F02]);
    (0x1F0B, [0x1F03]); (0x1F0C, [0x1F04]); (0x1F0D, [0x1F05]); (0x1F0E, [0x1F06]);
    (0x1F0F, [0x1F07]); (0x1F18, [0x1F10]); (0x1F19, [0x1F11]); (0x1F1A, [0x1F12]);
    (0x1F1B, [0x1F13]); (0x1F1C, [0x1F14]); (0x1F1D, [0x1F15]); (0x1F28, [0x1F20]);
    (0x1F29, [0x1F21]); (0x1F2A, [0x1F22]); (0x1F2B, [0x1F23]); (0x1F2C, [0x1F24]);
    (0x1F2D, [0x1F25]); (0x1F2E, [0x1F26]); (0x1F2F, [0x1F27]); (0x1F38, [0x1F30]);
    (0x1F39, [0x1F31]); (0x1F3A, [0x1F32]); (0x1F3B, [0x1F33]); (0x1F3C, [0x1F34]);
    (0x1F3D, [0x1F35]); (0x1F3E, [0x1F36]); (0x1F3F, [0x1F37]); (0x1F48, [0x1F40]);
    (0x1F49, [0x1F41]); (0x1F4A, [0x1F42]); (0x1F4B, [0x1F43]); (0x1F4C, [0x1F44]);
    (0x1F4D, [0x1F45]); (0x1F59, [0x1F51]); (0x1F5B, [0x1F53]); (0x1F5D, [0x1F55]);
    (0x1F5F, [0x1F57]); (0x1F68, [0x1F60]); (0x1F69, [0x1F61]); (0x1F6A, [0x1F62]);
    (0x1F6B, [0x1F63]); (0x1F6C, [0x1F64]); (0x1F6D, [0x1F65]); (0x1F6E, [0x1F66]);
    (0x1F6F, [0x1F67]); (0x1F88, [0x1F80]); (0x1F89, [0x1F81]); (0x1F8A, [0x1F82]);
    (0x1F8B, [0x1F83]); (0x1F8C, [0x1F84]); (0x1F8D, [0x1F85]); (0x1F8E, [0x1F86]);
    (0x1F8F, [0x1F87]); (0x1F98, [0x1F90]); (0x1F99, [0x1F91]); (0x1F9A, [0x1F92]);
    (0x1F9B, [0x1F93]); (0x1F9C, [0x1F94]); (0x1F9D, [0x1F95]); (0x1F9E, [0x1F96]);
    (0x1F9F, [0x1F97]); (0x1FA8, [0x1FA0]); (0x1FA9, [0x1FA1]); (0x1FAA, [0x1FA2]);
    (0x1FAB, [0x1FA3]); (0x1FAC, [0x1FA4]); (0x1FAD, [0x1FA5]); (0x1FAE, [0x1FA6]);
    (0x1FAF, [0x1FA7]); (0x1FB8, [0x1FB0]); (0x1FB9, [0x1FB1]); (0x1FBA, [0x1F70]);
    (0x1FBB, [0x1F71]); (0x1FBC, [0x1FB3]); (0x1FC8, [0x1F72]); (0x1FC9, [0x1F73]);
    (0x1FCA, [0x1F74]); (0x1FCB, [0x1F75]); (0x1FCC, [0x1FC3]); (0x1FD8, [0x1FD0]);
    (0x1FD9, [0x1FD1]); (0x1FDA, [0x1F76]); (0x1FDB, [0x1F77]); (0x1FE8, [0x1FE0]);
    (0x1FE9, [0x1FE1]); (0x1FEA, [0x1F7A]); (0x1FEB, [0x1F7B]); (0x1FEC, [0x1FE5]);
    (0x1FF8, [0x1F78]); (0x1FF9, [0x1F79]); (0x1FFA, [0x1F7C]); (0x1FFB, [0x1F7D]);
    (0x1FFC, [0x1FF3]); (0x2126, [0x03C9]); (0x212A, [0x006B]); (0x212B, [0x00E5]);
    (0x2132, [0x214E]); (0x2160, [0x2170]); (0x2161, [0x2171]); (0x2162, [0x2172]);
    (0x2163, [0x2173]); (0x2164, [0x2174]); (0x2165, [0x2175]); (0x2166, [0x2176]);
    (0x2167, [0x2177]); (0x2168, [0x2178]); (0x2169, [0x2179]); (0x216A, [0x217A]);
    (0x216B, [0x217B]); (0x216C, [0x217C]); (0x216D, [0x217D]); (0x216E, [0x217E]);
    (0x216F, [0x217F]); (0x2183, [0x2184]); (0x24B6, [0x24D0]); (0x24B7, [0x24D1]);
    (0x24B8, [0x24D2]); (0x24B9, [0x24D3]); (0x24BA, [0x24D4]); (0x24BB, [0x24D5]);
    (0x24BC, [0x24D6]); (0x24BD, [0x24D7]); (0x24BE, [0x24D8]); (0x24BF, [0x24D9]);
    (0x24C0, [0x24DA]); (0x24C1, [0x24DB]); (0x24C2, [0x24DC]); (0x24C3, [0x24DD]);
    (0x24C4, [0x24DE]); (0x24C5, [0x24DF]); (0x24C6, [0x24E0]); (0x24C7, [0x24E1]);
    (0x24C8, [0x24E2]); (0x24C9, [0x24E3]); (0x24CA, [0x24E4]); (0x24CB, [0x24E5]);
    (0x24CC, [0x24E6]); (0x24CD, [0x24E7]); (0x24CE, [0x24E8]); (0x24CF, [0x24E9]);
    (0x2C00, [0x2C30]); (0x2C01, [0x2C31]); (0x2C02, [0x2C32]); (0x2C03, [0x2C33]);
    (0x2C04, [0x2C34]); (0x2C05, [0x2C35]); (0x2C06, [0x2C36]); (0x2C07, [0x2C37]);
    (0x2C08, [0x2C38]); (0x2C09, [0x2C39]); (0x2C0A, [0x2C3A]); (0x2C0B, [0x2C3B]);
    (0x2C0C, [0x2C3C]); (0x2C0D, [0x2C3D]); (0x2C0E, [0x2C3E]); (0x2C0F, [0x2C3F]);
    (0x2C10, [0x2C40]); (0x2C11, [0x2C41]); (0x2C12, [0x2C42]); (0x2C13, [0x2C43]);
    (0x2C14, [0x2C44]); (0x2C15, [0x2C45]); (0x2C16, [0x2C46]); (0x2C17, [0x2C47]);
    (0x2C18, [0x2C48]); (0x2C19, [0x2C49]); (0x2C1A, [0x2C4A]); (0x2C1B, [0x2C4B]);
    (0x2C1C, [0x2C4C]); (0x2C1D, [0x2C4D]); (0x2C1E, [0x2C4E]); (0x2C1F, [0x2C4F]);
    (0x2C20, [0x2C50]); (0x2C21, [0x2C51]); (0x2C22, [0x2C52]); (0x2C23, [0x2C53]);
    (0x2C24, [0x2C54]); (0x2C25, [0x2C55]); (0x2C26, [0x2C56]); (0x2C27, [0x2C57]);
    (0x2C28, [0x2C58]); (0x2C29, [0x2C59]); (0x2C2A, [0x2C5A]); (0x2C2B, [0x2C5B]);
    (0x2C2C, [0x2C5C]); (0x2C2D, [0x2C5D]); (0x2C2E, [0x2C5E]); (0x2C2F, [0x2C5F]);
    (0x2C60, [0x2C61]); (0x2C62, [0x026B]); (0x2C63, [0x1D7D]); (0x2C64, [0x027D]);
    (0x2C67, [0x2C68]); (0x2C69, [0x2C6A]); (0x2C6B, [0x2C6C]); (0x2C6D, [0x0251]);
    (0x2C6E, [0x0271]); (0x2C6F, [0x0250]); (0x2C70, [0x0252]); (0x2C72, [0x2C73]);
    (0x2C75, [0x2C76]); (0x2C7E, [0x023F]); (0x2C7F, [0x0240]); (0x2C80, [0x2C81]);
    (0x2C82, [0x2C83]); (0x2C84, [0x2C85]); (0x2C86, [0x2C87]); (0x2C88, [0x2C89]);
    (0x2C8A, [0x2C8B]); (0x2C8C, [0x2C8D]); (0x2C8E, [0x2C8F]); (0x2C90, [0x2C91]);
    (0x2C92, [0x2C93]); (0x2C94, [0x2C95]); (0x2C96, [0x2C97]); (0x2C98, [0x2C99]);
    (0x2C9A, [0x2C9B]); (0x2C9C, [0x2C9D]); (0x2C9E, [0x2C9F]); (0x2CA0, [0x2CA1]);
    (0x2CA2, [0x2CA3]); (0x2CA4, [0x2CA5]); (0x2CA6, [0x2CA7]); (0x2CA8, [0x2CA9]);
    (0x2CAA, [0x2CAB]); (0x2CAC, [0x2CAD]); (0x2CAE, [0x2CAF]); (0x2CB0, [0x2CB1]);
    (0x2CB2, [0x2CB3]); (0x2CB4, [0x2CB5]); (0x2CB6, [0x2CB7]); (0x2CB8, [0x2CB9]);
    (0x2CBA, [0x2CBB]); (0x2CBC, [0x2CBD]); (0x2CBE, [0x2CBF]); (0x2CC0, [0x2CC1]);
    (0x2CC2, [0x2CC3]); (0x2CC4, [0x2CC5]); (0x2CC6, [0x2CC7]); (0x2CC8, [0x2CC9]);
    (0x2CCA, [0x2CCB]); (0x2CCC, [0x2CCD]); (0x2CCE, [0x2CCF]); (0x2CD0, [0x2CD1]);
    (0x2CD2, [0x2CD3]); (0x2CD4, [0x2CD5]); (0x2CD6, [0x2CD7]); (0x2CD8, [0x2CD9]);
    (0x2CDA, [0x2CDB]); (0x2CDC, [0x2CDD]); (0x2CDE, [0x2CDF]); (0x2CE0, [0x2CE1]);
    (0x2CE2, [0x2CE3]); (0x2CEB, [0x2CEC]); (0x2CED, [0x2CEE]); (0x2CF2, [0x2CF3]);
    (0xA640, [0xA641]); (0xA642, [0xA643]); (0xA644, [0xA645]); (0xA646, [0xA647]);
    (0xA648, [0xA649]); (0xA64A, [0xA64B]); (0xA64C, [0xA64D]); (0xA64E, [0xA64F]);
    (0xA650, [0xA651]); (0xA652, [0xA653]); (0xA654, [0xA655]); (0xA656, [0xA657]);
    (0xA658, [0xA659]); (0xA65A, [0xA65B]); (0xA65C, [0xA65D]); (0xA65E, [0xA65F]);
    (0xA660, [0xA661]); (0xA662, [0xA663]); (0xA664, [0xA665]); (0xA666, [0xA667]);
    (0xA668, [0xA669]); (0xA66A, [0xA66B]); (0xA66C, [0xA66D]); (0xA680, [0xA681]);
    (0xA682, [0xA683]); (0xA684, [0xA685]); (0xA686, [0xA687]); (0xA688, [0xA689]);
    (0xA68A, [0xA68B]); (0xA68C, [0xA68D]); (0xA68E, [0xA68F]); (0xA690, [0xA691]);
    (0xA692, [0xA693]); (0xA694, [0xA695]); (0xA696, [0xA697]); (0xA698, [0xA699]);
    (0xA69A, [0xA69B]); (0xA722, [0xA723]); (0xA724, [0xA725]); (0xA726, [0xA727]);
    (0xA728, [0xA729]); (0xA72A, [0xA72B]); (0xA72C, [0xA72D]); (0xA72E, [0xA72F]);
    (0xA732, [0xA733]); (0xA734, [0xA735]); (0xA736, [0xA737]); (0xA738, [0xA739]);
    (0xA73A, [0xA73B]); (0xA73C, [0xA73D]); (0xA73E, [0xA73F]); (0xA740, [0xA741]);
    (0xA742, [0xA743]); (0xA744, [0xA745]); (0xA746, [0xA747]); (0xA748, [0xA749]);
    (0xA74A, [0xA74B]); (0xA74C, [0xA74D]); (0xA74E, [0xA74F]); (0xA750, [0xA751]);
    (0xA752, [0xA753]); (0xA754, [0xA755]); (0xA756, [0xA757]); (0xA758, [0xA759]);
    (0xA75A, [0xA75B]); (0xA75C, [0xA75D]); (0xA75E, [0xA75F]); (0xA760, [0xA761]);
    (0xA762, [0xA763]); (0xA764, [0xA765]); (0xA766, [0xA767]); (0xA768, [0xA769]);
    (0xA76A, [0xA76B]); (0xA76C, [0xA76D]); (0xA76E, [0xA76F]); (0xA779, [0xA77A]);
    (0xA77B, [0xA77C]); (0xA77D, [0x1D79]); (0xA77E, [0xA77F]); (0xA780, [0xA781]);
    (0xA782, [0xA783]); (0xA784, [0xA785]); (0xA786, [0xA787]); (0xA78B, [0xA78C]);
    (0xA78D, [0x0265]); (0xA790, [0xA791]); (0xA792, [0xA793]); (0xA796, [0xA797]);
    (0xA798, [0xA799]); (0xA79A, [0xA79B]); (0xA79C, [0xA79D]); (0xA79E, [0xA79F]);
    (0xA7A0, [0xA7A1]); (0xA7A2, [0xA7A3]); (0xA7A4, [0xA7A5]); (0xA7A6, [0xA7A7]);
    (0xA7A8, [0xA7A9]); (0xA7AA, [0x0266]); (0xA7AB, [0x025C]); (0xA7AC, [0x0261]);
    (0xA7AD, [0x026C]); (0xA7AE, [0x026A]); (0xA7B0, [0x029E]); (0xA7B1, [0x0287]);
    (0xA7B2, [0x029D]); (0xA7B3, [0xAB53]); (0xA7B4, [0xA7B5]); (0xA7B6, [0xA7B7]);
    (0xA7B8, [0xA7B9]); (0xA7BA, [0xA7BB]); (0xA7BC, [0xA7BD]); (0xA7BE, [0xA7BF]);
    (0xA7C0, [0xA7C1]); (0xA7C2, [0xA7C3]); (0xA7C4, [0xA794]); (0xA7C5, [0x0282]);
    (0xA7C6, [0x1D8E]); (0xA7C7, [0xA7C8]); (0xA7C9, [0xA7CA]); (0xA7D0, [0xA7D1]);
    (0xA7D6, [0xA7D7]); (0xA7D8, [0xA7D9]); (0xA7F5, [0xA7F6]); (0xFF21, [0xFF41]);
    (0xFF22, [0xFF42]); (0xFF23, [0xFF43]); (0xFF24, [0xFF44]); (0xFF25, [0xFF45]);
    (0xFF26, [0xFF46]); (0xFF27, [0xFF47]); (0xFF28, [0xFF48]); (0xFF29, [0xFF49]);
    (0xFF2A, [0xFF4A]); (0xFF2B, [0xFF4B]); (0xFF2C, [0xFF4C]); (0xFF2D, [0xFF4D]);
    (0xFF2E, [0xFF4E]); (0xFF2F, [0xFF4F]); (0xFF30, [0xFF50]); (0xFF31, [0xFF51]);
    (0xFF32, [0xFF52]); (0xFF33, [0xFF53]); (0xFF34, [0xFF54]); (0xFF35, [0xFF55]);
    (0xFF36, [0xFF56]); (0xFF37, [0xFF57]); (0xFF38, [0xFF58]); (0xFF39, [0xFF59]);
    (0xFF3A, [0xFF5A]); (0x10400, [0x10428]); (0x10401, [0x10429]); (0x10402, [0x1042A]);
    (0x10403, [0x1042B]); (0x10404, [0x1042C]); (0x10405, [0x1042D]); (0x10406, [0x1042E]);
    (0x10407, [0x1042F]); (0x10408, [0x10430]); (0x10409, [0x10431]); (0x1040A, [0x10432]);
    (0x1040B, [0x10433]); (0x1040C, [0x10434]); (0x1040D, [0x10435]); (0x1040E, [0x10436]);
    (0x1040F, [0x10437]); (0x10410, [0x10438]); (0x10411, [0x10439]); (0x10412, [0x1043A]);
    (0x10413, [0x1043B]); (0x10414, [0x1043C]); (0x10415, [0x1043D]); (0x10416, [0x1043E]);
    (0x10417, [0x1043F]); (0x10418, [0x10440]); (0x10419, [0x10441]); (0x1041A, [0x10442]);
    (0x1041B, [0x10443]); (0x1041C, [0x10444]); (0x1041D, [0x10445]); (0x1041E, [0x10446]);
    (0x1041F, [0x10447]); (0x10420, [0x10448]); (0x10421, [0x10449]); (0x10422, [0x1044A]);
    (0x10423, [0x1044B]); (0x10424, [0x1044C]); (0x10425, [0x1044D]); (0x10426, [0x1044E]);
    (0x10427, [0x1044F]); (0x104B0, [0x104D8]); (0x104B1, [0x104D9]); (0x104B2, [0x104DA]);
    (0x104B3, [0x104DB]); (0x104B4, [0x104DC]); (0x104B5, [0x104DD]); (0x104B6, [0x104DE]);
    (0x104B7, [0x104DF]); (0x104B8, [0x104E0]); (0x104B9, [0x104E1]); (0x104BA, [0x104E2]);
    (0x104BB, [0x104E3]); (0x104BC, [0x104E4]); (0x104BD, [0x104E5]); (0x104BE, [0x104E6]);
    (0x104BF, [0x104E7]); (0x104C0, [0x104E8]); (0x104C1, [0x104E9]); (0x104C2, [0x104EA]);
    (0x104C3, [0x104EB]); (0x104C4, [0x104EC]); (0x104C5, [0x104ED]); (0x104C6, [0x104EE]);
    (0x104C7, [0x104EF]); (0x104C8, [0x104F0]); (0x104C9, [0x104F1]); (0x104CA, [0x104F2]);
    (0x104CB, [0x104F3]); (0x104CC, [0x104F4]); (0x104CD, [0x104F5]); (0x104CE, [0x104F6]);
    (0x104CF, [0x104F7]); (0x104D0, [0x104F8]); (0x104D1, [0x104F9]); (0x104D2, [0x104FA]);
    (0x104D3, [0x104FB]); (0x10570, [0x10597]); (0x10571, [0x10598]); (0x10572, [0x10599]);
    (0x10573, [0x1059A]); (0x10574, [0x1059B]); (0x10575, [0x1059C]); (0x10576, [0x1059D]);
    (0x10577, [0x1059E]); (0x10578, [0x1059F]); (0x10579, [0x105A0]); (0x1057A, [0x105A1]);
    (0x1057C, [0x105A3]); (0x1057D, [0x105A4]); (0x1057E, [0x105A5]); (0x1057F, [0x105A6]);
    (0x10580, [0x105A7]); (0x10581, [0x105A8]); (0x10582, [0x105A9]); (0x10583, [0x105AA]);
    (0x10584, [0x105AB]); (0x10585, [0x105AC]); (0x10586, [0x105AD]); (0x10587, [0x105AE]);
    (0x10588, [0x105AF]); (0x10589, [0x105B0]); (0x1058A, [0x105B1]); (0x1058C, [0x105B3]);
    (0x1058D, [0x105B4]); (0x1058E, [0x105B5]); (0x1058F, [0x105B6]); (0x10590, [0x105B7]);
    (0x10591, [0x105B8]); (0x10592, [0x105B9]); (0x10594, [0x105BB]); (0x10595, [0x105BC]);
    (0x10C80, [0x10CC0]); (0x10C81, [0x10CC1]); (0x10C82, [0x10CC2]); (0x10C83, [0x10CC3]);
    (0x10C84, [0x10CC4]); (0x10C85, [0x10CC5]); (0x10C86, [0x10CC6]); (0x10C87, [0x10CC7]);
    (0x10C88, [0x10CC8]); (0x10C89, [0x10CC9]); (0x10C8A, [0x10CCA]); (0x10C8B, [0x10CCB]);
    (0x10C8C, [0x10CCC]); (0x10C8D, [0x10CCD]); (0x10C8E, [0x10CCE]); (0x10C8F, [0x10CCF]);
    (0x10C90, [0x10CD0]); (0x10C91, [0x10CD1]); (0x10C92, [0x10CD2]); (0x10C93, [0x10CD3]);
    (0x10C94, [0x10CD4]); (0x10C95, [0x10CD5]); (0x10C96, [0x10CD6]); (0x10C97, [0x10CD7]);
    (0x10C98, [0x10CD8]); (0x10C99, [0x10CD9]); (0x10C9A, [0x10CDA]); (0x10C9B, [0x10CDB]);
    (0x10C9C, [0x10CDC]); (0x10C9D, [0x10CDD]); (0x10C9E, [0x10CDE]); (0x10C9F, [0x10CDF]);
    (0x10CA0, [0x10CE0]); (0x10CA1, [0x10CE1]); (0x10CA2, [0x10CE2]); (0x10CA3, [0x10CE3]);
    (0x10CA4, [0x10CE4]); (0x10CA5, [0x10CE5]); (0x10CA6, [0x10CE6]); (0x10CA7, [0x10CE7]);
    (0x10CA8, [0x10CE8]); (0x10CA9, [0x10CE9]); (0x10CAA, [0x10CEA]); (0x10CAB, [0x10CEB]);
    (0x10CAC, [0x10CEC]); (0x10CAD, [0x10CED]); (0x10CAE, [0x10CEE]); (0x10CAF, [0x10CEF]);
    (0x10CB0, [0x10CF0]); (0x10CB1, [0x10CF1]); (0x10CB2, [0x10CF2]); (0x118A0, [0x118C0]);
    (0x118A1, [0x118C1]); (0x118A2, [0x118C2]); (0x118A3, [0x118C3]); (0x118A4, [0x118C4]);
    (0x118A5, [0x118C5]); (0x118A6, [0x118C6]); (0x118A7, [0x118C7]); (0x118A8, [0x118C8]);
    (0x118A9, [0x118C9]); (0x118AA, [0x118CA]); (0x118AB, [0x118CB]); (0x118AC, [0x118CC]);
    (0x118AD, [0x118CD]); (0x118AE, [0x118CE]); (0x118AF, [0x118CF]); (0x118B0, [0x118D0]);
    (0x118B1, [0x118D1]); (0x118B2, [0x118D2]); (0x118B3, [0x118D3]); (0x118B4, [0x118D4]);
    (0x118B5, [0x118D5]); (0x118B6, [0x118D6]); (0x118B7, [0x118D7]); (0x118B8, [0x118D8]);
    (0x118B9, [0x118D9]); (0x118BA, [0x118DA]); (0x118BB, [0x118DB]); (0x118BC, [0x118DC]);
    (0x118BD, [0x118DD]); (0x118BE, [0x118DE]); (0x118BF, [0x118DF]); (0x16E40, [0x16E60]);
    (0x16E41, [0x16E61]); (0x16E42, [0x16E62]); (0x16E43, [0x16E63]); (0x16E44, [0x16E64]);
    (0x16E45, [0x16E65]); (0x16E46, [0x16E66]); (0x16E47, [0x16E67]); (0x16E48, [0x16E68]);
    (0x16E49, [0x16E69]); (0x16E4A, [0x16E6A]); (0x16E4B, [0x16E6B]); (0x16E4C, [0x16E6C]);
    (0x16E4D, [0x16E6D]); (0x16E4E, [0x16E6E]); (0x16E4F, [0x16E6F]); (0x16E50, [0x16E70]);
    (0x16E51, [0x16E71]); (0x16E52, [0x16E72]); (0x16E53, [0x16E73]); (0x16E54, [0x16E74]);
    (0x16E55, [0x16E75]); (0x16E56, [0x16E76]); (0x16E57, [0x16E77]); (0x16E58, [0x16E78]);
    (0x16E59, [0x16E79]); (0x16E5A, [0x16E7A]); (0x16E5B, [0x16E7B]); (0x16E5C, [0x16E7C]);
    (0x16E5D, [0x16E7D]); (0x16E5E, [0x16E7E]); (0x16E5F, [0x16E7F]); (0x1E900, [0x1E922]);
    (0x1E901, [0x1E923]); (0x1E902, [0x1E924]); (0x1E903, [0x1E925]); (0x1E904, [0x1E926]);
    (0x1E905, [0x1E927]); (0x1E906, [0x1E928]); (0x1E907, [0x1E929]); (0x1E908, [0x1E92A]);
    (0x1E909, [0x1E92B]); (0x1E90A, [0x1E92C]); (0x1E90B, [0x1E92D]); (0x1E90C, [0x1E92E]);
    (0x1E90D, [0x1E92F]); (0x1E90E, [0x1E930]); (0x1E90F, [0x1E931]); (0x1E910, [0x1E932]);
    (0x1E911, [0x1E933]); (0x1E912, [0x1E934]); (0x1E913, [0x1E935]); (0x1E914, [0x1E936]);
    (0x1E915, [0x1E937]); (0x1E916, [0x1E938]); (0x1E917, [0x1E939]); (0x1E918, [0x1E93A]);
    (0x1E919, [0x1E93B]); (0x1E91A, [0x1E93C]); (0x1E91B, [0x1E93D]); (0x1E91C, [0x1E93E]);
    (0x1E91D, [0x1E93F]); (0x1E91E, [0x1E940]); (0x1E91F, [0x1E941]); (0x1E920, [0x1E942]);
    (0x1E921, [0x1E943])  ].

(** Full canonical decompositions (UnicodeData.txt field 5, applied
    recursively); only code points that decompose are listed, and the
    Hangul syllables, which decompose by arithmetic, are not. *)
Definition decomposition_table : list (N * list N) :=
  [
    (0x00C0, [0x0041; 0x0300]); (0x00C1, [0x0041; 0x0301]); (0x00C2, [0x0041; 0x0302]);
    (0x00C3, [0x0041; 0x0303]); (0x00C4, [0x0041; 0x0308]); (0x00C5, [0x0041; 0x030A]);
    (0x00C7, [0x0043; 0x0327]); (0x00C8, [0x0045; 0x0300]); (0x00C9, [0x0045; 0x0301]);
    (0x00CA, [0x0045; 0x0302]); (0x00CB, [0x0045; 0x0308]); (0x00CC, [0x0049; 0x0300]);
    (0x00CD, [0x0049; 0x0301]); (0x00CE, [0x0049; 0x0302]); (0x00CF, [0x0049; 0x0308]);
    (0x00D1, [0x004E; 0x0303]); (0x00D2, [0x004F; 0x0300]); (0x00D3, [0x004F; 0x0301]);
    (0x00D4, [0x004F; 0x0302]); (0x00D5, [0x004F; 0x0303]); (0x00D6, [0x004F; 0x0308]);
    (0x00D9, [0x0055; 0x0300]); (0x00DA, [0x0055; 0x0301]); (0x00DB, [0x0055; 0x0302]);
    (0x00DC, [0x0055; 0x0308]); (0x00DD, [0x0059; 0x0301]); (0x00E0, [0x0061; 0x0300]);
    (0x00E1, [0x0061; 0x0301]); (0x00E2, [0x0061; 0x0302]); (0x00E3, [0x0061; 0x0303]);
    (0x00E4, [0x0061; 0x0308]); (0x00E5, [0x0061; 0x030A]); (0x00E7, [0x0063; 0x0327]);
    (0x00E8, [0x0065; 0x0300]); (0x00E9, [0x0065; 0x0301]); (0x00EA, [0x0065; 0x0302]);
    (0x00EB, [0x0065; 0x0308]); (0x00EC, [0x0069; 0x0300]); (0x00ED, [0x0069; 0x0301]);
    (0x00EE, [0x0069; 0x0302]); (0x00EF, [0x0069; 0x0308]); (0x00F1, [0x006E; 0x0303]);
    (0x00F2, [0x006F; 0x0300]); (0x00F3, [0x006F; 0x0301]); (0x00F4, [0x006F; 0x0302]);
    (0x00F5, [0x006F; 0x0303]); (0x00F6, [0x006F; 0x0308]); (0x00F9, [0x0075; 0x0300]);
    (0x00FA, [0x0075; 0x0301]); (0x00FB, [0x0075; 0x0302]); (0x00FC, [0x0075; 0x0308]);
    (0x00FD, [0x0079; 0x0301]); (0x00FF, [0x0079; 0x0308]); (0x0100, [0x0041; 0x0304]);
    (0x0101, [0x0061; 0x0304]); (0x0102, [0x0041; 0x0306]); (0x0103, [0x0061; 0x0306]);
    (0x0104, [0x0041; 0x0328]); (0x0105, [0x0061; 0x0328]); (0x0106, [0x0043; 0x0301]);
    (0x0107, [0x0063; 0x0301]); (0x0108, [0x0043; 0x0302]); (0x0109, [0x0063; 0x0302]);
    (0x010A, [0x0043; 0x0307]); (0x010B, [0x0063; 0x0307]); (0x010C, [0x0043; 0x030C]);
    (0x010D, [0x0063; 0x030C]); (0x010E, [0x0044; 0x030C]); (0x010F, [0x0064; 0x030C]);
    (0x0112, [0x0045; 0x0304]); (0x0113, [0x0065; 0x0304]); (0x0114, [0x0045; 0x0306]);
    (0x0115, [0x0065; 0x0306]); (0x0116, [0x0045; 0x0307]); (0x0117, [0x0065; 0x0307]);
    (0x0118, [0x0045; 0x0328]); (0x0119, [0x0065; 0x0328]); (0x011A, [0x0045; 0x030C]);
    (0x011B, [0x0065; 0x030C]); (0x011C, [0x0047; 0x0302]); (0x011D, [0x0067; 0x0302]);
    (0x011E, [0x0047; 0x0306]); (0x011F, [0x0067; 0x0306]); (0x0120, [0x0047; 0x0307]);
    (0x0121, [0x0067; 0x0307]); (0x0122, [0x0047; 0x0327]); (0x0123, [0x0067; 0x0327]);
    (0x0124, [0x0048; 0x0302]); (0x0125, [0x0068; 0x0302]); (0x0128, [0x0049; 0x0303]);
    (0x0129, [0x0069; 0x0303]); (0x012A, [0x0049; 0x0304]); (0x012B, [0x0069; 0x0304]);
    (0x012C, [0x0049; 0x0306]); (0x012D, [0x0069; 0x0306]); (0x012E, [0x0049; 0x0328]);
    (0x012F, [0x0069; 0x0328]); (0x0130, [0x0049; 0x0307]); (0x0134, [0x004A; 0x0302]);
    (0x0135, [0x006A; 0x0302]); (0x0136, [0x004B; 0x0327]); (0x0137, [0x006B; 0x0327]);
    (0x0139, [0x004C; 0x0301]); (0x013A, [0x006C; 0x0301]); (0x013B, [0x004C; 0x0327]);
    (0x013C, [0x006C; 0x0327]); (0x013D, [0x004C; 0x030C]); (0x013E, [0x006C; 0x030C]);
    (0x0143, [0x004E; 0x0301]); (0x0144, [0x006E; 0x0301]); (0x0145, [0x004E; 0x0327]);
    (0x0146, [0x006E; 0x0327]); (0x0147, [0x004E; 0x030C]); (0x0148, [0x006E; 0x030C]);
    (0x014C, [0x004F; 0x0304]); (0x014D, [0x006F; 0x0304]); (0x014E, [0x004F; 0x0306]);
    (0x014F, [0x006F; 0x0306]); (0x0150, [0x004F; 0x030B]); (0x0151, [0x006F; 0x030B]);
    (0x0154, [0x0052; 0x0301]); (0x0155, [0x0072; 0x0301]); (0x0156, [0x0052; 0x0327]);
    (0x0157, [0x0072; 0x0327]); (0x0158, [0x0052; 0x030C]); (0x0159, [0x0072; 0x030C]);
    (0x015A, [0x0053; 0x0301]); (0x015B, [0x0073; 0x0301]); (0x015C, [0x0053; 0x0302]);
    (0x015D, [0x0073; 0x0302]); (0x015E, [0x0053; 0x0327]); (0x015F, [0x0073; 0x0327]);
    (0x0160, [0x0053; 0x030C]); (0x0161, [0x0073; 0x030C]); (0x0162, [0x0054; 0x0327]);
    (0x0163, [0x0074; 0x0327]); (0x0164, [0x0054; 0x030C]); (0x0165, [0x0074; 0x030C]);
    (0x0168, [0x0055; 0x0303]); (0x0169, [0x0075; 0x0303]); (0x016A, [0x0055; 0x0304]);
    (0x016B, [0x0075; 0x0304]); (0x016C, [0x0055; 0x0306]); (0x016D, [0x0075; 0x0306]);
    (0x016E, [0x0055; 0x030A]); (0x016F, [0x0075; 0x030A]); (0x0170, [0x0055; 0x030B]);
    (0x0171, [0x0075; 0x030B]); (0x0172, [0x0055; 0x0328]); (0x0173, [0x0075; 0x0328]);
    (0x0174, [0x0057; 0x0302]); (0x0175, [0x0077; 0x0302]); (0x0176, [0x0059; 0x0302]);
    (0x0177, [0x0079; 0x0302]); (0x0178, [0x0059; 0x0308]); (0x0179, [0x005A; 0x0301]);
    (0x017A, [0x007A; 0x0301]); (0x017B, [0x005A; 0x0307]); (0x017C, [0x007A; 0x0307]);
    (0x017D, [0x005A; 0x030C]); (0x017E, [0x007A; 0x030C]); (0x01A0, [0x004F; 0x031B]);
    (0x01A1, [0x006F; 0x031B]); (0x01AF, [0x0055; 0x031B]); (0x01B0, [0x0075; 0x031B]);
    (0x01CD, [0x0041; 0x030C]); (0x01CE, [0x0061; 0x030C]); (0x01CF, [0x0049; 0x030C]);
    (0x01D0, [0x0069; 0x030C]); (0x01D1, [0x004F; 0x030C]); (0x01D2, [0x006F; 0x030C]);
    (0x01D3, [0x0055; 0x030C]); (0x01D4, [0x0075; 0x030C]); (0x01D5, [0x0055; 0x0308; 0x0304]);
    (0x01D6, [0x0075; 0x0308; 0x0304]); (0x01D7, [0x0055; 0x0308; 0x0301]);
    (0x01D8, [0x0075; 0x0308; 0x0301]); (0x01D9, [0x0055; 0x0308; 0x030C]);
    (0x01DA, [0x0075; 0x0308; 0x030C]); (0x01DB, [0x0055; 0x0308; 0x0300]);
    (0x01DC, [0x0075; 0x0308; 0x0300]); (0x01DE, [0x0041; 0x0308; 0x0304]);
    (0x01DF, [0x0061; 0x0308; 0x0304]); (0x01E0, [0x0041; 0x0307; 0x0304]);
    (0x01E1, [0x0061; 0x0307; 0x0304]); (0x01E2, [0x00C6; 0x0304]); (0x01E3, [0x00E6; 0x0304]);
    (0x01E6, [0x0047; 0x030C]); (0x01E7, [0x0067; 0x030C]); (0x01E8, [0x004B; 0x030C]);
    (0x01E9, [0x006B; 0x030C]); (0x01EA, [0x004F; 0x0328]); (0x01EB, [0x006F; 0x0328]);
    (0x01EC, [0x004F; 0x0328; 0x0304]); (0x01ED, [0x006F; 0x0328; 0x0304]);
    (0x01EE, [0x01B7; 0x030C]); (0x01EF, [0x0292; 0x030C]); (0x01F0, [0x006A; 0x030C]);
    (0x01F4, [0x0047; 0x0301]); (0x01F5, [0x0067; 0x0301]); (0x01F8, [0x004E; 0x0300]);
    (0x01F9, [0x006E; 0x0300]); (0x01FA, [0x0041; 0x030A; 0x0301]);
    (0x01FB, [0x0061; 0x030A; 0x0301]); (0x01FC, [0x00C6; 0x0301]); (0x01FD, [0x00E6; 0x0301]);
    (0x01FE, [0x00D8; 0x0301]); (0x01FF, [0x00F8; 0x0301]); (0x0200, [0x0041; 0x030F]);
    (0x0201, [0x0061; 0x030F]); (0x0202, [0x0041; 0x0311]); (0x0203, [0x0061; 0x0311]);
    (0x0204, [0x0045; 0x030F]); (0x0205, [0x0065; 0x030F]); (0x0206, [0x0045; 0x0311]);
    (0x0207, [0x0065; 0x0311]); (0x0208, [0x0049; 0x030F]); (0x0209, [0x0069; 0x030F]);
    (0x020A, [0x0049; 0x0311]); (0x020B, [0x0069; 0x0311]); (0x020C, [0x004F; 0x030F]);
    (0x020D, [0x006F; 0x030F]); (0x020E, [0x004F; 0x0311]); (0x020F, [0x006F; 0x0311]);
    (0x0210, [0x0052; 0x030F]); (0x0211, [0x0072; 0x030F]); (0x0212, [0x0052; 0x0311]);
    (0x0213, [0x0072; 0x0311]); (0x0214, [0x0055; 0x030F]); (0x0215, [0x0075; 0x030F]);
    (0x0216, [0x0055; 0x0311]); (0x0217, [0x0075; 0x0311]); (0x0218, [0x0053; 0x0326]);
    (0x0219, [0x0073; 0x0326]); (0x021A, [0x0054; 0x0326]); (0x021B, [0x0074; 0x0326]);
    (0x021E, [0x0048; 0x030C]); (0x021F, [0x0068; 0x030C]); (0x0226, [0x0041; 0x0307]);
    (0x0227, [0x0061; 0x0307]); (0x0228, [0x0045; 0x0327]); (0x0229, [0x0065; 0x0327]);
    (0x022A, [0x004F; 0x0308; 0x0304]); (0x022B, [0x006F; 0x0308; 0x0304]);
    (0x022C, [0x004F; 0x0303; 0x0304]); (0x022D, [0x006F; 0x0303; 0x0304]);
    (0x022E, [0x004F; 0x0307]); (0x022F, [0x006F; 0x0307]); (0x0230, [0x004F; 0x0307; 0x0304]);
    (0x0231, [0x006F; 0x0307; 0x0304]); (0x0232, [0x0059; 0x0304]); (0x0233, [0x0079; 0x0304]);
    (0x0340, [0x0300]); (0x0341, [0x0301]); (0x0343, [0x0313]); (0x0344, [0x0308; 0x0301]);
    (0x0374, [0x02B9]); (0x037E, [0x003B]); (0x0385, [0x00A8; 0x0301]);
    (0x0386, [0x0391; 0x0301]); (0x0387, [0x00B7]); (0x0388, [0x0395; 0x0301]);
    (0x0389, [0x0397; 0x0301]); (0x038A, [0x0399; 0x0301]); (0x038C, [0x039F; 0x0301]);
    (0x038E, [0x03A5; 0x0301]); (0x038F, [0x03A9; 0x0301]); (0x0390, [0x03B9; 0x0308; 0x0301]);
    (0x03AA, [0x0399; 0x0308]); (0x03AB, [0x03A5; 0x0308]); (0x03AC, [0x03B1; 0x0301]);
    (0x03AD, [0x03B5; 0x0301]); (0x03AE, [0x03B7; 0x0301]); (0x03AF, [0x03B9; 0x0301]);
    (0x03B0, [0x03C5; 0x0308; 0x0301]); (0x03CA, [0x03B9; 0x0308]); (0x03CB, [0x03C5; 0x0308]);
    (0x03CC, [0x03BF; 0x0301]); (0x03CD, [0x03C5; 0x0301]); (0x03CE, [0x03C9; 0x0301]);
    (0x03D3, [0x03D2; 0x0301]); (0x03D4, [0x03D2; 0x0308]); (0x0400, [0x0415; 0x0300]);
    (0x0401, [0x0415; 0x0308]); (0x0403, [0x0413; 0x0301]); (0x0407, [0x0406; 0x0308]);
    (0x040C, [0x041A; 0x0301]); (0x040D, [0x0418; 0x0300]); (0x040E, [0x0423; 0x0306]);
    (0x0419, [0x0418; 0x0306]); (0x0439, [0x0438; 0x0306]); (0x0450, [0x0435; 0x0300]);
    (0x0451, [0x0435; 0x0308]); (0x0453, [0x0433; 0x0301]); (0x0457, [0x0456; 0x0308]);
    (0x045C, [0x043A; 0x0301]); (0x045D, [0x0438; 0x0300]); (0x045E, [0x0443; 0x0306]);
    (0x0476, [0x0474; 0x030F]); (0x0477, [0x0475; 0x030F]); (0x04C1, [0x0416; 0x0306]);
    (0x04C2, [0x0436; 0x0306]); (0x04D0, [0x0410; 0x0306]); (0x04D1, [0x0430; 0x0306]);
    (0x04D2, [0x0410; 0x0308]); (0x04D3, [0x0430; 0x0308]); (0x04D6, [0x0415; 0x0306]);
    (0x04D7, [0x0435; 0x0306]); (0x04DA, [0x04D8; 0x0308]); (0x04DB, [0x04D9; 0x0308]);
    (0x04DC, [0x0416; 0x0308]); (0x04DD, [0x0436; 0x0308]); (0x04DE, [0x0417; 0x0308]);
    (0x04DF, [0x0437; 0x0308]); (0x04E2, [0x0418; 0x0304]); (0x04E3, [0x0438; 0x0304]);
    (0x04E4, [0x0418; 0x0308]); (0x04E5, [0x0438; 0x0308]); (0x04E6, [0x041E; 0x0308]);
    (0x04E7, [0x043E; 0x0308]); (0x04EA, [0x04E8; 0x0308]); (0x04EB, [0x04E9; 0x0308]);
    (0x04EC, [0x042D; 0x0308]); (0x04ED, [0x044D; 0x0308]); (0x04EE, [0x0423; 0x0304]);
    (0x04EF, [0x0443; 0x0304]); (0x04F0, [0x0423; 0x0308]); (0x04F1, [0x0443; 0x0308]);
    (0x04F2, [0x0423; 0x030B]); (0x04F3, [0x0443; 0x030B]); (0x04F4, [0x0427; 0x0308]);
    (0x04F5, [0x0447; 0x0308]); (0x04F8, [0x042B; 0x0308]); (0x04F9, [0x044B; 0x0308]);
    (0x0622, [0x0627; 0x0653]); (0x0623, [0x0627; 0x0654]); (0x0624, [0x0648; 0x0654]);
    (0x0625, [0x0627; 0x0655]); (0x0626, [0x064A; 0x0654]); (0x06C0, [0x06D5; 0x0654]);
    (0x06C2, [0x06C1; 0x0654]); (0x06D3, [0x06D2; 0x0654]); (0x0929, [0x0928; 0x093C]);
    (0x0931, [0x0930; 0x093C]); (0x0934, [0x0933; 0x093C]); (0x0958, [0x0915; 0x093C]);
    (0x0959, [0x0916; 0x093C]); (0x095A, [0x0917; 0x093C]); (0x095B, [0x091C; 0x093C]);
    (0x095C, [0x0921; 0x093C]); (0x095D, [0x0922; 0x093C]); (0x095E, [0x092B; 0x093C]);
    (0x095F, [0x092F; 0x093C]); (0x09CB, [0x09C7; 0x09BE]); (0x09CC, [0x09C7; 0x09D7]);
    (0x09DC, [0x09A1; 0x09BC]); (0x09DD, [0x09A2; 0x09BC]); (0x09DF, [0x09AF; 0x09BC]);
    (0x0A33, [0x0A32; 0x0A3C]); (0x0A36, [0x0A38; 0x0A3C]); (0x0A59, [0x0A16; 0x0A3C]);
    (0x0A5A, [0x0A17; 0x0A3C]); (0x0A5B, [0x0A1C; 0x0A3C]); (0x0A5E, [0x0A2B; 0x0A3C]);
    (0x0B48, [0x0B47; 0x0B56]); (0x0B4B, [0x0B47; 0x0B3E]); (0x0B4C, [0x0B47; 0x0B57]);
    (0x0B5C, [0x0B21; 0x0B3C]); (0x0B5D, [0x0B22; 0x0B3C]); (0x0B94, [0x0B92; 0x0BD7]);
    (0x0BCA, [0x0BC6; 0x0BBE]); (0x0BCB, [0x0BC7; 0x0BBE]); (0x0BCC, [0x0BC6; 0x0BD7]);
    (0x0C48, [0x0C46; 0x0C56]); (0x0CC0, [0x0CBF; 0x0CD5]); (0x0CC7, [0x0CC6; 0x0CD5]);
    (0x0CC8, [0x0CC6; 0x0CD6]); (0x0CCA, [0x0CC6; 0x0CC2]); (0x0CCB, [0x0CC6; 0x0CC2; 0x0CD5]);
    (0x0D4A, [0x0D46; 0x0D3E]); (0x0D4B, [0x0D47; 0x0D3E]); (0x0D4C, [0x0D46; 0x0D57]);
    (0x0DDA, [0x0DD9; 0x0DCA]); (0x0DDC, [0x0DD9; 0x0DCF]); (0x0DDD, [0x0DD9; 0x0DCF; 0x0DCA]);
    (0x0DDE, [0x0DD9; 0x0DDF]); (0x0F43, [0x0F42; 0x0FB7]); (0x0F4D, [0x0F4C; 0x0FB7]);
    (0x0F52, [0x0F51; 0x0FB7]); (0x0F57, [0x0F56; 0x0FB7]); (0x0F5C, [0x0F5B; 0x0FB7]);
    (0x0F69, [0x0F40; 0x0FB5]); (0x0F73, [0x0F71; 0x0F72]); (0x0F75, [0x0F71; 0x0F74]);
    (0x0F76, [0x0FB2; 0x0F80]); (0x0F78, [0x0FB3; 0x0F80]); (0x0F81, [0x0F71; 0x0F80]);
    (0x0F93, [0x0F92; 0x0FB7]); (0x0F9D, [0x0F9C; 0x0FB7]); (0x0FA2, [0x0FA1; 0x0FB7]);
    (0x0FA7, [0x0FA6; 0x0FB7]); (0x0FAC, [0x0FAB; 0x0FB7]); (0x0FB9, [0x0F90; 0x0FB5]);
    (0x1026, [0x1025; 0x102E]); (0x1B06, [0x1B05; 0x1B35]); (0x1B08, [0x1B07; 0x1B35]);
    (0x1B0A, [0x1B09; 0x1B35]); (0x1B0C, [0x1B0B; 0x1B35]); (0x1B0E, [0x1B0D; 0x1B35]);
    (0x1B12, [0x1B11; 0x1B35]); (0x1B3B, [0x1B3A; 0x1B35]); (0x1B3D, [0x1B3C; 0x1B35]);
    (0x1B40, [0x1B3E; 0x1B35]); (0x1B41, [0x1B3F; 0x1B35]); (0x1B43, [0x1B42; 0x1B35]);
    (0x1E00, [0x0041; 0x0325]); (0x1E01, [0x0061; 0x0325]); (0x1E02, [0x0042; 0x0307]);
    (0x1E03, [0x0062; 0x0307]); (0x1E04, [0x0042; 0x0323]); (0x1E05, [0x0062; 0x0323]);
    (0x1E06, [0x0042; 0x0331]); (0x1E07, [0x0062; 0x0331]); (0x1E08, [0x0043; 0x0327; 0x0301]);
    (0x1E09, [0x0063; 0x0327; 0x0301]); (0x1E0A, [0x0044; 0x0307]); (0x1E0B, [0x0064; 0x0307]);
    (0x1E0C, [0x0044; 0x0323]); (0x1E0D, [0x0064; 0x0323]); (0x1E0E, [0x0044; 0x0331]);
    (0x1E0F, [0x0064; 0x0331]); (0x1E10, [0x0044; 0x0327]); (0x1E11, [0x0064; 0x0327]);
    (0x1E12, [0x0044; 0x032D]); (0x1E13, [0x0064; 0x032D]); (0x1E14, [0x0045; 0x0304; 0x0300]);
    (0x1E15, [0x0065; 0x0304; 0x0300]); (0x1E16, [0x0045; 0x0304; 0x0301]);
    (0x1E17, [0x0065; 0x0304; 0x0301]); (0x1E18, [0x0045; 0x032D]); (0x1E19, [0x0065; 0x032D]);
    (0x1E1A, [0x0045; 0x0330]); (0x1E1B, [0x0065; 0x0330]); (0x1E1C, [0x0045; 0x0327; 0x0306]);
    (0x1E1D, [0x0065; 0x0327; 0x0306]); (0x1E1E, [0x0046; 0x0307]); (0x1E1F, [0x0066; 0x0307]);
    (0x1E20, [0x0047; 0x0304]); (0x1E21, [0x0067; 0x0304]); (0x1E22, [0x0048; 0x0307]);
    (0x1E23, [0x0068; 0x0307]); (0x1E24, [0x0048; 0x0323]); (0x1E25, [0x0068; 0x0323]);
    (0x1E26, [0x0048; 0x0308]); (0x1E27, [0x0068; 0x0308]); (0x1E28, [0x0048; 0x0327]);
    (0x1E29, [0x0068; 0x0327]); (0x1E2A, [0x0048; 0x032E]); (0x1E2B, [0x0068; 0x032E]);
    (0x1E2C, [0x0049; 0x0330]); (0x1E2D, [0x0069; 0x0330]); (0x1E2E, [0x0049; 0x0308; 0x0301]);
    (0x1E2F, [0x0069; 0x0308; 0x0301]); (0x1E30, [0x004B; 0x0301]); (0x1E31, [0x006B; 0x0301]);
    (0x1E32, [0x004B; 0x0323]); (0x1E33, [0x006B; 0x0323]); (0x1E34, [0x004B; 0x0331]);
    (0x1E35, [0x006B; 0x0331]); (0x1E36, [0x004C; 0x0323]); (0x1E37, [0x006C; 0x0323]);
    (0x1E38, [0x004C; 0x0323; 0x0304]); (0x1E39, [0x006C; 0x0323; 0x0304]);
    (0x1E3A, [0x004C; 0x0331]); (0x1E3B, [0x006C; 0x0331]); (0x1E3C, [0x004C; 0x032D]);
    (0x1E3D, [0x006C; 0x032D]); (0x1E3E, [0x004D; 0x0301]); (0x1E3F, [0x006D; 0x0301]);
    (0x1E40, [0x004D; 0x0307]); (0x1E41, [0x006D; 0x0307]); (0x1E42, [0x004D; 0x0323]);
    (0x1E43, [0x006D; 0x0323]); (0x1E44, [0x004E; 0x0307]); (0x1E45, [0x006E; 0x0307]);
    (0x1E46, [0x004E; 0x0323]); (0x1E47, [0x006E; 0x0323]); (0x1E48, [0x004E; 0x0331]);
    (0x1E49, [0x006E; 0x0331]); (0x1E4A, [0x004E; 0x032D]); (0x1E4B, [0x006E; 0x032D]);
    (0x1E4C, [0x004F; 0x0303; 0x0301]); (0x1E4D, [0x006F; 0x0303; 0x0301]);
    (0x1E4E, [0x004F; 0x0303; 0x0308]); (0x1E4F, [0x006F; 0x0303; 0x0308]);
    (0x1E50, [0x004F; 0x0304; 0x0300]); (0x1E51, [0x006F; 0x0304; 0x0300]);
    (0x1E52, [0x004F; 0x0304; 0x0301]); (0x1E53, [0x006F; 0x0304; 0x0301]);
    (0x1E54, [0x0050; 0x0301]); (0x1E55, [0x0070; 0x0301]); (0x1E56, [0x0050; 0x0307]);
    (0x1E57, [0x0070; 0x0307]); (0x1E58, [0x0052; 0x0307]); (0x1E59, [0x0072; 0x0307]);
    (0x1E5A, [0x0052; 0x0323]); (0x1E5B, [0x0072; 0x0323]); (0x1E5C, [0x0052; 0x0323; 0x0304]);
    (0x1E5D, [0x0072; 0x0323; 0x0304]); (0x1E5E, [0x0052; 0x0331]); (0x1E5F, [0x0072; 0x0331]);
    (0x1E60, [0x0053; 0x0307]); (0x1E61, [0x0073; 0x0307]); (0x1E62, [0x0053; 0x0323]);
    (0x1E63, [0x0073; 0x0323]); (0x1E64, [0x0053; 0x0301; 0x0307]);
    (0x1E65, [0x0073; 0x0301; 0x0307]); (0x1E66, [0x0053; 0x030C; 0x0307]);
    (0x1E67, [0x0073; 0x030C; 0x0307]); (0x1E68, [0x0053; 0x0323; 0x0307]);
    (0x1E69, [0x0073; 0x0323; 0x0307]); (0x1E6A, [0x0054; 0x0307]); (0x1E6B, [0x0074; 0x0307]);
    (0x1E6C, [0x0054; 0x0323]); (0x1E6D, [0x0074; 0x0323]); (0x1E6E, [0x0054; 0x0331]);
    (0x1E6F, [0x0074; 0x0331]); (0x1E70, [0x0054; 0x032D]); (0x1E71, [0x0074; 0x032D]);
    (0x1E72, [0x0055; 0x0324]); (0x1E73, [0x0075; 0x0324]); (0x1E74, [0x0055; 0x0330]);
    (0x1E75, [0x0075; 0x0330]); (0x1E76, [0x0055; 0x032D]); (0x1E77, [0x0075; 0x032D]);
    (0x1E78, [0x0055; 0x0303; 0x0301]); (0x1E79, [0x0075; 0x0303; 0x0301]);
    (0x1E7A, [0x0055; 0x0304; 0x0308]); (0x1E7B, [0x0075; 0x0304; 0x0308]);
    (0x1E7C, [0x0056; 0x0303]); (0x1E7D, [0x0076; 0x0303]); (0x1E7E, [0x0056; 0x0323]);
    (0x1E7F, [0x0076; 0x0323]); (0x1E80, [0x0057; 0x0300]); (0x1E81, [0x0077; 0x0300]);
    (0x1E82, [0x0057; 0x0301]); (0x1E83, [0x0077; 0x0301]); (0x1E84, [0x0057; 0x0308]);
    (0x1E85, [0x0077; 0x0308]); (0x1E86, [0x0057; 0x0307]); (0x1E87, [0x0077; 0x0307]);
    (0x1E88, [0x0057; 0x0323]); (0x1E89, [0x0077; 0x0323]); (0x1E8A, [0x0058; 0x0307]);
    (0x1E8B, [0x0078; 0x0307]); (0x1E8C, [0x0058; 0x0308]); (0x1E8D, [0x0078; 0x0308]);
    (0x1E8E, [0x0059; 0x0307]); (0x1E8F, [0x0079; 0x0307]); (0x1E90, [0x005A; 0x0302]);
    (0x1E91, [0x007A; 0x0302]); (0x1E92, [0x005A; 0x0323]); (0x1E93, [0x007A; 0x0323]);
    (0x1E94, [0x005A; 0x0331]); (0x1E95, [0x007A; 0x0331]); (0x1E96, [0x0068; 0x0331]);
    (0x1E97, [0x0074; 0x0308]); (0x1E98, [0x0077; 0x030A]); (0x1E99, [0x0079; 0x030A]);
    (0x1E9B, [0x017F; 0x0307]); (0x1EA0, [0x0041; 0x0323]); (0x1EA1, [0x0061; 0x0323]);
    (0x1EA2, [0x0041; 0x0309]); (0x1EA3, [0x0061; 0x0309]); (0x1EA4, [0x0041; 0x0302; 0x0301]);
    (0x1EA5, [0x0061; 0x0302; 0x0301]); (0x1EA6, [0x0041; 0x0302; 0x0300]);
    (0x1EA7, [0x0061; 0x0302; 0x0300]); (0x1EA8, [0x0041; 0x0302; 0x0309]);
    (0x1EA9, [0x0061; 0x0302; 0x0309]); (0x1EAA, [0x0041; 0x0302; 0x0303]);
    (0x1EAB, [0x0061; 0x0302; 0x0303]); (0x1EAC, [0x0041; 0x0323; 0x0302]);
    (0x1EAD, [0x0061; 0x0323; 0x0302]); (0x1EAE, [0x0041; 0x0306; 0x0301]);
    (0x1EAF, [0x0061; 0x0306; 0x0301]); (0x1EB0, [0x0041; 0x0306; 0x0300]);
    (0x1EB1, [0x0061; 0x0306; 0x0300]); (0x1EB2, [0x0041; 0x0306; 0x0309]);
    (0x1EB3, [0x0061; 0x0306; 0x0309]); (0x1EB4, [0x0041; 0x0306; 0x0303]);
    (0x1EB5, [0x0061; 0x0306; 0x0303]); (0x1EB6, [0x0041; 0x0323; 0x0306]);
    (0x1EB7, [0x0061; 0x0323; 0x0306]); (0x1EB8, [0x0045; 0x0323]); (0x1EB9, [0x0065; 0x0323]);
    (0x1EBA, [0x0045; 0x0309]); (0x1EBB, [0x0065; 0x0309]); (0x1EBC, [0x0045; 0x0303]);
    (0x1EBD, [0x0065; 0x0303]); (0x1EBE, [0x0045; 0x0302; 0x0301]);
    (0x1EBF, [0x0065; 0x0302; 0x0301]); (0x1EC0, [0x0045; 0x0302; 0x0300]);
    (0x1EC1, [0x0065; 0x0302; 0x0300]); (0x1EC2, [0x0045; 0x0302; 0x0309]);
    (0x1EC3, [0x0065; 0x0302; 0x0309]); (0x1EC4, [0x0045; 0x0302; 0x0303]);
    (0x1EC5, [0x0065; 0x0302; 0x0303]); (0x1EC6, [0x0045; 0x0323; 0x0302]);
    (0x1EC7, [0x0065; 0x0323; 0x0302]); (0x1EC8, [0x0049; 0x0309]); (0x1EC9, [0x0069; 0x0309]);
    (0x1ECA, [0x0049; 0x0323]); (0x1ECB, [0x0069; 0x0323]); (0x1ECC, [0x004F; 0x0323]);
    (0x1ECD, [0x006F; 0x0323]); (0x1ECE, [0x004F; 0x0309]); (0x1ECF, [0x006F; 0x0309]);
    (0x1ED0, [0x004F; 0x0302; 0x0301]); (0x1ED1, [0x006F; 0x0302; 0x0301]);
    (0x1ED2, [0x004F; 0x0302; 0x0300]); (0x1ED3, [0x006F; 0x0302; 0x0300]);
    (0x1ED4, [0x004F; 0x0302; 0x0309]); (0x1ED5, [0x006F; 0x0302; 0x0309]);
    (0x1ED6, [0x004F; 0x0302; 0x0303]); (0x1ED7, [0x006F; 0x0302; 0x0303]);
    (0x1ED8, [0x004F; 0x0323; 0x0302]); (0x1ED9, [0x006F; 0x0323; 0x0302]);
    (0x1EDA, [0x004F; 0x031B; 0x0301]); (0x1EDB, [0x006F; 0x031B; 0x0301]);
    (0x1EDC, [0x004F; 0x031B; 0x0300]); (0x1EDD, [0x006F; 0x031B; 0x0300]);
    (0x1EDE, [0x004F; 0x031B; 0x0309]); (0x1EDF, [0x006F; 0x031B; 0x0309]);
    (0x1EE0, [0x004F; 0x031B; 0x0303]); (0x1EE1, [0x006F; 0x031B; 0x0303]);
    (0x1EE2, [0x004F; 0x031B; 0x0323]); (0x1EE3, [0x006F; 0x031B; 0x0323]);
    (0x1EE4, [0x0055; 0x0323]); (0x1EE5, [0x0075; 0x0323]); (0x1EE6, [0x0055; 0x0309]);
    (0x1EE7, [0x0075; 0x0309]); (0x1EE8, [0x0055; 0x031B; 0x0301]);
    (0x1EE9, [0x0075; 0x031B; 0x0301]); (0x1EEA, [0x0055; 0x031B; 0x0300]);
    (0x1EEB, [0x0075; 0x031B; 0x0300]); (0x1EEC, [0x0055; 0x031B; 0x0309]);
    (0x1EED, [0x0075; 0x031B; 0x0309]); (0x1EEE, [0x0055; 0x031B; 0x0303]);
    (0x1EEF, [0x0075; 0x031B; 0x0303]); (0x1EF0, [0x0055; 0x031B; 0x0323]);
    (0x1EF1, [0x0075; 0x031B; 0x0323]); (0x1EF2, [0x0059; 0x0300]); (0x1EF3, [0x0079; 0x0300]);
    (0x1EF4, [0x0059; 0x0323]); (0x1EF5, [0x0079; 0x0323]); (0x1EF6, [0x0059; 0x0309]);
    (0x1EF7, [0x0079; 0x0309]); (0x1EF8, [0x0059; 0x0303]); (0x1EF9, [0x0079; 0x0303]);
    (0x1F00, [0x03B1; 0x0313]); (0x1F01, [0x03B1; 0x0314]); (0x1F02, [0x03B1; 0x0313; 0x0300]);
    (0x1F03, [0x03B1; 0x0314; 0x0300]); (0x1F04, [0x03B1; 0x0313; 0x0301]);
    (0x1F05, [0x03B1; 0x0314; 0x0301]); (0x1F06, [0x03B1; 0x0313; 0x0342]);
    (0x1F07, [0x03B1; 0x0314; 0x0342]); (0x1F08, [0x0391; 0x0313]); (0x1F09, [0x0391; 0x0314]);
    (0x1F0A, [0x0391; 0x0313; 0x0300]); (0x1F0B, [0x0391; 0x0314; 0x0300]);
    (0x1F0C, [0x0391; 0x0313; 0x0301]); (0x1F0D, [0x0391; 0x0314; 0x0301]);
    (0x1F0E, [0x0391; 0x0313; 0x0342]); (0x1F0F, [0x0391; 0x0314; 0x0342]);
    (0x1F10, [0x03B5; 0x0313]); (0x1F11, [0x03B5; 0x0314]); (0x1F12, [0x03B5; 0x0313; 0x0300]);
    (0x1F13, [0x03B5; 0x0314; 0x0300]); (0x1F14, [0x03B5; 0x0313; 0x0301]);
    (0x1F15, [0x03B5; 0x0314; 0x0301]); (0x1F18, [0x0395; 0x0313]); (0x1F19, [0x0395; 0x0314]);
    (0x1F1A, [0x0395; 0x0313; 0x0300]); (0x1F1B, [0x0395; 0x0314; 0x0300]);
    (0x1F1C, [0x0395; 0x0313; 0x0301]); (0x1F1D, [0x0395; 0x0314; 0x0301]);
    (0x1F20, [0x03B7; 0x0313]); (0x1F21, [0x03B7; 0x0314]); (0x1F22, [0x03B7; 0x0313; 0x0300]);
    (0x1F23, [0x03B7; 0x0314; 0x0300]); (0x1F24, [0x03B7; 0x0313; 0x0301]);
    (0x1F25, [0x03B7; 0x0314; 0x0301]); (0x1F26, [0x03B7; 0x0313; 0x0342]);
    (0x1F27, [0x03B7; 0x0314; 0x0342]); (0x1F28, [0x0397; 0x0313]); (0x1F29, [0x0397; 0x0314]);
    (0x1F2A, [0x0397; 0x0313; 0x0300]); (0x1F2B, [0x0397; 0x0314; 0x0300]);
    (0x1F2C, [0x0397; 0x0313; 0x0301]); (0x1F2D, [0x0397; 0x0314; 0x0301]);
    (0x1F2E, [0x0397; 0x0313; 0x0342]); (0x1F2F, [0x0397; 0x0314; 0x0342]);
    (0x1F30, [0x03B9; 0x0313]); (0x1F31, [0x03B9; 0x0314]); (0x1F32, [0x03B9; 0x0313; 0x0300]);
    (0x1F33, [0x03B9; 0x0314; 0x0300]); (0x1F34, [0x03B9; 0x0313; 0x0301]);
    (0x1F35, [0x03B9; 0x0314; 0x0301]); (0x1F36, [0x03B9; 0x0313; 0x0342]);
    (0x1F37, [0x03B9; 0x0314; 0x0342]); (0x1F38, [0x0399; 0x0313]); (0x1F39, [0x0399; 0x0314]);
    (0x1F3A, [0x0399; 0x0313; 0x0300]); (0x1F3B, [0x0399; 0x0314; 0x0300]);
    (0x1F3C, [0x0399; 0x0313; 0x0301]); (0x1F3D, [0x0399; 0x0314; 0x0301]);
    (0x1F3E, [0x0399; 0x0313; 0x0342]); (0x1F3F, [0x0399; 0x0314; 0x0342]);
    (0x1F40, [0x03BF; 0x0313]); (0x1F41, [0x03BF; 0x0314]); (0x1F42, [0x03BF; 0x0313; 0x0300]);
    (0x1F43, [0x03BF; 0x0314; 0x0300]); (0x1F44, [0x03BF; 0x0313; 0x0301]);
    (0x1F45, [0x03BF; 0x0314; 0x0301]); (0x1F48, [0x039F; 0x0313]); (0x1F49, [0x039F; 0x0314]);
    (0x1F4A, [0x039F; 0x0313; 0x0300]); (0x1F4B, [0x039F; 0x0314; 0x0300]);
    (0x1F4C, [0x039F; 0x0313; 0x0301]); (0x1F4D, [0x039F; 0x0314; 0x0301]);
    (0x1F50, [0x03C5; 0x0313]); (0x1F51, [0x03C5; 0x0314]); (0x1F52, [0x03C5; 0x0313; 0x0300]);
    (0x1F53, [0x03C5; 0x0314; 0x0300]); (0x1F54, [0x03C5; 0x0313; 0x0301]);
    (0x1F55, [0x03C5; 0x0314; 0x0301]); (0x1F56, [0x03C5; 0x0313; 0x0342]);
    (0x1F57, [0x03C5; 0x0314; 0x0342]); (0x1F59, [0x03A5; 0x0314]);
    (0x1F5B, [0x03A5; 0x0314; 0x0300]); (0x1F5D, [0x03A5; 0x0314; 0x0301]);
    (0x1F5F, [0x03A5; 0x0314; 0x0342]); (0x1F60, [0x03C9; 0x0313]); (0x1F61, [0x03C9; 0x0314]);
    (0x1F62, [0x03C9; 0x0313; 0x0300]); (0x1F63, [0x03C9; 0x0314; 0x0300]);
    (0x1F64, [0x03C9; 0x0313; 0x0301]); (0x1F65, [0x03C9; 0x0314; 0x0301]);
    (0x1F66, [0x03C9; 0x0313; 0x0342]); (0x1F67, [0x03C9; 0x0314; 0x0342]);
    (0x1F68, [0x03A9; 0x0313]); (0x1F69, [0x03A9; 0x0314]); (0x1F6A, [0x03A9; 0x0313; 0x0300]);
    (0x1F6B, [0x03A9; 0x0314; 0x0300]); (0x1F6C, [0x03A9; 0x0313; 0x0301]);
    (0x1F6D, [0x03A9; 0x0314; 0x0301]); (0x1F6E, [0x03A9; 0x0313; 0x0342]);
    (0x1F6F, [0x03A9; 0x0314; 0x0342]); (0x1F70, [0x03B1; 0x0300]); (0x1F71, [0x03B1; 0x0301]);
    (0x1F72, [0x03B5; 0x0300]); (0x1F73, [0x03B5; 0x0301]); (0x1F74, [0x03B7; 0x0300]);
    (0x1F75, [0x03B7; 0x0301]); (0x1F76, [0x03B9; 0x0300]); (0x1F77, [0x03B9; 0x0301]);
    (0x1F78, [0x03BF; 0x0300]); (0x1F79, [0x03BF; 0x0301]); (0x1F7A, [0x03C5; 0x0300]);
    (0x1F7B, [0x03C5; 0x0301]); (0x1F7C, [0x03C9; 0x0300]); (0x1F7D, [0x03C9; 0x0301]);
    (0x1F80, [0x03B1; 0x0313; 0x0345]); (0x1F81, [0x03B1; 0x0314; 0x0345]);
    (0x1F82, [0x03B1; 0x0313; 0x0300; 0x0345]); (0x1F83, [0x03B1; 0x0314; 0x0300; 0x0345]);
    (0x1F84, [0x03B1; 0x0313; 0x0301; 0x0345]); (0x1F85, [0x03B1; 0x0314; 0x0301; 0x0345]);
    (0x1F86, [0x03B1; 0x0313; 0x0342; 0x0345]); (0x1F87, [0x03B1; 0x0314; 0x0342; 0x0345]);
    (0x1F88, [0x0391; 0x0313; 0x0345]); (0x1F89, [0x0391; 0x0314; 0x0345]);
    (0x1F8A, [0x0391; 0x0313; 0x0300; 0x0345]); (0x1F8B, [0x0391; 0x0314; 0x0300; 0x0345]);
    (0x1F8C, [0x0391; 0x0313; 0x0301; 0x0345]); (0x1F8D, [0x0391; 0x0314; 0x0301; 0x0345]);
    (0x1F8E, [0x0391; 0x0313; 0x0342; 0x0345]); (0x1F8F, [0x0391; 0x0314; 0x0342; 0x0345]);
    (0x1F90, [0x03B7; 0x0313; 0x0345]); (0x1F91, [0x03B7; 0x0314; 0x0345]);
    (0x1F92, [0x03B7; 0x0313; 0x0300; 0x0345]); (0x1F93, [0x03B7; 0x0314; 0x0300; 0x0345]);
    (0x1F94, [0x03B7; 0x0313; 0x0301; 0x0345]); (0x1F95, [0x03B7; 0x0314; 0x0301; 0x0345]);
    (0x1F96, [0x03B7; 0x0313; 0x0342; 0x0345]); (0x1F97, [0x03B7; 0x0314; 0x0342; 0x0345]);
    (0x1F98, [0x0397; 0x0313; 0x0345]); (0x1F99, [0x0397; 0x0314; 0x0345]);
    (0x1F9A, [0x0397; 0x0313; 0x0300; 0x0345]); (0x1F9B, [0x0397; 0x0314; 0x0300; 0x0345]);
    (0x1F9C, [0x0397; 0x0313; 0x0301; 0x0345]); (0x1F9D, [0x0397; 0x0314; 0x0301; 0x0345]);
    (0x1F9E, [0x0397; 0x0313; 0x0342; 0x0345]); (0x1F9F, [0x0397; 0x0314; 0x0342; 0x0345]);
    (0x1FA0, [0x03C9; 0x0313; 0x0345]); (0x1FA1, [0x03C9; 0x0314; 0x0345]);
    (0x1FA2, [0x03C9; 0x0313; 0x0300; 0x0345]); (0x1FA3, [0x03C9; 0x0314; 0x0300; 0x0345]);
    (0x1FA4, [0x03C9; 0x0313; 0x0301; 0x0345]); (0x1FA5, [0x03C9; 0x0314; 0x0301; 0x0345]);
    (0x1FA6, [0x03C9; 0x0313; 0x0342; 0x0345]); (0x1FA7, [0x03C9; 0x0314; 0x0342; 0x0345]);
    (0x1FA8, [0x03A9; 0x0313; 0x0345]); (0x1FA9, [0x03A9; 0x0314; 0x0345]);
    (0x1FAA, [0x03A9; 0x0313; 0x0300; 0x0345]); (0x1FAB, [0x03A9; 0x0314; 0x0300; 0x0345]);
    (0x1FAC, [0x03A9; 0x0313; 0x0301; 0x0345]); (0x1FAD, [0x03A9; 0x0314; 0x0301; 0x0345]);
    (0x1FAE, [0x03A9; 0x0313; 0x0342; 0x0345]); (0x1FAF, [0x03A9; 0x0314; 0x0342; 0x0345]);
    (0x1FB0, [0x03B1; 0x0306]); (0x1FB1, [0x03B1; 0x0304]); (0x1FB2, [0x03B1; 0x0300; 0x0345]);
    (0x1FB3, [0x03B1; 0x0345]); (0x1FB4, [0x03B1; 0x0301; 0x0345]); (0x1FB6, [0x03B1; 0x0342]);
    (0x1FB7, [0x03B1; 0x0342; 0x0345]); (0x1FB8, [0x0391; 0x0306]); (0x1FB9, [0x0391; 0x0304]);
    (0x1FBA, [0x0391; 0x0300]); (0x1FBB, [0x0391; 0x0301]); (0x1FBC, [0x0391; 0x0345]);
    (0x1FBE, [0x03B9]); (0x1FC1, [0x00A8; 0x0342]); (0x1FC2, [0x03B7; 0x0300; 0x0345]);
    (0x1FC3, [0x03B7; 0x0345]); (0x1FC4, [0x03B7; 0x0301; 0x0345]); (0x1FC6, [0x03B7; 0x0342]);
    (0x1FC7, [0x03B7; 0x0342; 0x0345]); (0x1FC8, [0x0395; 0x0300]); (0x1FC9, [0x0395; 0x0301]);
    (0x1FCA, [0x0397; 0x0300]); (0x1FCB, [0x0397; 0x0301]); (0x1FCC, [0x0397; 0x0345]);
    (0x1FCD, [0x1FBF; 0x0300]); (0x1FCE, [0x1FBF; 0x0301]); (0x1FCF, [0x1FBF; 0x0342]);
    (0x1FD0, [0x03B9; 0x0306]); (0x1FD1, [0x03B9; 0x0304]); (0x1FD2, [0x03B9; 0x0308; 0x0300]);
    (0x1FD3, [0x03B9; 0x0308; 0x0301]); (0x1FD6, [0x03B9; 0x0342]);
    (0x1FD7, [0x03B9; 0x0308; 0x0342]); (0x1FD8, [0x0399; 0x0306]); (0x1FD9, [0x0399; 0x0304]);
    (0x1FDA, [0x0399; 0x0300]); (0x1FDB, [0x0399; 0x0301]); (0x1FDD, [0x1FFE; 0x0300]);
    (0x1FDE, [0x1FFE; 0x0301]); (0x1FDF, [0x1FFE; 0x0342]); (0x1FE0, [0x03C5; 0x0306]);
    (0x1FE1, [0x03C5; 0x0304]); (0x1FE2, [0x03C5; 0x0308; 0x0300]);
    (0x1FE3, [0x03C5; 0x0308; 0x0301]); (0x1FE4, [0x03C1; 0x0313]); (0x1FE5, [0x03C1; 0x0314]);
    (0x1FE6, [0x03C5; 0x0342]); (0x1FE7, [0x03C5; 0x0308; 0x0342]); (0x1FE8, [0x03A5; 0x0306]);
    (0x1FE9, [0x03A5; 0x0304]); (0x1FEA, [0x03A5; 0x0300]); (0x1FEB, [0x03A5; 0x0301]);
    (0x1FEC, [0x03A1; 0x0314]); (0x1FED, [0x00A8; 0x0300]); (0x1FEE, [0x00A8; 0x0301]);
    (0x1FEF, [0x0060]); (0x1FF2, [0x03C9; 0x0300; 0x0345]); (0x1FF3, [0x03C9; 0x0345]);
    (0x1FF4, [0x03C9; 0x0301; 0x0345]); (0x1FF6, [0x03C9; 0x0342]);
    (0x1FF7, [0x03C9; 0x0342; 0x0345]); (0x1FF8, [0x039F; 0x0300]); (0x1FF9, [0x039F; 0x0301]);
    (0x1FFA, [0x03A9; 0x0300]); (0x1FFB, [0x03A9; 0x0301]); (0x1FFC, [0x03A9; 0x0345]);
    (0x1FFD, [0x00B4]); (0x2000, [0x2002]); (0x2001, [0x2003]); (0x2126, [0x03A9]);
    (0x212A, [0x004B]); (0x212B, [0x0041; 0x030A]); (0x219A, [0x2190; 0x0338]);
    (0x219B, [0x2192; 0x0338]); (0x21AE, [0x2194; 0x0338]); (0x21CD, [0x21D0; 0x0338]);
    (0x21CE, [0x21D4; 0x0338]); (0x21CF, [0x21D2; 0x0338]); (0x2204, [0x2203; 0x0338]);
    (0x2209, [0x2208; 0x0338]); (0x220C, [0x220B; 0x0338]); (0x2224, [0x2223; 0x0338]);
    (0x2226, [0x2225; 0x0338]); (0x2241, [0x223C; 0x0338]); (0x2244, [0x2243; 0x0338]);
    (0x2247, [0x2245; 0x0338]); (0x2249, [0x2248; 0x0338]); (0x2260, [0x003D; 0x0338]);
    (0x2262, [0x2261; 0x0338]); (0x226D, [0x224D; 0x0338]); (0x226E, [0x003C; 0x0338]);
    (0x226F, [0x003E; 0x0338]); (0x2270, [0x2264; 0x0338]); (0x2271, [0x2265; 0x0338]);
    (0x2274, [0x2272; 0x0338]); (0x2275, [0x2273; 0x0338]); (0x2278, [0x2276; 0x0338]);
    (0x2279, [0x2277; 0x0338]); (0x2280, [0x227A; 0x0338]); (0x2281, [0x227B; 0x0338]);
    (0x2284, [0x2282; 0x0338]); (0x2285, [0x2283; 0x0338]); (0x2288, [0x2286; 0x0338]);
    (0x2289, [0x2287; 0x0338]); (0x22AC, [0x22A2; 0x0338]); (0x22AD, [0x22A8; 0x0338]);
    (0x22AE, [0x22A9; 0x0338]); (0x22AF, [0x22AB; 0x0338]); (0x22E0, [0x227C; 0x0338]);
    (0x22E1, [0x227D; 0x0338]); (0x22E2, [0x2291; 0x0338]); (0x22E3, [0x2292; 0x0338]);
    (0x22EA, [0x22B2; 0x0338]); (0x22EB, [0x22B3; 0x0338]); (0x22EC, [0x22B4; 0x0338]);
    (0x22ED, [0x22B5; 0x0338]); (0x2329, [0x3008]); (0x232A, [0x3009]);
    (0x2ADC, [0x2ADD; 0x0338]); (0x304C, [0x304B; 0x3099]); (0x304E, [0x304D; 0x3099]);
    (0x3050, [0x304F; 0x3099]); (0x3052, [0x3051; 0x3099]); (0x3054, [0x3053; 0x3099]);
    (0x3056, [0x3055; 0x3099]); (0x3058, [0x3057; 0x3099]); (0x305A, [0x3059; 0x3099]);
    (0x305C, [0x305B; 0x3099]); (0x305E, [0x305D; 0x3099]); (0x3060, [0x305F; 0x3099]);
    (0x3062, [0x3061; 0x3099]); (0x3065, [0x3064; 0x3099]); (0x3067, [0x3066; 0x3099]);
    (0x3069, [0x3068; 0x3099]); (0x3070, [0x306F; 0x3099]); (0x3071, [0x306F; 0x309A]);
    (0x3073, [0x3072; 0x3099]); (0x3074, [0x3072; 0x309A]); (0x3076, [0x3075; 0x3099]);
    (0x3077, [0x3075; 0x309A]); (0x3079, [0x3078; 0x3099]); (0x307A, [0x3078; 0x309A]);
    (0x307C, [0x307B; 0x3099]); (0x307D, [0x307B; 0x309A]); (0x3094, [0x3046; 0x3099]);
    (0x309E, [0x309D; 0x3099]); (0x30AC, [0x30AB; 0x3099]); (0x30AE, [0x30AD; 0x3099]);
    (0x30B0, [0x30AF; 0x3099]); (0x30B2, [0x30B1; 0x3099]); (0x30B4, [0x30B3; 0x3099]);
    (0x30B6, [0x30B5; 0x3099]); (0x30B8, [0x30B7; 0x3099]); (0x30BA, [0x30B9; 0x3099]);
    (0x30BC, [0x30BB; 0x3099]); (0x30BE, [0x30BD; 0x3099]); (0x30C0, [0x30BF; 0x3099]);
    (0x30C2, [0x30C1; 0x3099]); (0x30C5, [0x30C4; 0x3099]); (0x30C7, [0x30C6; 0x3099]);
    (0x30C9, [0x30C8; 0x3099]); (0x30D0, [0x30CF; 0x3099]); (0x30D1, [0x30CF; 0x309A]);
    (0x30D3, [0x30D2; 0x3099]); (0x30D4, [0x30D2; 0x309A]); (0x30D6, [0x30D5; 0x3099]);
    (0x30D7, [0x30D5; 0x309A]); (0x30D9, [0x30D8; 0x3099]); (0x30DA, [0x30D8; 0x309A]);
    (0x30DC, [0x30DB; 0x3099]); (0x30DD, [0x30DB; 0x309A]); (0x30F4, [0x30A6; 0x3099]);
    (0x30F7, [0x30EF; 0x3099]); (0x30F8, [0x30F0; 0x3099]); (0x30F9, [0x30F1; 0x3099]);
    (0x30FA, [0x30F2; 0x3099]); (0x30FE, [0x30FD; 0x3099]); (0xF900, [0x8C48]);
    (0xF901, [0x66F4]); (0xF902, [0x8ECA]); (0xF903, [0x8CC8]); (0xF904, [0x6ED1]);
    (0xF905, [0x4E32]); (0xF906, [0x53E5]); (0xF907, [0x9F9C]); (0xF908, [0x9F9C]);
    (0xF909, [0x5951]); (0xF90A, [0x91D1]); (0xF90B, [0x5587]); (0xF90C, [0x5948]);
    (0xF90D, [0x61F6]); (0xF90E, [0x7669]); (0xF90F, [0x7F85]); (0xF910, [0x863F]);
    (0xF911, [0x87BA]); (0xF912, [0x88F8]); (0xF913, [0x908F]); (0xF914, [0x6A02]);
    (0xF915, [0x6D1B]); (0xF916, [0x70D9]); (0xF917, [0x73DE]); (0xF918, [0x843D]);
    (0xF919, [0x916A]); (0xF91A, [0x99F1]); (0xF91B, [0x4E82]); (0xF91C, [0x5375]);
    (0xF91D, [0x6B04]); (0xF91E, [0x721B]); (0xF91F, [0x862D]); (0xF920, [0x9E1E]);
    (0xF921, [0x5D50]); (0xF922, [0x6FEB]); (0xF923, [0x85CD]); (0xF924, [0x8964]);
    (0xF925, [0x62C9]); (0xF926, [0x81D8]); (0xF927, [0x881F]); (0xF928, [0x5ECA]);
    (0xF929, [0x6717]); (0xF92A, [0x6D6A]); (0xF92B, [0x72FC]); (0xF92C, [0x90CE]);
    (0xF92D, [0x4F86]); (0xF92E, [0x51B7]); (0xF92F, [0x52DE]); (0xF930, [0x64C4]);
    (0xF931, [0x6AD3]); (0xF932, [0x7210]); (0xF933, [0x76E7]); (0xF934, [0x8001]);
    (0xF935, [0x8606]); (0xF936, [0x865C]); (0xF937, [0x8DEF]); (0xF938, [0x9732]);
    (0xF939, [0x9B6F]); (0xF93A, [0x9DFA]); (0xF93B, [0x788C]); (0xF93C, [0x797F]);
    (0xF93D, [0x7DA0]); (0xF93E, [0x83C9]); (0xF93F, [0x9304]); (0xF940, [0x9E7F]);
    (0xF941, [0x8AD6]); (0xF942, [0x58DF]); (0xF943, [0x5F04]); (0xF944, [0x7C60]);
    (0xF945, [0x807E]); (0xF946, [0x7262]); (0xF947, [0x78CA]); (0xF948, [0x8CC2]);
    (0xF949, [0x96F7]); (0xF94A, [0x58D8]); (0xF94B, [0x5C62]); (0xF94C, [0x6A13]);
    (0xF94D, [0x6DDA]); (0xF94E, [0x6F0F]); (0xF94F, [0x7D2F]); (0xF950, [0x7E37]);
    (0xF951, [0x964B]); (0xF952, [0x52D2]); (0xF953, [0x808B]); (0xF954, [0x51DC]);
    (0xF955, [0x51CC]); (0xF956, [0x7A1C]); (0xF957, [0x7DBE]); (0xF958, [0x83F1]);
    (0xF959, [0x9675]); (0xF95A, [0x8B80]); (0xF95B, [0x62CF]); (0xF95C, [0x6A02]);
    (0xF95D, [0x8AFE]); (0xF95E, [0x4E39]); (0xF95F, [0x5BE7]); (0xF960, [0x6012]);
    (0xF961, [0x7387]); (0xF962, [0x7570]); (0xF963, [0x5317]); (0xF964, [0x78FB]);
    (0xF965, [0x4FBF]); (0xF966, [0x5FA9]); (0xF967, [0x4E0D]); (0xF968, [0x6CCC]);
    (0xF969, [0x6578]); (0xF96A, [0x7D22]); (0xF96B, [0x53C3]); (0xF96C, [0x585E]);
    (0xF96D, [0x7701]); (0xF96E, [0x8449]); (0xF96F, [0x8AAA]); (0xF970, [0x6BBA]);
    (0xF971, [0x8FB0]); (0xF972, [0x6C88]); (0xF973, [0x62FE]); (0xF974, [0x82E5]);
    (0xF975, [0x63A0]); (0xF976, [0x7565]); (0xF977, [0x4EAE]); (0xF978, [0x5169]);
    (0xF979, [0x51C9]); (0xF97A, [0x6881]); (0xF97B, [0x7CE7]); (0xF97C, [0x826F]);
    (0xF97D, [0x8AD2]); (0xF97E, [0x91CF]); (0xF97F, [0x52F5]); (0xF980, [0x5442]);
    (0xF981, [0x5973]); (0xF982, [0x5EEC]); (0xF983, [0x65C5]); (0xF984, [0x6FFE]);
    (0xF985, [0x792A]); (0xF986, [0x95AD]); (0xF987, [0x9A6A]); (0xF988, [0x9E97]);
    (0xF989, [0x9ECE]); (0xF98A, [0x529B]); (0xF98B, [0x66C6]); (0xF98C, [0x6B77]);
    (0xF98D, [0x8F62]); (0xF98E, [0x5E74]); (0xF98F, [0x6190]); (0xF990, [0x6200]);
    (0xF991, [0x649A]); (0xF992, [0x6F23]); (0xF993, [0x7149]); (0xF994, [0x7489]);
    (0xF995, [0x79CA]); (0xF996, [0x7DF4]); (0xF997, [0x806F]); (0xF998, [0x8F26]);
    (0xF999, [0x84EE]); (0xF99A, [0x9023]); (0xF99B, [0x934A]); (0xF99C, [0x5217]);
    (0xF99D, [0x52A3]); (0xF99E, [0x54BD]); (0xF99F, [0x70C8]); (0xF9A0, [0x88C2]);
    (0xF9A1, [0x8AAA]); (0xF9A2, [0x5EC9]); (0xF9A3, [0x5FF5]); (0xF9A4, [0x637B]);
    (0xF9A5, [0x6BAE]); (0xF9A6, [0x7C3E]); (0xF9A7, [0x7375]); (0xF9A8, [0x4EE4]);
    (0xF9A9, [0x56F9]); (0xF9AA, [0x5BE7]); (0xF9AB, [0x5DBA]); (0xF9AC, [0x601C]);
    (0xF9AD, [0x73B2]); (0xF9AE, [0x7469]); (0xF9AF, [0x7F9A]); (0xF9B0, [0x8046]);
    (0xF9B1, [0x9234]); (0xF9B2, [0x96F6]); (0xF9B3, [0x9748]); (0xF9B4, [0x9818]);
    (0xF9B5, [0x4F8B]); (0xF9B6, [0x79AE]); (0xF9B7, [0x91B4]); (0xF9B8, [0x96B8]);
    (0xF9B9, [0x60E1]); (0xF9BA, [0x4E86]); (0xF9BB, [0x50DA]); (0xF9BC, [0x5BEE]);
    (0xF9BD, [0x5C3F]); (0xF9BE, [0x6599]); (0xF9BF, [0x6A02]); (0xF9C0, [0x71CE]);
    (0xF9C1, [0x7642]); (0xF9C2, [0x84FC]); (0xF9C3, [0x907C]); (0xF9C4, [0x9F8D]);
    (0xF9C5, [0x6688]); (0xF9C6, [0x962E]); (0xF9C7, [0x5289]); (0xF9C8, [0x677B]);
    (0xF9C9, [0x67F3]); (0xF9CA, [0x6D41]); (0xF9CB, [0x6E9C]); (0xF9CC, [0x7409]);
    (0xF9CD, [0x7559]); (0xF9CE, [0x786B]); (0xF9CF, [0x7D10]); (0xF9D0, [0x985E]);
    (0xF9D1, [0x516D]); (0xF9D2, [0x622E]); (0xF9D3, [0x9678]); (0xF9D4, [0x502B]);
    (0xF9D5, [0x5D19]); (0xF9D6, [0x6DEA]); (0xF9D7, [0x8F2A]); (0xF9D8, [0x5F8B]);
    (0xF9D9, [0x6144]); (0xF9DA, [0x6817]); (0xF9DB, [0x7387]); (0xF9DC, [0x9686]);
    (0xF9DD, [0x5229]); (0xF9DE, [0x540F]); (0xF9DF, [0x5C65]); (0xF9E0, [0x6613]);
    (0xF9E1, [0x674E]); (0xF9E2, [0x68A8]); (0xF9E3, [0x6CE5]); (0xF9E4, [0x7406]);
    (0xF9E5, [0x75E2]); (0xF9E6, [0x7F79]); (0xF9E7, [0x88CF]); (0xF9E8, [0x88E1]);
    (0xF9E9, [0x91CC]); (0xF9EA, [0x96E2]); (0xF9EB, [0x533F]); (0xF9EC, [0x6EBA]);
    (0xF9ED, [0x541D]); (0xF9EE, [0x71D0]); (0xF9EF, [0x7498]); (0xF9F0, [0x85FA]);
    (0xF9F1, [0x96A3]); (0xF9F2, [0x9C57]); (0xF9F3, [0x9E9F]); (0xF9F4, [0x6797]);
    (0xF9F5, [0x6DCB]); (0xF9F6, [0x81E8]); (0xF9F7, [0x7ACB]); (0xF9F8, [0x7B20]);
    (0xF9F9, [0x7C92]); (0xF9FA, [0x72C0]); (0xF9FB, [0x7099]); (0xF9FC, [0x8B58]);
    (0xF9FD, [0x4EC0]); (0xF9FE, [0x8336]); (0xF9FF, [0x523A]); (0xFA00, [0x5207]);
    (0xFA01, [0x5EA6]); (0xFA02, [0x62D3]); (0xFA03, [0x7CD6]); (0xFA04, [0x5B85]);
    (0xFA05, [0x6D1E]); (0xFA06, [0x66B4]); (0xFA07, [0x8F3B]); (0xFA08, [0x884C]);
    (0xFA09, [0x964D]); (0xFA0A, [0x898B]); (0xFA0B, [0x5ED3]); (0xFA0C, [0x5140]);
    (0xFA0D, [0x55C0]); (0xFA10, [0x585A]); (0xFA12, [0x6674]); (0xFA15, [0x51DE]);
    (0xFA16, [0x732A]); (0xFA17, [0x76CA]); (0xFA18, [0x793C]); (0xFA19, [0x795E]);
    (0xFA1A, [0x7965]); (0xFA1B, [0x798F]); (0xFA1C, [0x9756]); (0xFA1D, [0x7CBE]);
    (0xFA1E, [0x7FBD]); (0xFA20, [0x8612]); (0xFA22, [0x8AF8]); (0xFA25, [0x9038]);
    (0xFA26, [0x90FD]); (0xFA2A, [0x98EF]); (0xFA2B, [0x98FC]); (0xFA2C, [0x9928]);
    (0xFA2D, [0x9DB4]); (0xFA2E, [0x90DE]); (0xFA2F, [0x96B7]); (0xFA30, [0x4FAE]);
    (0xFA31, [0x50E7]); (0xFA32, [0x514D]); (0xFA33, [0x52C9]); (0xFA34, [0x52E4]);
    (0xFA35, [0x5351]); (0xFA36, [0x559D]); (0xFA37, [0x5606]); (0xFA38, [0x5668]);
    (0xFA39, [0x5840]); (0xFA3A, [0x58A8]); (0xFA3B, [0x5C64]); (0xFA3C, [0x5C6E]);
    (0xFA3D, [0x6094]); (0xFA3E, [0x6168]); (0xFA3F, [0x618E]); (0xFA40, [0x61F2]);
    (0xFA41, [0x654F]); (0xFA42, [0x65E2]); (0xFA43, [0x6691]); (0xFA44, [0x6885]);
    (0xFA45, [0x6D77]); (0xFA46, [0x6E1A]); (0xFA47, [0x6F22]); (0xFA48, [0x716E]);
    (0xFA49, [0x722B]); (0xFA4A, [0x7422]); (0xFA4B, [0x7891]); (0xFA4C, [0x793E]);
    (0xFA4D, [0x7949]); (0xFA4E, [0x7948]); (0xFA4F, [0x7950]); (0xFA50, [0x7956]);
    (0xFA51, [0x795D]); (0xFA52, [0x798D]); (0xFA53, [0x798E]); (0xFA54, [0x7A40]);
    (0xFA55, [0x7A81]); (0xFA56, [0x7BC0]); (0xFA57, [0x7DF4]); (0xFA58, [0x7E09]);
    (0xFA59, [0x7E41]); (0xFA5A, [0x7F72]); (0xFA5B, [0x8005]); (0xFA5C, [0x81ED]);
    (0xFA5D, [0x8279]); (0xFA5E, [0x8279]); (0xFA5F, [0x8457]); (0xFA60, [0x8910]);
    (0xFA61, [0x8996]); (0xFA62, [0x8B01]); (0xFA63, [0x8B39]); (0xFA64, [0x8CD3]);
    (0xFA65, [0x8D08]); (0xFA66, [0x8FB6]); (0xFA67, [0x9038]); (0xFA68, [0x96E3]);
    (0xFA69, [0x97FF]); (0xFA6A, [0x983B]); (0xFA6B, [0x6075]); (0xFA6C, [0x242EE]);
    (0xFA6D, [0x8218]); (0xFA70, [0x4E26]); (0xFA71, [0x51B5]); (0xFA72, [0x5168]);
    (0xFA73, [0x4F80]); (0xFA74, [0x5145]); (0xFA75, [0x5180]); (0xFA76, [0x52C7]);
    (0xFA77, [0x52FA]); (0xFA78, [0x559D]); (0xFA79, [0x5555]); (0xFA7A, [0x5599]);
    (0xFA7B, [0x55E2]); (0xFA7C, [0x585A]); (0xFA7D, [0x58B3]); (0xFA7E, [0x5944]);
    (0xFA7F, [0x5954]); (0xFA80, [0x5A62]); (0xFA81, [0x5B28]); (0xFA82, [0x5ED2]);
    (0xFA83, [0x5ED9]); (0xFA84, [0x5F69]); (0xFA85, [0x5FAD]); (0xFA86, [0x60D8]);
    (0xFA87, [0x614E]); (0xFA88, [0x6108]); (0xFA89, [0x618E]); (0xFA8A, [0x6160]);
    (0xFA8B, [0x61F2]); (0xFA8C, [0x6234]); (0xFA8D, [0x63C4]); (0xFA8E, [0x641C]);
    (0xFA8F, [0x6452]); (0xFA90, [0x6556]); (0xFA91, [0x6674]); (0xFA92, [0x6717]);
    (0xFA93, [0x671B]); (0xFA94, [0x6756]); (0xFA95, [0x6B79]); (0xFA96, [0x6BBA]);
    (0xFA97, [0x6D41]); (0xFA98, [0x6EDB]); (0xFA99, [0x6ECB]); (0xFA9A, [0x6F22]);
    (0xFA9B, [0x701E]); (0xFA9C, [0x716E]); (0xFA9D, [0x77A7]); (0xFA9E, [0x7235]);
    (0xFA9F, [0x72AF]); (0xFAA0, [0x732A]); (0xFAA1, [0x7471]); (0xFAA2, [0x7506]);
    (0xFAA3, [0x753B]); (0xFAA4, [0x761D]); (0xFAA5, [0x761F]); (0xFAA6, [0x76CA]);
    (0xFAA7, [0x76DB]); (0xFAA8, [0x76F4]); (0xFAA9, [0x774A]); (0xFAAA, [0x7740]);
    (0xFAAB, [0x78CC]); (0xFAAC, [0x7AB1]); (0xFAAD, [0x7BC0]); (0xFAAE, [0x7C7B]);
    (0xFAAF, [0x7D5B]); (0xFAB0, [0x7DF4]); (0xFAB1, [0x7F3E]); (0xFAB2, [0x8005]);
    (0xFAB3, [0x8352]); (0xFAB4, [0x83EF]); (0xFAB5, [0x8779]); (0xFAB6, [0x8941]);
    (0xFAB7, [0x8986]); (0xFAB8, [0x8996]); (0xFAB9, [0x8ABF]); (0xFABA, [0x8AF8]);
    (0xFABB, [0x8ACB]); (0xFABC, [0x8B01]); (0xFABD, [0x8AFE]); (0xFABE, [0x8AED]);
    (0xFABF, [0x8B39]); (0xFAC0, [0x8B8A]); (0xFAC1, [0x8D08]); (0xFAC2, [0x8F38]);
    (0xFAC3, [0x9072]); (0xFAC4, [0x9199]); (0xFAC5, [0x9276]); (0xFAC6, [0x967C]);
    (0xFAC7, [0x96E3]); (0xFAC8, [0x9756]); (0xFAC9, [0x97DB]); (0xFACA, [0x97FF]);
    (0xFACB, [0x980B]); (0xFACC, [0x983B]); (0xFACD, [0x9B12]); (0xFACE, [0x9F9C]);
    (0xFACF, [0x2284A]); (0xFAD0, [0x22844]); (0xFAD1, [0x233D5]); (0xFAD2, [0x3B9D]);
    (0xFAD3, [0x4018]); (0xFAD4, [0x4039]); (0xFAD5, [0x25249]); (0xFAD6, [0x25CD0]);
    (0xFAD7, [0x27ED3]); (0xFAD8, [0x9F43]); (0xFAD9, [0x9F8E]); (0xFB1D, [0x05D9; 0x05B4]);
    (0xFB1F, [0x05F2; 0x05B7]); (0xFB2A, [0x05E9; 0x05C1]); (0xFB2B, [0x05E9; 0x05C2]);
    (0xFB2C, [0x05E9; 0x05BC; 0x05C1]); (0xFB2D, [0x05E9; 0x05BC; 0x05C2]);
    (0xFB2E, [0x05D0; 0x05B7]); (0xFB2F, [0x05D0; 0x05B8]); (0xFB30, [0x05D0; 0x05BC]);
    (0xFB31, [0x05D1; 0x05BC]); (0xFB32, [0x05D2; 0x05BC]); (0xFB33, [0x05D3; 0x05BC]);
    (0xFB34, [0x05D4; 0x05BC]); (0xFB35, [0x05D5; 0x05BC]); (0xFB36, [0x05D6; 0x05BC]);
    (0xFB38, [0x05D8; 0x05BC]); (0xFB39, [0x05D9; 0x05BC]); (0xFB3A, [0x05DA; 0x05BC]);
    (0xFB3B, [0x05DB; 0x05BC]); (0xFB3C, [0x05DC; 0x05BC]); (0xFB3E, [0x05DE; 0x05BC]);
    (0xFB40, [0x05E0; 0x05BC]); (0xFB41, [0x05E1; 0x05BC]); (0xFB43, [0x05E3; 0x05BC]);
    (0xFB44, [0x05E4; 0x05BC]); (0xFB46, [0x05E6; 0x05BC]); (0xFB47, [0x05E7; 0x05BC]);
    (0xFB48, [0x05E8; 0x05BC]); (0xFB49, [0x05E9; 0x05BC]); (0xFB4A, [0x05EA; 0x05BC]);
    (0xFB4B, [0x05D5; 0x05B9]); (0xFB4C, [0x05D1; 0x05BF]); (0xFB4D, [0x05DB; 0x05BF]);
    (0xFB4E, [0x05E4; 0x05BF]); (0x1109A, [0x11099; 0x110BA]); (0x1109C, [0x1109B; 0x110BA]);
    (0x110AB, [0x110A5; 0x110BA]); (0x1112E, [0x11131; 0x11127]); (0x1112F, [0x11132; 0x11127]);
    (0x1134B, [0x11347; 0x1133E]); (0x1134C, [0x11347; 0x11357]); (0x114BB, [0x114B9; 0x114BA]);
    (0x114BC, [0x114B9; 0x114B0]); (0x114BE, [0x114B9; 0x114BD]); (0x115BA, [0x115B8; 0x115AF]);
    (0x115BB, [0x115B9; 0x115AF]); (0x11938, [0x11935; 0x11930]); (0x1D15E, [0x1D157; 0x1D165]);
    (0x1D15F, [0x1D158; 0x1D165]); (0x1D160, [0x1D158; 0x1D165; 0x1D16E]);
    (0x1D161, [0x1D158; 0x1D165; 0x1D16F]); (0x1D162, [0x1D158; 0x1D165; 0x1D170]);
    (0x1D163, [0x1D158; 0x1D165; 0x1D171]); (0x1D164, [0x1D158; 0x1D165; 0x1D172]);
    (0x1D1BB, [0x1D1B9; 0x1D165]); (0x1D1BC, [0x1D1BA; 0x1D165]);
    (0x1D1BD, [0x1D1B9; 0x1D165; 0x1D16E]); (0x1D1BE, [0x1D1BA; 0x1D165; 0x1D16E]);
    (0x1D1BF, [0x1D1B9; 0x1D165; 0x1D16F]); (0x1D1C0, [0x1D1BA; 0x1D165; 0x1D16F]);
    (0x2F800, [0x4E3D]); (0x2F801, [0x4E38]); (0x2F802, [0x4E41]); (0x2F803, [0x20122]);
    (0x2F804, [0x4F60]); (0x2F805, [0x4FAE]); (0x2F806, [0x4FBB]); (0x2F807, [0x5002]);
    (0x2F808, [0x507A]); (0x2F809, [0x5099]); (0x2F80A, [0x50E7]); (0x2F80B, [0x50CF]);
    (0x2F80C, [0x349E]); (0x2F80D, [0x2063A]); (0x2F80E, [0x514D]); (0x2F80F, [0x5154]);
    (0x2F810, [0x5164]); (0x2F811, [0x5177]); (0x2F812, [0x2051C]); (0x2F813, [0x34B9]);
    (0x2F814, [0x5167]); (0x2F815, [0x518D]); (0x2F816, [0x2054B]); (0x2F817, [0x5197]);
    (0x2F818, [0x51A4]); (0x2F819, [0x4ECC]); (0x2F81A, [0x51AC]); (0x2F81B, [0x51B5]);
    (0x2F81C, [0x291DF]); (0x2F81D, [0x51F5]); (0x2F81E, [0x5203]); (0x2F81F, [0x34DF]);
    (0x2F820, [0x523B]); (0x2F821, [0x5246]); (0x2F822, [0x5272]); (0x2F823, [0x5277]);
    (0x2F824, [0x3515]); (0x2F825, [0x52C7]); (0x2F826, [0x52C9]); (0x2F827, [0x52E4]);
    (0x2F828, [0x52FA]); (0x2F829, [0x5305]); (0x2F82A, [0x5306]); (0x2F82B, [0x5317]);
    (0x2F82C, [0x5349]); (0x2F82D, [0x5351]); (0x2F82E, [0x535A]); (0x2F82F, [0x5373]);
    (0x2F830, [0x537D]); (0x2F831, [0x537F]); (0x2F832, [0x537F]); (0x2F833, [0x537F]);
    (0x2F834, [0x20A2C]); (0x2F835, [0x7070]); (0x2F836, [0x53CA]); (0x2F837, [0x53DF]);
    (0x2F838, [0x20B63]); (0x2F839, [0x53EB]); (0x2F83A, [0x53F1]); (0x2F83B, [0x5406]);
    (0x2F83C, [0x549E]); (0x2F83D, [0x5438]); (0x2F83E, [0x5448]); (0x2F83F, [0x5468]);
    (0x2F840, [0x54A2]); (0x2F841, [0x54F6]); (0x2F842, [0x5510]); (0x2F843, [0x5553]);
    (0x2F844, [0x5563]); (0x2F845, [0x5584]); (0x2F846, [0x5584]); (0x2F847, [0x5599]);
    (0x2F848, [0x55AB]); (0x2F849, [0x55B3]); (0x2F84A, [0x55C2]); (0x2F84B, [0x5716]);
    (0x2F84C, [0x5606]); (0x2F84D, [0x5717]); (0x2F84E, [0x5651]); (0x2F84F, [0x5674]);
    (0x2F850, [0x5207]); (0x2F851, [0x58EE]); (0x2F852, [0x57CE]); (0x2F853, [0x57F4]);
    (0x2F854, [0x580D]); (0x2F855, [0x578B]); (0x2F856, [0x5832]); (0x2F857, [0x5831]);
    (0x2F858, [0x58AC]); (0x2F859, [0x214E4]); (0x2F85A, [0x58F2]); (0x2F85B, [0x58F7]);
    (0x2F85C, [0x5906]); (0x2F85D, [0x591A]); (0x2F85E, [0x5922]); (0x2F85F, [0x5962]);
    (0x2F860, [0x216A8]); (0x2F861, [0x216EA]); (0x2F862, [0x59EC]); (0x2F863, [0x5A1B]);
    (0x2F864, [0x5A27]); (0x2F865, [0x59D8]); (0x2F866, [0x5A66]); (0x2F867, [0x36EE]);
    (0x2F868, [0x36FC]); (0x2F869, [0x5B08]); (0x2F86A, [0x5B3E]); (0x2F86B, [0x5B3E]);
    (0x2F86C, [0x219C8]); (0x2F86D, [0x5BC3]); (0x2F86E, [0x5BD8]); (0x2F86F, [0x5BE7]);
    (0x2F870, [0x5BF3]); (0x2F871, [0x21B18]); (0x2F872, [0x5BFF]); (0x2F873, [0x5C06]);
    (0x2F874, [0x5F53]); (0x2F875, [0x5C22]); (0x2F876, [0x3781]); (0x2F877, [0x5C60]);
    (0x2F878, [0x5C6E]); (0x2F879, [0x5CC0]); (0x2F87A, [0x5C8D]); (0x2F87B, [0x21DE4]);
    (0x2F87C, [0x5D43]); (0x2F87D, [0x21DE6]); (0x2F87E, [0x5D6E]); (0x2F87F, [0x5D6B]);
    (0x2F880, [0x5D7C]); (0x2F881, [0x5DE1]); (0x2F882, [0x5DE2]); (0x2F883, [0x382F]);
    (0x2F884, [0x5DFD]); (0x2F885, [0x5E28]); (0x2F886, [0x5E3D]); (0x2F887, [0x5E69]);
    (0x2F888, [0x3862]); (0x2F889, [0x22183]); (0x2F88A, [0x387C]); (0x2F88B, [0x5EB0]);
    (0x2F88C, [0x5EB3]); (0x2F88D, [0x5EB6]); (0x2F88E, [0x5ECA]); (0x2F88F, [0x2A392]);
    (0x2F890, [0x5EFE]); (0x2F891, [0x22331]); (0x2F892, [0x22331]); (0x2F893, [0x8201]);
    (0x2F894, [0x5F22]); (0x2F895, [0x5F22]); (0x2F896, [0x38C7]); (0x2F897, [0x232B8]);
    (0x2F898, [0x261DA]); (0x2F899, [0x5F62]); (0x2F89A, [0x5F6B]); (0x2F89B, [0x38E3]);
    (0x2F89C, [0x5F9A]); (0x2F89D, [0x5FCD]); (0x2F89E, [0x5FD7]); (0x2F89F, [0x5FF9]);
    (0x2F8A0, [0x6081]); (0x2F8A1, [0x393A]); (0x2F8A2, [0x391C]); (0x2F8A3, [0x6094]);
    (0x2F8A4, [0x226D4]); (0x2F8A5, [0x60C7]); (0x2F8A6, [0x6148]); (0x2F8A7, [0x614C]);
    (0x2F8A8, [0x614E]); (0x2F8A9, [0x614C]); (0x2F8AA, [0x617A]); (0x2F8AB, [0x618E]);
    (0x2F8AC, [0x61B2]); (0x2F8AD, [0x61A4]); (0x2F8AE, [0x61AF]); (0x2F8AF, [0x61DE]);
    (0x2F8B0, [0x61F2]); (0x2F8B1, [0x61F6]); (0x2F8B2, [0x6210]); (0x2F8B3, [0x621B]);
    (0x2F8B4, [0x625D]); (0x2F8B5, [0x62B1]); (0x2F8B6, [0x62D4]); (0x2F8B7, [0x6350]);
    (0x2F8B8, [0x22B0C]); (0x2F8B9, [0x633D]); (0x2F8BA, [0x62FC]); (0x2F8BB, [0x6368]);
    (0x2F8BC, [0x6383]); (0x2F8BD, [0x63E4]); (0x2F8BE, [0x22BF1]); (0x2F8BF, [0x6422]);
    (0x2F8C0, [0x63C5]); (0x2F8C1, [0x63A9]); (0x2F8C2, [0x3A2E]); (0x2F8C3, [0x6469]);
    (0x2F8C4, [0x647E]); (0x2F8C5, [0x649D]); (0x2F8C6, [0x6477]); (0x2F8C7, [0x3A6C]);
    (0x2F8C8, [0x654F]); (0x2F8C9, [0x656C]); (0x2F8CA, [0x2300A]); (0x2F8CB, [0x65E3]);
    (0x2F8CC, [0x66F8]); (0x2F8CD, [0x6649]); (0x2F8CE, [0x3B19]); (0x2F8CF, [0x6691]);
    (0x2F8D0, [0x3B08]); (0x2F8D1, [0x3AE4]); (0x2F8D2, [0x5192]); (0x2F8D3, [0x5195]);
    (0x2F8D4, [0x6700]); (0x2F8D5, [0x669C]); (0x2F8D6, [0x80AD]); (0x2F8D7, [0x43D9]);
    (0x2F8D8, [0x6717]); (0x2F8D9, [0x671B]); (0x2F8DA, [0x6721]); (0x2F8DB, [0x675E]);
    (0x2F8DC, [0x6753]); (0x2F8DD, [0x233C3]); (0x2F8DE, [0x3B49]); (0x2F8DF, [0x67FA]);
    (0x2F8E0, [0x6785]); (0x2F8E1, [0x6852]); (0x2F8E2, [0x6885]); (0x2F8E3, [0x2346D]);
    (0x2F8E4, [0x688E]); (0x2F8E5, [0x681F]); (0x2F8E6, [0x6914]); (0x2F8E7, [0x3B9D]);
    (0x2F8E8, [0x6942]); (0x2F8E9, [0x69A3]); (0x2F8EA, [0x69EA]); (0x2F8EB, [0x6AA8]);
    (0x2F8EC, [0x236A3]); (0x2F8ED, [0x6ADB]); (0x2F8EE, [0x3C18]); (0x2F8EF, [0x6B21]);
    (0x2F8F0, [0x238A7]); (0x2F8F1, [0x6B54]); (0x2F8F2, [0x3C4E]); (0x2F8F3, [0x6B72]);
    (0x2F8F4, [0x6B9F]); (0x2F8F5, [0x6BBA]); (0x2F8F6, [0x6BBB]); (0x2F8F7, [0x23A8D]);
    (0x2F8F8, [0x21D0B]); (0x2F8F9, [0x23AFA]); (0x2F8FA, [0x6C4E]); (0x2F8FB, [0x23CBC]);
    (0x2F8FC, [0x6CBF]); (0x2F8FD, [0x6CCD]); (0x2F8FE, [0x6C67]); (0x2F8FF, [0x6D16]);
    (0x2F900, [0x6D3E]); (0x2F901, [0x6D77]); (0x2F902, [0x6D41]); (0x2F903, [0x6D69]);
    (0x2F904, [0x6D78]); (0x2F905, [0x6D85]); (0x2F906, [0x23D1E]); (0x2F907, [0x6D34]);
    (0x2F908, [0x6E2F]); (0x2F909, [0x6E6E]); (0x2F90A, [0x3D33]); (0x2F90B, [0x6ECB]);
    (0x2F90C, [0x6EC7]); (0x2F90D, [0x23ED1]); (0x2F90E, [0x6DF9]); (0x2F90F, [0x6F6E]);
    (0x2F910, [0x23F5E]); (0x2F911, [0x23F8E]); (0x2F912, [0x6FC6]); (0x2F913, [0x7039]);
    (0x2F914, [0x701E]); (0x2F915, [0x701B]); (0x2F916, [0x3D96]); (0x2F917, [0x704A]);
    (0x2F918, [0x707D]); (0x2F919, [0x7077]); (0x2F91A, [0x70AD]); (0x2F91B, [0x20525]);
    (0x2F91C, [0x7145]); (0x2F91D, [0x24263]); (0x2F91E, [0x719C]); (0x2F91F, [0x243AB]);
    (0x2F920, [0x7228]); (0x2F921, [0x7235]); (0x2F922, [0x7250]); (0x2F923, [0x24608]);
    (0x2F924, [0x7280]); (0x2F925, [0x7295]); (0x2F926, [0x24735]); (0x2F927, [0x24814]);
    (0x2F928, [0x737A]); (0x2F929, [0x738B]); (0x2F92A, [0x3EAC]); (0x2F92B, [0x73A5]);
    (0x2F92C, [0x3EB8]); (0x2F92D, [0x3EB8]); (0x2F92E, [0x7447]); (0x2F92F, [0x745C]);
    (0x2F930, [0x7471]); (0x2F931, [0x7485]); (0x2F932, [0x74CA]); (0x2F933, [0x3F1B]);
    (0x2F934, [0x7524]); (0x2F935, [0x24C36]); (0x2F936, [0x753E]); (0x2F937, [0x24C92]);
    (0x2F938, [0x7570]); (0x2F939, [0x2219F]); (0x2F93A, [0x7610]); (0x2F93B, [0x24FA1]);
    (0x2F93C, [0x24FB8]); (0x2F93D, [0x25044]); (0x2F93E, [0x3FFC]); (0x2F93F, [0x4008]);
    (0x2F940, [0x76F4]); (0x2F941, [0x250F3]); (0x2F942, [0x250F2]); (0x2F943, [0x25119]);
    (0x2F944, [0x25133]); (0x2F945, [0x771E]); (0x2F946, [0x771F]); (0x2F947, [0x771F]);
    (0x2F948, [0x774A]); (0x2F949, [0x4039]); (0x2F94A, [0x778B]); (0x2F94B, [0x4046]);
    (0x2F94C, [0x4096]); (0x2F94D, [0x2541D]); (0x2F94E, [0x784E]); (0x2F94F, [0x788C]);
    (0x2F950, [0x78CC]); (0x2F951, [0x40E3]); (0x2F952, [0x25626]); (0x2F953, [0x7956]);
    (0x2F954, [0x2569A]); (0x2F955, [0x256C5]); (0x2F956, [0x798F]); (0x2F957, [0x79EB]);
    (0x2F958, [0x412F]); (0x2F959, [0x7A40]); (0x2F95A, [0x7A4A]); (0x2F95B, [0x7A4F]);
    (0x2F95C, [0x2597C]); (0x2F95D, [0x25AA7]); (0x2F95E, [0x25AA7]); (0x2F95F, [0x7AEE]);
    (0x2F960, [0x4202]); (0x2F961, [0x25BAB]); (0x2F962, [0x7BC6]); (0x2F963, [0x7BC9]);
    (0x2F964, [0x4227]); (0x2F965, [0x25C80]); (0x2F966, [0x7CD2]); (0x2F967, [0x42A0]);
    (0x2F968, [0x7CE8]); (0x2F969, [0x7CE3]); (0x2F96A, [0x7D00]); (0x2F96B, [0x25F86]);
    (0x2F96C, [0x7D63]); (0x2F96D, [0x4301]); (0x2F96E, [0x7DC7]); (0x2F96F, [0x7E02]);
    (0x2F970, [0x7E45]); (0x2F971, [0x4334]); (0x2F972, [0x26228]); (0x2F973, [0x26247]);
    (0x2F974, [0x4359]); (0x2F975, [0x262D9]); (0x2F976, [0x7F7A]); (0x2F977, [0x2633E]);
    (0x2F978, [0x7F95]); (0x2F979, [0x7FFA]); (0x2F97A, [0x8005]); (0x2F97B, [0x264DA]);
    (0x2F97C, [0x26523]); (0x2F97D, [0x8060]); (0x2F97E, [0x265A8]); (0x2F97F, [0x8070]);
    (0x2F980, [0x2335F]); (0x2F981, [0x43D5]); (0x2F982, [0x80B2]); (0x2F983, [0x8103]);
    (0x2F984, [0x440B]); (0x2F985, [0x813E]); (0x2F986, [0x5AB5]); (0x2F987, [0x267A7]);
    (0x2F988, [0x267B5]); (0x2F989, [0x23393]); (0x2F98A, [0x2339C]); (0x2F98B, [0x8201]);
    (0x2F98C, [0x8204]); (0x2F98D, [0x8F9E]); (0x2F98E, [0x446B]); (0x2F98F, [0x8291]);
    (0x2F990, [0x828B]); (0x2F991, [0x829D]); (0x2F992, [0x52B3]); (0x2F993, [0x82B1]);
    (0x2F994, [0x82B3]); (0x2F995, [0x82BD]); (0x2F996, [0x82E6]); (0x2F997, [0x26B3C]);
    (0x2F998, [0x82E5]); (0x2F999, [0x831D]); (0x2F99A, [0x8363]); (0x2F99B, [0x83AD]);
    (0x2F99C, [0x8323]); (0x2F99D, [0x83BD]); (0x2F99E, [0x83E7]); (0x2F99F, [0x8457]);
    (0x2F9A0, [0x8353]); (0x2F9A1, [0x83CA]); (0x2F9A2, [0x83CC]); (0x2F9A3, [0x83DC]);
    (0x2F9A4, [0x26C36]); (0x2F9A5, [0x26D6B]); (0x2F9A6, [0x26CD5]); (0x2F9A7, [0x452B]);
    (0x2F9A8, [0x84F1]); (0x2F9A9, [0x84F3]); (0x2F9AA, [0x8516]); (0x2F9AB, [0x273CA]);
    (0x2F9AC, [0x8564]); (0x2F9AD, [0x26F2C]); (0x2F9AE, [0x455D]); (0x2F9AF, [0x4561]);
    (0x2F9B0, [0x26FB1]); (0x2F9B1, [0x270D2]); (0x2F9B2, [0x456B]); (0x2F9B3, [0x8650]);
    (0x2F9B4, [0x865C]); (0x2F9B5, [0x8667]); (0x2F9B6, [0x8669]); (0x2F9B7, [0x86A9]);
    (0x2F9B8, [0x8688]); (0x2F9B9, [0x870E]); (0x2F9BA, [0x86E2]); (0x2F9BB, [0x8779]);
    (0x2F9BC, [0x8728]); (0x2F9BD, [0x876B]); (0x2F9BE, [0x8786]); (0x2F9BF, [0x45D7]);
    (0x2F9C0, [0x87E1]); (0x2F9C1, [0x8801]); (0x2F9C2, [0x45F9]); (0x2F9C3, [0x8860]);
    (0x2F9C4, [0x8863]); (0x2F9C5, [0x27667]); (0x2F9C6, [0x88D7]); (0x2F9C7, [0x88DE]);
    (0x2F9C8, [0x4635]); (0x2F9C9, [0x88FA]); (0x2F9CA, [0x34BB]); (0x2F9CB, [0x278AE]);
    (0x2F9CC, [0x27966]); (0x2F9CD, [0x46BE]); (0x2F9CE, [0x46C7]); (0x2F9CF, [0x8AA0]);
    (0x2F9D0, [0x8AED]); (0x2F9D1, [0x8B8A]); (0x2F9D2, [0x8C55]); (0x2F9D3, [0x27CA8]);
    (0x2F9D4, [0x8CAB]); (0x2F9D5, [0x8CC1]); (0x2F9D6, [0x8D1B]); (0x2F9D7, [0x8D77]);
    (0x2F9D8, [0x27F2F]); (0x2F9D9, [0x20804]); (0x2F9DA, [0x8DCB]); (0x2F9DB, [0x8DBC]);
    (0x2F9DC, [0x8DF0]); (0x2F9DD, [0x208DE]); (0x2F9DE, [0x8ED4]); (0x2F9DF, [0x8F38]);
    (0x2F9E0, [0x285D2]); (0x2F9E1, [0x285ED]); (0x2F9E2, [0x9094]); (0x2F9E3, [0x90F1]);
    (0x2F9E4, [0x9111]); (0x2F9E5, [0x2872E]); (0x2F9E6, [0x911B]); (0x2F9E7, [0x9238]);
    (0x2F9E8, [0x92D7]); (0x2F9E9, [0x92D8]); (0x2F9EA, [0x927C]); (0x2F9EB, [0x93F9]);
    (0x2F9EC, [0x9415]); (0x2F9ED, [0x28BFA]); (0x2F9EE, [0x958B]); (0x2F9EF, [0x4995]);
    (0x2F9F0, [0x95B7]); (0x2F9F1, [0x28D77]); (0x2F9F2, [0x49E6]); (0x2F9F3, [0x96C3]);
    (0x2F9F4, [0x5DB2]); (0x2F9F5, [0x9723]); (0x2F9F6, [0x29145]); (0x2F9F7, [0x2921A]);
    (0x2F9F8, [0x4A6E]); (0x2F9F9, [0x4A76]); (0x2F9FA, [0x97E0]); (0x2F9FB, [0x2940A]);
    (0x2F9FC, [0x4AB2]); (0x2F9FD, [0x29496]); (0x2F9FE, [0x980B]); (0x2F9FF, [0x980B]);
    (0x2FA00, [0x9829]); (0x2FA01, [0x295B6]); (0x2FA02, [0x98E2]); (0x2FA03, [0x4B33]);
    (0x2FA04, [0x9929]); (0x2FA05, [0x99A7]); (0x2FA06, [0x99C2]); (0x2FA07, [0x99FE]);
    (0x2FA08, [0x4BCE]); (0x2FA09, [0x29B30]); (0x2FA0A, [0x9B12]); (0x2FA0B, [0x9C40]);
    (0x2FA0C, [0x9CFD]); (0x2FA0D, [0x4CCE]); (0x2FA0E, [0x4CED]); (0x2FA0F, [0x9D67]);
    (0x2FA10, [0x2A0CE]); (0x2FA11, [0x4CF8]); (0x2FA12, [0x2A105]); (0x2FA13, [0x2A20E]);
    (0x2FA14, [0x2A291]); (0x2FA15, [0x9EBB]); (0x2FA16, [0x4D56]); (0x2FA17, [0x9EF9]);
    (0x2FA18, [0x9EFE]); (0x2FA19, [0x9F05]); (0x2FA1A, [0x9F0F]); (0x2FA1B, [0x9F16]);
    (0x2FA1C, [0x9F3B]); (0x2FA1D, [0x2A600])  ].

(** Non-zero canonical combining classes (UnicodeData.txt field 3), as
    inclusive ranges [(first, last, class)]. *)
Definition combining_class_table : list (N * N * N) :=
  [
    (0x0300, 0x0314, 230); (0x0315, 0x0315, 232); (0x0316, 0x0319, 220); (0x031A, 0x031A, 232);
    (0x031B, 0x031B, 216); (0x031C, 0x0320, 220); (0x0321, 0x0322, 202); (0x0323, 0x0326, 220);
    (0x0327, 0x0328, 202); (0x0329, 0x0333, 220); (0x0334, 0x0338, 1); (0x0339, 0x033C, 220);
    (0x033D, 0x0344, 230); (0x0345, 0x0345, 240); (0x0346, 0x0346, 230); (0x0347, 0x0349, 220);
    (0x034A, 0x034C, 230); (0x034D, 0x034E, 220); (0x0350, 0x0352, 230); (0x0353, 0x0356, 220);
    (0x0357, 0x0357, 230); (0x0358, 0x0358, 232); (0x0359, 0x035A, 220); (0x035B, 0x035B, 230);
    (0x035C, 0x035C, 233); (0x035D, 0x035E, 234); (0x035F, 0x035F, 233); (0x0360, 0x0361, 234);
    (0x0362, 0x0362, 233); (0x0363, 0x036F, 230); (0x0483, 0x0487, 230); (0x0591, 0x0591, 220);
    (0x0592, 0x0595, 230); (0x0596, 0x0596, 220); (0x0597, 0x0599, 230); (0x059A, 0x059A, 222);
    (0x059B, 0x059B, 220); (0x059C, 0x05A1, 230); (0x05A2, 0x05A7, 220); (0x05A8, 0x05A9, 230);
    (0x05AA, 0x05AA, 220); (0x05AB, 0x05AC, 230); (0x05AD, 0x05AD, 222); (0x05AE, 0x05AE, 228);
    (0x05AF, 0x05AF, 230); (0x05B0, 0x05B0, 10); (0x05B1, 0x05B1, 11); (0x05B2, 0x05B2, 12);
    (0x05B3, 0x05B3, 13); (0x05B4, 0x05B4, 14); (0x05B5, 0x05B5, 15); (0x05B6, 0x05B6, 16);
    (0x05B7, 0x05B7, 17); (0x05B8, 0x05B8, 18); (0x05B9, 0x05BA, 19); (0x05BB, 0x05BB, 20);
    (0x05BC, 0x05BC, 21); (0x05BD, 0x05BD, 22); (0x05BF, 0x05BF, 23); (0x05C1, 0x05C1, 24);
    (0x05C2, 0x05C2, 25); (0x05C4, 0x05C4, 230); (0x05C5, 0x05C5, 220); (0x05C7, 0x05C7, 18);
    (0x0610, 0x0617, 230); (0x0618, 0x0618, 30); (0x0619, 0x0619, 31); (0x061A, 0x061A, 32);
    (0x064B, 0x064B, 27); (0x064C, 0x064C, 28); (0x064D, 0x064D, 29); (0x064E, 0x064E, 30);
    (0x064F, 0x064F, 31); (0x0650, 0x0650, 32); (0x0651, 0x0651, 33); (0x0652, 0x0652, 34);
    (0x0653, 0x0654, 230); (0x0655, 0x0656, 220); (0x0657, 0x065B, 230); (0x065C, 0x065C, 220);
    (0x065D, 0x065E, 230); (0x065F, 0x065F, 220); (0x0670, 0x0670, 35); (0x06D6, 0x06DC, 230);
    (0x06DF, 0x06E2, 230); (0x06E3, 0x06E3, 220); (0x06E4, 0x06E4, 230); (0x06E7, 0x06E8, 230);
    (0x06EA, 0x06EA, 220); (0x06EB, 0x06EC, 230); (0x06ED, 0x06ED, 220); (0x0711, 0x0711, 36);
    (0x0730, 0x0730, 230); (0x0731, 0x0731, 220); (0x0732, 0x0733, 230); (0x0734, 0x0734, 220);
    (0x0735, 0x0736, 230); (0x0737, 0x0739, 220); (0x073A, 0x073A, 230); (0x073B, 0x073C, 220);
    (0x073D, 0x073D, 230); (0x073E, 0x073E, 220); (0x073F, 0x0741, 230); (0x0742, 0x0742, 220);
    (0x0743, 0x0743, 230); (0x0744, 0x0744, 220); (0x0745, 0x0745, 230); (0x0746, 0x0746, 220);
    (0x0747, 0x0747, 230); (0x0748, 0x0748, 220); (0x0749, 0x074A, 230); (0x07EB, 0x07F1, 230);
    (0x07F2, 0x07F2, 220); (0x07F3, 0x07F3, 230); (0x07FD, 0x07FD, 220); (0x0816, 0x0819, 230);
    (0x081B, 0x0823, 230); (0x0825, 0x0827, 230); (0x0829, 0x082D, 230); (0x0859, 0x085B, 220);
    (0x0898, 0x0898, 230); (0x0899, 0x089B, 220); (0x089C, 0x089F, 230); (0x08CA, 0x08CE, 230);
    (0x08CF, 0x08D3, 220); (0x08D4, 0x08E1, 230); (0x08E3, 0x08E3, 220); (0x08E4, 0x08E5, 230);
    (0x08E6, 0x08E6, 220); (0x08E7, 0x08E8, 230); (0x08E9, 0x08E9, 220); (0x08EA, 0x08EC, 230);
    (0x08ED, 0x08EF, 220); (0x08F0, 0x08F0, 27); (0x08F1, 0x08F1, 28); (0x08F2, 0x08F2, 29);
    (0x08F3, 0x08F5, 230); (0x08F6, 0x08F6, 220); (0x08F7, 0x08F8, 230); (0x08F9, 0x08FA, 220);
    (0x08FB, 0x08FF, 230); (0x093C, 0x093C, 7); (0x094D, 0x094D, 9); (0x0951, 0x0951, 230);
    (0x0952, 0x0952, 220); (0x0953, 0x0954, 230); (0x09BC, 0x09BC, 7); (0x09CD, 0x09CD, 9);
    (0x09FE, 0x09FE, 230); (0x0A3C, 0x0A3C, 7); (0x0A4D, 0x0A4D, 9); (0x0ABC, 0x0ABC, 7);
    (0x0ACD, 0x0ACD, 9); (0x0B3C, 0x0B3C, 7); (0x0B4D, 0x0B4D, 9); (0x0BCD, 0x0BCD, 9);
    (0x0C3C, 0x0C3C, 7); (0x0C4D, 0x0C4D, 9); (0x0C55, 0x0C55, 84); (0x0C56, 0x0C56, 91);
    (0x0CBC, 0x0CBC, 7); (0x0CCD, 0x0CCD, 9); (0x0D3B, 0x0D3C, 9); (0x0D4D, 0x0D4D, 9);
    (0x0DCA, 0x0DCA, 9); (0x0E38, 0x0E39, 103); (0x0E3A, 0x0E3A, 9); (0x0E48, 0x0E4B, 107);
    (0x0EB8, 0x0EB9, 118); (0x0EBA, 0x0EBA, 9); (0x0EC8, 0x0ECB, 122); (0x0F18, 0x0F19, 220);
    (0x0F35, 0x0F35, 220); (0x0F37, 0x0F37, 220); (0x0F39, 0x0F39, 216); (0x0F71, 0x0F71, 129);
    (0x0F72, 0x0F72, 130); (0x0F74, 0x0F74, 132); (0x0F7A, 0x0F7D, 130); (0x0F80, 0x0F80, 130);
    (0x0F82, 0x0F83, 230); (0x0F84, 0x0F84, 9); (0x0F86, 0x0F87, 230); (0x0FC6, 0x0FC6, 220);
    (0x1037, 0x1037, 7); (0x1039, 0x103A, 9); (0x108D, 0x108D, 220); (0x135D, 0x135F, 230);
    (0x1714, 0x1715, 9); (0x1734, 0x1734, 9); (0x17D2, 0x17D2, 9); (0x17DD, 0x17DD, 230);
    (0x18A9, 0x18A9, 228); (0x1939, 0x1939, 222); (0x193A, 0x193A, 230); (0x193B, 0x193B, 220);
    (0x1A17, 0x1A17, 230); (0x1A18, 0x1A18, 220); (0x1A60, 0x1A60, 9); (0x1A75, 0x1A7C, 230);
    (0x1A7F, 0x1A7F, 220); (0x1AB0, 0x1AB4, 230); (0x1AB5, 0x1ABA, 220); (0x1ABB, 0x1ABC, 230);
    (0x1ABD, 0x1ABD, 220); (0x1ABF, 0x1AC0, 220); (0x1AC1, 0x1AC2, 230); (0x1AC3, 0x1AC4, 220);
    (0x1AC5, 0x1AC9, 230); (0x1ACA, 0x1ACA, 220); (0x1ACB, 0x1ACE, 230); (0x1B34, 0x1B34, 7);
    (0x1B44, 0x1B44, 9); (0x1B6B, 0x1B6B, 230); (0x1B6C, 0x1B6C, 220); (0x1B6D, 0x1B73, 230);
    (0x1BAA, 0x1BAB, 9); (0x1BE6, 0x1BE6, 7); (0x1BF2, 0x1BF3, 9); (0x1C37, 0x1C37, 7);
    (0x1CD0, 0x1CD2, 230); (0x1CD4, 0x1CD4, 1); (0x1CD5, 0x1CD9, 220); (0x1CDA, 0x1CDB, 230);
    (0x1CDC, 0x1CDF, 220); (0x1CE0, 0x1CE0, 230); (0x1CE2, 0x1CE8, 1); (0x1CED, 0x1CED, 220);
    (0x1CF4, 0x1CF4, 230); (0x1CF8, 0x1CF9, 230); (0x1DC0, 0x1DC1, 230); (0x1DC2, 0x1DC2, 220);
    (0x1DC3, 0x1DC9, 230); (0x1DCA, 0x1DCA, 220); (0x1DCB, 0x1DCC, 230); (0x1DCD, 0x1DCD, 234);
    (0x1DCE, 0x1DCE, 214); (0x1DCF, 0x1DCF, 220); (0x1DD0, 0x1DD0, 202); (0x1DD1, 0x1DF5, 230);
    (0x1DF6, 0x1DF6, 232); (0x1DF7, 0x1DF8, 228); (0x1DF9, 0x1DF9, 220); (0x1DFA, 0x1DFA, 218);
    (0x1DFB, 0x1DFB, 230); (0x1DFC, 0x1DFC, 233); (0x1DFD, 0x1DFD, 220); (0x1DFE, 0x1DFE, 230);
    (0x1DFF, 0x1DFF, 220); (0x20D0, 0x20D1, 230); (0x20D2, 0x20D3, 1); (0x20D4, 0x20D7, 230);
    (0x20D8, 0x20DA, 1); (0x20DB, 0x20DC, 230); (0x20E1, 0x20E1, 230); (0x20E5, 0x20E6, 1);
    (0x20E7, 0x20E7, 230); (0x20E8, 0x20E8, 220); (0x20E9, 0x20E9, 230); (0x20EA, 0x20EB, 1);
    (0x20EC, 0x20EF, 220); (0x20F0, 0x20F0, 230); (0x2CEF, 0x2CF1, 230); (0x2D7F, 0x2D7F, 9);
    (0x2DE0, 0x2DFF, 230); (0x302A, 0x302A, 218); (0x302B, 0x302B, 228); (0x302C, 0x302C, 232);
    (0x302D, 0x302D, 222); (0x302E, 0x302F, 224); (0x3099, 0x309A, 8); (0xA66F, 0xA66F, 230);
    (0xA674, 0xA67D, 230); (0xA69E, 0xA69F, 230); (0xA6F0, 0xA6F1, 230); (0xA806, 0xA806, 9);
    (0xA82C, 0xA82C, 9); (0xA8C4, 0xA8C4, 9); (0xA8E0, 0xA8F1, 230); (0xA92B, 0xA92D, 220);
    (0xA953, 0xA953, 9); (0xA9B3, 0xA9B3, 7); (0xA9C0, 0xA9C0, 9); (0xAAB0, 0xAAB0, 230);
    (0xAAB2, 0xAAB3, 230); (0xAAB4, 0xAAB4, 220); (0xAAB7, 0xAAB8, 230); (0xAABE, 0xAABF, 230);
    (0xAAC1, 0xAAC1, 230); (0xAAF6, 0xAAF6, 9); (0xABED, 0xABED, 9); (0xFB1E, 0xFB1E, 26);
    (0xFE20, 0xFE26, 230); (0xFE27, 0xFE2D, 220); (0xFE2E, 0xFE2F, 230);
    (0x101FD, 0x101FD, 220); (0x102E0, 0x102E0, 220); (0x10376, 0x1037A, 230);
    (0x10A0D, 0x10A0D, 220); (0x10A0F, 0x10A0F, 230); (0x10A38, 0x10A38, 230);
    (0x10A39, 0x10A39, 1); (0x10A3A, 0x10A3A, 220); (0x10A3F, 0x10A3F, 9);
    (0x10AE5, 0x10AE5, 230); (0x10AE6, 0x10AE6, 220); (0x10D24, 0x10D27, 230);
    (0x10EAB, 0x10EAC, 230); (0x10F46, 0x10F47, 220); (0x10F48, 0x10F4A, 230);
    (0x10F4B, 0x10F4B, 220); (0x10F4C, 0x10F4C, 230); (0x10F4D, 0x10F50, 220);
    (0x10F82, 0x10F82, 230); (0x10F83, 0x10F83, 220); (0x10F84, 0x10F84, 230);
    (0x10F85, 0x10F85, 220); (0x11046, 0x11046, 9); (0x11070, 0x11070, 9);
    (0x1107F, 0x1107F, 9); (0x110B9, 0x110B9, 9); (0x110BA, 0x110BA, 7);
    (0x11100, 0x11102, 230); (0x11133, 0x11134, 9); (0x11173, 0x11173, 7);
    (0x111C0, 0x111C0, 9); (0x111CA, 0x111CA, 7); (0x11235, 0x11235, 9); (0x11236, 0x11236, 7);
    (0x112E9, 0x112E9, 7); (0x112EA, 0x112EA, 9); (0x1133B, 0x1133C, 7); (0x1134D, 0x1134D, 9);
    (0x11366, 0x1136C, 230); (0x11370, 0x11374, 230); (0x11442, 0x11442, 9);
    (0x11446, 0x11446, 7); (0x1145E, 0x1145E, 230); (0x114C2, 0x114C2, 9);
    (0x114C3, 0x114C3, 7); (0x115BF, 0x115BF, 9); (0x115C0, 0x115C0, 7); (0x1163F, 0x1163F, 9);
    (0x116B6, 0x116B6, 9); (0x116B7, 0x116B7, 7); (0x1172B, 0x1172B, 9); (0x11839, 0x11839, 9);
    (0x1183A, 0x1183A, 7); (0x1193D, 0x1193E, 9); (0x11943, 0x11943, 7); (0x119E0, 0x119E0, 9);
    (0x11A34, 0x11A34, 9); (0x11A47, 0x11A47, 9); (0x11A99, 0x11A99, 9); (0x11C3F, 0x11C3F, 9);
    (0x11D42, 0x11D42, 7); (0x11D44, 0x11D45, 9); (0x11D97, 0x11D97, 9); (0x16AF0, 0x16AF4, 1);
    (0x16B30, 0x16B36, 230); (0x16FF0, 0x16FF1, 6); (0x1BC9E, 0x1BC9E, 1);
    (0x1D165, 0x1D166, 216); (0x1D167, 0x1D169, 1); (0x1D16D, 0x1D16D, 226);
    (0x1D16E, 0x1D172, 216); (0x1D17B, 0x1D182, 220); (0x1D185, 0x1D189, 230);
    (0x1D18A, 0x1D18B, 220); (0x1D1AA, 0x1D1AD, 230); (0x1D242, 0x1D244, 230);
    (0x1E000, 0x1E006, 230); (0x1E008, 0x1E018, 230); (0x1E01B, 0x1E021, 230);
    (0x1E023, 0x1E024, 230); (0x1E026, 0x1E02A, 230); (0x1E130, 0x1E136, 230);
    (0x1E2AE, 0x1E2AE, 230); (0x1E2EC, 0x1E2EF, 230); (0x1E8D0, 0x1E8D6, 220);
    (0x1E944, 0x1E949, 230); (0x1E94A, 0x1E94A, 7)  ].

(** The property Cased (DerivedCoreProperties.txt), as inclusive ranges. *)
Definition cased_table : list (N * N) :=
  [
    (0x0041, 0x005A); (0x0061, 0x007A); (0x00AA, 0x00AA); (0x00B5, 0x00B5); (0x00BA, 0x00BA);
    (0x00C0, 0x00D6); (0x00D8, 0x00F6); (0x00F8, 0x01BA); (0x01BC, 0x01BF); (0x01C4, 0x0293);
    (0x0295, 0x02B8); (0x02C0, 0x02C1); (0x02E0, 0x02E4); (0x0345, 0x0345); (0x0370, 0x0373);
    (0x0376, 0x0377); (0x037A, 0x037D); (0x037F, 0x037F); (0x0386, 0x0386); (0x0388, 0x038A);
    (0x038C, 0x038C); (0x038E, 0x03A1); (0x03A3, 0x03F5); (0x03F7, 0x0481); (0x048A, 0x052F);
    (0x0531, 0x0556); (0x0560, 0x0588); (0x10A0, 0x10C5); (0x10C7, 0x10C7); (0x10CD, 0x10CD);
    (0x10D0, 0x10FA); (0x10FD, 0x10FF); (0x13A0, 0x13F5); (0x13F8, 0x13FD); (0x1C80, 0x1C88);
    (0x1C90, 0x1CBA); (0x1CBD, 0x1CBF); (0x1D00, 0x1DBF); (0x1E00, 0x1F15); (0x1F18, 0x1F1D);
    (0x1F20, 0x1F45); (0x1F48, 0x1F4D); (0x1F50, 0x1F57); (0x1F59, 0x1F59); (0x1F5B, 0x1F5B);
    (0x1F5D, 0x1F5D); (0x1F5F, 0x1F7D); (0x1F80, 0x1FB4); (0x1FB6, 0x1FBC); (0x1FBE, 0x1FBE);
    (0x1FC2, 0x1FC4); (0x1FC6, 0x1FCC); (0x1FD0, 0x1FD3); (0x1FD6, 0x1FDB); (0x1FE0, 0x1FEC);
    (0x1FF2, 0x1FF4); (0x1FF6, 0x1FFC); (0x2071, 0x2071); (0x207F, 0x207F); (0x2090, 0x209C);
    (0x2102, 0x2102); (0x2107, 0x2107); (0x210A, 0x2113); (0x2115, 0x2115); (0x2119, 0x211D);
    (0x2124, 0x2124); (0x2126, 0x2126); (0x2128, 0x2128); (0x212A, 0x212D); (0x212F, 0x2134);
    (0x2139, 0x2139); (0x213C, 0x213F); (0x2145, 0x2149); (0x214E, 0x214E); (0x2160, 0x217F);
    (0x2183, 0x2184); (0x24B6, 0x24E9); (0x2C00, 0x2CE4); (0x2CEB, 0x2CEE); (0x2CF2, 0x2CF3);
    (0x2D00, 0x2D25); (0x2D27, 0x2D27); (0x2D2D, 0x2D2D); (0xA640, 0xA66D); (0xA680, 0xA69D);
    (0xA722, 0xA787); (0xA78B, 0xA78E); (0xA790, 0xA7CA); (0xA7D0, 0xA7D1); (0xA7D3, 0xA7D3);
    (0xA7D5, 0xA7D9); (0xA7F5, 0xA7F6); (0xA7F8, 0xA7FA); (0xAB30, 0xAB5A); (0xAB5C, 0xAB68);
    (0xAB70, 0xABBF); (0xFB00, 0xFB06); (0xFB13, 0xFB17); (0xFF21, 0xFF3A); (0xFF41, 0xFF5A);
    (0x10400, 0x1044F); (0x104B0, 0x104D3); (0x104D8, 0x104FB); (0x10570, 0x1057A);
    (0x1057C, 0x1058A); (0x1058C, 0x10592); (0x10594, 0x10595); (0x10597, 0x105A1);
    (0x105A3, 0x105B1); (0x105B3, 0x105B9); (0x105BB, 0x105BC); (0x10780, 0x10780);
    (0x10783, 0x10785); (0x10787, 0x107B0); (0x107B2, 0x107BA); (0x10C80, 0x10CB2);
    (0x10CC0, 0x10CF2); (0x118A0, 0x118DF); (0x16E40, 0x16E7F); (0x1D400, 0x1D454);
    (0x1D456, 0x1D49C); (0x1D49E, 0x1D49F); (0x1D4A2, 0x1D4A2); (0x1D4A5, 0x1D4A6);
    (0x1D4A9, 0x1D4AC); (0x1D4AE, 0x1D4B9); (0x1D4BB, 0x1D4BB); (0x1D4BD, 0x1D4C3);
    (0x1D4C5, 0x1D505); (0x1D507, 0x1D50A); (0x1D50D, 0x1D514); (0x1D516, 0x1D51C);
    (0x1D51E, 0x1D539); (0x1D53B, 0x1D53E); (0x1D540, 0x1D544); (0x1D546, 0x1D546);
    (0x1D54A, 0x1D550); (0x1D552, 0x1D6A5); (0x1D6A8, 0x1D6C0); (0x1D6C2, 0x1D6DA);
    (0x1D6DC, 0x1D6FA); (0x1D6FC, 0x1D714); (0x1D716, 0x1D734); (0x1D736, 0x1D74E);
    (0x1D750, 0x1D76E); (0x1D770, 0x1D788); (0x1D78A, 0x1D7A8); (0x1D7AA, 0x1D7C2);
    (0x1D7C4, 0x1D7CB); (0x1DF00, 0x1DF09); (0x1DF0B, 0x1DF1E); (0x1E900, 0x1E943);
    (0x1F130, 0x1F149); (0x1F150, 0x1F169); (0x1F170, 0x1F189)  ].

(** The property Case_Ignorable (DerivedCoreProperties.txt), as inclusive
    ranges. *)
Definition case_ignorable_table : list (N * N) :=
  [
    (0x0027, 0x0027); (0x002E, 0x002E); (0x003A, 0x003A); (0x005E, 0x005E); (0x0060, 0x0060);
    (0x00A8, 0x00A8); (0x00AD, 0x00AD); (0x00AF, 0x00AF); (0x00B4, 0x00B4); (0x00B7, 0x00B8);
    (0x02B0, 0x036F); (0x0374, 0x0375); (0x037A, 0x037A); (0x0384, 0x0385); (0x0387, 0x0387);
    (0x0483, 0x0489); (0x0559, 0x0559); (0x055F, 0x055F); (0x0591, 0x05BD); (0x05BF, 0x05BF);
    (0x05C1, 0x05C2); (0x05C4, 0x05C5); (0x05C7, 0x05C7); (0x05F4, 0x05F4); (0x0600, 0x0605);
    (0x0610, 0x061A); (0x061C, 0x061C); (0x0640, 0x0640); (0x064B, 0x065F); (0x0670, 0x0670);
    (0x06D6, 0x06DD); (0x06DF, 0x06E8); (0x06EA, 0x06ED); (0x070F, 0x070F); (0x0711, 0x0711);
    (0x0730, 0x074A); (0x07A6, 0x07B0); (0x07EB, 0x07F5); (0x07FA, 0x07FA); (0x07FD, 0x07FD);
    (0x0816, 0x082D); (0x0859, 0x085B); (0x0888, 0x0888); (0x0890, 0x0891); (0x0898, 0x089F);
    (0x08C9, 0x0902); (0x093A, 0x093A); (0x093C, 0x093C); (0x0941, 0x0948); (0x094D, 0x094D);
    (0x0951, 0x0957); (0x0962, 0x0963); (0x0971, 0x0971); (0x0981, 0x0981); (0x09BC, 0x09BC);
    (0x09C1, 0x09C4); (0x09CD, 0x09CD); (0x09E2, 0x09E3); (0x09FE, 0x09FE); (0x0A01, 0x0A02);
    (0x0A3C, 0x0A3C); (0x0A41, 0x0A42); (0x0A47, 0x0A48); (0x0A4B, 0x0A4D); (0x0A51, 0x0A51);
    (0x0A70, 0x0A71); (0x0A75, 0x0A75); (0x0A81, 0x0A82); (0x0ABC, 0x0ABC); (0x0AC1, 0x0AC5);
    (0x0AC7, 0x0AC8); (0x0ACD, 0x0ACD); (0x0AE2, 0x0AE3); (0x0AFA, 0x0AFF); (0x0B01, 0x0B01);
    (0x0B3C, 0x0B3C); (0x0B3F, 0x0B3F); (0x0B41, 0x0B44); (0x0B4D, 0x0B4D); (0x0B55, 0x0B56);
    (0x0B62, 0x0B63); (0x0B82, 0x0B82); (0x0BC0, 0x0BC0); (0x0BCD, 0x0BCD); (0x0C00, 0x0C00);
    (0x0C04, 0x0C04); (0x0C3C, 0x0C3C); (0x0C3E, 0x0C40); (0x0C46, 0x0C48); (0x0C4A, 0x0C4D);
    (0x0C55, 0x0C56); (0x0C62, 0x0C63); (0x0C81, 0x0C81); (0x0CBC, 0x0CBC); (0x0CBF, 0x0CBF);
    (0x0CC6, 0x0CC6); (0x0CCC, 0x0CCD); (0x0CE2, 0x0CE3); (0x0D00, 0x0D01); (0x0D3B, 0x0D3C);
    (0x0D41, 0x0D44); (0x0D4D, 0x0D4D); (0x0D62, 0x0D63); (0x0D81, 0x0D81); (0x0DCA, 0x0DCA);
    (0x0DD2, 0x0DD4); (0x0DD6, 0x0DD6); (0x0E31, 0x0E31); (0x0E34, 0x0E3A); (0x0E46, 0x0E4E);
    (0x0EB1, 0x0EB1); (0x0EB4, 0x0EBC); (0x0EC6, 0x0EC6); (0x0EC8, 0x0ECD); (0x0F18, 0x0F19);
    (0x0F35, 0x0F35); (0x0F37, 0x0F37); (0x0F39, 0x0F39); (0x0F71, 0x0F7E); (0x0F80, 0x0F84);
    (0x0F86, 0x0F87); (0x0F8D, 0x0F97); (0x0F99, 0x0FBC); (0x0FC6, 0x0FC6); (0x102D, 0x1030);
    (0x1032, 0x1037); (0x1039, 0x103A); (0x103D, 0x103E); (0x1058, 0x1059); (0x105E, 0x1060);
    (0x1071, 0x1074); (0x1082, 0x1082); (0x1085, 0x1086); (0x108D, 0x108D); (0x109D, 0x109D);
    (0x10FC, 0x10FC); (0x135D, 0x135F); (0x1712, 0x1714); (0x1732, 0x1733); (0x1752, 0x1753);
    (0x1772, 0x1773); (0x17B4, 0x17B5); (0x17B7, 0x17BD); (0x17C6, 0x17C6); (0x17C9, 0x17D3);
    (0x17D7, 0x17D7); (0x17DD, 0x17DD); (0x180B, 0x180F); (0x1843, 0x1843); (0x1885, 0x1886);
    (0x18A9, 0x18A9); (0x1920, 0x1922); (0x1927, 0x1928); (0x1932, 0x1932); (0x1939, 0x193B);
    (0x1A17, 0x1A18); (0x1A1B, 0x1A1B); (0x1A56, 0x1A56); (0x1A58, 0x1A5E); (0x1A60, 0x1A60);
    (0x1A62, 0x1A62); (0x1A65, 0x1A6C); (0x1A73, 0x1A7C); (0x1A7F, 0x1A7F); (0x1AA7, 0x1AA7);
    (0x1AB0, 0x1ACE); (0x1B00, 0x1B03); (0x1B34, 0x1B34); (0x1B36, 0x1B3A); (0x1B3C, 0x1B3C);
    (0x1B42, 0x1B42); (0x1B6B, 0x1B73); (0x1B80, 0x1B81); (0x1BA2, 0x1BA5); (0x1BA8, 0x1BA9);
    (0x1BAB, 0x1BAD); (0x1BE6, 0x1BE6); (0x1BE8, 0x1BE9); (0x1BED, 0x1BED); (0x1BEF, 0x1BF1);
    (0x1C2C, 0x1C33); (0x1C36, 0x1C37); (0x1C78, 0x1C7D); (0x1CD0, 0x1CD2); (0x1CD4, 0x1CE0);
    (0x1CE2, 0x1CE8); (0x1CED, 0x1CED); (0x1CF4, 0x1CF4); (0x1CF8, 0x1CF9); (0x1D2C, 0x1D6A);
    (0x1D78, 0x1D78); (0x1D9B, 0x1DFF); (0x1FBD, 0x1FBD); (0x1FBF, 0x1FC1); (0x1FCD, 0x1FCF);
    (0x1FDD, 0x1FDF); (0x1FED, 0x1FEF); (0x1FFD, 0x1FFE); (0x200B, 0x200F); (0x2018, 0x2019);
    (0x2024, 0x2024); (0x2027, 0x2027); (0x202A, 0x202E); (0x2060, 0x2064); (0x2066, 0x206F);
    (0x2071, 0x2071); (0x207F, 0x207F); (0x2090, 0x209C); (0x20D0, 0x20F0); (0x2C7C, 0x2C7D);
    (0x2CEF, 0x2CF1); (0x2D6F, 0x2D6F); (0x2D7F, 0x2D7F); (0x2DE0, 0x2DFF); (0x2E2F, 0x2E2F);
    (0x3005, 0x3005); (0x302A, 0x302D); (0x3031, 0x3035); (0x303B, 0x303B); (0x3099, 0x309E);
    (0x30FC, 0x30FE); (0xA015, 0xA015); (0xA4F8, 0xA4FD); (0xA60C, 0xA60C); (0xA66F, 0xA672);
    (0xA674, 0xA67D); (0xA67F, 0xA67F); (0xA69C, 0xA69F); (0xA6F0, 0xA6F1); (0xA700, 0xA721);
    (0xA770, 0xA770); (0xA788, 0xA78A); (0xA7F2, 0xA7F4); (0xA7F8, 0xA7F9); (0xA802, 0xA802);
    (0xA806, 0xA806); (0xA80B, 0xA80B); (0xA825, 0xA826); (0xA82C, 0xA82C); (0xA8C4, 0xA8C5);
    (0xA8E0, 0xA8F1); (0xA8FF, 0xA8FF); (0xA926, 0xA92D); (0xA947, 0xA951); (0xA980, 0xA982);
    (0xA9B3, 0xA9B3); (0xA9B6, 0xA9B9); (0xA9BC, 0xA9BD); (0xA9CF, 0xA9CF); (0xA9E5, 0xA9E6);
    (0xAA29, 0xAA2E); (0xAA31, 0xAA32); (0xAA35, 0xAA36); (0xAA43, 0xAA43); (0xAA4C, 0xAA4C);
    (0xAA70, 0xAA70); (0xAA7C, 0xAA7C); (0xAAB0, 0xAAB0); (0xAAB2, 0xAAB4); (0xAAB7, 0xAAB8);
    (0xAABE, 0xAABF); (0xAAC1, 0xAAC1); (0xAADD, 0xAADD); (0xAAEC, 0xAAED); (0xAAF3, 0xAAF4);
    (0xAAF6, 0xAAF6); (0xAB5B, 0xAB5F); (0xAB69, 0xAB6B); (0xABE5, 0xABE5); (0xABE8, 0xABE8);
    (0xABED, 0xABED); (0xFB1E, 0xFB1E); (0xFBB2, 0xFBC2); (0xFE00, 0xFE0F); (0xFE13, 0xFE13);
    (0xFE20, 0xFE2F); (0xFE52, 0xFE52); (0xFE55, 0xFE55); (0xFEFF, 0xFEFF); (0xFF07, 0xFF07);
    (0xFF0E, 0xFF0E); (0xFF1A, 0xFF1A); (0xFF3E, 0xFF3E); (0xFF40, 0xFF40); (0xFF70, 0xFF70);
    (0xFF9E, 0xFF9F); (0xFFE3, 0xFFE3); (0xFFF9, 0xFFFB); (0x101FD, 0x101FD);
    (0x102E0, 0x102E0); (0x10376, 0x1037A); (0x10780, 0x10785); (0x10787, 0x107B0);
    (0x107B2, 0x107BA); (0x10A01, 0x10A03); (0x10A05, 0x10A06); (0x10A0C, 0x10A0F);
    (0x10A38, 0x10A3A); (0x10A3F, 0x10A3F); (0x10AE5, 0x10AE6); (0x10D24, 0x10D27);
    (0x10EAB, 0x10EAC); (0x10F46, 0x10F50); (0x10F82, 0x10F85); (0x11001, 0x11001);
    (0x11038, 0x11046); (0x11070, 0x11070); (0x11073, 0x11074); (0x1107F, 0x11081);
    (0x110B3, 0x110B6); (0x110B9, 0x110BA); (0x110BD, 0x110BD); (0x110C2, 0x110C2);
    (0x110CD, 0x110CD); (0x11100, 0x11102); (0x11127, 0x1112B); (0x1112D, 0x11134);
    (0x11173, 0x11173); (0x11180, 0x11181); (0x111B6, 0x111BE); (0x111C9, 0x111CC);
    (0x111CF, 0x111CF); (0x1122F, 0x11231); (0x11234, 0x11234); (0x11236, 0x11237);
    (0x1123E, 0x1123E); (0x112DF, 0x112DF); (0x112E3, 0x112EA); (0x11300, 0x11301);
    (0x1133B, 0x1133C); (0x11340, 0x11340); (0x11366, 0x1136C); (0x11370, 0x11374);
    (0x11438, 0x1143F); (0x11442, 0x11444); (0x11446, 0x11446); (0x1145E, 0x1145E);
    (0x114B3, 0x114B8); (0x114BA, 0x114BA); (0x114BF, 0x114C0); (0x114C2, 0x114C3);
    (0x115B2, 0x115B5); (0x115BC, 0x115BD); (0x115BF, 0x115C0); (0x115DC, 0x115DD);
    (0x11633, 0x1163A); (0x1163D, 0x1163D); (0x1163F, 0x11640); (0x116AB, 0x116AB);
    (0x116AD, 0x116AD); (0x116B0, 0x116B5); (0x116B7, 0x116B7); (0x1171D, 0x1171F);
    (0x11722, 0x11725); (0x11727, 0x1172B); (0x1182F, 0x11837); (0x11839, 0x1183A);
    (0x1193B, 0x1193C); (0x1193E, 0x1193E); (0x11943, 0x11943); (0x119D4, 0x119D7);
    (0x119DA, 0x119DB); (0x119E0, 0x119E0); (0x11A01, 0x11A0A); (0x11A33, 0x11A38);
    (0x11A3B, 0x11A3E); (0x11A47, 0x11A47); (0x11A51, 0x11A56); (0x11A59, 0x11A5B);
    (0x11A8A, 0x11A96); (0x11A98, 0x11A99); (0x11C30, 0x11C36); (0x11C38, 0x11C3D);
    (0x11C3F, 0x11C3F); (0x11C92, 0x11CA7); (0x11CAA, 0x11CB0); (0x11CB2, 0x11CB3);
    (0x11CB5, 0x11CB6); (0x11D31, 0x11D36); (0x11D3A, 0x11D3A); (0x11D3C, 0x11D3D);
    (0x11D3F, 0x11D45); (0x11D47, 0x11D47); (0x11D90, 0x11D91); (0x11D95, 0x11D95);
    (0x11D97, 0x11D97); (0x11EF3, 0x11EF4); (0x13430, 0x13438); (0x16AF0, 0x16AF4);
    (0x16B30, 0x16B36); (0x16B40, 0x16B43); (0x16F4F, 0x16F4F); (0x16F8F, 0x16F9F);
    (0x16FE0, 0x16FE1); (0x16FE3, 0x16FE4); (0x1AFF0, 0x1AFF3); (0x1AFF5, 0x1AFFB);
    (0x1AFFD, 0x1AFFE); (0x1BC9D, 0x1BC9E); (0x1BCA0, 0x1BCA3); (0x1CF00, 0x1CF2D);
    (0x1CF30, 0x1CF46); (0x1D167, 0x1D169); (0x1D173, 0x1D182); (0x1D185, 0x1D18B);
    (0x1D1AA, 0x1D1AD); (0x1D242, 0x1D244); (0x1DA00, 0x1DA36); (0x1DA3B, 0x1DA6C);
    (0x1DA75, 0x1DA75); (0x1DA84, 0x1DA84); (0x1DA9B, 0x1DA9F); (0x1DAA1, 0x1DAAF);
    (0x1E000, 0x1E006); (0x1E008, 0x1E018); (0x1E01B, 0x1E021); (0x1E023, 0x1E024);
    (0x1E026, 0x1E02A); (0x1E130, 0x1E13D); (0x1E2AE, 0x1E2AE); (0x1E2EC, 0x1E2EF);
    (0x1E8D0, 0x1E8D6); (0x1E944, 0x1E94B); (0x1F3FB, 0x1F3FF); (0xE0001, 0xE0001);
    (0xE0020, 0xE007F); (0xE0100, 0xE01EF)  ].

Fixpoint lookup (c : N) (t : list (N * list N)) : option (list N) :=
  match t with
  | [] => None
  | (k, v) :: t' => if c =? k then Some v else lookup c t'
  end.

Fixpoint lookup_class (c : N) (t : list (N * N * N)) : N :=
  match t with
  | [] => 0
  | (lo, hi, k) :: t' =>
      if (lo <=? c) && (c <=? hi) then k else lookup_class c t'
  end.

Definition in_ranges (c : N) (t : list (N * N)) : bool :=
  existsb (fun r => (fst r <=? c) && (c <=? snd r)) t.

Definition lower_cp (c : N) : list N :=
  match lookup c lowercase_table with Some l => l | None => [c] end.

(** Canonical_Combining_Class; 0 marks a starter. *)
Definition ccc (c : N) : N := lookup_class c combining_class_table.

Definition cased (c : N) : bool := in_ranges c cased_table.
Definition case_ignorable (c : N) : bool := in_ranges c case_ignorable_table.

(** *** toLowerCase *)

(** The one mapping that depends on the context: capital sigma becomes
    the final sigma when a cased letter precedes it, case-ignorable
    characters apart, and none follows it in the same way. *)
Fixpoint skip_ignorable (l : list N) : list N :=
  match l with
  | c :: l' => if case_ignorable c then skip_ignorable l' else l
  | [] => []
  end.

Definition cased_next (l : list N) : bool :=
  match skip_ignorable l with
  | c :: _ => cased c
  | [] => false
  end.

Definition capital_sigma : N := 0x03A3.
Definition small_sigma : N := 0x03C3.
Definition final_sigma : N := 0x03C2.

(** [before] holds the code points already passed, the nearest first. *)
Fixpoint lower_from (before l : list N) : list N :=
  match l with
  | [] => []
  | c :: l' =>
      (if c =? capital_sigma then
         if cased_next before && negb (cased_next l') then [final_sigma]
         else [small_sigma]
       else lower_cp c)
      ++ lower_from (c :: before) l'
  end.

(** [s.toLowerCase()] *)
Definition toLowerCase (s : JSString) : JSString :=
  of_code_points (lower_from [] (code_points s)).

(** *** normalize("NFD") *)

(** Hangul syllables U+AC00..U+D7A3 decompose into two or three jamo. *)
Definition hangul (c : N) : list N :=
  let s := c - 0xAC00 in
  let l := 0x1100 + s / 588 in
  let v := 0x1161 + (s mod 588) / 28 in
  let t := 0x11A7 + s mod 28 in
  if t =? 0x11A7 then [l; v] else [l; v; t].

Definition decompose_cp (c : N) : list N :=
  if (0xAC00 <=? c) && (c <=? 0xD7A3) then hangul c
  else match lookup c decomposition_table with Some l => l | None => [c] end.

(** Canonical Ordering Algorithm: within every maximal run of non-starters
    the marks are sorted by combining class, stably. [run] is the sorted
    run collected since the last starter. *)
Fixpoint insert_mark (c : N) (run : list N) : list N :=
  match run with
  | [] => [c]
  | d :: run' =>
      if ccc c <? ccc d then c :: d :: run' else d :: insert_mark c run'
  end.

Fixpoint reorder_from (run : list N) (s : list N) : list N :=
  match s with
  | [] => run
  | c :: s' =>
      if ccc c =? 0 then run ++ c :: reorder_from [] s'
      else reorder_from (insert_mark c run) s'
  end.

Definition canonical_order (s : list N) : list N := reorder_from [] s.

(** [s.normalize("NFD")]: full canonical decomposition, then canonical
    ordering. *)
Definition NFD (s : JSString) : JSString :=
  of_code_points (canonical_order (flat_map decompose_cp (code_points s))).

End Unicode.

(* ===================================================================== *)
(** ** Effects: exceptions, the event log, and the outside world *)
(* ===================================================================== *)

Module Effects.

(** Values that the platform or the service itself can throw. *)
Inductive JSError : Type :=
| ErrorMsg (message : string)      (* new Error(message) *)
| TypeError                        (* network failure of fetch, invalid URL *)
| AbortError                       (* fetch aborted by the 10 s timer *)
| URIError                         (* encodeURIComponent on a lone surrogate *)
| SyntaxError                      (* JSON.parse *)
| OtherError.

(** Result of evaluating an expression or of awaiting a promise. *)
Inductive Outcome (A : Type) : Type :=
| Value (a : A)
| Thrown (e : JSError).
Arguments Value {A} a.
Arguments Thrown {A} e.

(** What the service observes of a [Blob]: [type], [size], [text()]. *)
Record Blob : Type := mkBlob {
  blob_type : JSString;
  blob_size : N;
  blob_text : Outcome JSString
}.

(** What the service observes of a fetch [Response]. *)
Record Response : Type := mkResponse {
  resp_ok : bool;
  resp_content_disposition : option JSString;  (* headers.get(...) or null *)
  resp_blob : Outcome Blob;                    (* response.blob() *)
  resp_text : Outcome JSString                 (* response.text() *)
}.

(** [new File([blob], name, { type })] *)
Record File : Type := mkFile {
  file_name : JSString;
  file_type : JSString;
  file_blob : Blob
}.

Definition file_size (f : File) : N := blob_size (file_blob f).

(** An [<a>] element: [getAttribute] yields [null] for a missing
    attribute, [textContent] is always a string. *)
Record Anchor : Type := mkAnchor {
  a_href : option JSString;
  a_text : JSString;
  a_title : option JSString;
  a_aria_label : option JSString;
  a_id : option JSString;
  a_class : option JSString
}.

(** Parsed JSON, as far as the service looks into it (it does not). *)
#[warnings="-register-all"]
Inductive Json : Type :=
| JNull
| JBool (b : bool)
| JNumber (literal : JSString)
| JString (s : JSString)
| JArray (items : list Json)
| JObject (fields : list (JSString * Json)).

(** Observable actions, in the order they happen. [EvProbe] marks a call
    of [probeAndDownloadLink]. *)
Inductive Event : Type :=
| EvFetch (url : JSString)
| EvProbe (url : JSString)
| EvProgress (processed total : nat)
| EvConsole.

Definition World : Type := list Event.

(** The browser, the network and the remote services. A fetch that fails
    on the network or is aborted by the timer is a [Thrown] outcome. *)
Record Env : Type := mkEnv {
  env_fetch : JSString -> Outcome Response;
  env_clock : World -> N;                               (* new Date().getTime() *)
  env_url_href : JSString -> JSString -> Outcome JSString; (* new URL(href, base).href *)
  env_anchors : JSString -> list Anchor;   (* DOMParser + querySelectorAll('a') *)
  env_api_key : option JSString;                        (* process.env.API_KEY *)
  env_file_to_part : File -> Outcome JSString;          (* FileReader, base64 payload *)
  env_generate : JSString -> Outcome (option JSString); (* generateContent(...).text *)
  env_json_parse : JSString -> Outcome Json             (* JSON.parse *)
}.

(** Computations: read and extend the log, return or throw. *)
Definition M (A : Type) : Type := World -> Outcome A * World.

Definition ret {A} (a : A) : M A := fun w => (Value a, w).

Definition throw {A} (e : JSError) : M A := fun w => (Thrown e, w).

Definition bind {A B} (m : M A) (k : A -> M B) : M B :=
  fun w =>
    match m w with
    | (Value a, w') => k a w'
    | (Thrown e, w') => (Thrown e, w')
    end.

(** [try { m } catch (e) { h e }] *)
Definition try_catch {A} (m : M A) (h : JSError -> M A) : M A :=
  fun w =>
    match m w with
    | (Value a, w') => (Value a, w')
    | (Thrown e, w') => h e w'
    end.

(** Awaiting a promise whose settlement the environment decides. *)
Definition await {A} (o : Outcome A) : M A := fun w => (o, w).

Definition emit (e : Event) : M unit := fun w => (Value tt, w ++ [e]).

Definition fetch (env : Env) (url : JSString) : M Response :=
  fun w => (env_fetch env url, w ++ [EvFetch url]).

Definition getTime (env : Env) : M N :=
  fun w => (Value (env_clock env w), w).

(** [Promise.all]: every member runs; the first rejection, if any, is the
    result. The members of one call do not share state and the
    environment answers by URL, so they are run in list order. *)
Fixpoint promise_all {A} (ms : list (M A)) : M (list A) :=
  match ms with
  | [] => ret []
  | m :: ms' =>
      fun w =>
        let (o, w1) := m w in
        let (os, w2) := promise_all ms' w1 in
        (match o, os with
         | Value a, Value l => Value (a :: l)
         | Thrown e, _ => Thrown e
         | Value _, Thrown e => Thrown e
         end, w2)
  end.

End Effects.

Import Effects.

Declare Scope js_scope.
Delimit Scope js_scope with js.
Notation "x <- m ;; k" := (bind m (fun x => k))
  (at level 61, m at next level, right associativity) : js_scope.
Notation "m ;;; k" := (bind m (fun _ => k))
  (at level 61, right associativity) : js_scope.

(* ===================================================================== *)
(** ** The service *)
(* ===================================================================== *)

Module Service.

Open Scope js_scope.

(** *** normalizeText *)

Definition normalizeText (text : JSString) : JSString :=
  remove_range 0x0300 0x036f (Unicode.NFD (Unicode.toLowerCase text)).

(** *** classifyFile *)

Inductive FileClass : Type := ADMIN | TECH | UNKNOWN.

Definition FileClass_eqb (a b : FileClass) : bool :=
  match a, b with
  | ADMIN, ADMIN | TECH, TECH | UNKNOWN, UNKNOWN => true
  | _, _ => false
  end.

Definition classifyFile (file : File) : FileClass :=
  let name := normalizeText (file_name file) in
  if includes name (js "pcap") ||
     includes name (js "admin") ||
     includes name (js "clausula") ||
     includes name (js "juridico") ||
     includes name (js "caratula")
  then ADMIN
  else
  if includes name (js "ppt") ||
     includes name (js "tecnic") ||
     includes name (js "prescrip") ||
     includes name (js "memoria") ||
     includes name (js "proyecto")
  then TECH
  else UNKNOWN.

(** *** encodeURIComponent (platform) *)

Definition hex_digit (n : N) : N :=
  (if n <? 10 then 48 + n else 55 + n)%N.

Definition percent (byte : N) : JSString :=
  [37; hex_digit (byte / 16); hex_digit (byte mod 16)]%N.

Definition utf8 (cp : N) : list N :=
  (if cp <? 0x80 then [cp]
   else if cp <? 0x800 then [0xC0 + cp / 64; 0x80 + cp mod 64]
   else if cp <? 0x10000 then
     [0xE0 + cp / 4096; 0x80 + (cp / 64) mod 64; 0x80 + cp mod 64]
   else
     [0xF0 + cp / 262144; 0x80 + (cp / 4096) mod 64;
      0x80 + (cp / 64) mod 64; 0x80 + cp mod 64])%N.

Definition in_range (lo hi c : N) : bool := ((lo <=? c) && (c <=? hi))%N.

(** Left as they are: ASCII letters, digits and the nine marks
    hyphen, underscore, dot, exclamation mark, tilde, asterisk,
    apostrophe and the two parentheses. *)
Definition uri_unreserved (c : N) : bool :=
  in_range 65 90 c || in_range 97 122 c || in_range 48 57 c ||
  existsb (N.eqb c) [45; 95; 46; 33; 126; 42; 39; 40; 41]%N.

Definition is_high_surrogate (c : N) : bool := in_range 0xD800 0xDBFF c.
Definition is_low_surrogate (c : N) : bool := in_range 0xDC00 0xDFFF c.

Definition escape (cp : N) : JSString := flat_map percent (utf8 cp).

(** [None] stands for the URIError raised on an unpaired surrogate. *)
Fixpoint encode (s : JSString) : option JSString :=
  match s with
  | [] => Some []
  | c :: rest =>
      if uri_unreserved c then option_map (cons c) (encode rest)
      else if is_low_surrogate c then None
      else if is_high_surrogate c then
        match rest with
        | d :: rest' =>
            if is_low_surrogate d then
              option_map
                (app (escape (0x10000 + (c - 0xD800) * 0x400 + (d - 0xDC00))%N))
                (encode rest')
            else None
        | [] => None
        end
      else option_map (app (escape c)) (encode rest)
  end.

Definition encodeURIComponent (s : JSString) : M JSString :=
  match encode s with
  | Some e => ret e
  | None => throw URIError
  end.

(** *** downloadFileFromUrl *)

(** Capture group 1 of the regular expression applied to the
    Content-Disposition header: the literal [filename=], an optional
    single or double quote, then the longest non-empty run of code units
    that are not quotes. The leftmost match wins. *)
Definition is_quote (c : N) : bool := ((c =? 39) || (c =? 34))%N.

Fixpoint unquoted_run (s : JSString) : JSString :=
  match s with
  | [] => []
  | c :: s' => if is_quote c then [] else c :: unquoted_run s'
  end.

Definition filename_match_here (s : JSString) : option JSString :=
  if startsWith s (js "filename=") then
    let rest := skipn 9 s in
    let body :=
      match rest with
      | c :: rest' => if is_quote c then rest' else rest
      | [] => rest
      end in
    match unquoted_run body with
    | [] => None
    | g => Some g
    end
  else None.

Fixpoint filename_match (s : JSString) : option JSString :=
  match filename_match_here s with
  | Some g => Some g
  | None =>
      match s with
      | [] => None
      | _ :: s' => filename_match s'
      end
  end.

Definition tryDownload (env : Env) (fetchUrl : JSString)
  : M (option (Blob * JSString)) :=
  try_catch
    ((* the AbortController and its 10 s timer live in the fetch outcome *)
     response <- fetch env fetchUrl ;;
     if negb (resp_ok response) then ret None else
     blob <- await (resp_blob response) ;;
     rejected <-
       (if includes (blob_type blob) (js "text/html") || (blob_size blob <? 2000)%N
        then
          marker <-
            try_catch
              (text <- await (blob_text blob) ;;
               ret (includes text (js "<html") ||
                    includes text (js "Error") ||
                    includes text (js "Denied")))
              (fun _ => ret false) ;;
          if marker then ret true
          else if includes (blob_type blob) (js "text/html") then ret true
          else ret false
        else ret false) ;;
     if (rejected : bool) then ret None else
     let filename :=
       match resp_content_disposition response with
       | Some disposition =>
           if negb (is_empty disposition) &&
              includes disposition (js "filename=")
           then
             match filename_match disposition with
             | Some g => g
             | None => []
             end
           else []
       | None => []
       end in
     ret (Some (blob, filename)))
    (fun _ => ret None).

Definition corsproxy : JSString := js "https://corsproxy.io/?".
Definition allorigins : JSString := js "https://api.allorigins.win/raw?url=".

(** The tail of [downloadFileFromUrl]: choose the extension and the name,
    wrap the blob. *)
Definition materialize (env : Env) (defaultPrefix : JSString)
    (blob : Blob) (filename : JSString) : M File :=
  let extension :=
    if negb (is_empty filename) && includes filename (js ".")
    then js ".pdf"
    else if eqb (blob_type blob) (js "application/pdf") then js ".pdf"
    else if includes (blob_type blob) (js "zip") then js ".zip"
    else if includes (blob_type blob) (js "word") then js ".docx"
    else js ".pdf" in
  finalName <-
    (if negb (is_empty filename) then ret filename
     else
       now <- getTime env ;;
       ret (defaultPrefix ++ js "_" ++ digits now ++ extension)) ;;
  ret (mkFile finalName (blob_type blob) blob).

Definition downloadFileFromUrl (env : Env) (url defaultPrefix : JSString)
  : M (option File) :=
  if is_empty url || negb (startsWith url (js "http")) then ret None else
  try_catch
    (enc <- encodeURIComponent url ;;
     let proxyUrl := corsproxy ++ enc in
     result <- tryDownload env proxyUrl ;;
     result <-
       match result with
       | Some _ => ret result
       | None =>
           enc <- encodeURIComponent url ;;
           let aoUrl := allorigins ++ enc in
           tryDownload env aoUrl
       end ;;
     match result with
     | None => ret None
     | Some (blob, filename) =>
         file <- materialize env defaultPrefix blob filename ;;
         ret (Some file)
     end)
    (fun _ => emit EvConsole ;;; ret None).

(** *** isRelevantLink *)

Definition isRelevantLink (url : JSString) : bool :=
  let lower := Unicode.toLowerCase url in
  if startsWith lower (js "mailto:") then false
  else if includes lower (js "google.com") ||
          includes lower (js "facebook") ||
          includes lower (js "twitter") ||
          includes lower (js "linkedin") then false
  else if includes lower (js "maps.") || includes lower (js "youtube") then false
  else true.

(** *** probeAndDownloadLink *)

Definition probeAndDownloadLink (env : Env) (url : JSString)
  : M (option (File * FileClass)) :=
  emit (EvProbe url) ;;;
  if negb (isRelevantLink url) then ret None else
  file <- downloadFileFromUrl env url (js "doc") ;;
  match file with
  | Some file => ret (Some (file, classifyFile file))
  | None => ret None
  end.

(** *** probeLinksInBatches *)

Record ProbeResults : Type := mkResults {
  admin : option File;
  tech : option File
}.

(** [!results.slot]: a [File] object is always truthy. *)
Definition vacant (slot : option File) : bool :=
  match slot with Some _ => false | None => true end.

Definition both_filled (results : ProbeResults) : bool :=
  negb (vacant (admin results)) && negb (vacant (tech results)).

(** [Array.from(new Set(links))]: elements in order of first insertion. *)
Definition set_add (acc : list JSString) (x : JSString) : list JSString :=
  if existsb (eqb x) acc then acc else acc ++ [x].

Definition array_from_set (links : list JSString) : list JSString :=
  fold_left set_add links [].

Definition uniqueLinks (links : list JSString) : list JSString :=
  filter isRelevantLink (array_from_set links).

(** [a.slice(i, j)] for [0 <= i <= j]. *)
Definition slice {A} (a : list A) (i j : nat) : list A :=
  firstn (j - i) (skipn i a).

Definition BATCH_SIZE : nat := 4.

(** The body of [for (const res of batchResults)]. *)
Definition assign (results : ProbeResults) (res : option (File * FileClass))
  : ProbeResults :=
  match res with
  | None => results
  | Some (file, type) =>
      if FileClass_eqb type ADMIN && vacant (admin results)
      then mkResults (Some file) (tech results)
      else if FileClass_eqb type TECH && vacant (tech results)
      then mkResults (admin results) (Some file)
      else if FileClass_eqb type UNKNOWN then
        if vacant (admin results) then mkResults (Some file) (tech results)
        else if vacant (tech results) then mkResults (admin results) (Some file)
        else results
      else results
  end.

(** One pass through the body of the [for] loop, after the [break] test. *)
Definition probeGroup (env : Env) (links : list JSString) (onProgress : bool)
    (i : nat) (results : ProbeResults) (processed : nat)
  : M (ProbeResults * nat) :=
  let batch := slice links i (i + BATCH_SIZE) in
  batchResults <- promise_all (map (probeAndDownloadLink env) batch) ;;
  let results := fold_left assign batchResults results in
  let processed := processed + List.length batch in
  (if onProgress
   then emit (EvProgress (Nat.min processed (List.length links))
                         (List.length links))
   else ret tt) ;;;
  ret (results, processed).

(** The [for] loop from index [i] on. [onProgress] tells whether the
    caller passed a callback; a call of it is an [EvProgress] event. *)
Equations? probeLoop (env : Env) (links : list JSString) (onProgress : bool)
    (i : nat) (results : ProbeResults) (processed : nat) (w : World)
  : Outcome ProbeResults * World by wf (List.length links - i) lt :=
  probeLoop env links onProgress i results processed w
    with lt_dec i (List.length links) := {
    | right _ := (Value results, w);
    | left _ with both_filled results := {
      | true := (Value results, w);
      | false with probeGroup env links onProgress i results processed w := {
        | (Value (results', processed'), w') :=
            probeLoop env links onProgress (i + BATCH_SIZE) results' processed' w';
        | (Thrown e, w') := (Thrown e, w') } } }.
Proof. unfold BATCH_SIZE. lia. Qed.

Definition probeLinksInBatches (env : Env) (links : list JSString)
    (onProgress : bool) : M ProbeResults :=
  probeLoop env (uniqueLinks links) onProgress 0 (mkResults None None) 0.

(** *** scrapeDocsFromWeb *)

Record ScrapedLinks : Type := mkScraped {
  adminUrl : option JSString;
  techUrl : option JSString
}.

(** State of the scan over the anchors. *)
Record Scan : Type := mkScan {
  scan_adminUrl : option JSString;
  scan_techUrl : option JSString;
  potentialPdfs : list JSString
}.

(** Truthiness of a [string | undefined]. *)
Definition truthy (v : option JSString) : bool :=
  match v with
  | Some s => negb (is_empty s)
  | None => false
  end.

(** [v] or, when it is null or empty, the empty string. *)
Definition or_empty (v : option JSString) : JSString :=
  match v with
  | Some s => s
  | None => []
  end.

Definition resolveUrl (env : Env) (pageUrl href : JSString) : JSString :=
  if startsWith href (js "http") then href
  else
    match env_url_href env href pageUrl with
    | Value u => u
    | Thrown _ => href
    end.

Definition skipped (href : option JSString) : bool :=
  match href with
  | None => true
  | Some href =>
      is_empty href || startsWith href (js "javascript") ||
      eqb href (js "#") || eqb href (js "/")
  end.

Definition combinedText (link : Anchor) : JSString :=
  normalizeText
    (a_text link ++ js " " ++ or_empty (a_title link) ++ js " " ++
     or_empty (a_aria_label link) ++ js " " ++ or_empty (a_id link) ++ js " " ++
     or_empty (a_class link) ++ js " " ++ or_empty (a_href link)).

Definition isAdmin (combined : JSString) : bool :=
  includes combined (js "pcap") ||
  includes combined (js "clausulas") ||
  includes combined (js "administrativ") ||
  includes combined (js "caratula") ||
  includes combined (js "bases") ||
  includes combined (js "anexo").

Definition isTech (combined : JSString) : bool :=
  includes combined (js "ppt") ||
  includes combined (js "prescripciones") ||
  includes combined (js "tecnic") ||
  includes combined (js "memoria") ||
  includes combined (js "proyecto").

Definition isFile (fullUrl : JSString) : bool :=
  endsWith (Unicode.toLowerCase fullUrl) (js ".pdf") ||
  endsWith (Unicode.toLowerCase fullUrl) (js ".zip").

(** The body of [for (const link of links)]. *)
Definition scanLink (env : Env) (pageUrl : JSString) (st : Scan) (link : Anchor)
  : Scan :=
  if skipped (a_href link) then st else
  let fullUrl := resolveUrl env pageUrl (or_empty (a_href link)) in
  let combined := combinedText link in
  let pdfs :=
    if isFile fullUrl then potentialPdfs st ++ [fullUrl] else potentialPdfs st in
  let adminUrl :=
    if negb (truthy (scan_adminUrl st)) && isAdmin combined
    then Some fullUrl else scan_adminUrl st in
  let techUrl :=
    if negb (truthy (scan_techUrl st)) && isTech combined
    then Some fullUrl else scan_techUrl st in
  mkScan adminUrl techUrl pdfs.

(** The backfill after the scan. *)
Definition backfill (st : Scan) : ScrapedLinks :=
  match potentialPdfs st with
  | [] => mkScraped (scan_adminUrl st) (scan_techUrl st)
  | _ :: _ =>
      let adminUrl :=
        if negb (truthy (scan_adminUrl st)) && truthy (nth_error (potentialPdfs st) 0)
        then nth_error (potentialPdfs st) 0 else scan_adminUrl st in
      let techUrl :=
        if negb (truthy (scan_techUrl st)) && truthy (nth_error (potentialPdfs st) 1)
        then nth_error (potentialPdfs st) 1 else scan_techUrl st in
      mkScraped adminUrl techUrl
  end.

Definition scanAnchors (env : Env) (pageUrl : JSString) (links : list Anchor)
  : ScrapedLinks :=
  backfill (fold_left (scanLink env pageUrl) links (mkScan None None [])).

Definition scrapeDocsFromWeb (env : Env) (pageUrl : JSString) : M ScrapedLinks :=
  if is_empty pageUrl || negb (startsWith pageUrl (js "http"))
  then ret (mkScraped None None)
  else
    try_catch
      (enc <- encodeURIComponent pageUrl ;;
       let proxyUrl := corsproxy ++ enc in
       response <- fetch env proxyUrl ;;
       if negb (resp_ok response) then throw (ErrorMsg "Proxy response not ok")
       else
         htmlString <- await (resp_text response) ;;
         ret (scanAnchors env pageUrl (env_anchors env htmlString)))
      (fun _ => emit EvConsole ;;; ret (mkScraped None None)).

(** *** extractMetadataFromTenderFile *)

(** The client is represented by its key; the message of the error is
    given by its first words. *)
Definition getAiClient (env : Env) : M JSString :=
  match env_api_key env with
  | Some key =>
      if is_empty key then throw (ErrorMsg "API Key no encontrada") else ret key
  | None => throw (ErrorMsg "API Key no encontrada")
  end.

Definition fileToPart (env : Env) (file : File) : M JSString :=
  await (env_file_to_part env file).

(** The object literal returned when the response carries no text. *)
Definition emptyMetadata : Json :=
  JObject
    [(js "name", JString []); (js "adminUrl", JString []);
     (js "techUrl", JString []); (js "tenderPageUrl", JString []);
     (js "budget", JString []); (js "scoringSystem", JString [])].

Definition extractMetadataFromTenderFile (env : Env) (file : File) : M Json :=
  ai <- getAiClient env ;;
  filePart <- fileToPart env file ;;
  try_catch
    (text <- await (env_generate env filePart) ;;
     if negb (truthy text) then ret emptyMetadata
     else await (env_json_parse env (or_empty text)))
    (fun error => emit EvConsole ;;; throw error).

End Service.

Import Service.

(* ===================================================================== *)
(** ** The service, continued: links embedded in a PDF *)
(* ===================================================================== *)

Module Pdf.

Open Scope js_scope.

(** What the service observes of a PDF annotation. *)
Record Annotation : Type := mkAnnotation {
  ant_subtype : JSString;
  ant_url : option JSString
}.

(** The PDF library as the service uses it: reading the file and opening
    the document may fail as a whole; otherwise there is one entry per page,
    in page order, which is the list of its annotations unless the page or
    its annotations cannot be loaded. *)
Definition PdfJs : Type := File -> Outcome (list (Outcome (list Annotation))).

(** The body of [for (const ant of annotations)]. *)
Definition addLink (links : list JSString) (ant : Annotation) : list JSString :=
  if eqb (ant_subtype ant) (js "Link") && truthy (ant_url ant)
  then set_add links (or_empty (ant_url ant))
  else links.

(** The loop over the pages, from the current page on. *)
Fixpoint collectLinks (pages : list (Outcome (list Annotation)))
    (links : list JSString) : M (list JSString) :=
  match pages with
  | [] => ret links
  | page :: pages' =>
      annotations <- await page ;;
      collectLinks pages' (fold_left addLink annotations links)
  end.

Definition extractLinksFromPdf (pdfjs : PdfJs) (file : File) : M (list JSString) :=
  try_catch
    (pdf <- await (pdfjs file) ;;
     collectLinks pdf [])
    (fun _ => emit EvConsole ;;; ret []).

End Pdf.

Import Pdf.

(* ===================================================================== *)
(** ** The service, continued: the feasibility analysis *)
(* ===================================================================== *)

Module Analysis.

Open Scope js_scope.

(** *** Text of the source file as JavaScript strings *)

(** The source file is UTF-8; a string literal of it denotes the UTF-16
    code units of its characters. *)
Fixpoint decode_utf8 (bytes : list N) : list N :=
  match bytes with
  | [] => []
  | b0 :: rest =>
      if (b0 <? 0x80)%N then b0 :: decode_utf8 rest
      else if (b0 <? 0xE0)%N then
        match rest with
        | b1 :: rest' =>
            ((b0 - 0xC0) * 64 + (b1 - 0x80))%N :: decode_utf8 rest'
        | _ => []
        end
      else if (b0 <? 0xF0)%N then
        match rest with
        | b1 :: b2 :: rest' =>
            ((b0 - 0xE0) * 4096 + (b1 - 0x80) * 64 + (b2 - 0x80))%N
              :: decode_utf8 rest'
        | _ => []
        end
      else
        match rest with
        | b1 :: b2 :: b3 :: rest' =>
            ((b0 - 0xF0) * 262144 + (b1 - 0x80) * 4096 + (b2 - 0x80) * 64 +
             (b3 - 0x80))%N :: decode_utf8 rest'
        | _ => []
        end
  end.

Definition code_units (cp : N) : JSString :=
  (if cp <? 0x10000 then [cp]
   else [0xD800 + (cp - 0x10000) / 0x400; 0xDC00 + (cp - 0x10000) mod 0x400])%N.

Definition utf16 (s : string) : JSString :=
  flat_map code_units (decode_utf8 (map N_of_ascii (list_ascii_of_string s))).

(** A double quote inside a literal. *)
Definition dq : JSString := [34%N].

(** The lines of a multi-line template literal, joined by line feeds. *)
Fixpoint lines (ls : list JSString) : JSString :=
  match ls with
  | [] => []
  | [l] => l
  | l :: ls' => l ++ 10%N :: lines ls'
  end.

(** *** buildAnalysisSystemPrompt *)

Definition promptHead : JSString :=
  lines [
   [];
   utf16 "    Actúa como un Analista Senior de Licitaciones Públicas (Bid Manager) en España. Voy a facilitarte información de los pliegos (PCAP y PPT) de una licitación.";
   [];
   utf16 "    Tu objetivo es generar un " ++ dq ++ utf16 "Informe Ejecutivo de Viabilidad" ++ dq ++ utf16 " para decidir el Go/No-Go. Debes analizar el texto proporcionado y extraer EXCLUSIVAMENTE la información estructurada solicitada. Sé crítico: si falta información, indícalo.";
   utf16 "    ";
   utf16 "    Tus decisiones deben basarse en las siguientes REGLAS DE NEGOCIO personalizadas:";
   utf16 "    "
  ].

Definition promptTail : JSString :=
  lines [
   [];
   utf16 "    ";
   utf16 "    DECISIÓN FINAL:";
   utf16 "    - KEEP: Si el pliego cumple las reglas y es interesante.";
   utf16 "    - DISCARD: Si incumple alguna regla bloqueante (Solvencia, ISOs) o no interesa.";
   utf16 "    - REVIEW: Si faltan datos críticos para decidir (ej: documento de solvencia ilegible o faltante) o hay dudas razonables.";
   [];
   utf16 "    INSTRUCCIONES DE EXTRACCIÓN Y ANÁLISIS:";
   utf16 "    ";
   utf16 "    1. 💰 ANÁLISIS ECONÓMICO (PRECIO Y COSTES)";
   utf16 "    - Presupuesto Base de Licitación (Sin IVA).";
   utf16 "    - Modelo de Precio: ¿Es a tanto alzado o precios unitarios?";
   utf16 "    - Base del Cálculo: ¿Qué incluye? (Dietas, desplazamientos, licencias, etc).";
   [];
   utf16 "    2. 🎯 ALCANCE DEL SERVICIO (QUÉ HAY QUE HACER)";
   utf16 "    - Resumen del Objeto: Explica en 2-3 frases sencillas qué trabajo físico o intelectual hay que entregar.";
   utf16 "    - Entregables Clave: Lista los productos/informes/servicios principales.";
   [];
   utf16 "    3. 👥 RECURSOS Y CRONOGRAMA";
   utf16 "    - Duración: [Meses/Años] + [Posibles Prórrogas].";
   utf16 "    - Equipo Mínimo Exigido (Adscripción de Medios): Perfiles, titulación, experiencia mínima.";
   utf16 "    - Dedicación: ¿Exclusiva? ¿Presencial?";
   [];
   utf16 "    4. 🚩 REQUISITOS BLOQUEANTES Y SOLVENCIA";
   utf16 "    - Certificaciones (ISO, ENS, Grupo/Subgrupo).";
   utf16 "    - Solvencia Técnica Específica (proyectos similares últimos 3 años).";
   utf16 "    - Penalidades inusuales.";
   [];
   utf16 "    5. 💡 ENFOQUE ESTRATÉGICO SUGERIDO";
   utf16 "    - Ángulo de Ataque: ¿Cómo plantear la propuesta?";
   [];
   utf16 "    6. 📊 PUNTUACIÓN DETALLADA (CRÍTICO)";
   utf16 "    - Debes desglosar la puntuación en tres categorías:";
   utf16 "       A) PRECIO (Matemático puro).";
   utf16 "       B) FÓRMULAS AUTOMÁTICAS (Objetivo pero no es precio, ej: bolsa de horas, mejoras, certificaciones).";
   utf16 "       C) JUICIO DE VALOR (Subjetivo, memoria técnica).";
   utf16 "    - IMPORTANTE: LISTA CADA SUB-CRITERIO INDIVIDUAL con su peso específico (puntos o %).";
   utf16 "      Ejemplo: " ++ dq ++ utf16 "Mejoras de plazo" ++ dq ++ utf16 " (Automático) -> 5 ptos. " ++ dq ++ utf16 "Plan de trabajo" ++ dq ++ utf16 " (Valor) -> 20 ptos.";
   [];
   utf16 "    Devuelve todo en formato JSON estricto.";
   utf16 "  "
  ].

(** The template with the rules in its one placeholder. *)
Definition buildAnalysisSystemPrompt (rules : JSString) : JSString :=
  promptHead ++ rules ++ promptTail.

(** *** analyzeTenderWithGemini *)

(** [TenderDocument] of types.ts. A status is the string value of the
    [TenderStatus] enumeration. *)
Record TenderDocument : Type := mkTender {
  tender_id : JSString;
  tender_name : JSString;
  tender_summaryFile : option File;
  tender_tenderPageUrl : option JSString;
  tender_adminUrl : JSString;
  tender_adminFile : option File;
  tender_techUrl : JSString;
  tender_techFile : option File;
  tender_budget : option JSString;
  tender_scoringSystem : option JSString;
  tender_status : JSString;
  tender_aiAnalysis : option Json;
  tender_createdAt : N
}.

(** A part of the request: text, or the inline data of a file with its
    MIME type. *)
Inductive Part : Type :=
| TextPart (text : JSString)
| InlineData (data mimeType : JSString).

(** The analysis call of the remote service: system instruction and parts
    in, the text of the response (if any) out. *)
Definition Generate : Type :=
  JSString -> list Part -> Outcome (option JSString).

(** [v || fallback] for an optional string. *)
Definition or_text (v : option JSString) (fallback : JSString) : JSString :=
  if truthy v then or_empty v else fallback.

(** The first part of the request. *)
Definition tenderInfo (tender : TenderDocument) : JSString :=
  lines [
   [];
   js "      --- TENDER INFO ---";
   js "      Name: " ++ tender_name tender;
   js "      Budget: " ++ or_text (tender_budget tender) (js "Not specified");
   js "      Scoring: " ++ or_text (tender_scoringSystem tender) (js "Not specified");
   js "      Source URL: " ++ or_text (tender_tenderPageUrl tender) (js "N/A");
   js "      ";
   js "      --- ATTACHED DOCUMENTS FOR ANALYSIS ---";
   js "    "
  ].

(** One [if (file) { try { push label; push await fileToPart(file) }
    catch {} }]: the label is pushed before the file is read, so it stays
    when the reading fails. *)
Definition attach (env : Env) (label : JSString) (file : option File)
    (parts : list Part) : M (list Part) :=
  match file with
  | None => ret parts
  | Some file =>
      let parts := parts ++ [TextPart label] in
      try_catch
        (data <- fileToPart env file ;;
         ret (parts ++ [InlineData data (file_type file)]))
        (fun _ => ret parts)
  end.

Definition summaryLabel : JSString := js "--- DOCUMENTO 1: HOJA RESUMEN ---".
Definition adminLabel : JSString :=
  js "--- DOCUMENTO 2: PLIEGO ADMINISTRATIVO (PCAP) ---".
Definition techLabel : JSString := utf16 "--- DOCUMENTO 3: PLIEGO TÉCNICO (PPT) ---".

Definition analyzeTenderWithGemini (env : Env) (generate : Generate)
    (tender : TenderDocument) (rules : JSString) : M Json :=
  ai <- getAiClient env ;;
  let systemInstruction := buildAnalysisSystemPrompt rules in
  let parts := [TextPart (tenderInfo tender)] in
  parts <- attach env summaryLabel (tender_summaryFile tender) parts ;;
  parts <- attach env adminLabel (tender_adminFile tender) parts ;;
  parts <- attach env techLabel (tender_techFile tender) parts ;;
  try_catch
    (text <- await (generate systemInstruction parts) ;;
     if negb (truthy text) then throw (ErrorMsg "No response from Gemini")
     else await (env_json_parse env (or_empty text)))
    (fun error => emit EvConsole ;;; throw error).

End Analysis.

Import Analysis.

(* ===================================================================== *)
(** ** The user interface: handlers of the components *)
(* ===================================================================== *)

Module Ui.

(** *** Handlers *)

(** A handler of a component reads and writes the component's state [S]
    besides the log. What it wrote before an exception stays written, so
    the state is returned next to the outcome. The value a handler reads
    from its closure is the value of the state when it was called; what
    it writes with an updater function applies to the state of the
    moment. *)
Definition Handler (S A : Type) : Type := S -> World -> Outcome A * S * World.

Definition retH {S A} (a : A) : Handler S A := fun s w => (Value a, s, w).

Definition bindH {S A B} (m : Handler S A) (k : A -> Handler S B)
  : Handler S B :=
  fun s w =>
    match m s w with
    | (Value a, s', w') => k a s' w'
    | (Thrown e, s', w') => (Thrown e, s', w')
    end.

(** A call of the service during which no other handler runs. *)
Definition lift {S A} (m : M A) : Handler S A :=
  fun s w => let (o, w') := m w in (o, s, w').

(** Awaiting a call of the service while other handlers run: [meanwhile]
    is what they have made of the state when the call settles. *)
Definition awaiting {S A} (m : M A) (meanwhile : S -> S) : Handler S A :=
  fun s w => let (o, w') := m w in (o, meanwhile s, w').

Definition modify {S} (f : S -> S) : Handler S unit :=
  fun s w => (Value tt, f s, w).

Definition get {S} : Handler S S := fun s w => (Value s, s, w).

(** [try { m } catch (e) { h e }] *)
Definition try_catchH {S A} (m : Handler S A) (h : JSError -> Handler S A)
  : Handler S A :=
  fun s w =>
    match m s w with
    | (Value a, s', w') => (Value a, s', w')
    | (Thrown e, s', w') => h e s' w'
    end.

(** [try { m } finally { f }] *)
Definition try_finallyH {S A} (m : Handler S A) (f : Handler S unit)
  : Handler S A :=
  fun s w =>
    let '(o, s', w') := m s w in
    match f s' w' with
    | (Value _, s'', w'') => (o, s'', w'')
    | (Thrown e, s'', w'') => (Thrown e, s'', w'')
    end.

(** Variables declared with [let] before a [try] and assigned inside it
    keep, like the state, what was assigned before an exception: they
    travel next to the state, and their final values are the result. *)
Definition with_locals {S L} (init : L) (body : Handler (S * L) unit)
  : Handler S L :=
  fun s w =>
    match body (s, init) w with
    | (Value _, (s', l), w') => (Value l, s', w')
    | (Thrown e, (s', _), w') => (Thrown e, s', w')
    end.

Definition state {S L} (f : S -> S) : Handler (S * L) unit :=
  modify (fun sl => (f (fst sl), snd sl)).

Definition local {S L} (f : L -> L) : Handler (S * L) unit :=
  modify (fun sl => (fst sl, f (snd sl))).

End Ui.

Import Ui.

Declare Scope handler_scope.
Delimit Scope handler_scope with handler.
Notation "x <- m ;; k" := (bindH m (fun x => k))
  (at level 61, m at next level, right associativity) : handler_scope.
Notation "m ;;; k" := (bindH m (fun _ => k))
  (at level 61, right associativity) : handler_scope.

(* ===================================================================== *)
(** ** The user interface: the board (App.tsx) *)
(* ===================================================================== *)

Module Board.

Open Scope handler_scope.

(** [TenderStatus] of types.ts: the members are their string values. *)
Definition PENDING : JSString := js "PENDING".
Definition IN_PROGRESS : JSString := js "IN_PROGRESS".
Definition IN_DOUBT : JSString := js "IN_DOUBT".
Definition REJECTED : JSString := js "REJECTED".
Definition ARCHIVED : JSString := js "ARCHIVED".

(** [{ ...t, status }] *)
Definition with_status (t : TenderDocument) (status : JSString)
  : TenderDocument :=
  mkTender (tender_id t) (tender_name t) (tender_summaryFile t)
    (tender_tenderPageUrl t) (tender_adminUrl t) (tender_adminFile t)
    (tender_techUrl t) (tender_techFile t) (tender_budget t)
    (tender_scoringSystem t) status (tender_aiAnalysis t)
    (tender_createdAt t).

(** [{ ...t, status, aiAnalysis }] *)
Definition with_analysis (t : TenderDocument) (status : JSString)
    (analysis : Json) : TenderDocument :=
  mkTender (tender_id t) (tender_name t) (tender_summaryFile t)
    (tender_tenderPageUrl t) (tender_adminUrl t) (tender_adminFile t)
    (tender_techUrl t) (tender_techFile t) (tender_budget t)
    (tender_scoringSystem t) status (Some analysis) (tender_createdAt t).

(** The state of [App] that its handlers read and write. *)
Record AppState : Type := mkApp {
  app_rules : JSString;
  app_tenders : list TenderDocument;
  app_analyzingIds : list JSString;           (* Set<string> *)
  app_selectedTender : option TenderDocument;
  app_error : option JSString
}.

Definition setRules (v : JSString) (st : AppState) : AppState :=
  mkApp v (app_tenders st) (app_analyzingIds st) (app_selectedTender st)
    (app_error st).

Definition setTenders (v : list TenderDocument) (st : AppState) : AppState :=
  mkApp (app_rules st) v (app_analyzingIds st) (app_selectedTender st)
    (app_error st).

Definition setAnalyzingIds (v : list JSString) (st : AppState) : AppState :=
  mkApp (app_rules st) (app_tenders st) v (app_selectedTender st)
    (app_error st).

Definition setSelectedTender (v : option TenderDocument) (st : AppState) : AppState :=
  mkApp (app_rules st) (app_tenders st) (app_analyzingIds st) v
    (app_error st).

Definition setError (v : option JSString) (st : AppState) : AppState :=
  mkApp (app_rules st) (app_tenders st) (app_analyzingIds st)
    (app_selectedTender st) v.

(** The migration applied to the stored tenders when they are loaded. *)
Definition migratedTenders (savedTenders : list TenderDocument)
  : list TenderDocument :=
  map (fun t =>
         if JS.eqb (tender_status t) (js "APPROVED")
         then with_status t IN_PROGRESS else t)
      savedTenders.

Definition handleAddTender (newTender : TenderDocument) (st : AppState)
  : AppState :=
  setTenders (newTender :: app_tenders st) st.

(** [selectedTender?.id === id] *)
Definition selected (st : AppState) (id : JSString) : bool :=
  match app_selectedTender st with
  | Some t => JS.eqb (tender_id t) id
  | None => false
  end.

Definition handleStatusChange (tenderId newStatus : JSString) (st : AppState)
  : AppState :=
  let st' :=
    setTenders
      (map (fun t =>
              if JS.eqb (tender_id t) tenderId then with_status t newStatus
              else t)
           (app_tenders st)) st in
  if selected st tenderId then
    setSelectedTender
      (match app_selectedTender st' with
       | Some prev => Some (with_status prev newStatus)
       | None => None
       end) st'
  else st'.

(** [analysis.decision]: reading a property of [null] throws; a value
    that is not an object, or an object without the property, gives
    [undefined]. The fields of a parsed object have distinct keys; of a
    list that repeats a key the last binding counts, as for JSON.parse. *)
Definition decision (analysis : Json) : Outcome (option Json) :=
  match analysis with
  | JNull => Thrown TypeError
  | JObject fields =>
      Value (option_map snd
               (find (fun kv => JS.eqb (fst kv) (js "decision")) (rev fields)))
  | _ => Value None
  end.

(** [d === literal] *)
Definition is_string (d : option Json) (literal : JSString) : bool :=
  match d with
  | Some (JString s) => JS.eqb s literal
  | _ => false
  end.

Definition newStatus (d : option Json) : JSString :=
  if is_string d (js "KEEP") then IN_PROGRESS
  else if is_string d (js "DISCARD") then REJECTED
  else if is_string d (js "REVIEW") then IN_DOUBT
  else PENDING.

Definition noKeyMessage : JSString :=
  utf16 "API KEY no encontrada. Asegúrate de configurar la variable de entorno.".

Definition analysisErrorMessage : JSString :=
  utf16 "Error al analizar el pliego. Inténtalo de nuevo.".

(** The handler's result is the state when it completes; the timer that
    clears the error message five seconds later is not part of it. While
    the analysis is awaited the user can go on using the board:
    [meanwhile] is what the other handlers do to the state in that time.
    The rules and the selected tender that the handler looks at after the
    analysis are those of its closure, that is, of the state [st] in
    which it was called. *)
Definition handleAnalyze (env : Env) (generate : Generate)
    (tender : TenderDocument) (meanwhile : AppState -> AppState)
  : Handler AppState unit :=
  fun st =>
    (if negb (truthy (env_api_key env)) then
       modify (setError (Some noKeyMessage))
     else
       modify (fun s => setAnalyzingIds
                          (set_add (app_analyzingIds s) (tender_id tender)) s) ;;;
       try_finallyH
         (try_catchH
            (analysis <- awaiting (analyzeTenderWithGemini env generate tender
                                     (app_rules st)) meanwhile ;;
             d <- lift (await (decision analysis)) ;;
             let updatedTender := with_analysis tender (newStatus d) analysis in
             modify (fun s => setTenders
                                (map (fun t =>
                                        if JS.eqb (tender_id t) (tender_id tender)
                                        then updatedTender else t)
                                     (app_tenders s)) s) ;;;
             if selected st (tender_id tender)
             then modify (setSelectedTender (Some updatedTender))
             else retH tt)
            (fun err =>
               lift (emit EvConsole) ;;;
               modify (setError (Some analysisErrorMessage))))
         (modify (fun s => setAnalyzingIds
                             (filter (fun id => negb (JS.eqb id (tender_id tender)))
                                     (app_analyzingIds s)) s))) st.

(** The columns of the board and the archive. *)
Definition pendingTenders (st : AppState) : list TenderDocument :=
  filter (fun t => JS.eqb (tender_status t) PENDING) (app_tenders st).
Definition inProgressTenders (st : AppState) : list TenderDocument :=
  filter (fun t => JS.eqb (tender_status t) IN_PROGRESS) (app_tenders st).
Definition inDoubtTenders (st : AppState) : list TenderDocument :=
  filter (fun t => JS.eqb (tender_status t) IN_DOUBT) (app_tenders st).
Definition rejectedTenders (st : AppState) : list TenderDocument :=
  filter (fun t => JS.eqb (tender_status t) REJECTED) (app_tenders st).
Definition archivedTenders (st : AppState) : list TenderDocument :=
  filter (fun t => JS.eqb (tender_status t) ARCHIVED) (app_tenders st).

End Board.

Import Board.

(* ===================================================================== *)
(** ** The user interface: the form (components/NewTenderForm.tsx) *)
(* ===================================================================== *)

Module Form.

Open Scope handler_scope.

(** The state of the form that the handlers below read and write. *)
Record FormState : Type := mkForm {
  form_name : JSString;
  form_budget : JSString;
  form_scoringSystem : JSString;
  form_tenderPageUrl : JSString;
  form_adminUrl : JSString;
  form_adminFile : option File;
  form_techUrl : JSString;
  form_techFile : option File;
  form_summaryFile : option File;
  form_isOpen : bool;
  form_isExtracting : bool;
  form_logs : list JSString;
  form_downloadError : bool * JSString          (* { show, msg } *)
}.

Definition setName (v : JSString) (st : FormState) : FormState :=
  mkForm v (form_budget st) (form_scoringSystem st) (form_tenderPageUrl st)
    (form_adminUrl st) (form_adminFile st) (form_techUrl st)
    (form_techFile st) (form_summaryFile st) (form_isOpen st)
    (form_isExtracting st) (form_logs st) (form_downloadError st).

Definition setBudget (v : JSString) (st : FormState) : FormState :=
  mkForm (form_name st) v (form_scoringSystem st) (form_tenderPageUrl st)
    (form_adminUrl st) (form_adminFile st) (form_techUrl st)
    (form_techFile st) (form_summaryFile st) (form_isOpen st)
    (form_isExtracting st) (form_logs st) (form_downloadError st).

Definition setScoringSystem (v : JSString) (st : FormState) : FormState :=
  mkForm (form_name st) (form_budget st) v (form_tenderPageUrl st)
    (form_adminUrl st) (form_adminFile st) (form_techUrl st)
    (form_techFile st) (form_summaryFile st) (form_isOpen st)
    (form_isExtracting st) (form_logs st) (form_downloadError st).

Definition setTenderPageUrl (v : JSString) (st : FormState) : FormState :=
  mkForm (form_name st) (form_budget st) (form_scoringSystem st) v
    (form_adminUrl st) (form_adminFile st) (form_techUrl st)
    (form_techFile st) (form_summaryFile st) (form_isOpen st)
    (form_isExtracting st) (form_logs st) (form_downloadError st).

Definition setAdminUrl (v : JSString) (st : FormState) : FormState :=
  mkForm (form_name st) (form_budget st) (form_scoringSystem st)
    (form_tenderPageUrl st) v (form_adminFile st) (form_techUrl st)
    (form_techFile st) (form_summaryFile st) (form_isOpen st)
    (form_isExtracting st) (form_logs st) (form_downloadError st).

Definition setAdminFile (v : option File) (st : FormState) : FormState :=
  mkForm (form_name st) (form_budget st) (form_scoringSystem st)
    (form_tenderPageUrl st) (form_adminUrl st) v (form_techUrl st)
    (form_techFile st) (form_summaryFile st) (form_isOpen st)
    (form_isExtracting st) (form_logs st) (form_downloadError st).

Definition setTechUrl (v : JSString) (st : FormState) : FormState :=
  mkForm (form_name st) (form_budget st) (form_scoringSystem st)
    (form_tenderPageUrl st) (form_adminUrl st) (form_adminFile st) v
    (form_techFile st) (form_summaryFile st) (form_isOpen st)
    (form_isExtracting st) (form_logs st) (form_downloadError st).

Definition setTechFile (v : option File) (st : FormState) : FormState :=
  mkForm (form_name st) (form_budget st) (form_scoringSystem st)
    (form_tenderPageUrl st) (form_adminUrl st) (form_adminFile st)
    (form_techUrl st) v (form_summaryFile st) (form_isOpen st)
    (form_isExtracting st) (form_logs st) (form_downloadError st).

Definition setSummaryFile (v : option File) (st : FormState) : FormState :=
  mkForm (form_name st) (form_budget st) (form_scoringSystem st)
    (form_tenderPageUrl st) (form_adminUrl st) (form_adminFile st)
    (form_techUrl st) (form_techFile st) v (form_isOpen st)
    (form_isExtracting st) (form_logs st) (form_downloadError st).

Definition setIsOpen (v : bool) (st : FormState) : FormState :=
  mkForm (form_name st) (form_budget st) (form_scoringSystem st)
    (form_tenderPageUrl st) (form_adminUrl st) (form_adminFile st)
    (form_techUrl st) (form_techFile st) (form_summaryFile st) v
    (form_isExtracting st) (form_logs st) (form_downloadError st).


Definition setLogs (v : list JSString) (st : FormState) : FormState :=
  mkForm (form_name st) (form_budget st) (form_scoringSystem st)
    (form_tenderPageUrl st) (form_adminUrl st) (form_adminFile st)
    (form_techUrl st) (form_techFile st) (form_summaryFile st)
    (form_isOpen st) (form_isExtracting st) v (form_downloadError st).

Definition setDownloadError (v : bool * JSString) (st : FormState) : FormState :=
  mkForm (form_name st) (form_budget st) (form_scoringSystem st)
    (form_tenderPageUrl st) (form_adminUrl st) (form_adminFile st)
    (form_techUrl st) (form_techFile st) (form_summaryFile st)
    (form_isOpen st) (form_isExtracting st) (form_logs st) v.

Definition addLog (msg : JSString) (st : FormState) : FormState :=
  setLogs (form_logs st ++ [msg]) st.

Definition resetForm (st : FormState) : FormState :=
  setDownloadError (false, [])
    (setLogs []
       (setSummaryFile None
          (setTechFile None
             (setTechUrl []
                (setAdminFile None
                   (setAdminUrl []
                      (setTenderPageUrl []
                         (setScoringSystem []
                            (setBudget [] (setName [] st)))))))))).

(** The tender of a submission; [id] is the identifier drawn by
    [crypto.randomUUID()] and [now] the reading of the clock. *)
Definition newTender (id : JSString) (now : N) (st : FormState)
  : TenderDocument :=
  mkTender id (form_name st) (form_summaryFile st)
    (Some (form_tenderPageUrl st)) (form_adminUrl st) (form_adminFile st)
    (form_techUrl st) (form_techFile st) (Some (form_budget st))
    (Some (form_scoringSystem st)) PENDING None now.

(** The handler writes the form and, through [onAddTender], the state [P]
    of the parent component. *)
Definition handleSubmit {P} (onAddTender : TenderDocument -> P -> P)
    (env : Env) (id : JSString) (st : FormState) (parent : P) (w : World)
  : FormState * P :=
  if is_empty (form_name st) then (st, parent)
  else
    (setIsOpen false (resetForm st),
     onAddTender (newTender id (env_clock env w) st) parent).

(** The result of [processUrlForDocs]; its three fields are the three
    variables the function declares before its [try]. *)
Record Docs : Type := mkDocs {
  docs_adminFile : option File;
  docs_techFile : option File;
  docs_scrapeSuccess : bool
}.

Definition setNewAdminFile (f : File) (l : Docs) : Docs :=
  mkDocs (Some f) (docs_techFile l) (docs_scrapeSuccess l).

Definition setNewTechFile (f : File) (l : Docs) : Docs :=
  mkDocs (docs_adminFile l) (Some f) (docs_scrapeSuccess l).

Definition setScrapeSuccess (b : bool) (l : Docs) : Docs :=
  mkDocs (docs_adminFile l) (docs_techFile l) b.

Definition antiRobotMessage : JSString :=
  js "Bloqueo anti-robot. Descarga manual.".

Definition processUrlForDocs (env : Env) (url : JSString)
    (currentAdminFile currentTechFile : option File)
  : Handler FormState Docs :=
  if is_empty url then retH (mkDocs currentAdminFile currentTechFile false)
  else
    with_locals (mkDocs currentAdminFile currentTechFile false)
      (try_catchH
         (state (addLog (js "> Analizando web oficial...")) ;;;
          scrapedLinks <- lift (scrapeDocsFromWeb env url) ;;
          let finalAdminUrl := adminUrl scrapedLinks in
          let finalTechUrl := techUrl scrapedLinks in
          let downloadCount := 0 in
          downloadCount <-
            (if truthy finalAdminUrl then
               state (setAdminUrl (or_empty finalAdminUrl)) ;;;
               s <- get ;;
               if vacant (docs_adminFile (snd s)) then
                 state (addLog (js "> Descargando PCAP...")) ;;;
                 f <- lift (downloadFileFromUrl env (or_empty finalAdminUrl)
                              (js "PCAP")) ;;
                 match f with
                 | Some f =>
                     local (setNewAdminFile f) ;;;
                     state (addLog (js "  [OK] PCAP descargado")) ;;;
                     retH (downloadCount + 1)
                 | None => retH downloadCount
                 end
               else retH downloadCount
             else retH downloadCount) ;;
          downloadCount <-
            (if truthy finalTechUrl then
               state (setTechUrl (or_empty finalTechUrl)) ;;;
               s <- get ;;
               if vacant (docs_techFile (snd s)) then
                 state (addLog (js "> Descargando PPT...")) ;;;
                 f <- lift (downloadFileFromUrl env (or_empty finalTechUrl)
                              (js "PPT")) ;;
                 match f with
                 | Some f =>
                     local (setNewTechFile f) ;;;
                     state (addLog (js "  [OK] PPT descargado")) ;;;
                     retH (downloadCount + 1)
                 | None => retH downloadCount
                 end
               else retH downloadCount
             else retH downloadCount) ;;
          (if (0 <? downloadCount) || truthy finalAdminUrl || truthy finalTechUrl
           then local (setScrapeSuccess true) else retH tt) ;;;
          if (truthy finalAdminUrl || truthy finalTechUrl) && (downloadCount =? 0)
          then state (setDownloadError (true, antiRobotMessage))
          else retH tt)
         (fun e => lift (emit EvConsole))).



End Form.

Import Form.

(* ===================================================================== *)
(** ** Vocabulary of the statements, and sample inputs *)
(* ===================================================================== *)

(** *** Text normalizer *)

(** The character class of the [replace] in [normalizeText]. *)
Definition is_mark (c : N) : bool := ((0x0300 <=? c) && (c <=? 0x036f))%N.

Definition strip (s : list N) : list N := remove_range 0x0300 0x036f s.

(** COMBINING GRAPHEME JOINER *)
Definition joiner : N := 0x034F%N.

(** A code point that is not a surrogate. *)
Definition scalar (c : N) : bool :=
  ((c <? 0xD800) || ((0xDFFF <? c) && (c <? 0x110000)))%N.

(** The string is well-formed UTF-16: every element is a code unit, and
    the surrogates come in pairs, a high one followed by a low one. *)
Fixpoint well_formed (s : JSString) : bool :=
  match s with
  | [] => true
  | c :: s' =>
      if Unicode.is_high_surrogate c then
        match s' with
        | d :: s'' => Unicode.is_low_surrogate d && well_formed s''
        | [] => false
        end
      else negb (Unicode.is_low_surrogate c) && (c <? 0x10000)%N && well_formed s'
  end.

(** [normalizeText] on the code points of a string. *)
Definition normalize_cps (l : list N) : list N :=
  strip (Unicode.canonical_order
           (flat_map Unicode.decompose_cp (Unicode.lower_from [] l))).

(** Along [l] the combining class of a non-starter is never below that of
    its predecessor; [b] bounds the class of the first element. *)
Fixpoint ordered_from (b : N) (l : list N) : bool :=
  match l with
  | [] => true
  | y :: l' =>
      ((Unicode.ccc y =? 0)%N || (b <=? Unicode.ccc y)%N) &&
      ordered_from (Unicode.ccc y) l'
  end.

(** [run] consists of non-starters in non-decreasing class order, all of
    class at least [b]. *)
Fixpoint sorted_from (b : N) (run : list N) : bool :=
  match run with
  | [] => true
  | y :: run' =>
      negb (Unicode.ccc y =? 0)%N && (b <=? Unicode.ccc y)%N &&
      sorted_from (Unicode.ccc y) run'
  end.

(** A code point that [normalizeText] leaves alone wherever it stands: it
    is not stripped, and neither lowercasing (it is not the capital sigma,
    whose mapping depends on its neighbours) nor decomposition change
    it. *)
Definition settled (d : N) : bool :=
  scalar d && negb (is_mark d) && negb (d =? Unicode.capital_sigma)%N &&
  JS.eqb (Unicode.lower_cp d) [d] && JS.eqb (Unicode.decompose_cp d) [d].

(** A stripped code point is a non-starter; any other one is settled. *)
Definition cu_stable (d : N) : bool :=
  if is_mark d then negb (Unicode.ccc d =? 0)%N else settled d.

(** Everything [c] lowercases and decomposes into is stable. *)
Definition cp_stable (c : N) : bool :=
  forallb scalar (Unicode.lower_cp c) &&
  forallb cu_stable (flat_map Unicode.decompose_cp (Unicode.lower_cp c)).

(** A stripped code point, or a settled starter. *)
Definition cu_quiet (d : N) : bool :=
  is_mark d || (settled d && (Unicode.ccc d =? 0)%N).

(** Everything [c] lowercases and decomposes into is stripped or a
    settled starter. *)
Definition cp_quiet (c : N) : bool :=
  forallb scalar (Unicode.lower_cp c) &&
  forallb cu_quiet (flat_map Unicode.decompose_cp (Unicode.lower_cp c)).

(** The code points [first .. first + count - 1]. *)
Definition block (first : N) (count : nat) : list N :=
  map (fun i => (first + N.of_nat i)%N) (seq 0 count).

(** The string "Técnico": T, e-acute (U+00E9), c, n, i, c, o. *)
Definition Tecnico_accented : JSString :=
  js "T" ++ [0x00E9%N] ++ js "cnico".

(** Letter a, HEBREW ACCENT ETNAHTA (class 220), COMBINING GRAPHEME JOINER
    (U+034F, a starter inside the stripped range), HEBREW POINT SHEVA
    (class 10). *)
Definition joiner_between_marks : JSString :=
  [0x0061; 0x0591; 0x034F; 0x05B0]%N.

(** The same letter and marks without the joiner, the marks not in
    canonical order. *)
Definition marks_out_of_order : JSString :=
  [0x0061; 0x0591; 0x05B0]%N.

(** A file name in several scripts: the Greek capitals of "odos" (the
    last one a capital sigma), a space, the euro sign, the Vietnamese
    letter a with dot below (U+1EA1), the ideograph U+6587, the Hangul
    syllable U+D55C, the Deseret capital letter long I (U+10400, a
    surrogate pair) and the Angstrom sign (U+212B). *)
Definition several_scripts : JSString :=
  [0x039F; 0x0394; 0x039F; 0x03A3; 0x0020; 0x20AC; 0x1EA1; 0x6587; 0xD55C;
   0xD801; 0xDC00; 0x212B]%N.

(** A high surrogate, a combining acute accent and a low surrogate. *)
Definition surrogates_apart : JSString := [0xD801; 0x0301; 0xDC00]%N.

(** *** File classifier *)

Definition admin_keywords : list JSString :=
  [js "pcap"; js "admin"; js "clausula"; js "juridico"; js "caratula"].

Definition tech_keywords : list JSString :=
  [js "ppt"; js "tecnic"; js "prescrip"; js "memoria"; js "proyecto"].

(** A file of the given name. *)
Definition named (name : string) : File :=
  mkFile (js name) (js "application/pdf") (mkBlob (js "application/pdf") 0 (Value [])).

(** *** Single-URL downloader *)

(** The text of the blob shows one of the three markers. A blob whose text
    cannot be read shows none. *)
Definition has_marker (blob : Blob) : bool :=
  match blob_text blob with
  | Value text =>
      includes text (js "<html") || includes text (js "Error") ||
      includes text (js "Denied")
  | Thrown _ => false
  end.

(** Payload validation rejects the blob. *)
Definition payload_invalid (blob : Blob) : bool :=
  includes (blob_type blob) (js "text/html") ||
  ((blob_size blob <? 2000)%N && has_marker blob).

(** The ways one proxy attempt can fail. *)
Inductive attempt_fails (env : Env) (fetchUrl : JSString) : Prop :=
| fails_network e :            (* network error, or abort after 10 s *)
    env_fetch env fetchUrl = Thrown e -> attempt_fails env fetchUrl
| fails_status r :             (* non-2xx *)
    env_fetch env fetchUrl = Value r -> resp_ok r = false ->
    attempt_fails env fetchUrl
| fails_body r e :             (* the body cannot be read *)
    env_fetch env fetchUrl = Value r -> resp_ok r = true ->
    resp_blob r = Thrown e -> attempt_fails env fetchUrl
| fails_payload r blob :       (* payload validation *)
    env_fetch env fetchUrl = Value r -> resp_ok r = true ->
    resp_blob r = Value blob -> payload_invalid blob = true ->
    attempt_fails env fetchUrl.

(** No event of a list is a probe. *)
Definition no_probe (evs : list Event) : Prop :=
  Forall (fun ev => match ev with EvProbe _ => False | _ => True end) evs.

(** An environment that only serves HTTP: no DOM, no API key, a fixed clock. *)
Definition network_only (serve : JSString -> Outcome Response) : Env :=
  mkEnv serve (fun _ => 1700000000000%N) (fun _ _ => Thrown TypeError)
        (fun _ => []) None (fun _ => Thrown OtherError)
        (fun _ => Thrown OtherError) (fun _ => Thrown SyntaxError).

Definition serves (type : string) (size : N) (text : string) : Outcome Response :=
  Value (mkResponse true None (Value (mkBlob (js type) size (Value (js text))))
                    (Value (js text))).

Definition pdf_server : Env :=
  network_only (fun _ => serves "application/pdf" 3000 "%PDF-1.7").

(** The first relay is down, the second one serves the PDF. *)
Definition fallback_server : Env :=
  network_only (fun u =>
    if startsWith u allorigins then serves "application/pdf" 3000 "%PDF-1.7"
    else Thrown TypeError).

Definition html_server : Env :=
  network_only (fun _ => serves "text/html" 500 "<html><body>Not found</body></html>").

Definition doc_url : JSString := js "https://example.com/doc.pdf".

Definition doc_url_encoded : JSString := js "https%3A%2F%2Fexample.com%2Fdoc.pdf".

Definition dead_network : Env := network_only (fun _ => Thrown AbortError).

(** *** Batch link prober *)

(** The URLs probed, in order, according to a log. *)
Definition probes_of (evs : list Event) : list JSString :=
  flat_map (fun ev => match ev with EvProbe u => [u] | _ => [] end) evs.

(** A state of the [for] loop: index, slots, counter, log. *)
Definition LoopState : Type := (nat * ProbeResults * nat * World)%type.

(** [iterates env links cb k st st']: from [st] the loop passes its test
    and runs a group [k] times in a row, reaching [st']. The test is
    [i < links.length] together with the [break] condition. *)
Inductive iterates (env : Env) (links : list JSString) (onProgress : bool)
  : nat -> LoopState -> LoopState -> Prop :=
| iterates_done st : iterates env links onProgress 0 st st
| iterates_group k i results processed w results1 processed1 w1 st' :
    i < List.length links ->
    both_filled results = false ->
    probeGroup env links onProgress i results processed w
      = (Value (results1, processed1), w1) ->
    iterates env links onProgress k (i + BATCH_SIZE, results1, processed1, w1) st' ->
    iterates env links onProgress (S k) (i, results, processed, w) st'.

(** Filled slots of [r] are the same in [r']. *)
Definition keeps (r r' : ProbeResults) : Prop :=
  (forall f, admin r = Some f -> admin r' = Some f) /\
  (forall f, tech r = Some f -> tech r' = Some f).

(** What the probe of [url] may answer, the log aside. *)
Definition answers (env : Env) (url : JSString) (r : option (File * FileClass))
  : Prop :=
  exists w, fst (probeAndDownloadLink env url w) = Value r.

(** In every world the probe of [url] downloads a file classified [c]. *)
Definition yields (env : Env) (url : JSString) (c : FileClass) : Prop :=
  forall w, exists file,
    fst (probeAndDownloadLink env url w) = Value (Some (file, c)).

(** In every world the probe of [url] finds no file. *)
Definition yields_nothing (env : Env) (url : JSString) : Prop :=
  forall w, fst (probeAndDownloadLink env url w) = Value None.

(** A PDF served with a Content-Disposition header that names it. *)
Definition attachment (name : string) : Outcome Response :=
  Value (mkResponse true (Some (js "attachment; filename=" ++ js name))
           (Value (mkBlob (js "application/pdf") 48213 (Value (js "%PDF-1.7"))))
           (Value (js "%PDF-1.7"))).

(** A server that knows two documents and times out on everything else. *)
Definition tender_server : Env :=
  network_only (fun u =>
    if includes u (js "link02") then attachment "PCAP_2024.pdf"
    else if includes u (js "link05") then attachment "Memoria_Tecnica.pdf"
    else Thrown AbortError).

Definition link (n : string) : JSString := js "https://example.com/link" ++ js n.

Definition pcap_file : File := named "PCAP_2024.pdf".
Definition memoria_file : File := named "Memoria_Tecnica.pdf".
Definition other_file : File := named "random_file.pdf".

(** Ten distinct relevant links. *)
Definition ten_links : list JSString :=
  [link "01"; link "02"; link "03"; link "04"; link "05";
   link "06"; link "07"; link "08"; link "09"; link "10"].

(** A server on which the first and the third link, too, lead to a
    document, neither with a telling name. *)
Definition unnamed_server : Env :=
  network_only (fun u =>
    if includes u (js "link01") then attachment "documento.pdf"
    else if includes u (js "link02") then attachment "PCAP_2024.pdf"
    else if includes u (js "link03") then attachment "anexo.pdf"
    else if includes u (js "link05") then attachment "Memoria_Tecnica.pdf"
    else Thrown AbortError).

(** Candidates with a repetition and a link that the filter drops. *)
Definition repeated_links : list JSString :=
  [link "02"; js "mailto:info@example.com"; link "02"; link "05"].

(** *** Web page scraper *)

(** The anchors the scan looks at, in document order, each as its resolved
    URL paired with its combined text. *)
Definition scanned (env : Env) (pageUrl : JSString) (links : list Anchor)
  : list (JSString * JSString) :=
  map (fun link =>
         (resolveUrl env pageUrl (or_empty (a_href link)), combinedText link))
      (filter (fun link => negb (skipped (a_href link))) links).

(** URL of the first candidate whose combined text satisfies [p]. *)
Definition first_match (p : JSString -> bool) (cands : list (JSString * JSString))
  : option JSString :=
  option_map fst (find (fun c => p (snd c)) cands).

(** The generic .pdf/.zip list. *)
Definition generic (cands : list (JSString * JSString)) : list JSString :=
  filter isFile (map fst cands).

(** [v] if it is set, else [fallback]. *)
Definition or_else (v fallback : option JSString) : option JSString :=
  match v with
  | Some u => Some u
  | None => fallback
  end.

(** [new URL(href, base).href] is never the empty string. *)
Definition href_nonempty (env : Env) : Prop :=
  forall href base u, env_url_href env href base = Value u -> u <> [].

(** A slot is either unset or holds a non-empty URL. *)
Definition proper (v : option JSString) : Prop :=
  match v with
  | Some u => u <> []
  | None => True
  end.

Definition anchor (href text : string) : Anchor :=
  mkAnchor (Some (js href)) (js text) None None None None.

(** A page with a navigation anchor and two links to files, the first one
    relative; neither carries a keyword. *)
Definition two_generic_links : list Anchor :=
  [anchor "#" "Inicio";
   anchor "files/a.pdf" "Descargar";
   anchor "https://example.com/files/b.pdf" "Documento 2"].

(** The text a link is judged by: its text content and five of its
    attributes, separated by spaces, before normalization. *)
Definition link_words (link : Anchor) : JSString :=
  a_text link ++ js " " ++ or_empty (a_title link) ++ js " " ++
  or_empty (a_aria_label link) ++ js " " ++ or_empty (a_id link) ++ js " " ++
  or_empty (a_class link) ++ js " " ++ or_empty (a_href link).

(** The keywords of the two slots. *)
Definition admin_words : list JSString :=
  [js "pcap"; js "clausulas"; js "administrativ"; js "caratula"; js "bases";
   js "anexo"].

Definition tech_words : list JSString :=
  [js "ppt"; js "prescripciones"; js "tecnic"; js "memoria"; js "proyecto"].

(** The normalized text of the link includes one of the words. *)
Definition mentions (words : list JSString) (link : Anchor) : bool :=
  existsb (includes (normalizeText (link_words link))) words.

(** A page with a navigation anchor, a file link without a keyword, a
    link whose text names the administrative clauses (with an accent and
    capitals), a link whose title names the technical prescriptions, and
    a second link to the administrative document. *)
Definition keyword_page : list Anchor :=
  [anchor "#" "Inicio";
   anchor "files/a.pdf" "Descargar";
   mkAnchor (Some (js "docs/pliego1.pdf"))
            (utf16 "Pliego de Cláusulas Administrativas") None None None None;
   mkAnchor (Some (js "docs/pliego2.pdf")) (js "Descargar")
            (Some (utf16 "Prescripciones Técnicas")) None None None;
   anchor "docs/otro.pdf" "PCAP (copia)"].

(** The page is served at https://example.com/licitacion, so a relative
    reference resolves against https://example.com/. *)
Definition page_server : Env :=
  mkEnv (fun _ => serves "text/html" 5120 "<html><body>...</body></html>")
        (fun _ => 1700000000000%N)
        (fun href _ => Value (js "https://example.com/" ++ href))
        (fun _ => two_generic_links) None (fun _ => Thrown OtherError)
        (fun _ => Thrown OtherError) (fun _ => Thrown SyntaxError).

Definition page_url : JSString := js "https://example.com/licitacion".

(** *** Metadata extraction *)

(** A document-understanding service whose response carries no text. *)
Definition silent_service : Env :=
  mkEnv (fun _ => Thrown AbortError) (fun _ => 1700000000000%N)
        (fun _ _ => Thrown TypeError) (fun _ => []) (Some (js "key"))
        (fun _ => Value (js "JVBERi0xLjcK")) (fun _ => Value None)
        (fun _ => Thrown SyntaxError).

(** A service that answers with text that is not JSON. *)
Definition garbled_service : Env :=
  mkEnv (fun _ => Thrown AbortError) (fun _ => 1700000000000%N)
        (fun _ _ => Thrown TypeError) (fun _ => []) (Some (js "key"))
        (fun _ => Value (js "JVBERi0xLjcK")) (fun _ => Value (Some (js "{name:")))
        (fun _ => Thrown SyntaxError).

(** *** Further vocabulary: the downloader *)

(** The name taken from the Content-Disposition header, or the empty
    string. *)
Definition disposition_filename (r : Response) : JSString :=
  match resp_content_disposition r with
  | Some disposition =>
      if negb (is_empty disposition) && includes disposition (js "filename=")
      then match filename_match disposition with
           | Some g => g
           | None => []
           end
      else []
  | None => []
  end.

(** What one proxy attempt brings back. *)
Definition attempt (env : Env) (fetchUrl : JSString) : option (Blob * JSString) :=
  match env_fetch env fetchUrl with
  | Thrown _ => None
  | Value r =>
      if negb (resp_ok r) then None
      else match resp_blob r with
           | Thrown _ => None
           | Value blob =>
               if payload_invalid blob then None
               else Some (blob, disposition_filename r)
           end
  end.

(** The extension of a synthesized name. *)
Definition extension_for (blob : Blob) : JSString :=
  if JS.eqb (blob_type blob) (js "application/pdf") then js ".pdf"
  else if includes (blob_type blob) (js "zip") then js ".zip"
  else if includes (blob_type blob) (js "word") then js ".docx"
  else js ".pdf".

(** The guard at the head of [downloadFileFromUrl] and [scrapeDocsFromWeb]. *)
Definition rejected_url (url : JSString) : bool :=
  is_empty url || negb (startsWith url (js "http")).

(** Events other than probes and progress reports. *)
Definition is_network (ev : Event) : Prop :=
  match ev with
  | EvFetch _ | EvConsole => True
  | _ => False
  end.

(** Number of fetches in a log. *)
Definition fetch_count (evs : list Event) : nat :=
  List.length (filter (fun ev => match ev with EvFetch _ => true | _ => false end) evs).

(** The progress reports in a log, in order. *)
Definition progress_of (evs : list Event) : list (nat * nat) :=
  flat_map (fun ev => match ev with EvProgress p t => [(p, t)] | _ => [] end) evs.

(** The file the sample server sends for its second link. *)
Definition served_pcap : File :=
  mkFile (js "PCAP_2024.pdf") (js "application/pdf")
         (mkBlob (js "application/pdf") 48213 (Value (js "%PDF-1.7"))).

(** No code unit of [s] is a quote. *)
Definition quote_free (s : JSString) : Prop :=
  Forall (fun c => is_quote c = false) s.

(** Lowercase ASCII letters, digits, underscore and dot. *)
Definition plain (c : N) : bool :=
  in_range 97 122 c || in_range 48 57 c || (c =? 95)%N || (c =? 46)%N.

Definition is_digit (c : N) : bool := in_range 48 57 c.

(** The three extensions of synthesized names. *)
Definition extensions : list JSString := [js ".pdf"; js ".zip"; js ".docx"].

(** *** Further vocabulary: the prober *)

(** The file in a slot has a name of an admissible class and was answered
    by the probe of one of the links. *)
Definition sourced (env : Env) (links : list JSString) (excluded : FileClass)
    (slot : option File) : Prop :=
  forall f, slot = Some f ->
    classifyFile f <> excluded /\
    exists u, In u links /\ answers env u (Some (f, classifyFile f)).

(** The reports of [k] groups over [n] links, the first group starting at
    index [i]. *)
Definition reports (i n k : nat) : list (nat * nat) :=
  map (fun j => (Nat.min (i + 4 * j) n, n)) (seq 1 k).

(** *** Further vocabulary: the scraper *)

(** The page behind [fetchUrl] could not be read: the fetch failed, the
    status was not OK, or the body could not be read as text. *)
Definition page_unreadable (env : Env) (fetchUrl : JSString) : Prop :=
  match env_fetch env fetchUrl with
  | Thrown _ => True
  | Value r =>
      resp_ok r = false \/
      match resp_text r with Thrown _ => True | Value _ => False end
  end.

(** The page behind [fetchUrl] reads as [html]. *)
Definition page_reads (env : Env) (fetchUrl html : JSString) : Prop :=
  exists r, env_fetch env fetchUrl = Value r /\ resp_ok r = true /\
            resp_text r = Value html.

(** A client with a key whose uploads cannot be read. *)
Definition unreadable_upload : Env :=
  mkEnv (fun _ => Thrown AbortError) (fun _ => 1700000000000%N)
        (fun _ _ => Thrown TypeError) (fun _ => []) (Some (js "key"))
        (fun _ => Thrown OtherError) (fun _ => Value None)
        (fun _ => Thrown SyntaxError).

(** *** Further vocabulary: links embedded in a PDF *)

(** The annotation is a link that carries a URL. *)
Definition is_link (ant : Annotation) : bool :=
  JS.eqb (ant_subtype ant) (js "Link") && truthy (ant_url ant).

(** Every page of the document could be loaded. *)
Definition all_pages_load (pages : list (Outcome (list Annotation))) : Prop :=
  Forall (fun page => match page with Value _ => True | Thrown _ => False end) pages.

(** The annotations of the pages that loaded, in document order. *)
Definition annotations_of (pages : list (Outcome (list Annotation)))
  : list Annotation :=
  flat_map (fun page => match page with Value l => l | Thrown _ => [] end) pages.

(** The URLs of the link annotations, in document order, with repetitions. *)
Definition link_urls (pages : list (Outcome (list Annotation))) : list JSString :=
  map (fun ant => or_empty (ant_url ant)) (filter is_link (annotations_of pages)).

(** A two-page document: a link on the first page, the same link, a
    second link and a highlight on the other. *)
Definition sample_pdf : PdfJs :=
  fun _ =>
    Value [Value [mkAnnotation (js "Link") (Some (link "02"))];
           Value [mkAnnotation (js "Link") (Some (link "02"));
                  mkAnnotation (js "Link") (Some (link "05"));
                  mkAnnotation (js "Highlight") None]].


(** *** Further vocabulary: the feasibility analysis *)

(** What one present file adds to the request: its label, and its data
    when the file can be read. *)
Definition attached (env : Env) (label : JSString) (file : option File)
  : list Part :=
  match file with
  | None => []
  | Some f =>
      TextPart label ::
      match env_file_to_part env f with
      | Value data => [InlineData data (file_type f)]
      | Thrown _ => []
      end
  end.

(** The parts of the request for a tender. *)
Definition requestParts (env : Env) (tender : TenderDocument) : list Part :=
  TextPart (tenderInfo tender) ::
  attached env summaryLabel (tender_summaryFile tender) ++
  attached env adminLabel (tender_adminFile tender) ++
  attached env techLabel (tender_techFile tender).

(** The response text of an analysis that keeps the tender, and its
    parsed form. *)
Definition keep_text : JSString :=
  js "{" ++ dq ++ js "decision" ++ dq ++ js ":" ++ dq ++ js "KEEP" ++ dq ++ js "}".

Definition keep_json : Json := JObject [(js "decision", JString (js "KEEP"))].

(** A client with a key; the technical document cannot be read; the
    parser knows [keep_text] and the literal null. *)
Definition analysis_client : Env :=
  mkEnv (fun _ => Thrown AbortError) (fun _ => 1700000000000%N)
        (fun _ _ => Thrown TypeError) (fun _ => []) (Some (js "key"))
        (fun f => if JS.eqb (file_name f) (js "Memoria_Tecnica.pdf")
                  then Thrown OtherError else Value (js "JVBERi0xLjcK"))
        (fun _ => Value None)
        (fun text => if JS.eqb text keep_text then Value keep_json
                     else if JS.eqb text (js "null") then Value JNull
                     else Thrown SyntaxError).

(** A service that answers a request of four parts (the information, the
    two labels and the data of the one readable file) with [keep_text]. *)
Definition keep_service : Generate :=
  fun _ parts => if List.length parts =? 4 then Value (Some keep_text)
                 else Value None.

Definition null_service : Generate := fun _ _ => Value (Some (js "null")).

Definition sample_tender : TenderDocument :=
  mkTender (js "t-1") (js "Servicio de limpieza") None None
           (link "02") (Some pcap_file) (link "05") (Some memoria_file)
           (Some (js "100.000 EUR")) None (js "PENDING") None 1700000000000%N.

Definition sample_rules : JSString := js "1. ISO 9001".

(** *** Further vocabulary: the board *)

(** The status is a member of [TenderStatus]. *)
Definition known_status (s : JSString) : Prop :=
  In s [PENDING; IN_PROGRESS; IN_DOUBT; REJECTED; ARCHIVED].

(** The tender the detail view shows, if any, is one of the board. *)
Definition selected_on_board (st : AppState) : Prop :=
  forall s, app_selectedTender st = Some s -> In s (app_tenders st).

(** [t'] is [t] with at most its status changed. *)
Definition same_but_status (t t' : TenderDocument) : Prop :=
  t' = with_status t (tender_status t').

(** The tender as [handleAnalyze] stores it for a parsed analysis. *)
Definition analysed (tender : TenderDocument) (analysis : Json)
    (d : option Json) : TenderDocument :=
  with_analysis tender (newStatus d) analysis.

(** The state in which the tender is marked as being analysed. *)
Definition marked (tender : TenderDocument) (st : AppState) : AppState :=
  setAnalyzingIds (set_add (app_analyzingIds st) (tender_id tender)) st.

Definition sample_board : AppState :=
  mkApp sample_rules
        [sample_tender;
         mkTender (js "t-2") (js "Obras") None None [] None [] None None None
                  (js "ARCHIVED") None 1700000000001%N]
        [] (Some sample_tender) None.

(** The same board with the detail view closed. *)
Definition closed_board : AppState := setSelectedTender None sample_board.

(** The user opens the first tender of the board. *)
Definition open_first (st : AppState) : AppState :=
  setSelectedTender (hd_error (app_tenders st)) st.

(** *** Further vocabulary: the columns *)

(** The number of columns (the archive included) that show a tender. *)
Definition shown (t : TenderDocument) : nat :=
  List.length
    (filter (JS.eqb (tender_status t))
            [PENDING; IN_PROGRESS; IN_DOUBT; REJECTED; ARCHIVED]).

Definition all_known (tenders : list TenderDocument) : Prop :=
  Forall (fun t => known_status (tender_status t)) tenders.

(** *** Further vocabulary: the form *)

(** The download of a document the page gave a URL for, made only when
    the form holds no file for it yet. *)
Definition fetch_missing (env : Env) (found : option JSString)
    (current : option File) (prefix : JSString) (w : World)
  : option File * World :=
  if truthy found && vacant current then
    match downloadFileFromUrl env (or_empty found) prefix w with
    | (Value f, w') => (f, w')
    | (Thrown _, w') => (None, w')
    end
  else (None, w).

(** The page gave a URL for at least one of the two documents. *)
Definition found_any (links : ScrapedLinks) : bool :=
  truthy (adminUrl links) || truthy (techUrl links).

(** [st'] differs from [st] at most in the two document URLs, the log
    and the error banner. *)
Definition scrape_frame (st st' : FormState) : Prop :=
  st' = setLogs (form_logs st')
          (setDownloadError (form_downloadError st')
             (setTechUrl (form_techUrl st')
                (setAdminUrl (form_adminUrl st') st))).

(** What [processUrlForDocs] leaves in the form after a scrape that gave
    [links] and downloads that gave [fa] and [ft]. *)
Definition scrape_effect (st : FormState) (links : ScrapedLinks)
    (fa ft : option File) (st' : FormState) : Prop :=
  scrape_frame st st' /\
  form_adminUrl st'
    = (if truthy (adminUrl links) then or_empty (adminUrl links)
       else form_adminUrl st) /\
  form_techUrl st'
    = (if truthy (techUrl links) then or_empty (techUrl links)
       else form_techUrl st) /\
  form_downloadError st'
    = (if found_any links && vacant fa && vacant ft
       then (true, antiRobotMessage) else form_downloadError st) /\
  exists more, form_logs st' = form_logs st ++ more.

(** An empty form with the page URL typed in. *)
Definition typed_form : FormState :=
  mkForm [] [] [] page_url [] None [] None None true false [] (false, []).

(** A form with a name, a page URL and the administrative document. *)
Definition filled_form : FormState :=
  mkForm (js "Servicio de limpieza") (js "100.000 EUR") [] page_url
         (link "02") (Some pcap_file) [] None None true false
         [js "> Proceso completado."] (false, []).


(* ===================================================================== *)
(** ** Text normalizer *)
(* ===================================================================== *)

Arguments Unicode.lower_cp : simpl never.
Arguments Unicode.decompose_cp : simpl never.
Arguments Unicode.ccc : simpl never.
Arguments Unicode.cased : simpl never.
Arguments Unicode.case_ignorable : simpl never.

(** Comparisons of numbers, case by case. *)
Ltac ncases :=
  repeat match goal with
  | |- context [(?a <? ?b)%N] => destruct (N.ltb_spec a b)
  | |- context [(?a <=? ?b)%N] => destruct (N.leb_spec a b)
  | |- context [(?a =? ?b)%N] => destruct (N.eqb_spec a b)
  | H : context [(?a <? ?b)%N] |- _ => destruct (N.ltb_spec a b)
  | H : context [(?a <=? ?b)%N] |- _ => destruct (N.leb_spec a b)
  | H : context [(?a =? ?b)%N] |- _ => destruct (N.eqb_spec a b)
  end;
  cbn [andb orb negb] in *; try discriminate; try reflexivity; try lia.

Lemma eqb_true s t : JS.eqb s t = true -> s = t.
Proof. unfold JS.eqb. now destruct (list_eq_dec N.eq_dec s t). Qed.

Lemma eqb_refl s : JS.eqb s s = true.
Proof. unfold JS.eqb. now destruct (list_eq_dec N.eq_dec s s). Qed.

Lemma block_spec first count c :
  (first <= c < first + N.of_nat count)%N -> In c (block first count).
Proof.
  intros H. unfold block. apply in_map_iff.
  exists (N.to_nat (c - first)). split; [lia|]. apply in_seq. lia.
Qed.

Lemma strip_app s t : strip (s ++ t) = strip s ++ strip t.
Proof. apply filter_app. Qed.

Lemma strip_cons c s :
  strip (c :: s) = if is_mark c then strip s else c :: strip s.
Proof. unfold strip, remove_range, is_mark. simpl. now destruct (_ && _). Qed.

Lemma strip_no_marks u :
  Forall (fun d => is_mark d = false) u -> strip u = u.
Proof.
  induction 1 as [|d u Hd _ IH]; [reflexivity|]. now rewrite strip_cons, Hd, IH.
Qed.

Lemma flat_map_fixed (f : N -> list N) u :
  Forall (fun d => f d = [d]) u -> flat_map f u = u.
Proof.
  induction 1 as [|d u Hd _ IH]; [reflexivity|]. cbn. now rewrite Hd, IH.
Qed.

(** *** Code points and code units *)

Lemma code_points_pair c d s :
  Unicode.code_points (c :: d :: s) =
    if Unicode.is_high_surrogate c && Unicode.is_low_surrogate d
    then (0x10000 + (c - 0xD800) * 0x400 + (d - 0xDC00))%N :: Unicode.code_points s
    else c :: Unicode.code_points (d :: s).
Proof. reflexivity. Qed.

Lemma code_points_low c s :
  Unicode.is_high_surrogate c = false ->
  Unicode.code_points (c :: s) = c :: Unicode.code_points s.
Proof.
  intros H. destruct s as [|d s]; [reflexivity|].
  now rewrite code_points_pair, H.
Qed.

Lemma well_formed_pair c d s :
  well_formed (c :: d :: s) =
    if Unicode.is_high_surrogate c
    then Unicode.is_low_surrogate d && well_formed s
    else negb (Unicode.is_low_surrogate c) && (c <? 0x10000)%N &&
         well_formed (d :: s).
Proof. reflexivity. Qed.

Lemma scalar_surrogate c :
  scalar c = true ->
  Unicode.is_high_surrogate c = false /\ Unicode.is_low_surrogate c = false.
Proof.
  unfold scalar, Unicode.is_high_surrogate, Unicode.is_low_surrogate.
  intros H. split; ncases.
Qed.

Lemma unit_scalar c :
  Unicode.is_high_surrogate c = false -> Unicode.is_low_surrogate c = false ->
  (c <? 0x10000)%N = true -> scalar c = true.
Proof.
  unfold scalar, Unicode.is_high_surrogate, Unicode.is_low_surrogate.
  intros H1 H2 H3. ncases.
Qed.

Lemma pair_scalar c d :
  Unicode.is_high_surrogate c = true -> Unicode.is_low_surrogate d = true ->
  scalar (0x10000 + (c - 0xD800) * 0x400 + (d - 0xDC00))%N = true.
Proof.
  unfold scalar, Unicode.is_high_surrogate, Unicode.is_low_surrogate.
  intros H1 H2. ncases.
Qed.

(** The code points of a well-formed string are scalar values. *)
Lemma well_formed_scalar s :
  well_formed s = true ->
  Forall (fun c => scalar c = true) (Unicode.code_points s).
Proof.
  assert (H : forall s,
    (well_formed s = true ->
     Forall (fun c => scalar c = true) (Unicode.code_points s)) /\
    (forall c, well_formed (c :: s) = true ->
               Forall (fun c => scalar c = true) (Unicode.code_points (c :: s)))).
  { clear s. induction s as [|d s [IH1 IH2]].
    - split; [constructor|]. intros c H. cbn in H. cbn.
      destruct (Unicode.is_high_surrogate c) eqn:Hh; [discriminate|].
      apply andb_true_iff in H as [H _]. apply andb_true_iff in H as [Hl Hu].
      apply negb_true_iff in Hl. constructor; [now apply unit_scalar | constructor].
    - split; [apply IH2|]. intros c H.
      rewrite well_formed_pair in H. rewrite code_points_pair.
      destruct (Unicode.is_high_surrogate c) eqn:Hh.
      + apply andb_true_iff in H as [Hd Hs]. rewrite Hd. cbn [andb].
        constructor; [now apply pair_scalar | now apply IH1].
      + cbn [andb]. apply andb_true_iff in H as [H Hs].
        apply andb_true_iff in H as [Hl Hu]. apply negb_true_iff in Hl.
        constructor; [now apply unit_scalar | now apply IH2]. }
  apply H.
Qed.

(** A code point of a string is one of its code units or lies beyond the
    Basic Multilingual Plane. *)
Lemma code_points_In s : forall c,
  In c (Unicode.code_points s) -> In c s \/ (0x10000 <= c)%N.
Proof.
  assert (H : forall s,
    (forall c, In c (Unicode.code_points s) -> In c s \/ (0x10000 <= c)%N) /\
    (forall e c, In c (Unicode.code_points (e :: s)) ->
                 In c (e :: s) \/ (0x10000 <= c)%N)).
  { clear s. induction s as [|d s [IH1 IH2]].
    - split; [intros c []|]. intros e c H. cbn in H. left. exact H.
    - split; [apply IH2|]. intros e c H. rewrite code_points_pair in H.
      destruct (Unicode.is_high_surrogate e && Unicode.is_low_surrogate d).
      + destruct H as [H|H]; [right; lia|].
        destruct (IH1 c H) as [H'|H']; [left; right; now right | now right].
      + destruct H as [H|H]; [left; now left|].
        destruct (IH2 d c H) as [H'|H']; [left; now right | now right]. }
  apply H.
Qed.

Lemma code_units_split c :
  (0x10000 <= c < 0x110000)%N ->
  exists h l,
    Unicode.code_units c = [h; l] /\
    Unicode.is_high_surrogate h = true /\ Unicode.is_low_surrogate l = true /\
    (0x10000 + (h - 0xD800) * 0x400 + (l - 0xDC00))%N = c.
Proof.
  intros Hc. unfold Unicode.code_units.
  destruct (N.ltb_spec c 0x10000) as [|_]; [lia|].
  assert (Hnz : 0x400%N <> 0%N) by discriminate.
  pose proof (N.div_mod (c - 0x10000) 0x400 Hnz) as Hdm.
  pose proof (N.mod_lt (c - 0x10000) 0x400 Hnz) as Hm.
  assert (Hq : ((c - 0x10000) / 0x400 < 0x400)%N)
    by (apply N.Div0.div_lt_upper_bound; lia).
  eexists _, _. split; [reflexivity|].
  unfold Unicode.is_high_surrogate, Unicode.is_low_surrogate.
  set (q := ((c - 0x10000) / 0x400)%N) in *.
  set (r := ((c - 0x10000) mod 0x400)%N) in *. clearbody q r.
  split; [|split].
  - apply andb_true_iff. split; apply N.leb_le; lia.
  - apply andb_true_iff. split; apply N.leb_le; lia.
  - lia.
Qed.

(** Encoding scalar values and decoding them again gives them back. *)
Lemma code_points_of_code_points l :
  Forall (fun c => scalar c = true) l ->
  Unicode.code_points (Unicode.of_code_points l) = l.
Proof.
  induction 1 as [|c l Hc _ IH]; [reflexivity|].
  unfold Unicode.of_code_points in *. cbn [flat_map].
  destruct (N.ltb_spec c 0x10000) as [Hlt|Hge].
  - assert (E : Unicode.code_units c = [c]).
    { unfold Unicode.code_units. apply N.ltb_lt in Hlt. now rewrite Hlt. }
    rewrite E. cbn [app]. rewrite code_points_low, IH; [reflexivity|].
    now apply scalar_surrogate.
  - destruct (@code_units_split c) as (h & lo & E & Hh & Hl & Hcp).
    { unfold scalar in Hc. ncases. }
    rewrite E. cbn [app]. rewrite code_points_pair, Hh, Hl. cbn [andb].
    now rewrite Hcp, IH.
Qed.

(** Stripping the code units is stripping the code points. *)
Lemma strip_of_code_points l :
  strip (Unicode.of_code_points l) = Unicode.of_code_points (strip l).
Proof.
  unfold Unicode.of_code_points.
  induction l as [|c l IH]; [reflexivity|].
  cbn [flat_map]. rewrite strip_app, IH, (strip_cons c l).
  destruct (N.ltb_spec c 0x10000) as [Hlt|Hge].
  - assert (E : Unicode.code_units c = [c]).
    { unfold Unicode.code_units. apply N.ltb_lt in Hlt. now rewrite Hlt. }
    rewrite E, strip_cons. destruct (is_mark c); [reflexivity|].
    cbn [flat_map]. now rewrite E.
  - assert (Hm : is_mark c = false) by (unfold is_mark; ncases).
    rewrite Hm. cbn [flat_map]. f_equal.
    unfold Unicode.code_units. apply N.ltb_ge in Hge. rewrite Hge.
    set (q := ((c - 0x10000) / 0x400)%N). set (r := ((c - 0x10000) mod 0x400)%N).
    clearbody q r. rewrite !strip_cons.
    assert (H1 : is_mark (0xD800 + q) = false) by (unfold is_mark; ncases).
    assert (H2 : is_mark (0xDC00 + r) = false) by (unfold is_mark; ncases).
    now rewrite H1, H2.
Qed.

(** A string of scalar values below U+10000 is the list of its own code
    points. *)
Lemma code_points_bmp u :
  Forall (fun d => scalar d = true /\ (d < 0x10000)%N) u ->
  Unicode.code_points u = u /\ Unicode.of_code_points u = u.
Proof.
  induction 1 as [|d u [Hd Hlt] _ [IH1 IH2]]; [split; reflexivity|].
  split.
  - rewrite code_points_low, IH1; [reflexivity|]. now apply scalar_surrogate.
  - unfold Unicode.of_code_points in *. cbn [flat_map]. rewrite IH2.
    unfold Unicode.code_units. apply N.ltb_lt in Hlt. now rewrite Hlt.
Qed.

(** *** Lowercasing *)

Lemma lower_from_Forall (P : N -> Prop) l : forall before,
  P Unicode.final_sigma -> P Unicode.small_sigma ->
  Forall (fun c => Forall P (Unicode.lower_cp c)) l ->
  Forall P (Unicode.lower_from before l).
Proof.
  induction l as [|c l IH]; intros before Hf Hs Hl; cbn [Unicode.lower_from];
    [constructor|].
  inversion Hl as [|? ? Hc Hl']; subst.
  apply Forall_app. split; [|now apply IH].
  destruct (c =? Unicode.capital_sigma)%N; [|exact Hc].
  destruct (_ && _); repeat constructor; assumption.
Qed.

Lemma lower_from_fixed u : forall before,
  Forall (fun d => (d =? Unicode.capital_sigma)%N = false /\
                   Unicode.lower_cp d = [d]) u ->
  Unicode.lower_from before u = u.
Proof.
  induction u as [|d u IH]; intros before Hu; [reflexivity|].
  inversion Hu as [|? ? [Hs Hd] Hu']; subst.
  cbn [Unicode.lower_from]. rewrite Hs, Hd, IH; [reflexivity | exact Hu'].
Qed.

(** *** The tables *)

Lemma lookup_In c t v : Unicode.lookup c t = Some v -> In (c, v) t.
Proof.
  induction t as [|[k w] t IH]; cbn [Unicode.lookup]; [discriminate|].
  destruct (N.eqb_spec c k) as [->|_].
  - intros H. injection H as ->. now left.
  - intros H. right. now apply IH.
Qed.

Lemma lowercase_entries :
  forallb (fun kv =>
             forallb scalar (snd kv) &&
             forallb cu_stable (flat_map Unicode.decompose_cp (snd kv)))
          Unicode.lowercase_table = true.
Proof. vm_compute. reflexivity. Qed.

Lemma decomposition_entries :
  forallb (fun kv =>
             match Unicode.lookup (fst kv) Unicode.lowercase_table with
             | Some _ => true
             | None => forallb cu_stable (snd kv)
             end)
          Unicode.decomposition_table = true.
Proof. vm_compute. reflexivity. Qed.

Lemma marks_classes :
  forallb (fun c => (c =? joiner)%N || negb (Unicode.ccc c =? 0)%N)
          (block 0x0300 112) = true.
Proof. vm_compute. reflexivity. Qed.

Definition jamo : list N :=
  block 0x1100 19 ++ block 0x1161 21 ++ block 0x11A8 27.

Lemma jamo_settled : forallb settled jamo = true.
Proof. vm_compute. reflexivity. Qed.

Lemma sigmas_stable :
  forallb (fun d => scalar d && forallb cu_stable (Unicode.decompose_cp d))
          [Unicode.final_sigma; Unicode.small_sigma] = true.
Proof. vm_compute. reflexivity. Qed.

Lemma sigmas_quiet :
  forallb (fun d => scalar d && forallb cu_quiet (Unicode.decompose_cp d))
          [Unicode.final_sigma; Unicode.small_sigma] = true.
Proof. vm_compute. reflexivity. Qed.

Lemma capital_sigma_listed :
  Unicode.lookup Unicode.capital_sigma Unicode.lowercase_table <> None.
Proof. vm_compute. discriminate. Qed.

Lemma latin_and_marks_quiet : forallb cp_quiet (block 0 880) = true.
Proof. vm_compute. reflexivity. Qed.

Lemma hangul_jamo c :
  (0xAC00 <= c <= 0xD7A3)%N -> Forall (fun d => In d jamo) (Unicode.hangul c).
Proof.
  intros Hc. unfold Unicode.hangul, jamo. cbv zeta.
  set (s := (c - 0xAC00)%N).
  assert (Hs : (s < 11172)%N) by (unfold s; lia).
  assert (Hl : (s / 588 < 19)%N) by (apply N.Div0.div_lt_upper_bound; lia).
  assert (Hm1 : (s mod 588 < 588)%N) by (apply N.mod_lt; discriminate).
  assert (Hv : ((s mod 588) / 28 < 21)%N)
    by (apply N.Div0.div_lt_upper_bound; lia).
  assert (Hm2 : (s mod 28 < 28)%N) by (apply N.mod_lt; discriminate).
  set (l := (s / 588)%N) in *. set (v := (s mod 588 / 28)%N) in *.
  set (t := (s mod 28)%N) in *. clearbody l v t.
  assert (H1 : In (0x1100 + l)%N (block 0x1100 19))
    by (apply block_spec; lia).
  assert (H2 : In (0x1161 + v)%N (block 0x1161 21))
    by (apply block_spec; lia).
  destruct (N.eqb_spec (0x11A7 + t) 0x11A7) as [E|E].
  - apply Forall_cons; [|apply Forall_cons; [|apply Forall_nil]];
      apply in_or_app; [left | right; apply in_or_app; left]; assumption.
  - assert (H3 : In (0x11A7 + t)%N (block 0x11A8 27))
      by (apply block_spec; lia).
    apply Forall_cons;
      [|apply Forall_cons; [|apply Forall_cons; [|apply Forall_nil]]];
      apply in_or_app;
      [left | right; apply in_or_app; left | right; apply in_or_app; right];
      assumption.
Qed.

Lemma settled_cu_stable d : settled d = true -> cu_stable d = true.
Proof.
  intros H. unfold cu_stable. destruct (is_mark d) eqn:Hm; [|exact H].
  unfold settled in H. rewrite Hm in H. cbn in H.
  now rewrite andb_false_r in H.
Qed.

(** Every scalar value but the joiner lowercases and decomposes into
    stable code points. *)
Lemma cp_stable_scalar c :
  scalar c = true -> c <> joiner -> cp_stable c = true.
Proof.
  intros Hc Hj. unfold cp_stable.
  destruct (Unicode.lookup c Unicode.lowercase_table) as [l|] eqn:El.
  { unfold Unicode.lower_cp. rewrite El. apply lookup_In in El.
    pose proof lowercase_entries as H. rewrite forallb_forall in H.
    exact (H _ El). }
  assert (Elow : Unicode.lower_cp c = [c])
    by (unfold Unicode.lower_cp; now rewrite El).
  rewrite Elow. cbn [forallb flat_map]. rewrite Hc, app_nil_r. cbn [andb].
  unfold Unicode.decompose_cp at 1.
  destruct ((0xAC00 <=? c) && (c <=? 0xD7A3))%N eqn:Hh.
  { apply forallb_forall. intros d Hd. apply settled_cu_stable.
    pose proof jamo_settled as H. rewrite forallb_forall in H. apply H.
    assert (Hr : (0xAC00 <= c <= 0xD7A3)%N).
    { apply andb_true_iff in Hh as [H1 H2].
      apply N.leb_le in H1. apply N.leb_le in H2. lia. }
    pose proof (hangul_jamo Hr) as Hall. rewrite Forall_forall in Hall.
    now apply Hall. }
  destruct (Unicode.lookup c Unicode.decomposition_table) as [l|] eqn:Ed.
  { apply lookup_In in Ed.
    pose proof decomposition_entries as H. rewrite forallb_forall in H.
    specialize (H _ Ed). cbn [fst snd] in H. now rewrite El in H. }
  assert (Edec : Unicode.decompose_cp c = [c])
    by (unfold Unicode.decompose_cp; now rewrite Hh, Ed).
  cbn [forallb]. rewrite andb_true_r. unfold cu_stable.
  destruct (is_mark c) eqn:Hm.
  - pose proof marks_classes as H. rewrite forallb_forall in H.
    assert (Hin : In c (block 0x0300 112)).
    { apply block_spec. unfold is_mark in Hm.
      apply andb_true_iff in Hm as [H1 H2].
      apply N.leb_le in H1. apply N.leb_le in H2. cbn. lia. }
    specialize (H c Hin). apply orb_true_iff in H as [H|H]; [|exact H].
    apply N.eqb_eq in H. contradiction.
  - unfold settled. rewrite Hc, Hm, Elow, Edec, !eqb_refl. cbn [negb andb].
    rewrite !andb_true_r. apply negb_true_iff. apply N.eqb_neq. intros ->.
    now apply capital_sigma_listed.
Qed.

(** *** Canonical ordering *)

Lemma ordered_from_weaken l b b' :
  (b <= b')%N -> ordered_from b' l = true -> ordered_from b l = true.
Proof.
  destruct l as [|y l]; [reflexivity|]. cbn [ordered_from]. intros Hb H.
  apply andb_true_iff in H as [H1 H2]. rewrite H2, andb_true_r.
  apply orb_true_iff in H1 as [H1|H1]; rewrite ?H1; [reflexivity|].
  apply orb_true_iff. right. apply N.leb_le. apply N.leb_le in H1. lia.
Qed.

Lemma insert_mark_sorted c run : forall b,
  (Unicode.ccc c =? 0)%N = false -> (b <= Unicode.ccc c)%N ->
  sorted_from b run = true -> sorted_from b (Unicode.insert_mark c run) = true.
Proof.
  intros b Hc. revert b.
  induction run as [|d run IH]; intros b Hb H;
    cbn [Unicode.insert_mark sorted_from] in *.
  - rewrite Hc. cbn. rewrite andb_true_r. now apply N.leb_le.
  - apply andb_true_iff in H as [H H3]. apply andb_true_iff in H as [H1 H2].
    destruct (Unicode.ccc c <? Unicode.ccc d)%N eqn:Hlt; cbn [sorted_from].
    + rewrite Hc, H1, H3. cbn. rewrite andb_true_r.
      apply N.ltb_lt in Hlt. apply andb_true_iff. split; apply N.leb_le; lia.
    + rewrite H1, H2. cbn. apply IH; [|exact H3].
      apply N.ltb_ge in Hlt. exact Hlt.
Qed.

Lemma sorted_then_starter run c X : forall b,
  sorted_from b run = true -> (Unicode.ccc c =? 0)%N = true ->
  ordered_from 0 X = true -> ordered_from b (run ++ c :: X) = true.
Proof.
  induction run as [|d run IH]; intros b H Hc HX;
    cbn [app sorted_from ordered_from] in *.
  - rewrite Hc. apply N.eqb_eq in Hc. now rewrite Hc.
  - apply andb_true_iff in H as [H H3]. apply andb_true_iff in H as [H1 H2].
    rewrite H2, orb_true_r. now apply IH.
Qed.

Lemma sorted_ordered run : forall b,
  sorted_from b run = true -> ordered_from b run = true.
Proof.
  induction run as [|d run IH]; intros b H; cbn [sorted_from ordered_from] in *;
    [reflexivity|].
  apply andb_true_iff in H as [H H3]. apply andb_true_iff in H as [H1 H2].
  rewrite H2, orb_true_r. now apply IH.
Qed.

(** Canonical ordering produces an ordered string. *)
Lemma reorder_ordered l : forall run,
  sorted_from 0 run = true ->
  ordered_from 0 (Unicode.reorder_from run l) = true.
Proof.
  induction l as [|c l IH]; intros run Hrun; cbn [Unicode.reorder_from].
  - now apply sorted_ordered.
  - destruct (Unicode.ccc c =? 0)%N eqn:Hc.
    + apply sorted_then_starter; auto.
    + apply IH. apply insert_mark_sorted; auto. lia.
Qed.

(** Dropping non-starters keeps a string ordered. *)
Lemma strip_ordered l : forall b,
  Forall (fun y => is_mark y = true -> (Unicode.ccc y =? 0)%N = false) l ->
  ordered_from b l = true -> ordered_from b (strip l) = true.
Proof.
  induction l as [|y l IH]; intros b Hl H; [reflexivity|].
  inversion Hl as [|? ? Hy Hl']; subst. rewrite strip_cons.
  cbn [ordered_from] in H. apply andb_true_iff in H as [H1 H2].
  destruct (is_mark y) eqn:Hm.
  - rewrite (Hy eq_refl) in H1. cbn [orb] in H1. apply N.leb_le in H1.
    apply ordered_from_weaken with (b' := Unicode.ccc y); [exact H1|].
    now apply IH.
  - cbn [ordered_from]. rewrite H1. now apply IH.
Qed.

Lemma insert_mark_last c run :
  Forall (fun d => (Unicode.ccc d <= Unicode.ccc c)%N) run ->
  Unicode.insert_mark c run = run ++ [c].
Proof.
  induction 1 as [|d run Hd _ IH]; cbn [Unicode.insert_mark app]; [reflexivity|].
  destruct (Unicode.ccc c <? Unicode.ccc d)%N eqn:Hlt.
  - apply N.ltb_lt in Hlt. lia.
  - now rewrite IH.
Qed.

Lemma ordered_run_bound run c l : forall b,
  Forall (fun d => (Unicode.ccc d =? 0)%N = false) run ->
  (Unicode.ccc c =? 0)%N = false ->
  ordered_from b (run ++ c :: l) = true ->
  (b <= Unicode.ccc c)%N /\
  Forall (fun d => (Unicode.ccc d <= Unicode.ccc c)%N) run.
Proof.
  induction run as [|d run IH]; intros b Hrun Hc H; cbn [app ordered_from] in H.
  - rewrite Hc in H. cbn [orb] in H. apply andb_true_iff in H as [H _].
    apply N.leb_le in H. split; [exact H | constructor].
  - inversion Hrun as [|? ? Hd Hrun']; subst.
    rewrite Hd in H. cbn [orb] in H. apply andb_true_iff in H as [H1 H2].
    apply N.leb_le in H1. destruct (IH _ Hrun' Hc H2) as [Hb Hall].
    split; [lia | constructor; assumption].
Qed.

Lemma ordered_app_tail run c l : forall b,
  ordered_from b (run ++ c :: l) = true -> ordered_from (Unicode.ccc c) l = true.
Proof.
  induction run as [|d run IH]; intros b H; cbn [app ordered_from] in H;
    apply andb_true_iff in H as [_ H]; [exact H | now apply IH in H].
Qed.

(** Canonical ordering leaves an ordered string as it is. *)
Lemma reorder_ordered_id l : forall run,
  Forall (fun d => (Unicode.ccc d =? 0)%N = false) run ->
  ordered_from 0 (run ++ l) = true ->
  Unicode.reorder_from run l = run ++ l.
Proof.
  induction l as [|c l IH]; intros run Hrun H; cbn [Unicode.reorder_from].
  - now rewrite app_nil_r.
  - destruct (Unicode.ccc c =? 0)%N eqn:Hc.
    + f_equal. f_equal. apply (IH [] (Forall_nil _)).
      apply ordered_app_tail in H. apply N.eqb_eq in Hc. now rewrite Hc in H.
    + destruct (@ordered_run_bound run c l 0%N Hrun Hc H) as [_ Hall].
      rewrite (@insert_mark_last c run Hall), IH.
      * now rewrite <- app_assoc.
      * apply Forall_app. split; [exact Hrun | now constructor].
      * now rewrite <- app_assoc.
Qed.

Lemma insert_mark_Forall (P : N -> Prop) c run :
  P c -> Forall P run -> Forall P (Unicode.insert_mark c run).
Proof.
  intros Hc. induction 1 as [|d run Hd Hrun IH]; cbn [Unicode.insert_mark].
  - now constructor.
  - destruct (Unicode.ccc c <? Unicode.ccc d)%N; repeat constructor; assumption.
Qed.

Lemma reorder_Forall (P : N -> Prop) l : forall run,
  Forall P run -> Forall P l -> Forall P (Unicode.reorder_from run l).
Proof.
  induction l as [|c l IH]; intros run Hrun Hl; cbn [Unicode.reorder_from];
    [exact Hrun|].
  inversion Hl; subst.
  destruct (Unicode.ccc c =? 0)%N.
  - apply Forall_app. split; [exact Hrun|]. constructor; [assumption|].
    now apply IH.
  - apply IH; [now apply insert_mark_Forall | assumption].
Qed.

Lemma ordered_starters u b :
  Forall (fun d => Unicode.ccc d = 0%N) u -> ordered_from b u = true.
Proof.
  intros H. revert b. induction H as [|d u Hd _ IH]; intros b; [reflexivity|].
  cbn [ordered_from]. rewrite Hd. cbn. apply IH.
Qed.

(** *** The normalizer on code points *)

Lemma settled_spec d :
  settled d = true ->
  scalar d = true /\ is_mark d = false /\
  (d =? Unicode.capital_sigma)%N = false /\
  Unicode.lower_cp d = [d] /\ Unicode.decompose_cp d = [d].
Proof.
  unfold settled. intros H.
  apply andb_true_iff in H as [H H5]. apply andb_true_iff in H as [H H4].
  apply andb_true_iff in H as [H H3]. apply andb_true_iff in H as [H1 H2].
  apply negb_true_iff in H2. apply negb_true_iff in H3.
  apply eqb_true in H4. apply eqb_true in H5. auto.
Qed.

(** An ordered list of settled code points is normalized. *)
Lemma normalize_cps_fixed u :
  Forall (fun d => settled d = true) u -> ordered_from 0 u = true ->
  normalize_cps u = u.
Proof.
  intros Hu Hord. unfold normalize_cps, Unicode.canonical_order.
  rewrite lower_from_fixed.
  2:{ eapply Forall_impl; [|exact Hu]. intros d Hd.
      destruct (settled_spec d Hd) as (_ & _ & H3 & H4 & _). auto. }
  rewrite flat_map_fixed.
  2:{ eapply Forall_impl; [|exact Hu]. intros d Hd.
      now destruct (settled_spec d Hd) as (_ & _ & _ & _ & H5). }
  rewrite (@reorder_ordered_id u [] (Forall_nil _) Hord). cbn [app].
  apply strip_no_marks. eapply Forall_impl; [|exact Hu]. intros d Hd.
  now destruct (settled_spec d Hd) as (_ & H2 & _).
Qed.

(** What lowercasing and decomposition make of a list whose code points
    all satisfy [good]. *)
Lemma decomposed_Forall (ok : N -> bool) (good : N -> bool) l :
  (forall c, good c = true ->
             forallb ok (flat_map Unicode.decompose_cp (Unicode.lower_cp c)) = true) ->
  forallb (fun d => forallb ok (Unicode.decompose_cp d))
          [Unicode.final_sigma; Unicode.small_sigma] = true ->
  Forall (fun c => good c = true) l ->
  Forall (fun d => ok d = true)
         (flat_map Unicode.decompose_cp (Unicode.lower_from [] l)).
Proof.
  intros Hgood Hsig Hl.
  assert (H : Forall (fun d => Forall (fun e => ok e = true)
                                      (Unicode.decompose_cp d))
                     (Unicode.lower_from [] l)).
  { cbn [forallb] in Hsig. apply andb_true_iff in Hsig as [Hf Hs].
    apply andb_true_iff in Hs as [Hs _].
    apply lower_from_Forall.
    - apply Forall_forall. now rewrite forallb_forall in Hf.
    - apply Forall_forall. now rewrite forallb_forall in Hs.
    - eapply Forall_impl; [|exact Hl]. intros c Hc.
      specialize (Hgood c Hc).
      induction (Unicode.lower_cp c) as [|d ds IH]; [constructor|].
      cbn [flat_map] in Hgood. rewrite forallb_app in Hgood.
      apply andb_true_iff in Hgood as [Hd Hds].
      constructor; [|now apply IH].
      apply Forall_forall. now rewrite forallb_forall in Hd. }
  induction H as [|d ds Hd _ IH]; [constructor|].
  cbn [flat_map]. apply Forall_app. split; assumption.
Qed.

(** The result for stable code points: settled and ordered. *)
Lemma normalize_cps_stable l :
  Forall (fun c => cp_stable c = true) l ->
  Forall (fun d => settled d = true) (normalize_cps l) /\
  ordered_from 0 (normalize_cps l) = true.
Proof.
  intros Hl.
  assert (H0 : Forall (fun d => cu_stable d = true)
                 (flat_map Unicode.decompose_cp (Unicode.lower_from [] l))).
  { apply decomposed_Forall with (good := cp_stable); [| |exact Hl].
    - intros c Hc. unfold cp_stable in Hc. now apply andb_true_iff in Hc as [_ Hc].
    - pose proof sigmas_stable as H. cbn [forallb] in H |- *.
      apply andb_true_iff in H as [H1 H2]. apply andb_true_iff in H2 as [H2 _].
      apply andb_true_iff in H1 as [_ H1]. apply andb_true_iff in H2 as [_ H2].
      now rewrite H1, H2. }
  unfold normalize_cps, Unicode.canonical_order.
  remember (flat_map Unicode.decompose_cp (Unicode.lower_from [] l)) as t0 eqn:E0.
  clear E0 Hl.
  pose proof (@reorder_Forall (fun d => cu_stable d = true) t0 []
                (Forall_nil _) H0) as Ht.
  pose proof (@reorder_ordered t0 [] eq_refl) as Ho.
  remember (Unicode.reorder_from [] t0) as t eqn:Et. clear Et H0.
  split.
  - apply Forall_forall. intros d Hd. unfold strip, remove_range in Hd.
    apply filter_In in Hd as [Hd Hm]. apply negb_true_iff in Hm.
    change (is_mark d = false) in Hm.
    rewrite Forall_forall in Ht. specialize (Ht d Hd). unfold cu_stable in Ht.
    now rewrite Hm in Ht.
  - apply strip_ordered; [|exact Ho].
    eapply Forall_impl; [|exact Ht]. intros d Hd Hm.
    unfold cu_stable in Hd. rewrite Hm in Hd. now apply negb_true_iff in Hd.
Qed.

(** The result for quiet code points: settled starters. *)
Lemma normalize_cps_quiet l :
  Forall (fun c => cp_quiet c = true) l ->
  Forall (fun d => settled d = true) (normalize_cps l) /\
  ordered_from 0 (normalize_cps l) = true.
Proof.
  intros Hl.
  assert (H0 : Forall (fun d => cu_quiet d = true)
                 (flat_map Unicode.decompose_cp (Unicode.lower_from [] l))).
  { apply decomposed_Forall with (good := cp_quiet); [| |exact Hl].
    - intros c Hc. unfold cp_quiet in Hc. now apply andb_true_iff in Hc as [_ Hc].
    - pose proof sigmas_quiet as H. cbn [forallb] in H |- *.
      apply andb_true_iff in H as [H1 H2]. apply andb_true_iff in H2 as [H2 _].
      apply andb_true_iff in H1 as [_ H1]. apply andb_true_iff in H2 as [_ H2].
      now rewrite H1, H2. }
  unfold normalize_cps, Unicode.canonical_order.
  remember (flat_map Unicode.decompose_cp (Unicode.lower_from [] l)) as t0 eqn:E0.
  clear E0 Hl.
  pose proof (@reorder_Forall (fun d => cu_quiet d = true) t0 []
                (Forall_nil _) H0) as Ht.
  remember (Unicode.reorder_from [] t0) as t eqn:Et. clear Et H0.
  assert (Hu : Forall (fun d => settled d = true /\ Unicode.ccc d = 0%N) (strip t)).
  { apply Forall_forall. intros d Hd. unfold strip, remove_range in Hd.
    apply filter_In in Hd as [Hd Hm]. apply negb_true_iff in Hm.
    change (is_mark d = false) in Hm.
    rewrite Forall_forall in Ht. specialize (Ht d Hd). unfold cu_quiet in Ht.
    rewrite Hm in Ht. cbn [orb] in Ht. apply andb_true_iff in Ht as [H1 H2].
    apply N.eqb_eq in H2. auto. }
  split.
  - eapply Forall_impl; [|exact Hu]. now intros d [H _].
  - apply ordered_starters. eapply Forall_impl; [|exact Hu]. now intros d [_ H].
Qed.

(** *** The normalizer on strings *)

Lemma lower_cp_scalar (good : N -> bool) c :
  (good c = true -> forallb scalar (Unicode.lower_cp c) = true) ->
  good c = true -> Forall (fun d => scalar d = true) (Unicode.lower_cp c).
Proof.
  intros H Hc. apply Forall_forall. specialize (H Hc).
  now rewrite forallb_forall in H.
Qed.

(** On a string whose code points lowercase into scalar values the
    normalizer works code point by code point. *)
Lemma normalizeText_cps s :
  Forall (fun c => forallb scalar (Unicode.lower_cp c) = true)
         (Unicode.code_points s) ->
  normalizeText s = Unicode.of_code_points (normalize_cps (Unicode.code_points s)).
Proof.
  intros Hs. unfold normalizeText, Unicode.NFD, Unicode.toLowerCase.
  change (remove_range 768%N 879%N) with strip.
  rewrite code_points_of_code_points; [apply strip_of_code_points|].
  apply lower_from_Forall; [reflexivity | reflexivity |].
  eapply Forall_impl; [|exact Hs]. intros c Hc.
  apply Forall_forall. now rewrite forallb_forall in Hc.
Qed.

(** Idempotence from a settled, ordered first result. *)
Lemma normalizeText_twice s :
  Forall (fun c => forallb scalar (Unicode.lower_cp c) = true)
         (Unicode.code_points s) ->
  Forall (fun d => settled d = true) (normalize_cps (Unicode.code_points s)) ->
  ordered_from 0 (normalize_cps (Unicode.code_points s)) = true ->
  normalizeText (normalizeText s) = normalizeText s.
Proof.
  intros Hs Hu Hord. rewrite (normalizeText_cps s Hs).
  remember (normalize_cps (Unicode.code_points s)) as u eqn:Eu. clear Eu Hs.
  assert (Hsc : Forall (fun d => scalar d = true) u).
  { eapply Forall_impl; [|exact Hu]. intros d Hd.
    now destruct (settled_spec d Hd) as (H & _). }
  rewrite normalizeText_cps; rewrite (code_points_of_code_points Hsc).
  - now rewrite (normalize_cps_fixed Hu Hord).
  - eapply Forall_impl; [|exact Hu]. intros d Hd.
    destruct (settled_spec d Hd) as (H1 & _ & _ & H4 & _).
    rewrite H4. cbn [forallb]. now rewrite H1.
Qed.

Lemma idempotent_well_formed s :
  well_formed s = true -> ~ In joiner s ->
  normalizeText (normalizeText s) = normalizeText s.
Proof.
  intros Hw Hj.
  assert (Hst : Forall (fun c => cp_stable c = true) (Unicode.code_points s)).
  { pose proof (well_formed_scalar s Hw) as Hsc.
    rewrite Forall_forall in Hsc. apply Forall_forall. intros c Hc.
    apply cp_stable_scalar; [now apply Hsc|]. intros ->.
    destruct (code_points_In s _ Hc) as [H|H]; [contradiction|].
    unfold joiner in H. lia. }
  destruct (normalize_cps_stable Hst) as [Hu Hord].
  apply normalizeText_twice; [|exact Hu|exact Hord].
  eapply Forall_impl; [|exact Hst]. intros c Hc. unfold cp_stable in Hc.
  now apply andb_true_iff in Hc as [Hc _].
Qed.

Lemma idempotent_below_marks s :
  Forall (fun c => (c <= 0x036F)%N) s ->
  normalizeText (normalizeText s) = normalizeText s.
Proof.
  intros Hs.
  assert (Ecp : Unicode.code_points s = s).
  { apply code_points_bmp. eapply Forall_impl; [|exact Hs]. intros c Hc.
    cbv beta in Hc. split; [unfold scalar; ncases | lia]. }
  assert (Hq : Forall (fun c => cp_quiet c = true) (Unicode.code_points s)).
  { rewrite Ecp. eapply Forall_impl; [|exact Hs]. intros c Hc.
    cbv beta in Hc.
    pose proof latin_and_marks_quiet as H. rewrite forallb_forall in H.
    apply H. apply block_spec. cbn. lia. }
  destruct (normalize_cps_quiet Hq) as [Hu Hord].
  apply normalizeText_twice; [|exact Hu|exact Hord].
  eapply Forall_impl; [|exact Hq]. intros c Hc. unfold cp_quiet in Hc.
  now apply andb_true_iff in Hc as [Hc _].
Qed.

(** An ordered string of settled code units is normalized. *)
Lemma normalizeText_fixed u :
  Forall (fun d => settled d = true /\ (d < 0x10000)%N) u ->
  ordered_from 0 u = true ->
  normalizeText u = u.
Proof.
  intros Hu Hord.
  assert (Hs : Forall (fun d => settled d = true) u)
    by (eapply Forall_impl; [|exact Hu]; now intros d [H _]).
  destruct (@code_points_bmp u) as [E1 E2].
  { eapply Forall_impl; [|exact Hu]. intros d [Hd Hlt].
    now destruct (settled_spec d Hd) as (H & _). }
  rewrite normalizeText_cps; rewrite E1.
  - now rewrite (normalize_cps_fixed Hs Hord).
  - eapply Forall_impl; [|exact Hs]. intros d Hd.
    destruct (settled_spec d Hd) as (H1 & _ & _ & H4 & _).
    rewrite H4. cbn [forallb]. now rewrite H1.
Qed.

(** C9, as stated, fails: once the joiner is stripped the two Hebrew marks
    become adjacent, and the second normalization swaps them into canonical
    order. *)
Lemma normalizeText_not_idempotent :
  normalizeText joiner_between_marks = [0x0061; 0x0591; 0x05B0]%N /\
  normalizeText (normalizeText joiner_between_marks) = [0x0061; 0x05B0; 0x0591]%N /\
  normalizeText (normalizeText joiner_between_marks)
    <> normalizeText joiner_between_marks.
Proof.
  split; [vm_compute; reflexivity|].
  split; [vm_compute; reflexivity|].
  vm_compute. discriminate.
Qed.

(** Unpaired surrogates are a second obstacle: the mark between a high
    and a low surrogate is stripped, the two join into the Deseret capital
    letter U+10400, and the second normalization lowercases it to
    U+10428. *)
Lemma normalizeText_joins_surrogates :
  well_formed surrogates_apart = false /\
  normalizeText surrogates_apart = [0xD801; 0xDC00]%N /\
  normalizeText (normalizeText surrogates_apart) = [0xD801; 0xDC28]%N.
Proof. repeat split; vm_compute; reflexivity. Qed.

(** C9 (amended): the normalizer is idempotent on every well-formed
    string (one without unpaired surrogates) that does not contain the
    joiner U+034F, and on every string over U+0000..U+036F, the joiner
    included; and it identifies "Técnico" with "tecnico". *)
Theorem normalizeText_idempotent :
  (forall s : JSString,
      well_formed s = true -> ~ In joiner s ->
      normalizeText (normalizeText s) = normalizeText s) /\
  (forall s : JSString,
      Forall (fun c => (c <= 0x036F)%N) s ->
      normalizeText (normalizeText s) = normalizeText s) /\
  normalizeText Tecnico_accented = normalizeText (js "tecnico").
Proof.
  split; [| split].
  - exact idempotent_well_formed.
  - exact idempotent_below_marks.
  - vm_compute. reflexivity.
Qed.

Lemma normalizeText_idempotent_witness :
  (normalizeText (normalizeText several_scripts) = normalizeText several_scripts /\
   normalizeText (normalizeText marks_out_of_order)
     = normalizeText marks_out_of_order) /\
  normalizeText (normalizeText (Tecnico_accented ++ [joiner]))
    = normalizeText (Tecnico_accented ++ [joiner]).
Proof.
  pose proof normalizeText_idempotent as (Hwf & Hbelow & _).
  assert (Hj : forall s, existsb (N.eqb joiner) s = false -> ~ In joiner s).
  { intros s E Hin. assert (existsb (N.eqb joiner) s = true); [|congruence].
    apply existsb_exists. exists joiner. split; [exact Hin | apply N.eqb_refl]. }
  split; [split|].
  - apply Hwf; [reflexivity | apply Hj; reflexivity].
  - apply Hwf; [reflexivity | apply Hj; reflexivity].
  - apply Hbelow. repeat constructor; vm_compute; discriminate.
Defined.

(* ===================================================================== *)
(** ** File classifier *)
(* ===================================================================== *)

(** C8: [classifyFile] answers ADMIN when the normalized name contains an
    administrative keyword, otherwise TECH when it contains a technical
    keyword, otherwise UNKNOWN; the three sample names classify as ADMIN,
    TECH and UNKNOWN. *)
Theorem classifyFile_spec :
  (forall file : File,
      classifyFile file =
        let name := normalizeText (file_name file) in
        if existsb (includes name) admin_keywords then ADMIN
        else if existsb (includes name) tech_keywords then TECH
        else UNKNOWN) /\
  classifyFile (named "PCAP_2024.pdf") = ADMIN /\
  classifyFile (named "Memoria_Tecnica.pdf") = TECH /\
  classifyFile (named "random_file.pdf") = UNKNOWN.
Proof.
  split; [| repeat split; vm_compute; reflexivity].
  intros file. unfold classifyFile, admin_keywords, tech_keywords.
  cbn [existsb]. rewrite !orb_false_r, !orb_assoc. reflexivity.
Qed.

(* ===================================================================== *)
(** ** Relevance filter *)
(* ===================================================================== *)

(** C3, as stated, fails: a URL that contains "mailto:" without starting
    with it passes the filter. *)
Lemma isRelevantLink_mailto_inside :
  includes (Unicode.toLowerCase (js "https://example.com/contact?to=mailto:info"))
           (js "mailto:") = true /\
  isRelevantLink (js "https://example.com/contact?to=mailto:info") = true.
Proof. split; vm_compute; reflexivity. Qed.

(** C3 (amended): a URL whose lowercased form starts with "mailto:" or
    contains "facebook", "youtube" or "maps." is not relevant, and
    "https://example.com/doc.pdf" is relevant. *)
Theorem isRelevantLink_denied :
  (forall url : JSString,
      let lower := Unicode.toLowerCase url in
      startsWith lower (js "mailto:") = true \/
      includes lower (js "facebook") = true \/
      includes lower (js "youtube") = true \/
      includes lower (js "maps.") = true ->
      isRelevantLink url = false) /\
  isRelevantLink (js "https://example.com/doc.pdf") = true.
Proof.
  split; [| vm_compute; reflexivity].
  intros url lower H. unfold isRelevantLink. fold lower.
  destruct (startsWith lower (js "mailto:")); [reflexivity|].
  destruct H as [H | [H | [H | H]]]; [discriminate | | |]; rewrite H.
  - rewrite orb_true_r. reflexivity.
  - rewrite !orb_true_r. now destruct (_ || _).
  - simpl. now destruct (_ || _).
Qed.

Lemma isRelevantLink_denied_witness :
  includes (Unicode.toLowerCase (js "https://www.YouTube.com/watch"))
           (js "youtube") = true /\
  isRelevantLink (js "https://www.YouTube.com/watch") = false.
Proof.
  assert (H : includes (Unicode.toLowerCase (js "https://www.YouTube.com/watch"))
                       (js "youtube") = true) by (vm_compute; reflexivity).
  split; [exact H|].
  apply (proj1 isRelevantLink_denied (js "https://www.YouTube.com/watch")).
  right. right. left. exact H.
Defined.

(* ===================================================================== *)
(** ** Single-URL downloader *)
(* ===================================================================== *)

Ltac unfold_m :=
  unfold bind, try_catch, ret, throw, await, emit, fetch, getTime.

Lemma tryDownload_returns env fetchUrl w :
  exists r, tryDownload env fetchUrl w = (Value r, w ++ [EvFetch fetchUrl]).
Proof.
  unfold tryDownload. unfold_m.
  destruct (env_fetch env fetchUrl) as [response|e]; [|eauto].
  destruct (resp_ok response); cbn [negb]; [|eauto].
  destruct (resp_blob response) as [blob|e]; [|eauto].
  destruct (includes (blob_type blob) (js "text/html") || (blob_size blob <? 2000)%N).
  - destruct (blob_text blob) as [text|e].
    + destruct (includes text (js "<html") || includes text (js "Error") ||
                includes text (js "Denied")); [eauto|].
      destruct (includes (blob_type blob) (js "text/html")); eauto.
    + destruct (includes (blob_type blob) (js "text/html")); eauto.
  - eauto.
Qed.

Lemma tryDownload_fails env fetchUrl w :
  attempt_fails env fetchUrl ->
  tryDownload env fetchUrl w = (Value None, w ++ [EvFetch fetchUrl]).
Proof.
  intros [e He | r Hr Hok | r e Hr Hok Hb | r blob Hr Hok Hb Hp];
    unfold tryDownload; unfold_m; rewrite ?He, ?Hr, ?Hok; cbn [negb];
    try reflexivity; rewrite Hb; [reflexivity|].
  unfold payload_invalid, has_marker in Hp.
  destruct (includes (blob_type blob) (js "text/html")); cbn [orb] in *.
  - destruct (blob_text blob) as [text|e']; [|reflexivity].
    now destruct (includes text (js "<html") || includes text (js "Error") ||
                  includes text (js "Denied")).
  - destruct (blob_size blob <? 2000)%N; cbn [andb] in Hp; [|discriminate].
    destruct (blob_text blob) as [text|e']; [|discriminate].
    now rewrite Hp.
Qed.

Lemma materialize_returns env prefix blob filename w :
  exists name,
    materialize env prefix blob filename w =
      (Value (mkFile name (blob_type blob) blob), w) /\
    (filename = [] ->
     blob_type blob = js "application/pdf" ->
     name = prefix ++ js "_" ++ digits (env_clock env w) ++ js ".pdf").
Proof.
  unfold materialize. unfold_m.
  destruct filename as [|c filename]; cbn [is_empty negb andb].
  - eexists. split; [reflexivity|]. intros _ Htype. now rewrite Htype.
  - eexists. split; [reflexivity|]. discriminate.
Qed.

Lemma downloadFileFromUrl_returns env url prefix w :
  exists r evs,
    downloadFileFromUrl env url prefix w = (Value r, w ++ evs) /\ no_probe evs.
Proof.
  unfold downloadFileFromUrl.
  destruct (is_empty url || negb (startsWith url (js "http"))).
  { exists None, []. rewrite app_nil_r. split; [reflexivity | constructor]. }
  unfold encodeURIComponent.
  destruct (encode url) as [enc|].
  2:{ unfold_m. exists None, [EvConsole].
      split; [reflexivity | repeat constructor]. }
  unfold try_catch, bind at 1 2 3. unfold ret at 1.
  destruct (tryDownload_returns env (corsproxy ++ enc) w) as [r1 H1].
  rewrite H1. destruct r1 as [[blob filename]|].
  - unfold ret at 1. unfold bind at 1.
    destruct (materialize_returns env prefix blob filename
                (w ++ [EvFetch (corsproxy ++ enc)])) as (name & Hm & _).
    rewrite Hm. unfold ret.
    eexists _, [_]. split; [reflexivity | repeat constructor].
  - unfold bind at 1. unfold ret at 1.
    destruct (tryDownload_returns env (allorigins ++ enc)
                (w ++ [EvFetch (corsproxy ++ enc)])) as [r2 H2].
    rewrite H2, <- app_assoc. cbn [app].
    destruct r2 as [[blob filename]|].
    + unfold bind at 1.
      destruct (materialize_returns env prefix blob filename
                  (w ++ [EvFetch (corsproxy ++ enc); EvFetch (allorigins ++ enc)]))
        as (name & Hm & _).
      rewrite Hm. unfold ret.
      eexists _, [_; _]. split; [reflexivity | repeat constructor].
    + unfold ret. eexists _, [_; _]. split; [reflexivity | repeat constructor].
Qed.

Lemma tryDownload_accepts env fetchUrl w r blob :
  env_fetch env fetchUrl = Value r -> resp_ok r = true ->
  resp_blob r = Value blob -> payload_invalid blob = false ->
  resp_content_disposition r = None ->
  tryDownload env fetchUrl w = (Value (Some (blob, [])), w ++ [EvFetch fetchUrl]).
Proof.
  intros Hr Hok Hb Hp Hd. unfold tryDownload. unfold_m.
  rewrite Hr, Hok, Hb, Hd. cbn [negb].
  unfold payload_invalid, has_marker in Hp.
  apply orb_false_iff in Hp as [Hhtml Hp]. rewrite Hhtml. cbn [orb].
  destruct (blob_size blob <? 2000)%N; [|reflexivity].
  cbn [andb] in Hp.
  destruct (blob_text blob) as [text|e]; [|reflexivity].
  now rewrite Hp.
Qed.

Lemma startsWith_refl p : startsWith p p = true.
Proof. induction p as [|c p IH]; [reflexivity|]. simpl. now rewrite N.eqb_refl. Qed.

Lemma endsWith_app s p : endsWith (s ++ p) p = true.
Proof.
  unfold endsWith. rewrite length_app.
  replace (List.length s + List.length p - List.length p) with (List.length s) by lia.
  rewrite skipn_app, skipn_all, Nat.sub_diag. cbn [skipn app].
  rewrite startsWith_refl, andb_true_r. apply Nat.leb_le. lia.
Qed.

Lemma startsWith_nonempty url p :
  p <> [] -> startsWith url p = true -> is_empty url = false.
Proof. destruct p; [congruence|]. now destruct url. Qed.

(** C4: a successful 3000-byte application/pdf response without a
    Content-Disposition header becomes a [File] of 3000 bytes whose
    synthesized name ends in ".pdf", whether it is the first proxy that
    serves it or, after a failed first attempt, the second; a successful
    500-byte text/html response whose text contains "<html" is a failed
    attempt, and the download yields null when that is what the proxies
    serve. *)
Theorem downloadFileFromUrl_payload_validation :
  (forall env url prefix w enc r blob,
      startsWith url (js "http") = true ->
      encode url = Some enc ->
      env_fetch env (corsproxy ++ enc) = Value r ->
      resp_ok r = true ->
      resp_content_disposition r = None ->
      resp_blob r = Value blob ->
      blob_type blob = js "application/pdf" ->
      blob_size blob = 3000%N ->
      exists file w',
        downloadFileFromUrl env url prefix w = (Value (Some file), w') /\
        file_size file = 3000%N /\
        file_type file = js "application/pdf" /\
        endsWith (file_name file) (js ".pdf") = true) /\
  (forall env url prefix w enc r blob,
      startsWith url (js "http") = true ->
      encode url = Some enc ->
      attempt_fails env (corsproxy ++ enc) ->
      env_fetch env (allorigins ++ enc) = Value r ->
      resp_ok r = true ->
      resp_content_disposition r = None ->
      resp_blob r = Value blob ->
      blob_type blob = js "application/pdf" ->
      blob_size blob = 3000%N ->
      exists file w',
        downloadFileFromUrl env url prefix w = (Value (Some file), w') /\
        file_size file = 3000%N /\
        file_type file = js "application/pdf" /\
        endsWith (file_name file) (js ".pdf") = true) /\
  (forall env fetchUrl w r blob text,
      env_fetch env fetchUrl = Value r ->
      resp_ok r = true ->
      resp_blob r = Value blob ->
      blob_type blob = js "text/html" ->
      blob_size blob = 500%N ->
      blob_text blob = Value text ->
      includes text (js "<html") = true ->
      tryDownload env fetchUrl w = (Value None, w ++ [EvFetch fetchUrl])) /\
  (forall env url prefix w enc r blob text,
      startsWith url (js "http") = true ->
      encode url = Some enc ->
      env_fetch env (corsproxy ++ enc) = Value r ->
      env_fetch env (allorigins ++ enc) = Value r ->
      resp_ok r = true ->
      resp_blob r = Value blob ->
      blob_type blob = js "text/html" ->
      blob_size blob = 500%N ->
      blob_text blob = Value text ->
      includes text (js "<html") = true ->
      fst (downloadFileFromUrl env url prefix w) = Value None).
Proof.
  assert (Hhtml : forall env fetchUrl r blob,
      env_fetch env fetchUrl = Value r -> resp_ok r = true ->
      resp_blob r = Value blob -> blob_type blob = js "text/html" ->
      attempt_fails env fetchUrl).
  { intros env fetchUrl r blob Hr Hok Hb Ht.
    apply (fails_payload _ _ Hr Hok Hb).
    unfold payload_invalid. now rewrite Ht. }
  assert (Hpdf : forall blob,
      blob_type blob = js "application/pdf" -> blob_size blob = 3000%N ->
      payload_invalid blob = false).
  { intros blob Ht Hs. unfold payload_invalid. now rewrite Ht, Hs. }
  assert (Hfile : forall env prefix blob w0,
      blob_type blob = js "application/pdf" -> blob_size blob = 3000%N ->
      exists file w',
        bind (materialize env prefix blob [])
             (fun file => ret (Some file)) w0 = (Value (Some file), w') /\
        file_size file = 3000%N /\
        file_type file = js "application/pdf" /\
        endsWith (file_name file) (js ".pdf") = true).
  { intros env prefix blob w0 Ht Hs. unfold bind.
    destruct (materialize_returns env prefix blob [] w0) as (name & Hm & Hname).
    rewrite Hm. unfold ret. eexists _, _. split; [reflexivity|].
    cbn [file_size file_blob file_type file_name]. repeat split; try assumption.
    rewrite (Hname eq_refl Ht), !app_assoc. apply endsWith_app. }
  split; [| split; [| split]].
  - intros env url prefix w enc r blob Hhttp Henc Hr Hok Hd Hb Ht Hs.
    unfold downloadFileFromUrl.
    rewrite (@startsWith_nonempty url (js "http")), Hhttp by (discriminate || assumption).
    cbn [negb orb]. unfold encodeURIComponent. rewrite Henc.
    unfold try_catch, bind at 1 2 3. unfold ret at 1.
    rewrite (tryDownload_accepts _ _ _ Hr Hok Hb (Hpdf _ Ht Hs) Hd).
    unfold ret at 1.
    destruct (Hfile env prefix blob (w ++ [EvFetch (corsproxy ++ enc)]) Ht Hs)
      as (file & w' & E & Hrest).
    rewrite E. eauto.
  - intros env url prefix w enc r blob Hhttp Henc Hfail Hr Hok Hd Hb Ht Hs.
    unfold downloadFileFromUrl.
    rewrite (@startsWith_nonempty url (js "http")), Hhttp by (discriminate || assumption).
    cbn [negb orb]. unfold encodeURIComponent. rewrite Henc.
    unfold try_catch, bind at 1 2 3. unfold ret at 1.
    rewrite (tryDownload_fails _ Hfail).
    unfold bind at 1. unfold ret at 1.
    rewrite (tryDownload_accepts _ _ _ Hr Hok Hb (Hpdf _ Ht Hs) Hd).
    destruct (Hfile env prefix blob
                ((w ++ [EvFetch (corsproxy ++ enc)]) ++ [EvFetch (allorigins ++ enc)])
                Ht Hs) as (file & w' & E & Hrest).
    rewrite E. eauto.
  - intros env fetchUrl w r blob text Hr Hok Hb Ht _ _ _.
    apply tryDownload_fails. exact (Hhtml _ _ _ _ Hr Hok Hb Ht).
  - intros env url prefix w enc r blob text Hhttp Henc Hr1 Hr2 Hok Hb Ht _ _ _.
    unfold downloadFileFromUrl.
    rewrite (@startsWith_nonempty url (js "http")), Hhttp by (discriminate || assumption).
    cbn [negb orb]. unfold encodeURIComponent. rewrite Henc.
    unfold try_catch, bind at 1 2 3. unfold ret at 1.
    rewrite (tryDownload_fails _ (Hhtml _ _ _ _ Hr1 Hok Hb Ht)).
    unfold bind at 1. unfold ret at 1.
    rewrite (tryDownload_fails _ (Hhtml _ _ _ _ Hr2 Hok Hb Ht)).
    reflexivity.
Qed.

Lemma doc_url_encodes : encode doc_url = Some doc_url_encoded.
Proof. vm_compute. reflexivity. Qed.

Lemma downloadFileFromUrl_payload_validation_witness :
  (exists file w',
      downloadFileFromUrl pdf_server doc_url (js "doc") [] = (Value (Some file), w') /\
      file_size file = 3000%N /\
      file_type file = js "application/pdf" /\
      endsWith (file_name file) (js ".pdf") = true) /\
  (exists file w',
      downloadFileFromUrl fallback_server doc_url (js "doc") []
        = (Value (Some file), w') /\
      file_size file = 3000%N /\
      file_type file = js "application/pdf" /\
      endsWith (file_name file) (js ".pdf") = true) /\
  tryDownload html_server doc_url [] = (Value None, [] ++ [EvFetch doc_url]) /\
  fst (downloadFileFromUrl html_server doc_url (js "doc") []) = Value None.
Proof.
  pose proof downloadFileFromUrl_payload_validation
    as (Hpdf & Hsecond & Hhtml & Hboth).
  split; [| split; [| split]].
  - apply (Hpdf pdf_server doc_url (js "doc") [] doc_url_encoded
             (mkResponse true None
                (Value (mkBlob (js "application/pdf") 3000 (Value (js "%PDF-1.7"))))
                (Value (js "%PDF-1.7")))
             (mkBlob (js "application/pdf") 3000 (Value (js "%PDF-1.7"))));
      solve [reflexivity | apply doc_url_encodes].
  - apply (Hsecond fallback_server doc_url (js "doc") [] doc_url_encoded
             (mkResponse true None
                (Value (mkBlob (js "application/pdf") 3000 (Value (js "%PDF-1.7"))))
                (Value (js "%PDF-1.7")))
             (mkBlob (js "application/pdf") 3000 (Value (js "%PDF-1.7"))));
      try solve [reflexivity | apply doc_url_encodes].
    apply fails_network with (e := TypeError). reflexivity.
  - apply (Hhtml html_server doc_url []
             (mkResponse true None
                (Value (mkBlob (js "text/html") 500
                          (Value (js "<html><body>Not found</body></html>"))))
                (Value (js "<html><body>Not found</body></html>")))
             (mkBlob (js "text/html") 500
                (Value (js "<html><body>Not found</body></html>")))
             (js "<html><body>Not found</body></html>"));
      reflexivity.
  - apply (Hboth html_server doc_url (js "doc") [] doc_url_encoded
             (mkResponse true None
                (Value (mkBlob (js "text/html") 500
                          (Value (js "<html><body>Not found</body></html>"))))
                (Value (js "<html><body>Not found</body></html>")))
             (mkBlob (js "text/html") 500
                (Value (js "<html><body>Not found</body></html>")))
             (js "<html><body>Not found</body></html>"));
      solve [reflexivity | apply doc_url_encodes].
Defined.

(** C7, as stated, fails: a URL of another scheme whose name begins with
    "http" is not rejected; it is fetched through the relay, and what the
    relay serves is returned. *)
Lemma downloadFileFromUrl_other_scheme :
  startsWith (js "httpx://example.com/doc.pdf") (js "http://") = false /\
  startsWith (js "httpx://example.com/doc.pdf") (js "https://") = false /\
  exists file,
    downloadFileFromUrl pdf_server (js "httpx://example.com/doc.pdf") (js "doc") []
      = (Value (Some file),
         [EvFetch (corsproxy ++ js "httpx%3A%2F%2Fexample.com%2Fdoc.pdf")]).
Proof.
  split; [reflexivity|]. split; [reflexivity|].
  eexists. vm_compute. reflexivity.
Qed.

(** C7 (amended): [downloadFileFromUrl] always returns and never throws;
    for an empty URL or one that does not start with "http" it returns
    null without any fetch; and it returns null whenever both proxy
    attempts fail. *)
Theorem downloadFileFromUrl_never_throws :
  (forall env url prefix w,
      exists r w', downloadFileFromUrl env url prefix w = (Value r, w')) /\
  (forall env url prefix w,
      is_empty url = true \/ startsWith url (js "http") = false ->
      downloadFileFromUrl env url prefix w = (Value None, w)) /\
  (forall env url prefix w,
      (forall enc, encode url = Some enc ->
                   attempt_fails env (corsproxy ++ enc) /\
                   attempt_fails env (allorigins ++ enc)) ->
      fst (downloadFileFromUrl env url prefix w) = Value None).
Proof.
  split; [| split].
  - intros env url prefix w.
    destruct (downloadFileFromUrl_returns env url prefix w) as (r & evs & H & _).
    eauto.
  - intros env url prefix w H. unfold downloadFileFromUrl.
    destruct H as [H | H]; rewrite H; [reflexivity|].
    now rewrite orb_true_r.
  - intros env url prefix w H. unfold downloadFileFromUrl.
    destruct (is_empty url || negb (startsWith url (js "http"))); [reflexivity|].
    unfold encodeURIComponent.
    destruct (encode url) as [enc|]; [|reflexivity].
    destruct (H enc eq_refl) as [H1 H2].
    unfold try_catch, bind at 1 2 3. unfold ret at 1.
    rewrite (tryDownload_fails _ H1).
    unfold bind at 1. unfold ret at 1.
    rewrite (tryDownload_fails _ H2). reflexivity.
Qed.

Lemma downloadFileFromUrl_never_throws_witness :
  downloadFileFromUrl pdf_server (js "ftp://example.com/doc.pdf") (js "doc") []
    = (Value None, []) /\
  fst (downloadFileFromUrl dead_network doc_url (js "doc") []) = Value None.
Proof.
  pose proof downloadFileFromUrl_never_throws as (_ & Hguard & Hfail).
  split.
  - apply Hguard. right. reflexivity.
  - apply Hfail. intros enc _.
    split; apply fails_network with (e := AbortError); reflexivity.
Defined.

(* ===================================================================== *)
(** ** Batch link prober *)
(* ===================================================================== *)

Lemma keeps_refl r : keeps r r.
Proof. split; auto. Qed.

Lemma keeps_trans r1 r2 r3 : keeps r1 r2 -> keeps r2 r3 -> keeps r1 r3.
Proof. intros [A1 T1] [A2 T2]. split; auto. Qed.

Lemma assign_keeps r res : keeps r (assign r res).
Proof.
  destruct res as [[file type]|]; [|apply keeps_refl].
  destruct r as [[a|] [t|]], type; split; cbn; auto; discriminate.
Qed.

Lemma fold_assign_keeps rs : forall r, keeps r (fold_left assign rs r).
Proof.
  induction rs as [|res rs IH]; intros r; cbn; [apply keeps_refl|].
  eapply keeps_trans; [apply assign_keeps | apply IH].
Qed.

Lemma probes_of_app evs1 evs2 :
  probes_of (evs1 ++ evs2) = probes_of evs1 ++ probes_of evs2.
Proof. apply flat_map_app. Qed.

Lemma probes_of_no_probe evs : no_probe evs -> probes_of evs = [].
Proof.
  induction 1 as [|ev evs Hev _ IH]; [reflexivity|].
  unfold probes_of in *. cbn [flat_map]. rewrite IH. now destruct ev.
Qed.

Lemma probeAndDownloadLink_returns env url w :
  exists r evs,
    probeAndDownloadLink env url w = (Value r, w ++ evs) /\
    probes_of evs = [url].
Proof.
  unfold probeAndDownloadLink. unfold bind at 1. unfold emit.
  destruct (negb (isRelevantLink url)).
  - exists None, [EvProbe url]. split; reflexivity.
  - unfold bind.
    destruct (downloadFileFromUrl_returns env url (js "doc") (w ++ [EvProbe url]))
      as (r & evs & H & Hno).
    rewrite H, <- app_assoc.
    destruct r as [file|]; eexists _, ([EvProbe url] ++ evs);
      (split; [reflexivity|]);
      rewrite probes_of_app, (probes_of_no_probe Hno); reflexivity.
Qed.

Lemma promise_all_probes env batch : forall w,
  exists rs evs,
    promise_all (map (probeAndDownloadLink env) batch) w = (Value rs, w ++ evs) /\
    probes_of evs = batch /\
    Forall2 (answers env) batch rs.
Proof.
  induction batch as [|u batch IH]; intros w; cbn [map promise_all].
  - exists [], []. rewrite app_nil_r. repeat split. constructor.
  - destruct (probeAndDownloadLink_returns env u w) as (r & evs1 & H1 & P1).
    destruct (IH (w ++ evs1)) as (rs & evs2 & H2 & P2 & A2).
    rewrite H1, H2. exists (r :: rs), (evs1 ++ evs2).
    rewrite app_assoc, probes_of_app, P1, P2. repeat split.
    constructor; [|exact A2]. exists w. now rewrite H1.
Qed.

Lemma probeGroup_returns env links cb i results processed w :
  exists rs evs,
    probeGroup env links cb i results processed w =
      (Value (fold_left assign rs results,
              processed + List.length (slice links i (i + BATCH_SIZE))),
       w ++ evs) /\
    probes_of evs = slice links i (i + BATCH_SIZE) /\
    Forall2 (answers env) (slice links i (i + BATCH_SIZE)) rs.
Proof.
  unfold probeGroup. unfold bind at 1.
  destruct (promise_all_probes env (slice links i (i + BATCH_SIZE)) w)
    as (rs & evs & H & P & A).
  rewrite H. exists rs.
  destruct cb; unfold_m.
  - eexists (evs ++ [_]). rewrite app_assoc. split; [reflexivity|].
    rewrite probes_of_app, P. cbn. rewrite app_nil_r. split; [reflexivity | exact A].
  - exists evs. repeat split; assumption.
Qed.

Lemma probeLoop_unfold env links cb i results processed w :
  probeLoop env links cb i results processed w =
    if i <? List.length links then
      if both_filled results then (Value results, w)
      else
        match probeGroup env links cb i results processed w with
        | (Value (results', processed'), w') =>
            probeLoop env links cb (i + BATCH_SIZE) results' processed' w'
        | (Thrown e, w') => (Thrown e, w')
        end
    else (Value results, w).
Proof.
  destruct (Nat.ltb_spec i (List.length links)) as [Hlt|Hge];
    simp probeLoop; destruct (lt_dec i (List.length links)) as [H|H]; try lia.
  - cbn. destruct (both_filled results); cbn; [reflexivity|].
    destruct (probeGroup env links cb i results processed w) as [[[r' p']|e] w'];
      reflexivity.
  - reflexivity.
Qed.

Lemma firstn_skipn_add {A} (l : list A) a b :
  firstn a l ++ firstn b (skipn a l) = firstn (a + b) l.
Proof.
  revert l. induction a as [|a IH]; intros l; [reflexivity|].
  destruct l as [|x l]; cbn; [now rewrite firstn_nil|].
  now rewrite IH.
Qed.

Lemma slice_group {A} (l : list A) i :
  slice l i (i + BATCH_SIZE) = firstn 4 (skipn i l).
Proof. unfold slice, BATCH_SIZE. f_equal. lia. Qed.

(** The loop always returns; it is a run of [k] groups, each started with
    the test passed, that ends with the test failed; the probes are the
    next [4 * k] links in order; filled slots are kept. *)
Lemma probeLoop_run env links cb : forall n i results processed w,
  List.length links - i <= n ->
  exists k results' processed' w',
    probeLoop env links cb i results processed w = (Value results', w') /\
    iterates env links cb k (i, results, processed, w)
             (i + 4 * k, results', processed', w') /\
    (List.length links <= i + 4 * k \/ both_filled results' = true) /\
    probes_of w' = probes_of w ++ firstn (4 * k) (skipn i links) /\
    keeps results results'.
Proof.
  induction n as [|n IH]; intros i results processed w Hn;
    rewrite probeLoop_unfold.
  - assert (Hge : (i <? List.length links) = false) by (apply Nat.ltb_ge; lia).
    rewrite Hge. exists 0, results, processed, w.
    rewrite Nat.mul_0_r, Nat.add_0_r. cbn [firstn]. rewrite app_nil_r.
    split; [reflexivity|]. split; [constructor|]. split; [left; lia|].
    split; [reflexivity | apply keeps_refl].
  - destruct (i <? List.length links) eqn:Hlt.
    2:{ apply Nat.ltb_ge in Hlt. exists 0, results, processed, w.
        rewrite Nat.mul_0_r, Nat.add_0_r. cbn [firstn]. rewrite app_nil_r.
        split; [reflexivity|]. split; [constructor|]. split; [left; lia|].
        split; [reflexivity | apply keeps_refl]. }
    apply Nat.ltb_lt in Hlt.
    destruct (both_filled results) eqn:Hfull.
    { exists 0, results, processed, w.
      rewrite Nat.mul_0_r, Nat.add_0_r. cbn [firstn]. rewrite app_nil_r.
      split; [reflexivity|]. split; [constructor|]. split; [now right|].
      split; [reflexivity | apply keeps_refl]. }
    destruct (probeGroup_returns env links cb i results processed w)
      as (rs & evs & Hg & Pg & _).
    rewrite Hg.
    destruct (IH (i + BATCH_SIZE) (fold_left assign rs results)
                 (processed + List.length (slice links i (i + BATCH_SIZE)))
                 (w ++ evs)) as (k & r' & p' & w' & Hrun & Hit & Hend & Hp & Hk).
    { unfold BATCH_SIZE. lia. }
    exists (S k), r', p', w'.
    replace (i + 4 * S k) with (i + BATCH_SIZE + 4 * k) by (unfold BATCH_SIZE; lia).
    split; [exact Hrun|]. split; [econstructor; eassumption|].
    split; [exact Hend|]. split.
    + rewrite Hp, probes_of_app, Pg, slice_group, <- app_assoc. f_equal.
      unfold BATCH_SIZE. rewrite Nat.add_comm, <- skipn_skipn.
      replace (4 * S k) with (4 + 4 * k) by lia.
      apply firstn_skipn_add.
    + eapply keeps_trans; [apply fold_assign_keeps | exact Hk].
Qed.

Lemma probeLoop_stop env links cb i results processed w :
  both_filled results = true ->
  probeLoop env links cb i results processed w = (Value results, w).
Proof.
  intros Hfull. rewrite probeLoop_unfold, Hfull.
  now destruct (i <? List.length links).
Qed.

Lemma probeLoop_step env links cb i results processed w :
  i < List.length links -> both_filled results = false ->
  exists rs evs,
    probeLoop env links cb i results processed w =
      probeLoop env links cb (i + 4) (fold_left assign rs results)
                (processed + List.length (firstn 4 (skipn i links))) (w ++ evs) /\
    probes_of evs = firstn 4 (skipn i links) /\
    Forall2 (answers env) (firstn 4 (skipn i links)) rs.
Proof.
  intros Hlt Hfull.
  destruct (probeGroup_returns env links cb i results processed w)
    as (rs & evs & Hg & Pg & A).
  rewrite slice_group in *. exists rs, evs.
  rewrite probeLoop_unfold, (proj2 (Nat.ltb_lt _ _) Hlt), Hfull, Hg.
  auto.
Qed.

Lemma set_add_fresh acc x : ~ In x acc -> set_add acc x = acc ++ [x].
Proof.
  intros Hx. unfold set_add.
  destruct (existsb (JS.eqb x) acc) eqn:E; [|reflexivity].
  apply existsb_exists in E as (y & Hy & Hxy). unfold JS.eqb in Hxy.
  destruct (list_eq_dec N.eq_dec x y); [subst; contradiction | discriminate].
Qed.

Lemma array_from_set_NoDup links : NoDup links -> array_from_set links = links.
Proof.
  unfold array_from_set. change links with ([] ++ links) at 1 3.
  generalize (@nil JSString) as acc.
  induction links as [|x links IH]; intros acc Hnd; cbn [fold_left].
  - now rewrite app_nil_r.
  - rewrite set_add_fresh.
    + replace (acc ++ x :: links) with ((acc ++ [x]) ++ links)
        by (now rewrite <- app_assoc).
      apply IH. now rewrite <- app_assoc.
    + intros Hin. apply NoDup_remove_2 in Hnd. apply Hnd.
      apply in_or_app. now left.
Qed.

Lemma filter_all {A} (f : A -> bool) l :
  Forall (fun x => f x = true) l -> filter f l = l.
Proof.
  induction 1 as [|x l Hx _ IH]; [reflexivity|]. cbn. now rewrite Hx, IH.
Qed.

(** *** The set of candidates *)

Lemma set_add_In acc x y : In y (set_add acc x) <-> In y acc \/ y = x.
Proof.
  unfold set_add. destruct (existsb (JS.eqb x) acc) eqn:E.
  - apply existsb_exists in E as (z & Hz & Hxz). apply eqb_true in Hxz. subst z.
    split; [auto | intros [H | ->]; assumption].
  - rewrite in_app_iff. cbn. intuition congruence.
Qed.

Lemma set_add_NoDup acc x : NoDup acc -> NoDup (set_add acc x).
Proof.
  intros Hnd. unfold set_add. destruct (existsb (JS.eqb x) acc) eqn:E; [exact Hnd|].
  apply NoDup_app; [exact Hnd | repeat constructor; intros [] |].
  intros y Hy [<- | []].
  assert (existsb (JS.eqb x) acc = true)
    by (apply existsb_exists; exists x; split; [exact Hy | apply eqb_refl]).
  congruence.
Qed.

Lemma fold_set_add_In links : forall acc y,
  In y (fold_left set_add links acc) <-> In y acc \/ In y links.
Proof.
  induction links as [|x links IH]; intros acc y; cbn [fold_left].
  - cbn. tauto.
  - rewrite IH, set_add_In. cbn. intuition congruence.
Qed.

Lemma fold_set_add_NoDup links : forall acc,
  NoDup acc -> NoDup (fold_left set_add links acc).
Proof.
  induction links as [|x links IH]; intros acc Hnd; cbn [fold_left];
    [exact Hnd | apply IH, set_add_NoDup, Hnd].
Qed.

(** Building the set from [front ++ acc] on: [front] stays in front, and
    the elements already in it do not matter. *)
Lemma fold_set_add_front links : forall acc front,
  fold_left set_add links (front ++ acc) =
    front ++ fold_left set_add
               (filter (fun y => negb (existsb (JS.eqb y) front)) links) acc.
Proof.
  induction links as [|y links IH]; intros acc front; cbn [fold_left filter];
    [reflexivity|].
  change (set_add (front ++ acc) y)
    with (if existsb (JS.eqb y) (front ++ acc) then front ++ acc
          else (front ++ acc) ++ [y]).
  rewrite existsb_app.
  destruct (existsb (JS.eqb y) front) eqn:Ef; cbn [orb negb].
  - apply IH.
  - cbn [fold_left].
    change (set_add acc y)
      with (if existsb (JS.eqb y) acc then acc else acc ++ [y]).
    destruct (existsb (JS.eqb y) acc); [apply IH|].
    rewrite <- app_assoc. apply IH.
Qed.

(** The first element stays first; the rest is the set of the remaining
    elements other than it. *)
Lemma array_from_set_cons x links :
  array_from_set (x :: links) =
    x :: array_from_set (filter (fun y => negb (JS.eqb y x)) links).
Proof.
  unfold array_from_set. cbn [fold_left].
  change (set_add [] x) with ([x] ++ @nil JSString).
  rewrite (fold_set_add_front links [] [x]). cbn [app]. f_equal. f_equal.
  apply filter_ext. intros y. cbn [existsb]. now rewrite orb_false_r.
Qed.

Lemma filter_comm {A} (p q : A -> bool) l :
  filter p (filter q l) = filter q (filter p l).
Proof.
  induction l as [|x l IH]; [reflexivity|]. cbn [filter].
  destruct (p x) eqn:Hp, (q x) eqn:Hq; cbn [filter]; rewrite ?Hp, ?Hq, IH;
    reflexivity.
Qed.

Lemma filter_length_lt {A} (p : A -> bool) l :
  List.length (filter p l) <= List.length l.
Proof.
  induction l as [|x l IH]; [reflexivity|]. cbn [filter].
  destruct (p x); cbn [List.length]; lia.
Qed.

(** Deduplication commutes with filtering. *)
Lemma array_from_set_filter (p : JSString -> bool) : forall n links,
  List.length links <= n ->
  array_from_set (filter p links) = filter p (array_from_set links).
Proof.
  induction n as [|n IH]; intros links Hn.
  - destruct links; [reflexivity | cbn in Hn; lia].
  - destruct links as [|x links]; [reflexivity|].
    cbn [List.length] in Hn. rewrite array_from_set_cons. cbn [filter].
    assert (Hlen : List.length (filter (fun y => negb (JS.eqb y x)) links) <= n)
      by (pose proof (filter_length_lt (fun y => negb (JS.eqb y x)) links); lia).
    destruct (p x) eqn:Hp.
    + rewrite array_from_set_cons, filter_comm. f_equal. now apply IH.
    + rewrite <- (IH _ Hlen), filter_comm. f_equal.
      clear - Hp. induction links as [|y links IHl]; [reflexivity|].
      cbn [filter]. destruct (p y) eqn:Hy; cbn [filter]; [|exact IHl].
      destruct (JS.eqb y x) eqn:E; cbn [negb]; [|now rewrite <- IHl].
      apply eqb_true in E. congruence.
Qed.

Lemma array_from_set_filter_all (p : JSString -> bool) links :
  array_from_set (filter p links) = filter p (array_from_set links).
Proof. exact (@array_from_set_filter p (List.length links) links (le_n _)). Qed.

Lemma array_from_set_NoDup_In links :
  NoDup (array_from_set links) /\
  (forall u, In u (array_from_set links) <-> In u links).
Proof.
  unfold array_from_set. split.
  - apply fold_set_add_NoDup. constructor.
  - intros u. rewrite fold_set_add_In. cbn. tauto.
Qed.

Lemma uniqueLinks_unique_relevant links :
  NoDup links -> Forall (fun u => isRelevantLink u = true) links ->
  uniqueLinks links = links.
Proof.
  intros Hnd Hrel. unfold uniqueLinks.
  rewrite (array_from_set_NoDup Hnd). now apply filter_all.
Qed.

Lemma answers_yields env url c r :
  yields env url c -> answers env url r -> exists file, r = Some (file, c).
Proof.
  intros Hy [w Hw]. destruct (Hy w) as [file Hf].
  exists file. congruence.
Qed.

Lemma answers_nothing env url r :
  yields_nothing env url -> answers env url r -> r = None.
Proof. intros Hy [w Hw]. rewrite Hy in Hw. congruence. Qed.

Ltac invert_answers :=
  repeat match goal with
  | H : Forall2 _ (_ :: _) _ |- _ => inversion H; subst; clear H
  | H : Forall2 _ [] _ |- _ => inversion H; subst; clear H
  | Hy : yields_nothing ?env ?u, H : answers ?env ?u _ |- _ =>
      apply (answers_nothing Hy) in H; subst
  | Hy : yields ?env ?u _, H : answers ?env ?u _ |- _ =>
      apply (answers_yields Hy) in H; destruct H as [? ?]; subst
  end.

(** C1, as stated, fails: of ten distinct relevant links only the second
    leads to a file classified ADMIN and only the fifth to one classified
    TECH, but the first and the third lead to files of unknown class;
    these fill both slots, and the prober stops after the first group of
    four. *)
Lemma probeLinksInBatches_unknown_files :
  NoDup ten_links /\
  Forall (fun u => isRelevantLink u = true) ten_links /\
  yields unnamed_server (link "02") ADMIN /\
  yields unnamed_server (link "05") TECH /\
  (forall u, In u ten_links ->
             (yields unnamed_server u ADMIN -> u = link "02") /\
             (yields unnamed_server u TECH -> u = link "05")) /\
  exists results w',
    probeLinksInBatches unnamed_server ten_links true [] = (Value results, w') /\
    probes_of w' = [link "01"; link "02"; link "03"; link "04"] /\
    both_filled results = true.
Proof.
  split; [repeat (constructor; [cbv; intuition discriminate|]); constructor|].
  split; [repeat (constructor; [vm_compute; reflexivity|]); constructor|].
  split; [intros w; eexists; vm_compute; reflexivity|].
  split; [intros w; eexists; vm_compute; reflexivity|].
  split.
  - intros u Hu. unfold ten_links in Hu. cbn [In] in Hu.
    repeat (destruct Hu as [<-|Hu]; [|]); try contradiction;
      (split; intros H; destruct (H []) as [f Hf];
       vm_compute in Hf; solve [reflexivity | discriminate]).
  - eexists _, _. split; [vm_compute; reflexivity|].
    split; vm_compute; reflexivity.
Qed.

(** C1 (amended): the probe list is the list of candidates without
    repetitions and without the links that the relevance filter drops, in
    the order of their first occurrence. The prober always returns; its
    run is a sequence of [k] groups of four consecutive links of the
    probe list, each issued with at least one slot vacant, that ends when
    the links are exhausted or both slots are filled; from a state with
    both slots filled no group is issued at all. For ten distinct relevant
    links of which the second yields a file classified ADMIN, the fifth
    one classified TECH and the other six of the first eight no file,
    exactly the first eight links are probed. *)
Theorem probeLinksInBatches_groups :
  (forall links,
      NoDup (uniqueLinks links) /\
      (forall u, In u (uniqueLinks links) <->
                 In u links /\ isRelevantLink u = true) /\
      (forall x,
          uniqueLinks (x :: links) =
            (if isRelevantLink x then [x] else []) ++
            filter (fun y => negb (JS.eqb y x)) (uniqueLinks links))) /\
  (forall env links cb w,
      exists k results processed w',
        probeLinksInBatches env links cb w = (Value results, w') /\
        iterates env (uniqueLinks links) cb k
                 (0, mkResults None None, 0, w) (4 * k, results, processed, w') /\
        (List.length (uniqueLinks links) <= 4 * k \/ both_filled results = true) /\
        probes_of w' = probes_of w ++ firstn (4 * k) (uniqueLinks links)) /\
  (forall env links cb i results processed w,
      both_filled results = true ->
      probeLoop env links cb i results processed w = (Value results, w)) /\
  (forall env cb w u1 u2 u3 u4 u5 u6 u7 u8 u9 u10,
      let links := [u1; u2; u3; u4; u5; u6; u7; u8; u9; u10] in
      NoDup links ->
      Forall (fun u => isRelevantLink u = true) links ->
      yields env u2 ADMIN ->
      yields env u5 TECH ->
      Forall (yields_nothing env) [u1; u3; u4; u6; u7; u8] ->
      exists results w',
        probeLinksInBatches env links cb w = (Value results, w') /\
        probes_of w' = probes_of w ++ [u1; u2; u3; u4; u5; u6; u7; u8] /\
        both_filled results = true).
Proof.
  split; [| split; [| split]].
  - intros links.
    destruct (array_from_set_NoDup_In links) as [Hnd Hin]. unfold uniqueLinks.
    split; [now apply NoDup_filter|].
    split; [intros u; now rewrite filter_In, Hin|].
    intros x. rewrite array_from_set_cons. cbn [filter].
    rewrite array_from_set_filter_all, filter_comm.
    now destruct (isRelevantLink x).
  - intros env links cb w. unfold probeLinksInBatches.
    destruct (probeLoop_run env (uniqueLinks links) cb
                (n := List.length (uniqueLinks links)) 0
                (mkResults None None) 0 w)
      as (k & r' & p' & w' & Hrun & Hit & Hend & Hp & _); [lia|].
    exists k, r', p', w'. cbn [Nat.add skipn] in *. auto.
  - intros env links cb i results processed w. apply probeLoop_stop.
  - intros env cb w u1 u2 u3 u4 u5 u6 u7 u8 u9 u10 links Hnd Hrel H2 H5 Hnone.
    repeat match goal with
    | H : Forall _ (_ :: _) |- _ => inversion H; subst; clear H
    end.
    unfold probeLinksInBatches.
    rewrite (uniqueLinks_unique_relevant Hnd Hrel). subst links.
    destruct (probeLoop_step env [u1; u2; u3; u4; u5; u6; u7; u8; u9; u10] cb
                (i := 0) (mkResults None None) 0 w)
      as (rs1 & evs1 & E1 & P1 & A1); [cbn; lia | reflexivity |].
    rewrite E1. cbn [firstn skipn] in P1, A1. invert_answers.
    match goal with
    | |- context [fold_left assign ?rs ?r] =>
        change (fold_left assign rs r) with (mkResults (Some x) None)
    end.
    destruct (probeLoop_step env [u1; u2; u3; u4; u5; u6; u7; u8; u9; u10] cb
                (i := 0 + 4) (mkResults (Some x) None)
                (0 + List.length (firstn 4 (skipn 0
                   [u1; u2; u3; u4; u5; u6; u7; u8; u9; u10]))) (w ++ evs1))
      as (rs2 & evs2 & E2 & P2 & A2); [cbn; lia | reflexivity |].
    rewrite E2. cbn [firstn skipn Nat.add] in P2, A2. invert_answers.
    match goal with
    | |- context [fold_left assign ?rs ?r] =>
        change (fold_left assign rs r) with (mkResults (Some x) (Some x0))
    end.
    rewrite probeLoop_stop by reflexivity.
    eexists _, _. split; [reflexivity|]. split; [|reflexivity].
    rewrite !probes_of_app, P1, P2, <- app_assoc. reflexivity.
Qed.

Lemma probeLinksInBatches_groups_witness :
  (exists results w',
      probeLinksInBatches tender_server ten_links true [] = (Value results, w') /\
      probes_of w' =
        probes_of [] ++ [link "01"; link "02"; link "03"; link "04";
                         link "05"; link "06"; link "07"; link "08"] /\
      both_filled results = true) /\
  uniqueLinks repeated_links = [link "02"; link "05"].
Proof.
  split.
  - apply (proj2 (proj2 (proj2 probeLinksInBatches_groups)) tender_server true []
             (link "01") (link "02") (link "03") (link "04") (link "05")
             (link "06") (link "07") (link "08") (link "09") (link "10")).
    + repeat (constructor; [cbv; intuition discriminate|]). constructor.
    + repeat (constructor; [vm_compute; reflexivity|]). constructor.
    + intros w. eexists. cbv. reflexivity.
    + intros w. eexists. cbv. reflexivity.
    + repeat (constructor; [intros w; cbv; reflexivity|]). constructor.
  - destruct (proj1 probeLinksInBatches_groups
                [js "mailto:info@example.com"; link "02"; link "05"])
      as (_ & _ & Hcons).
    unfold repeated_links. rewrite Hcons. vm_compute. reflexivity.
Defined.



(** C10: a file classified ADMIN that finds the admin slot filled changes
    nothing, even with the tech slot vacant, and likewise a file
    classified TECH that finds the tech slot filled; an ADMIN file never
    reaches the tech slot and a TECH file never reaches the admin slot,
    whereas an UNKNOWN file that finds only the admin slot filled takes
    the tech slot. *)
Theorem classified_result_discarded :
  (forall results file held,
      admin results = Some held ->
      assign results (Some (file, ADMIN)) = results) /\
  (forall results file held,
      tech results = Some held ->
      assign results (Some (file, TECH)) = results) /\
  (forall results file,
      tech (assign results (Some (file, ADMIN))) = tech results /\
      admin (assign results (Some (file, TECH))) = admin results) /\
  (forall file held,
      assign (mkResults (Some held) None) (Some (file, UNKNOWN))
        = mkResults (Some held) (Some file)).
Proof.
  repeat split.
  - intros [a t] file held H. cbn in *. now rewrite H.
  - intros [a t] file held H. cbn in *. now rewrite H.
  - destruct results as [[a|] t]; reflexivity.
  - destruct results as [a [t|]]; reflexivity.
Qed.

Lemma classified_result_discarded_witness :
  assign (mkResults (Some pcap_file) None) (Some (other_file, ADMIN))
    = mkResults (Some pcap_file) None /\
  assign (mkResults None (Some memoria_file)) (Some (other_file, TECH))
    = mkResults None (Some memoria_file).
Proof.
  pose proof classified_result_discarded as (Hadmin & Htech & _).
  split.
  - apply (Hadmin (mkResults (Some pcap_file) None) other_file pcap_file).
    reflexivity.
  - apply (Htech (mkResults None (Some memoria_file)) other_file memoria_file).
    reflexivity.
Defined.

(* ===================================================================== *)
(** ** Web page scraper *)
(* ===================================================================== *)

Lemma truthy_proper v : proper v -> truthy v = match v with Some _ => true | None => false end.
Proof. destruct v as [[|c u]|]; cbn; congruence. Qed.

Lemma resolveUrl_nonempty env pageUrl href :
  href_nonempty env -> href <> [] -> resolveUrl env pageUrl href <> [].
Proof.
  intros Henv Hh. unfold resolveUrl.
  destruct (startsWith href (js "http")); [exact Hh|].
  destruct (env_url_href env href pageUrl) as [u|e] eqn:E; [|exact Hh].
  exact (Henv _ _ _ E).
Qed.

Lemma scanned_cons env pageUrl link links :
  scanned env pageUrl (link :: links) =
    if skipped (a_href link) then scanned env pageUrl links
    else (resolveUrl env pageUrl (or_empty (a_href link)), combinedText link)
           :: scanned env pageUrl links.
Proof. unfold scanned. cbn [filter]. now destruct (skipped (a_href link)). Qed.

Lemma not_skipped_nonempty href : skipped href = false -> or_empty href <> [].
Proof. destruct href as [[|c h]|]; cbn; congruence. Qed.

(** The scan as a whole: first match per slot, and the generic list. *)
Lemma scan_fold env pageUrl (Henv : href_nonempty env) links : forall st,
  proper (scan_adminUrl st) -> proper (scan_techUrl st) ->
  fold_left (scanLink env pageUrl) links st =
    mkScan (or_else (scan_adminUrl st)
                    (first_match isAdmin (scanned env pageUrl links)))
           (or_else (scan_techUrl st)
                    (first_match isTech (scanned env pageUrl links)))
           (potentialPdfs st ++ generic (scanned env pageUrl links)) /\
  Forall (fun c => fst c <> []) (scanned env pageUrl links).
Proof.
  induction links as [|link links IH]; intros [a t pdfs] Ha Ht;
    cbn [fold_left scan_adminUrl scan_techUrl potentialPdfs] in *.
  - cbn. rewrite app_nil_r. split; [now destruct a, t | constructor].
  - rewrite scanned_cons. unfold scanLink at 2.
    destruct (skipped (a_href link)) eqn:Hskip; [now apply IH|].
    cbn [scan_adminUrl scan_techUrl potentialPdfs].
    pose proof (resolveUrl_nonempty pageUrl Henv (not_skipped_nonempty _ Hskip))
      as Hfull.
    set (fullUrl := resolveUrl env pageUrl (or_empty (a_href link))) in *.
    rewrite (truthy_proper _ Ha), (truthy_proper _ Ht).
    destruct (IH (mkScan
        (if negb match a with Some _ => true | None => false end &&
            isAdmin (combinedText link) then Some fullUrl else a)
        (if negb match t with Some _ => true | None => false end &&
            isTech (combinedText link) then Some fullUrl else t)
        (if isFile fullUrl then pdfs ++ [fullUrl] else pdfs))) as [IH1 IH2].
    { cbn. destruct a; cbn; [exact Ha|].
      now destruct (isAdmin (combinedText link)). }
    { cbn. destruct t; cbn; [exact Ht|].
      now destruct (isTech (combinedText link)). }
    split; [| constructor; assumption].
    rewrite IH1. cbn [scan_adminUrl scan_techUrl potentialPdfs].
    unfold first_match, generic. cbn [find map filter snd fst].
    f_equal.
    + destruct a; cbn; [reflexivity|].
      now destruct (isAdmin (combinedText link)).
    + destruct t; cbn; [reflexivity|].
      now destruct (isTech (combinedText link)).
    + destruct (isFile fullUrl); [|reflexivity].
      now rewrite <- app_assoc.
Qed.

Lemma first_match_proper p cands :
  Forall (fun c => fst c <> []) cands -> proper (first_match p cands).
Proof.
  unfold first_match. induction 1 as [|c cands Hc _ IH]; cbn; [exact I|].
  destruct (p _); cbn; [exact Hc | exact IH].
Qed.

Lemma generic_proper cands n :
  Forall (fun c => fst c <> []) cands -> proper (nth_error (generic cands) n).
Proof.
  intros H. destruct (nth_error (generic cands) n) as [u|] eqn:E; [|exact I].
  apply nth_error_In in E. unfold generic in E.
  apply filter_In in E as [E _]. apply in_map_iff in E as (c & <- & Hc).
  rewrite Forall_forall in H. now apply H.
Qed.

Lemma scanAnchors_spec env pageUrl links :
  href_nonempty env ->
  let cands := scanned env pageUrl links in
  scanAnchors env pageUrl links =
    mkScraped (or_else (first_match isAdmin cands) (nth_error (generic cands) 0))
              (or_else (first_match isTech cands) (nth_error (generic cands) 1)).
Proof.
  intros Henv cands. unfold scanAnchors.
  destruct (scan_fold pageUrl Henv links (mkScan None None []) I I) as [-> Hne].
  fold cands in Hne |- *. cbn [or_else scan_adminUrl scan_techUrl potentialPdfs app].
  pose proof (first_match_proper isAdmin Hne) as Ha.
  pose proof (first_match_proper isTech Hne) as Ht.
  pose proof (generic_proper 0 Hne) as H0.
  pose proof (generic_proper 1 Hne) as H1.
  unfold backfill. cbn [scan_adminUrl scan_techUrl potentialPdfs].
  rewrite (truthy_proper _ Ha), (truthy_proper _ Ht),
          (truthy_proper _ H0), (truthy_proper _ H1).
  destruct (generic cands) as [|p1 ps] eqn:G; cbn [nth_error].
  - now destruct (first_match isAdmin cands), (first_match isTech cands).
  - f_equal.
    + now destruct (first_match isAdmin cands).
    + destruct (first_match isTech cands); [reflexivity|].
      now destruct ps.
Qed.

(** The keyword tests of the scan, on the text of the link. *)
Lemma keyword_tests link :
  isAdmin (combinedText link) = mentions admin_words link /\
  isTech (combinedText link) = mentions tech_words link.
Proof.
  unfold isAdmin, isTech, mentions, combinedText, admin_words, tech_words,
    link_words.
  cbn [existsb]. now rewrite !orb_false_r, !orb_assoc.
Qed.

Lemma find_none_iff {A} (p : A -> bool) l :
  find p l = None <-> (forall x, In x l -> p x = false).
Proof.
  split; [intros H x Hx; exact (find_none p l H x Hx)|].
  induction l as [|y l IH]; intros H; [reflexivity|].
  cbn [find]. rewrite (H y (or_introl eq_refl)). apply IH.
  intros x Hx. apply H. now right.
Qed.

(** No scanned anchor passes a keyword test exactly when no anchor that
    the scan looks at mentions a keyword. *)
Lemma first_match_none env pageUrl links :
  (first_match isAdmin (scanned env pageUrl links) = None <->
   forall link, In link links -> skipped (a_href link) = false ->
                mentions admin_words link = false) /\
  (first_match isTech (scanned env pageUrl links) = None <->
   forall link, In link links -> skipped (a_href link) = false ->
                mentions tech_words link = false).
Proof.
  unfold first_match, scanned.
  split.
  - destruct (find (fun c => isAdmin (snd c)) _) eqn:E; cbn [option_map].
    + split; [discriminate|]. intros H. exfalso.
      apply find_some in E as [Hin Hp]. apply in_map_iff in Hin as (l & <- & Hl).
      apply filter_In in Hl as [Hl Hs]. apply negb_true_iff in Hs.
      cbn [snd] in Hp. rewrite (proj1 (keyword_tests l)), (H l Hl Hs) in Hp.
      discriminate.
    + split; [|reflexivity]. intros _ l Hl Hs.
      rewrite find_none_iff in E. rewrite <- (proj1 (keyword_tests l)).
      apply (E (resolveUrl env pageUrl (or_empty (a_href l)), combinedText l)).
      apply in_map_iff. exists l. split; [reflexivity|].
      apply filter_In. split; [exact Hl | now rewrite Hs].
  - destruct (find (fun c => isTech (snd c)) _) eqn:E; cbn [option_map].
    + split; [discriminate|]. intros H. exfalso.
      apply find_some in E as [Hin Hp]. apply in_map_iff in Hin as (l & <- & Hl).
      apply filter_In in Hl as [Hl Hs]. apply negb_true_iff in Hs.
      cbn [snd] in Hp. rewrite (proj2 (keyword_tests l)), (H l Hl Hs) in Hp.
      discriminate.
    + split; [|reflexivity]. intros _ l Hl Hs.
      rewrite find_none_iff in E. rewrite <- (proj2 (keyword_tests l)).
      apply (E (resolveUrl env pageUrl (or_empty (a_href l)), combinedText l)).
      apply in_map_iff. exists l. split; [reflexivity|].
      apply filter_In. split; [exact Hl | now rewrite Hs].
Qed.



(* ===================================================================== *)
(** ** Metadata extraction *)
(* ===================================================================== *)

(** C6, as stated, fails: with the response text missing the function
    returns the all-empty record as a normal result and throws nothing. *)
Lemma extractMetadata_missing_text_returns :
  env_generate silent_service (js "JVBERi0xLjcK") = Value None /\
  extractMetadataFromTenderFile silent_service pcap_file []
    = (Value emptyMetadata, []) /\
  ~ (exists e w',
        extractMetadataFromTenderFile silent_service pcap_file [] = (Thrown e, w')).
Proof.
  split; [reflexivity|]. split; [reflexivity|].
  intros (e & w' & H). discriminate H.
Qed.

(** C6 (amended): with a client and a readable file, a response text that
    [JSON.parse] rejects makes the function throw that error to its caller,
    and so does a failing service call; a missing or empty response text
    makes it return the all-empty metadata record. *)
Theorem extractMetadata_error_propagation :
  (forall env file w key part text e,
      env_api_key env = Some key -> key <> [] ->
      env_file_to_part env file = Value part ->
      env_generate env part = Value (Some text) -> text <> [] ->
      env_json_parse env text = Thrown e ->
      extractMetadataFromTenderFile env file w = (Thrown e, w ++ [EvConsole])) /\
  (forall env file w key part e,
      env_api_key env = Some key -> key <> [] ->
      env_file_to_part env file = Value part ->
      env_generate env part = Thrown e ->
      extractMetadataFromTenderFile env file w = (Thrown e, w ++ [EvConsole])) /\
  (forall env file w key part text,
      env_api_key env = Some key -> key <> [] ->
      env_file_to_part env file = Value part ->
      env_generate env part = Value text -> truthy text = false ->
      extractMetadataFromTenderFile env file w = (Value emptyMetadata, w)).
Proof.
  repeat split.
  - intros env file w key part text e Hk Hne Hp Hg Ht He.
    unfold extractMetadataFromTenderFile, getAiClient, fileToPart. rewrite Hk.
    destruct key as [|c key]; [congruence|]. unfold_m. cbn [is_empty].
    rewrite Hp, Hg. destruct text as [|d text]; [congruence|].
    cbn [truthy is_empty negb or_empty]. now rewrite He.
  - intros env file w key part e Hk Hne Hp Hg.
    unfold extractMetadataFromTenderFile, getAiClient, fileToPart. rewrite Hk.
    destruct key as [|c key]; [congruence|]. unfold_m. cbn [is_empty].
    now rewrite Hp, Hg.
  - intros env file w key part text Hk Hne Hp Hg Ht.
    unfold extractMetadataFromTenderFile, getAiClient, fileToPart. rewrite Hk.
    destruct key as [|c key]; [congruence|]. unfold_m. cbn [is_empty].
    now rewrite Hp, Hg, Ht.
Qed.

Lemma extractMetadata_error_propagation_witness :
  extractMetadataFromTenderFile garbled_service pcap_file []
    = (Thrown SyntaxError, [] ++ [EvConsole]) /\
  extractMetadataFromTenderFile silent_service pcap_file []
    = (Value emptyMetadata, []).
Proof.
  pose proof extractMetadata_error_propagation as (Hparse & _ & Hmissing).
  split.
  - apply (Hparse garbled_service pcap_file [] (js "key") (js "JVBERi0xLjcK")
             (js "{name:") SyntaxError);
      solve [reflexivity | discriminate].
  - apply (Hmissing silent_service pcap_file [] (js "key") (js "JVBERi0xLjcK") None);
      solve [reflexivity | discriminate].
Defined.

(* ===================================================================== *)
(** ** Further properties: deduplication and filtering of the candidates *)
(* ===================================================================== *)

(** X1: the probe list has no duplicates, and a URL is in it exactly when
    it occurs among the candidates and passes the relevance filter. *)
Theorem uniqueLinks_set (links : list JSString) :
  NoDup (uniqueLinks links) /\
  (forall u, In u (uniqueLinks links) <-> In u links /\ isRelevantLink u = true).
Proof.
  destruct (array_from_set_NoDup_In links) as [Hnd Hin]. unfold uniqueLinks. split.
  - now apply NoDup_filter.
  - intros u. now rewrite filter_In, Hin.
Qed.

(** X2: the probe list keeps the candidates in order of first occurrence:
    the first candidate, if relevant, comes first, followed by the probe
    list of the remaining candidates without it; and filtering before
    deduplicating gives the same list as deduplicating before filtering. *)
Theorem uniqueLinks_first_occurrence :
  (forall x links,
      uniqueLinks (x :: links) =
        (if isRelevantLink x then [x] else []) ++
        filter (fun y => negb (JS.eqb y x)) (uniqueLinks links)) /\
  (forall links,
      uniqueLinks links = array_from_set (filter isRelevantLink links)).
Proof.
  split.
  - intros x links. unfold uniqueLinks.
    rewrite array_from_set_cons. cbn [filter].
    rewrite array_from_set_filter_all, filter_comm.
    now destruct (isRelevantLink x).
  - intros links. unfold uniqueLinks. now rewrite array_from_set_filter_all.
Qed.

(** X3: deduplicating and filtering again changes nothing, and it makes no
    difference whether the candidates were deduplicated beforehand. *)
Theorem uniqueLinks_idempotent (links : list JSString) :
  uniqueLinks (uniqueLinks links) = uniqueLinks links /\
  uniqueLinks (array_from_set links) = uniqueLinks links.
Proof.
  destruct (array_from_set_NoDup_In links) as [Hnd Hin]. split.
  - apply uniqueLinks_unique_relevant.
    + unfold uniqueLinks. now apply NoDup_filter.
    + apply Forall_forall. intros u Hu. unfold uniqueLinks in Hu.
      now apply filter_In in Hu.
  - unfold uniqueLinks at 1. now rewrite (array_from_set_NoDup Hnd).
Qed.

(* ===================================================================== *)
(** ** Further properties: the downloader *)
(* ===================================================================== *)

Lemma tryDownload_attempt env fetchUrl w :
  tryDownload env fetchUrl w = (Value (attempt env fetchUrl), w ++ [EvFetch fetchUrl]).
Proof.
  unfold tryDownload, attempt, payload_invalid, has_marker, disposition_filename.
  unfold_m.
  destruct (env_fetch env fetchUrl) as [r|e]; [|reflexivity].
  destruct (resp_ok r); cbn [negb]; [|reflexivity].
  destruct (resp_blob r) as [blob|e]; [|reflexivity].
  destruct (includes (blob_type blob) (js "text/html")); cbn [orb].
  - destruct (blob_text blob) as [text|e]; [|reflexivity].
    now destruct (includes text (js "<html") || includes text (js "Error") ||
                  includes text (js "Denied")).
  - destruct (blob_size blob <? 2000)%N; cbn [andb]; [|reflexivity].
    destruct (blob_text blob) as [text|e]; [|reflexivity].
    now destruct (includes text (js "<html") || includes text (js "Error") ||
                  includes text (js "Denied")).
Qed.

Lemma attempt_fails_iff env fetchUrl :
  attempt env fetchUrl = None <-> attempt_fails env fetchUrl.
Proof.
  unfold attempt. split.
  - destruct (env_fetch env fetchUrl) as [r|e] eqn:Hr;
      [|intros _; eapply fails_network; eassumption].
    destruct (resp_ok r) eqn:Hok; cbn [negb];
      [|intros _; eapply fails_status; eassumption].
    destruct (resp_blob r) as [blob|e] eqn:Hb;
      [|intros _; eapply fails_body; eassumption].
    destruct (payload_invalid blob) eqn:Hp; [|discriminate].
    intros _. eapply fails_payload; eassumption.
  - intros [e He | r Hr Hok | r e Hr Hok Hb | r blob Hr Hok Hb Hp];
      rewrite ?He, ?Hr, ?Hok, ?Hb, ?Hp; reflexivity.
Qed.

Lemma materialize_name env prefix blob filename w :
  materialize env prefix blob filename w =
    (Value (mkFile (if is_empty filename
                    then prefix ++ js "_" ++ digits (env_clock env w) ++
                         extension_for blob
                    else filename)
                   (blob_type blob) blob), w).
Proof.
  unfold materialize, extension_for. unfold_m.
  now destruct filename.
Qed.

(** The whole download in terms of the two attempts. *)
Lemma downloadFileFromUrl_run env url prefix w enc :
  rejected_url url = false -> encode url = Some enc ->
  downloadFileFromUrl env url prefix w =
    let w1 := w ++ [EvFetch (corsproxy ++ enc)] in
    let w2 := w1 ++ [EvFetch (allorigins ++ enc)] in
    match attempt env (corsproxy ++ enc) with
    | Some (blob, filename) =>
        let (o, w') := materialize env prefix blob filename w1 in
        (match o with Value f => Value (Some f) | Thrown _ => Value None end, w')
    | None =>
        match attempt env (allorigins ++ enc) with
        | Some (blob, filename) =>
            let (o, w') := materialize env prefix blob filename w2 in
            (match o with Value f => Value (Some f) | Thrown _ => Value None end, w')
        | None => (Value None, w2)
        end
    end.
Proof.
  intros Hguard Henc. unfold downloadFileFromUrl. fold (rejected_url url).
  rewrite Hguard. unfold encodeURIComponent. rewrite Henc.
  unfold try_catch, bind at 1 2 3. unfold ret at 1.
  rewrite tryDownload_attempt.
  destruct (attempt env (corsproxy ++ enc)) as [[blob filename]|].
  - unfold ret at 1. unfold bind at 1. rewrite materialize_name. reflexivity.
  - unfold bind at 1. unfold ret at 1. rewrite tryDownload_attempt.
    destruct (attempt env (allorigins ++ enc)) as [[blob filename]|].
    + unfold bind at 1. rewrite materialize_name. reflexivity.
    + reflexivity.
Qed.

Lemma attempt_Some env fetchUrl blob filename :
  attempt env fetchUrl = Some (blob, filename) ->
  exists r,
    env_fetch env fetchUrl = Value r /\ resp_ok r = true /\
    resp_blob r = Value blob /\ payload_invalid blob = false /\
    filename = disposition_filename r.
Proof.
  unfold attempt.
  destruct (env_fetch env fetchUrl) as [r|e] eqn:Hr; [|discriminate].
  destruct (resp_ok r) eqn:Hok; cbn [negb]; [|discriminate].
  destruct (resp_blob r) as [b|e] eqn:Hb; [|discriminate].
  destruct (payload_invalid b) eqn:Hp; [discriminate|].
  intros H. injection H as <- <-. exists r.
  repeat split; assumption || reflexivity.
Qed.

Lemma downloadFileFromUrl_rejected env url prefix w :
  rejected_url url = true ->
  downloadFileFromUrl env url prefix w = (Value None, w).
Proof.
  intros H. unfold downloadFileFromUrl. fold (rejected_url url). now rewrite H.
Qed.

Lemma downloadFileFromUrl_unencodable env url prefix w :
  rejected_url url = false -> encode url = None ->
  downloadFileFromUrl env url prefix w = (Value None, w ++ [EvConsole]).
Proof.
  intros H He. unfold downloadFileFromUrl. fold (rejected_url url).
  rewrite H. unfold encodeURIComponent. now rewrite He.
Qed.

Lemma download_cases env url prefix w :
  exists r evs,
    downloadFileFromUrl env url prefix w = (Value r, w ++ evs) /\
    ((rejected_url url = true /\ evs = [] /\ r = None) \/
     (rejected_url url = false /\ encode url = None /\
      evs = [EvConsole] /\ r = None) \/
     (exists enc,
        rejected_url url = false /\ encode url = Some enc /\
        ((~ attempt_fails env (corsproxy ++ enc) /\
          evs = [EvFetch (corsproxy ++ enc)] /\ r <> None) \/
         (attempt_fails env (corsproxy ++ enc) /\
          evs = [EvFetch (corsproxy ++ enc); EvFetch (allorigins ++ enc)] /\
          (r = None <-> attempt_fails env (allorigins ++ enc)))))).
Proof.
  destruct (rejected_url url) eqn:Hguard.
  { exists None, []. rewrite app_nil_r, downloadFileFromUrl_rejected by assumption.
    split; [reflexivity | left; auto]. }
  destruct (encode url) as [enc|] eqn:Henc.
  2:{ exists None, [EvConsole].
      rewrite downloadFileFromUrl_unencodable by assumption.
      split; [reflexivity | right; left; auto]. }
  rewrite (@downloadFileFromUrl_run env url prefix w enc Hguard Henc). cbv zeta.
  destruct (attempt env (corsproxy ++ enc)) as [[blob filename]|] eqn:H1.
  - rewrite materialize_name. eexists _, [_]. split; [reflexivity|].
    right; right. exists enc. repeat split; try assumption. left.
    repeat split; [|discriminate].
    intros Hf. apply attempt_fails_iff in Hf. congruence.
  - apply attempt_fails_iff in H1.
    destruct (attempt env (allorigins ++ enc)) as [[blob filename]|] eqn:H2.
    + rewrite materialize_name, <- app_assoc. eexists _, [_; _].
      split; [reflexivity|]. right; right. exists enc.
      repeat split; try assumption. right. repeat split; try assumption.
      * discriminate.
      * intros Hf. apply attempt_fails_iff in Hf. congruence.
    + rewrite <- app_assoc. exists None, [EvFetch (corsproxy ++ enc);
                                         EvFetch (allorigins ++ enc)].
      split; [reflexivity|]. right; right. exists enc.
      repeat split; try assumption. right. repeat split; try assumption.
      intros _. now apply attempt_fails_iff.
Qed.

(** X4: every download ends in one of four ways. A rejected URL gives null
    with no event; a URL that cannot be encoded gives null after one
    console message and no fetch; otherwise the first relay is fetched, and
    the second relay is fetched exactly when the first attempt failed; the
    result is null exactly when every attempt made has failed. The target
    URL itself is never fetched. *)
Theorem downloadFileFromUrl_attempts env url prefix w :
  exists r evs,
    downloadFileFromUrl env url prefix w = (Value r, w ++ evs) /\
    ((rejected_url url = true /\ evs = [] /\ r = None) \/
     (rejected_url url = false /\ encode url = None /\
      evs = [EvConsole] /\ r = None) \/
     (exists enc,
        rejected_url url = false /\ encode url = Some enc /\
        ((~ attempt_fails env (corsproxy ++ enc) /\
          evs = [EvFetch (corsproxy ++ enc)] /\ r <> None) \/
         (attempt_fails env (corsproxy ++ enc) /\
          evs = [EvFetch (corsproxy ++ enc); EvFetch (allorigins ++ enc)] /\
          (r = None <-> attempt_fails env (allorigins ++ enc)))))).
Proof. apply download_cases. Qed.

Lemma downloaded_file_origin env url prefix w file w' :
  downloadFileFromUrl env url prefix w = (Value (Some file), w') ->
  exists enc fetchUrl r,
    encode url = Some enc /\
    (fetchUrl = corsproxy ++ enc \/ fetchUrl = allorigins ++ enc) /\
    env_fetch env fetchUrl = Value r /\ resp_ok r = true /\
    resp_blob r = Value (file_blob file) /\
    payload_invalid (file_blob file) = false /\
    file_type file = blob_type (file_blob file) /\
    (disposition_filename r <> [] -> file_name file = disposition_filename r) /\
    (disposition_filename r = [] ->
     exists now,
       file_name file =
         prefix ++ js "_" ++ digits now ++ extension_for (file_blob file)).
Proof.
  intros H.
  destruct (rejected_url url) eqn:Hguard.
  { rewrite downloadFileFromUrl_rejected in H by assumption. discriminate. }
  destruct (encode url) as [enc|] eqn:Henc.
  2:{ rewrite downloadFileFromUrl_unencodable in H by assumption. discriminate. }
  rewrite (@downloadFileFromUrl_run env url prefix w enc Hguard Henc) in H. cbv zeta in H.
  assert (Hfile : forall fetchUrl blob filename w0,
    attempt env fetchUrl = Some (blob, filename) ->
    (let (o, w1) := materialize env prefix blob filename w0 in
     (match o with Value f => Value (Some f) | Thrown _ => Value None end, w1))
      = (Value (Some file), w') ->
    exists r,
      env_fetch env fetchUrl = Value r /\ resp_ok r = true /\
      resp_blob r = Value (file_blob file) /\
      payload_invalid (file_blob file) = false /\
      file_type file = blob_type (file_blob file) /\
      (disposition_filename r <> [] -> file_name file = disposition_filename r) /\
      (disposition_filename r = [] ->
       exists now,
         file_name file =
           prefix ++ js "_" ++ digits now ++ extension_for (file_blob file))).
  { intros fetchUrl blob filename w0 Ha Hm.
    destruct (attempt_Some _ _ Ha) as (r & Hr & Hok & Hb & Hp & Hfn).
    subst filename. rewrite materialize_name in Hm. injection Hm as <- _.
    exists r. cbn [file_blob file_type file_name]. repeat split; try assumption.
    - intros Hne. destruct (disposition_filename r) as [|c fn];
        [now contradiction Hne | reflexivity].
    - intros He. rewrite He. exists (env_clock env w0). reflexivity. }
  destruct (attempt env (corsproxy ++ enc)) as [[blob filename]|] eqn:H1.
  - destruct (Hfile _ _ _ _ H1 H) as (r & Hrest).
    exists enc, (corsproxy ++ enc), r. auto.
  - destruct (attempt env (allorigins ++ enc)) as [[blob filename]|] eqn:H2;
      [|discriminate].
    destruct (Hfile _ _ _ _ H2 H) as (r & Hrest).
    exists enc, (allorigins ++ enc), r. auto.
Qed.

(** X5: a downloaded file is the body of a successful response of one of
    the two relays that passed payload validation; it keeps the content
    type of that body; its name is the one given by the Content-Disposition
    header when there is one, and otherwise the prefix, an underscore, a
    clock reading and the extension chosen by content type. *)
Theorem downloadFileFromUrl_file env url prefix w file w' :
  downloadFileFromUrl env url prefix w = (Value (Some file), w') ->
  exists enc fetchUrl r,
    encode url = Some enc /\
    (fetchUrl = corsproxy ++ enc \/ fetchUrl = allorigins ++ enc) /\
    env_fetch env fetchUrl = Value r /\ resp_ok r = true /\
    resp_blob r = Value (file_blob file) /\
    payload_invalid (file_blob file) = false /\
    file_type file = blob_type (file_blob file) /\
    (disposition_filename r <> [] -> file_name file = disposition_filename r) /\
    (disposition_filename r = [] ->
     exists now,
       file_name file =
         prefix ++ js "_" ++ digits now ++ extension_for (file_blob file)).
Proof. apply downloaded_file_origin. Qed.

Lemma downloadFileFromUrl_file_witness :
  exists enc fetchUrl r,
    encode (link "02") = Some enc /\
    (fetchUrl = corsproxy ++ enc \/ fetchUrl = allorigins ++ enc) /\
    env_fetch tender_server fetchUrl = Value r /\ resp_ok r = true /\
    resp_blob r = Value (file_blob served_pcap) /\
    payload_invalid (file_blob served_pcap) = false /\
    file_type served_pcap = blob_type (file_blob served_pcap) /\
    (disposition_filename r <> [] -> file_name served_pcap = disposition_filename r) /\
    (disposition_filename r = [] ->
     exists now,
       file_name served_pcap =
         js "doc" ++ js "_" ++ digits now ++ extension_for (file_blob served_pcap)).
Proof.
  apply (@downloadFileFromUrl_file tender_server (link "02") (js "doc") []
           served_pcap
           [EvFetch (corsproxy ++ js "https%3A%2F%2Fexample.com%2Flink02")]).
  vm_compute. reflexivity.
Defined.

Lemma unquoted_run_quote_free s : quote_free (unquoted_run s).
Proof.
  induction s as [|c s IH]; cbn [unquoted_run]; [constructor|].
  destruct (is_quote c) eqn:E; constructor; assumption.
Qed.

Lemma unquoted_run_stop name q rest :
  quote_free name -> is_quote q = true -> unquoted_run (name ++ q :: rest) = name.
Proof.
  intros Hn Hq. induction Hn as [|c name Hc _ IH]; cbn [app unquoted_run].
  - now rewrite Hq.
  - now rewrite Hc, IH.
Qed.

Lemma unquoted_run_all name : quote_free name -> unquoted_run name = name.
Proof.
  induction 1 as [|c name Hc _ IH]; cbn [unquoted_run]; [reflexivity|].
  now rewrite Hc, IH.
Qed.

Lemma filename_match_here_shape s g :
  filename_match_here s = Some g -> g <> [] /\ quote_free g.
Proof.
  unfold filename_match_here.
  destruct (startsWith s (js "filename=")); [|discriminate].
  set (body := match skipn 9 s with
               | [] => skipn 9 s
               | c :: rest' => if is_quote c then rest' else skipn 9 s
               end).
  pose proof (unquoted_run_quote_free body) as Hq.
  destruct (unquoted_run body) as [|c g']; [discriminate|].
  intros H. injection H as <-. split; [discriminate | exact Hq].
Qed.

(** X6: the name read from a Content-Disposition header is never empty
    and contains no quote. After [attachment; filename=] a quoted name is
    returned without its quotes, whatever follows the closing quote; an
    unquoted value is returned whole up to the end of the header. *)
Theorem filename_match_name :
  (forall s g, filename_match s = Some g -> g <> [] /\ quote_free g) /\
  (forall name q rest,
      name <> [] -> quote_free name -> is_quote q = true ->
      filename_match (js "attachment; filename=" ++ q :: name ++ q :: rest)
        = Some name) /\
  (forall value,
      value <> [] -> quote_free value ->
      filename_match (js "attachment; filename=" ++ value) = Some value).
Proof.
  split; [| split].
  - induction s as [|c s IH]; intros g; cbn [filename_match].
    + destruct (filename_match_here []) eqn:E; [|discriminate].
      intros H. injection H as <-. now apply filename_match_here_shape in E.
    + destruct (filename_match_here (c :: s)) eqn:E.
      * intros H. injection H as <-. now apply filename_match_here_shape in E.
      * apply IH.
  - intros name q rest Hne Hqf Hq.
    cbn.
    rewrite Hq, (@unquoted_run_stop name q rest Hqf Hq).
    destruct name; [congruence | reflexivity].
  - intros value Hne Hqf. cbn.
    destruct value as [|c value]; [congruence|].
    inversion Hqf as [|? ? Hc Hrest]; subst.
    unfold filename_match_here. cbn -[is_quote unquoted_run]. rewrite Hc.
    cbn [unquoted_run]. rewrite Hc, (unquoted_run_all Hrest). reflexivity.
Qed.

Lemma filename_match_name_witness :
  filename_match (js "attachment; filename=" ++ 34%N :: js "PCAP 2024.pdf" ++
                  34%N :: js "; size=48213") = Some (js "PCAP 2024.pdf") /\
  filename_match (js "attachment; filename=" ++ js "pliego.pdf; size=48213")
    = Some (js "pliego.pdf; size=48213").
Proof.
  pose proof filename_match_name as (_ & Hquoted & Hbare).
  split.
  - apply Hquoted; [discriminate | | reflexivity].
    repeat constructor.
  - apply Hbare; [discriminate|]. repeat constructor.
Defined.

(* ===================================================================== *)
(** ** Further properties: probing one link *)
(* ===================================================================== *)

Lemma startsWith_separator x a b k :
  ~ In x k -> startsWith (a ++ x :: b) k = startsWith a k.
Proof.
  revert a. induction k as [|c k IH]; intros a Hx; [now destruct a|].
  destruct a as [|y a]; cbn [app startsWith].
  - destruct (N.eqb_spec c x) as [->|]; [|reflexivity].
    exfalso. apply Hx. now left.
  - rewrite IH; [reflexivity|]. intros H. apply Hx. now right.
Qed.

(** A keyword cannot straddle a code unit that does not occur in it. *)
Lemma includes_separator x a b k :
  k <> [] -> ~ In x k ->
  includes (a ++ x :: b) k = includes a k || includes b k.
Proof.
  intros Hk Hx. induction a as [|y a IH]; cbn [app].
  - change (includes (x :: b) k)
      with (startsWith ([] ++ x :: b) k || includes b k).
    rewrite (@startsWith_separator x [] b k Hx).
    destruct k; [congruence | reflexivity].
  - change (includes (y :: a ++ x :: b) k)
      with (startsWith ((y :: a) ++ x :: b) k || includes (a ++ x :: b) k).
    rewrite (@startsWith_separator x (y :: a) b k Hx), IH.
    change (includes (y :: a) k) with (startsWith (y :: a) k || includes a k).
    now rewrite orb_assoc.
Qed.

Lemma includes_other_head s c k :
  Forall (fun d => (c =? d)%N = false) s -> includes s (c :: k) = false.
Proof.
  induction 1 as [|d s Hd _ IH]; [reflexivity|].
  change (includes (d :: s) (c :: k))
    with (startsWith (d :: s) (c :: k) || includes s (c :: k)).
  cbn [startsWith]. now rewrite Hd, IH.
Qed.

Lemma digits_are_digits n : Forall (fun d => is_digit d = true) (digits n).
Proof.
  unfold digits. generalize (N.to_uint n). intros u.
  induction u; cbn; constructor; solve [reflexivity | assumption].
Qed.

Lemma plain_fixed :
  forallb (fun c => negb (plain c) || (settled c && (Unicode.ccc c =? 0)%N))
          (block 0 128) = true.
Proof. vm_compute. reflexivity. Qed.

Lemma plain_spec c :
  plain c = true ->
  settled c = true /\ (c < 0x10000)%N /\ Unicode.ccc c = 0%N.
Proof.
  intros Hp. pose proof plain_fixed as Hall. rewrite forallb_forall in Hall.
  assert (Hlt : (c < 128)%N).
  { unfold plain, in_range in Hp.
    repeat match type of Hp with
    | (_ || _) = true => apply orb_true_iff in Hp as [Hp|Hp]
    | (_ && _) = true => apply andb_true_iff in Hp as [? Hp]
    end; try apply N.leb_le in Hp; try apply N.eqb_eq in Hp; lia. }
  specialize (Hall c). rewrite Hp in Hall. cbn [negb orb] in Hall.
  assert (Hin : In c (block 0 128)) by (apply block_spec; cbn; lia).
  specialize (Hall Hin). apply andb_true_iff in Hall as [H1 H2].
  apply N.eqb_eq in H2. repeat split; [exact H1 | lia | exact H2].
Qed.

(** A plain string is its own normalization. *)
Lemma normalizeText_plain s :
  Forall (fun c => plain c = true) s -> normalizeText s = s.
Proof.
  intros H. apply normalizeText_fixed.
  - eapply Forall_impl; [|exact H]. intros c Hc.
    destruct (plain_spec c Hc) as (H1 & H2 & _). auto.
  - apply ordered_starters. eapply Forall_impl; [|exact H]. intros c Hc.
    now destruct (plain_spec c Hc) as (_ & _ & H4).
Qed.

Lemma digit_other c d :
  is_digit c = false -> is_digit d = true -> (c =? d)%N = false.
Proof.
  intros Hc Hd. apply N.eqb_neq. intros ->. congruence.
Qed.

(** No keyword fits into a name made of "doc", an underscore, digits, a
    dot and an extension that holds none. *)
Lemma synthesized_no_keyword_at n e c k :
  ~ In 95%N (c :: k) -> ~ In 46%N (c :: k) -> is_digit c = false ->
  includes (js "doc") (c :: k) = false -> includes e (c :: k) = false ->
  includes (js "doc" ++ js "_" ++ digits n ++ 46%N :: e) (c :: k) = false.
Proof.
  intros H95 H46 Hc Hdoc He.
  change (js "doc" ++ js "_" ++ digits n ++ 46%N :: e)
    with (js "doc" ++ 95%N :: (digits n ++ 46%N :: e)).
  rewrite includes_separator, includes_separator, Hdoc, He; try assumption;
    try discriminate.
  rewrite includes_other_head; [reflexivity|].
  eapply Forall_impl; [|apply digits_are_digits].
  intros d Hd. now apply digit_other.
Qed.

Lemma extension_for_known blob : In (extension_for blob) extensions.
Proof.
  unfold extension_for, extensions.
  destruct (JS.eqb (blob_type blob) (js "application/pdf")); [now left|].
  destruct (includes (blob_type blob) (js "zip")); [right; now left|].
  destruct (includes (blob_type blob) (js "word")); [right; right; now left|].
  now left.
Qed.

Lemma synthesized_unknown n ext f :
  In ext extensions ->
  file_name f = js "doc" ++ js "_" ++ digits n ++ ext ->
  classifyFile f = UNKNOWN.
Proof.
  intros Hext Hname. unfold classifyFile. rewrite Hname.
  assert (Hplain : Forall (fun c => plain c = true)
                     (js "doc" ++ js "_" ++ digits n ++ ext)).
  { repeat (apply Forall_app; split).
    - repeat constructor.
    - repeat constructor.
    - eapply Forall_impl; [|apply digits_are_digits].
      intros d Hd. unfold plain. unfold is_digit in Hd. rewrite Hd.
      now rewrite orb_true_r.
    - destruct Hext as [<-|[<-|[<-|[]]]]; repeat constructor. }
  rewrite (normalizeText_plain Hplain).
  assert (Hkw : forall kw, In kw (admin_keywords ++ tech_keywords) ->
                includes (js "doc" ++ js "_" ++ digits n ++ ext) kw = false).
  { intros kw Hin.
    destruct Hext as [<-|[<-|[<-|[]]]];
      repeat (destruct Hin as [<-|Hin]; [|]); try contradiction;
      match goal with
      | |- includes (_ ++ _ ++ _ ++ ?x) ?kw = false =>
          let x' := eval cbv in x in
          let kw' := eval cbv in kw in
          match x' with
          | _ :: ?e =>
              match kw' with
              | ?c :: ?k => apply (@synthesized_no_keyword_at n e c k)
              end
          end
      end;
      solve [cbv; intuition discriminate | vm_compute; reflexivity]. }
  rewrite !Hkw by (cbn; tauto). reflexivity.
Qed.

(** X7: a file named by the downloader itself ("doc", an underscore, the
    clock reading and an extension) is classified UNKNOWN whatever the
    clock reads; hence a probe answers ADMIN or TECH only for a file whose
    name came from a Content-Disposition header. *)
Theorem synthesized_name_unknown :
  (forall env blob w,
      exists file,
        materialize env (js "doc") blob [] w = (Value file, w) /\
        classifyFile file = UNKNOWN) /\
  (forall env url w file c w',
      probeAndDownloadLink env url w = (Value (Some (file, c)), w') ->
      c <> UNKNOWN ->
      exists fetchUrl r,
        env_fetch env fetchUrl = Value r /\
        disposition_filename r <> [] /\
        file_name file = disposition_filename r).
Proof.
  split.
  - intros env blob w. rewrite materialize_name. cbn [is_empty].
    eexists. split; [reflexivity|].
    eapply synthesized_unknown; [apply (extension_for_known blob) | reflexivity].
  - intros env url w file c w' H Hc. unfold probeAndDownloadLink in H.
    unfold bind at 1 in H. unfold emit in H.
    destruct (negb (isRelevantLink url)); [discriminate|].
    unfold bind in H.
    destruct (downloadFileFromUrl env url (js "doc") (w ++ [EvProbe url]))
      as [[[f|]|e] w1] eqn:Hd; try discriminate.
    unfold ret in H. injection H as -> <- <-.
    destruct (downloaded_file_origin _ _ _ _ Hd)
      as (enc & fetchUrl & r & _ & _ & Hr & _ & _ & _ & _ & Hnamed & Hsynth).
    exists fetchUrl, r. split; [exact Hr|].
    destruct (disposition_filename r) as [|ch fn] eqn:Hdf.
    + destruct (Hsynth eq_refl) as [now Hname]. exfalso. apply Hc.
      eapply synthesized_unknown; [apply (extension_for_known (file_blob file))|].
      exact Hname.
    + split; [discriminate|]. apply Hnamed. discriminate.
Qed.

Lemma synthesized_name_unknown_witness :
  exists fetchUrl r,
    env_fetch tender_server fetchUrl = Value r /\
    disposition_filename r <> [] /\
    file_name served_pcap = disposition_filename r.
Proof.
  apply (proj2 synthesized_name_unknown tender_server (link "02") []
           served_pcap ADMIN
           [EvProbe (link "02");
            EvFetch (corsproxy ++ js "https%3A%2F%2Fexample.com%2Flink02")]).
  - vm_compute. reflexivity.
  - discriminate.
Defined.

Lemma download_trace env url prefix w :
  exists r evs,
    downloadFileFromUrl env url prefix w = (Value r, w ++ evs) /\
    Forall is_network evs /\ fetch_count evs <= 2.
Proof.
  destruct (download_cases env url prefix w) as (r & evs & H & Hcases).
  exists r, evs. split; [exact H|].
  destruct Hcases as [(_ & -> & _) | [(_ & _ & -> & _) | (enc & _ & _ & Hc)]].
  - split; [constructor | cbn; lia].
  - split; [repeat constructor | cbn; lia].
  - destruct Hc as [(_ & -> & _) | (_ & -> & _)];
      (split; [repeat constructor | cbn; lia]).
Qed.

Lemma fetch_count_app evs1 evs2 :
  fetch_count (evs1 ++ evs2) = fetch_count evs1 + fetch_count evs2.
Proof. unfold fetch_count. now rewrite filter_app, length_app. Qed.

Lemma progress_of_app evs1 evs2 :
  progress_of (evs1 ++ evs2) = progress_of evs1 ++ progress_of evs2.
Proof. apply flat_map_app. Qed.

Lemma network_no_probe evs : Forall is_network evs -> probes_of evs = [].
Proof.
  induction 1 as [|ev evs Hev _ IH]; [reflexivity|].
  unfold probes_of in *. cbn [flat_map]. rewrite IH. now destruct ev.
Qed.

Lemma network_no_progress evs : Forall is_network evs -> progress_of evs = [].
Proof.
  induction 1 as [|ev evs Hev _ IH]; [reflexivity|].
  unfold progress_of in *. cbn [flat_map]. rewrite IH. now destruct ev.
Qed.

Lemma probe_trace env url w :
  exists r evs,
    probeAndDownloadLink env url w = (Value r, w ++ EvProbe url :: evs) /\
    Forall is_network evs /\ fetch_count evs <= 2 /\
    (isRelevantLink url = false -> r = None /\ evs = []) /\
    (forall f c, r = Some (f, c) -> c = classifyFile f).
Proof.
  unfold probeAndDownloadLink. unfold bind at 1. unfold emit.
  destruct (isRelevantLink url); cbn [negb].
  - unfold bind.
    destruct (download_trace env url (js "doc") (w ++ [EvProbe url]))
      as (r & evs & H & Hnet & Hcount).
    rewrite H, <- app_assoc. cbn [app].
    destruct r as [file|]; unfold ret; eexists _, evs;
      (split; [reflexivity|]); repeat split; try assumption; try discriminate.
    intros f c E. now injection E as <- <-.
  - exists None, []. unfold ret. repeat split; try constructor; try discriminate.
    cbn. lia.
Qed.

(** X8: probing a link never throws, and a probe of an irrelevant link
    answers null without touching the network. Otherwise at most two
    fetches are made, and a file that is found is tagged with the class of
    its own name. *)
Theorem probeAndDownloadLink_behaviour env url w :
  exists r evs,
    probeAndDownloadLink env url w = (Value r, w ++ EvProbe url :: evs) /\
    Forall is_network evs /\ fetch_count evs <= 2 /\
    (isRelevantLink url = false -> r = None /\ evs = []) /\
    (forall f c, r = Some (f, c) -> c = classifyFile f).
Proof. apply probe_trace. Qed.

Lemma probeAndDownloadLink_behaviour_witness :
  exists r evs,
    probeAndDownloadLink pdf_server (js "mailto:info@example.com") []
      = (Value r, [] ++ EvProbe (js "mailto:info@example.com") :: evs) /\
    r = None /\ evs = [].
Proof.
  destruct (probeAndDownloadLink_behaviour pdf_server
              (js "mailto:info@example.com") [])
    as (r & evs & H & _ & _ & Hirrelevant & _).
  exists r, evs. split; [exact H|]. apply Hirrelevant. vm_compute. reflexivity.
Defined.

(* ===================================================================== *)
(** ** Further properties: the batch prober *)
(* ===================================================================== *)

Lemma promise_all_trace env batch : forall w,
  exists rs evs,
    promise_all (map (probeAndDownloadLink env) batch) w = (Value rs, w ++ evs) /\
    probes_of evs = batch /\ progress_of evs = [] /\
    fetch_count evs <= 2 * List.length batch /\
    Forall2 (answers env) batch rs.
Proof.
  induction batch as [|u batch IH]; intros w; cbn [map promise_all].
  - exists [], []. rewrite app_nil_r. repeat split; try constructor.
  - destruct (probe_trace env u w) as (r & evs1 & H1 & Hnet & Hcount & _ & _).
    destruct (IH (w ++ EvProbe u :: evs1)) as (rs & evs2 & H2 & P2 & G2 & F2 & A2).
    rewrite H1, H2. exists (r :: rs), ((EvProbe u :: evs1) ++ evs2).
    rewrite app_assoc, probes_of_app, progress_of_app, fetch_count_app, P2, G2.
    change (EvProbe u :: evs1) with ([EvProbe u] ++ evs1).
    rewrite probes_of_app, progress_of_app, fetch_count_app,
      (network_no_probe Hnet), (network_no_progress Hnet).
    cbn [List.length]. repeat split; try reflexivity.
    + cbn. lia.
    + constructor; [|exact A2]. exists w. now rewrite H1.
Qed.

Lemma probeGroup_trace env links cb i results processed w :
  let batch := slice links i (i + BATCH_SIZE) in
  exists rs evs,
    probeGroup env links cb i results processed w =
      (Value (fold_left assign rs results, processed + List.length batch),
       w ++ evs) /\
    probes_of evs = batch /\
    progress_of evs =
      (if cb then [(Nat.min (processed + List.length batch) (List.length links),
                    List.length links)]
       else []) /\
    fetch_count evs <= 2 * List.length batch /\
    Forall2 (answers env) batch rs.
Proof.
  intros batch. unfold probeGroup. fold batch. unfold bind at 1.
  destruct (promise_all_trace env batch w) as (rs & evs & H & P & G & F & A).
  rewrite H. exists rs.
  destruct cb; unfold_m.
  - eexists (evs ++ [_]). rewrite app_assoc. split; [reflexivity|].
    rewrite probes_of_app, progress_of_app, fetch_count_app, P, G.
    cbn. rewrite app_nil_r. repeat split; try assumption. lia.
  - exists evs. repeat split; assumption.
Qed.

Lemma answers_class env u f c :
  answers env u (Some (f, c)) -> c = classifyFile f.
Proof.
  intros [w Hw].
  destruct (probe_trace env u w) as (r & evs & H & _ & _ & _ & Hc).
  rewrite H in Hw. cbn [fst] in Hw. injection Hw as ->. now apply Hc.
Qed.

Lemma assign_sourced env links results u res :
  In u links -> answers env u res ->
  sourced env links TECH (admin results) ->
  sourced env links ADMIN (tech results) ->
  sourced env links TECH (admin (assign results res)) /\
  sourced env links ADMIN (tech (assign results res)).
Proof.
  intros Hu Ha Hadm Htec.
  destruct res as [[file c]|]; [|split; assumption].
  pose proof (answers_class Ha) as Hc. subst c.
  assert (Hnew : forall excluded, classifyFile file <> excluded ->
                 sourced env links excluded (Some file)).
  { intros excluded Hne f Hf. injection Hf as <-. split; [exact Hne|].
    exists u. split; assumption. }
  unfold assign.
  destruct (classifyFile file) eqn:Hclass, results as [[a|] [t|]];
    cbn [FileClass_eqb andb vacant admin tech]; split;
    try assumption; apply Hnew; discriminate.
Qed.

Lemma fold_assign_sourced env links batch rs : forall results,
  (forall u, In u batch -> In u links) ->
  Forall2 (answers env) batch rs ->
  sourced env links TECH (admin results) ->
  sourced env links ADMIN (tech results) ->
  sourced env links TECH (admin (fold_left assign rs results)) /\
  sourced env links ADMIN (tech (fold_left assign rs results)).
Proof.
  intros results Hsub HA. revert results.
  induction HA as [|u r batch rs Hur _ IH]; intros results Hadm Htec;
    cbn [fold_left]; [split; assumption|].
  destruct (@assign_sourced env links results u r) as [Hadm' Htec'];
    try assumption; [apply Hsub; now left|].
  apply IH; try assumption. intros v Hv. apply Hsub. now right.
Qed.

Lemma slice_In {A} (l : list A) i j x : In x (slice l i j) -> In x l.
Proof.
  unfold slice. intros H.
  rewrite <- (firstn_skipn i l). apply in_or_app. right.
  rewrite <- (firstn_skipn (j - i) (skipn i l)). apply in_or_app. now left.
Qed.

Lemma slice_length (links : list JSString) i :
  i < List.length links ->
  Nat.min i (List.length links) + List.length (slice links i (i + BATCH_SIZE))
    = Nat.min (i + 4) (List.length links).
Proof.
  intros Hlt. unfold slice, BATCH_SIZE.
  rewrite length_firstn, length_skipn. lia.
Qed.

(** What a run of [k] groups leaves in the log and in the slots. *)
Lemma iterates_trace env links cb k : forall i results processed w st',
  iterates env links cb k (i, results, processed, w) st' ->
  processed = Nat.min i (List.length links) ->
  sourced env links TECH (admin results) ->
  sourced env links ADMIN (tech results) ->
  exists results' evs,
    st' = (i + 4 * k, results',
           Nat.min (i + 4 * k) (List.length links), w ++ evs) /\
    progress_of evs = (if cb then reports i (List.length links) k else []) /\
    fetch_count evs <= 2 * List.length (probes_of evs) /\
    probes_of evs = firstn (4 * k) (skipn i links) /\
    sourced env links TECH (admin results') /\
    sourced env links ADMIN (tech results').
Proof.
  induction k as [|k IH]; intros i results processed w st' Hit Hp Hadm Htec.
  - inversion Hit; subst. exists results, [].
    rewrite Nat.mul_0_r, Nat.add_0_r, app_nil_r.
    split; [reflexivity|]. split; [now destruct cb|]. split; [cbn; lia|].
    split; [reflexivity|]. split; assumption.
  - inversion Hit as [|? ? ? ? ? r1 p1 w1 ? Hlt Hfull Hg Hrest]; subst.
    destruct (probeGroup_trace env links cb i results
                (Nat.min i (List.length links)) w)
      as (rs & evs1 & Hg' & P1 & G1 & F1 & A1).
    rewrite Hg in Hg'. injection Hg' as -> -> ->.
    destruct (@fold_assign_sourced env links
                (slice links i (i + BATCH_SIZE)) rs results)
      as [Hadm1 Htec1]; try assumption;
      [intros u Hu; eapply slice_In; exact Hu|].
    rewrite slice_length in Hrest by assumption.
    destruct (IH _ _ _ _ _ Hrest eq_refl Hadm1 Htec1)
      as (r' & evs2 & -> & G2 & F2 & P2 & Hadm2 & Htec2).
    exists r', (evs1 ++ evs2).
    replace (i + BATCH_SIZE + 4 * k) with (i + 4 * S k)
      by (unfold BATCH_SIZE; lia).
    rewrite app_assoc, progress_of_app, probes_of_app, fetch_count_app,
      length_app, G1, G2, P1, P2.
    split; [reflexivity|]. split; [|split; [|split; [|split; assumption]]].
    + destruct cb; [|reflexivity].
      rewrite slice_length by assumption. unfold reports.
      change (seq 1 (S k)) with (1 :: seq 2 k). cbn [map app].
      f_equal; [f_equal; lia|].
      rewrite <- (seq_shift k 1), map_map. apply map_ext. intros j.
      unfold BATCH_SIZE. f_equal. f_equal. lia.
    + rewrite P2 in F2. lia.
    + rewrite slice_group. unfold BATCH_SIZE. rewrite Nat.add_comm, <- skipn_skipn.
      replace (4 * S k) with (4 + 4 * k) by lia.
      apply firstn_skipn_add.
Qed.

Lemma probeLinksInBatches_trace env links cb w :
  let ul := uniqueLinks links in
  exists k results evs,
    probeLinksInBatches env links cb w = (Value results, w ++ evs) /\
    (List.length ul <= 4 * k \/ both_filled results = true) /\
    progress_of evs = (if cb then reports 0 (List.length ul) k else []) /\
    fetch_count evs <= 2 * List.length (probes_of evs) /\
    probes_of evs = firstn (4 * k) ul /\
    sourced env ul TECH (admin results) /\
    sourced env ul ADMIN (tech results).
Proof.
  intros ul. unfold probeLinksInBatches. fold ul.
  destruct (probeLoop_run env ul cb (n := List.length ul) 0
              (mkResults None None) 0 w)
    as (k & r' & p' & w' & Hrun & Hit & Hend & _ & _); [lia|].
  destruct (@iterates_trace env ul cb k 0 (mkResults None None) 0 w _ Hit)
    as (r'' & evs & E & G & F & P & Hadm & Htec);
    try (intros f Hf; discriminate Hf); [reflexivity|].
  injection E as <- _ ->.
  exists k, r', evs. cbn [Nat.add skipn] in *. auto 10.
Qed.

(** X9: with a progress callback the prober reports once per group, each
    time the number of links probed so far together with the total; the
    count never exceeds the total. Without a callback nothing is reported. *)
Theorem probeLinksInBatches_progress env links cb w :
  let total := List.length (uniqueLinks links) in
  exists k results evs,
    probeLinksInBatches env links cb w = (Value results, w ++ evs) /\
    List.length (probes_of evs) = Nat.min (4 * k) total /\
    progress_of evs =
      (if cb then map (fun j => (Nat.min (4 * j) total, total)) (seq 1 k)
       else []) /\
    Forall (fun report => fst report <= snd report /\ snd report = total)
           (progress_of evs).
Proof.
  intros total.
  destruct (probeLinksInBatches_trace env links cb w)
    as (k & r & evs & H & _ & G & _ & P & _).
  exists k, r, evs. split; [exact H|]. split; [|split].
  - rewrite P, length_firstn. reflexivity.
  - exact G.
  - rewrite G. destruct cb; [|constructor].
    apply Forall_forall. intros [p t] Hin. unfold reports in Hin.
    apply in_map_iff in Hin as (j & E & _). injection E as <- <-.
    cbn [fst snd]. fold total. split; [lia | reflexivity].
Qed.

(** X10: no link is probed twice, at most two fetches are made for each
    probed link, and so a run costs at most twice as many fetches as there
    are distinct relevant candidates. *)
Theorem probeLinksInBatches_cost env links cb w :
  exists results evs,
    probeLinksInBatches env links cb w = (Value results, w ++ evs) /\
    NoDup (probes_of evs) /\
    fetch_count evs <= 2 * List.length (probes_of evs) /\
    List.length (probes_of evs) <= List.length (uniqueLinks links) /\
    List.length (uniqueLinks links) <= List.length links.
Proof.
  destruct (probeLinksInBatches_trace env links cb w)
    as (k & r & evs & H & _ & _ & F & P & _).
  exists r, evs. split; [exact H|]. rewrite P in *. repeat split.
  - destruct (array_from_set_NoDup_In links) as [Hnd _].
    assert (Hul : NoDup (uniqueLinks links))
      by (unfold uniqueLinks; now apply NoDup_filter).
    rewrite <- (firstn_skipn (4 * k) (uniqueLinks links)) in Hul.
    now apply NoDup_app_remove_r in Hul.
  - exact F.
  - rewrite length_firstn. lia.
  - destruct (array_from_set_NoDup_In links) as [Hnd Hin].
    unfold uniqueLinks.
    etransitivity; [apply filter_length_lt|].
    apply NoDup_incl_length; [exact Hnd|]. intros u Hu. now apply Hin.
Qed.

(** X11: a file in the admin slot was answered by the probe of one of the
    candidates and its name does not classify as TECH; a file in the tech
    slot was answered by such a probe and its name does not classify as
    ADMIN. *)
Theorem probeLinksInBatches_slots env links cb w results w' :
  probeLinksInBatches env links cb w = (Value results, w') ->
  (forall f, admin results = Some f ->
     classifyFile f <> TECH /\
     exists u, In u (uniqueLinks links) /\
               answers env u (Some (f, classifyFile f))) /\
  (forall f, tech results = Some f ->
     classifyFile f <> ADMIN /\
     exists u, In u (uniqueLinks links) /\
               answers env u (Some (f, classifyFile f))).
Proof.
  intros Hrun.
  destruct (probeLinksInBatches_trace env links cb w)
    as (k & r & evs & H & _ & _ & _ & _ & Hadm & Htec).
  rewrite Hrun in H. injection H as <- _. split; assumption.
Qed.

(** X12: unless both slots end up filled, every distinct relevant
    candidate is probed, once and in order; and with no relevant candidate
    the prober returns two vacant slots at once. *)
Theorem probeLinksInBatches_exhaustive :
  (forall env links cb w results w',
      probeLinksInBatches env links cb w = (Value results, w') ->
      both_filled results = false ->
      exists evs, w' = w ++ evs /\ probes_of evs = uniqueLinks links) /\
  (forall env links cb w,
      uniqueLinks links = [] ->
      probeLinksInBatches env links cb w = (Value (mkResults None None), w)).
Proof.
  split.
  - intros env links cb w results w' Hrun Hfull.
    destruct (probeLinksInBatches_trace env links cb w)
      as (k & r & evs & H & Hend & _ & _ & P & _).
    rewrite Hrun in H. injection H as <- ->.
    exists evs. split; [reflexivity|]. rewrite P.
    destruct Hend as [Hlen | Hboth]; [|congruence].
    now apply firstn_all2.
  - intros env links cb w Hempty. unfold probeLinksInBatches.
    rewrite Hempty, probeLoop_unfold. reflexivity.
Qed.

Lemma probeLinksInBatches_slots_witness :
  (forall f, admin (mkResults (Some served_pcap) None) = Some f ->
     classifyFile f <> TECH /\
     exists u, In u (uniqueLinks [link "02"]) /\
               answers tender_server u (Some (f, classifyFile f))) /\
  (forall f, tech (mkResults (Some served_pcap) None) = Some f ->
     classifyFile f <> ADMIN /\
     exists u, In u (uniqueLinks [link "02"]) /\
               answers tender_server u (Some (f, classifyFile f))).
Proof.
  apply (@probeLinksInBatches_slots tender_server [link "02"] false []
           (mkResults (Some served_pcap) None)
           [EvProbe (link "02");
            EvFetch (corsproxy ++ js "https%3A%2F%2Fexample.com%2Flink02")]).
  vm_compute. reflexivity.
Defined.

Lemma probeLinksInBatches_exhaustive_witness :
  (exists evs,
      [EvProbe (link "01");
       EvFetch (corsproxy ++ js "https%3A%2F%2Fexample.com%2Flink01");
       EvFetch (allorigins ++ js "https%3A%2F%2Fexample.com%2Flink01")]
        = [] ++ evs /\
      probes_of evs = uniqueLinks [link "01"; link "01"]) /\
  probeLinksInBatches tender_server [js "mailto:info@example.com"] true []
    = (Value (mkResults None None), []).
Proof.
  pose proof probeLinksInBatches_exhaustive as [Hall Hnone].
  split.
  - apply (Hall tender_server [link "01"; link "01"] false []
             (mkResults None None)); vm_compute; reflexivity.
  - apply Hnone. vm_compute. reflexivity.
Defined.

(* ===================================================================== *)
(** ** Further properties: the scraper *)
(* ===================================================================== *)

(** The outcomes of a scrape, by the page URL and the page. *)
Lemma scrape_cases env pageUrl w :
  exists r evs,
    scrapeDocsFromWeb env pageUrl w = (Value r, w ++ evs) /\
    ((rejected_url pageUrl = true /\ evs = [] /\ r = mkScraped None None) \/
     (rejected_url pageUrl = false /\ encode pageUrl = None /\
      evs = [EvConsole] /\ r = mkScraped None None) \/
     (exists enc,
        rejected_url pageUrl = false /\ encode pageUrl = Some enc /\
        ((page_unreadable env (corsproxy ++ enc) /\
          evs = [EvFetch (corsproxy ++ enc); EvConsole] /\
          r = mkScraped None None) \/
         (exists html,
            page_reads env (corsproxy ++ enc) html /\
            evs = [EvFetch (corsproxy ++ enc)] /\
            r = scanAnchors env pageUrl (env_anchors env html))))).
Proof.
  unfold scrapeDocsFromWeb. fold (rejected_url pageUrl).
  destruct (rejected_url pageUrl) eqn:Hguard.
  { exists (mkScraped None None), []. rewrite app_nil_r.
    split; [reflexivity | left; auto]. }
  unfold encodeURIComponent.
  destruct (encode pageUrl) as [enc|] eqn:Henc.
  2:{ exists (mkScraped None None), [EvConsole].
      split; [reflexivity | right; left; auto]. }
  unfold_m.
  destruct (env_fetch env (corsproxy ++ enc)) as [r|e] eqn:Hr.
  2:{ eexists _, [_; _]. rewrite <- app_assoc. split; [reflexivity|].
      right; right. exists enc. split; [reflexivity|]. split; [reflexivity|].
      left. unfold page_unreadable. rewrite Hr. auto. }
  destruct (resp_ok r) eqn:Hok; cbn [negb].
  2:{ eexists _, [_; _]. rewrite <- app_assoc. split; [reflexivity|].
      right; right. exists enc. split; [reflexivity|]. split; [reflexivity|].
      left. unfold page_unreadable. rewrite Hr. auto. }
  destruct (resp_text r) as [html|e] eqn:Ht.
  - eexists _, [_]. split; [reflexivity|].
    right; right. exists enc. split; [reflexivity|]. split; [reflexivity|].
    right. exists html. split; [exists r; auto | auto].
  - eexists _, [_; _]. rewrite <- app_assoc. split; [reflexivity|].
    right; right. exists enc. split; [reflexivity|]. split; [reflexivity|].
    left. unfold page_unreadable. rewrite Hr, Ht. auto.
Qed.

(** X13: scraping never throws. A rejected page URL gives the empty result
    with no event; a URL that cannot be encoded gives it after one console
    message; otherwise exactly one fetch is made, through the first relay,
    and the result is the scan of the page when it can be read and the
    empty result, after a console message, when it cannot. *)
Theorem scrapeDocsFromWeb_outcomes env pageUrl w :
  exists r evs,
    scrapeDocsFromWeb env pageUrl w = (Value r, w ++ evs) /\
    ((rejected_url pageUrl = true /\ evs = [] /\ r = mkScraped None None) \/
     (rejected_url pageUrl = false /\ encode pageUrl = None /\
      evs = [EvConsole] /\ r = mkScraped None None) \/
     (exists enc,
        rejected_url pageUrl = false /\ encode pageUrl = Some enc /\
        ((page_unreadable env (corsproxy ++ enc) /\
          evs = [EvFetch (corsproxy ++ enc); EvConsole] /\
          r = mkScraped None None) \/
         (exists html,
            page_reads env (corsproxy ++ enc) html /\
            evs = [EvFetch (corsproxy ++ enc)] /\
            r = scanAnchors env pageUrl (env_anchors env html))))).
Proof. apply scrape_cases. Qed.

Lemma first_match_In p cands u :
  first_match p cands = Some u -> In u (map fst cands).
Proof.
  unfold first_match. destruct (find (fun c => p (snd c)) cands) as [c|] eqn:E;
    [|discriminate].
  intros H. injection H as <-. apply find_some in E as [Hin _].
  now apply in_map.
Qed.

(** X14: as long as URL resolution never yields the empty string, a URL
    returned by the scan is not empty and is the resolved address of an
    anchor that was not skipped. The admin URL is missing exactly when no
    anchor that the scan looks at mentions an administrative keyword (its
    normalized text, title, aria-label, id, class and href include none of
    pcap, clausulas, administrativ, caratula, bases, anexo) and there is
    no generic file link; the tech URL is missing exactly when no such
    anchor mentions a technical keyword (ppt, prescripciones, tecnic,
    memoria, proyecto) and there are fewer than two generic file links. *)
Theorem scanAnchors_urls env pageUrl links :
  href_nonempty env ->
  let cands := scanned env pageUrl links in
  let result := scanAnchors env pageUrl links in
  let mentioned words :=
    exists link word,
      In link links /\ skipped (a_href link) = false /\ In word words /\
      includes (normalizeText (link_words link)) word = true in
  (forall u, adminUrl result = Some u \/ techUrl result = Some u ->
             u <> [] /\ In u (map fst cands)) /\
  (adminUrl result = None <->
   ~ mentioned [js "pcap"; js "clausulas"; js "administrativ"; js "caratula";
                js "bases"; js "anexo"] /\
   generic cands = []) /\
  (techUrl result = None <->
   ~ mentioned [js "ppt"; js "prescripciones"; js "tecnic"; js "memoria";
                js "proyecto"] /\
   List.length (generic cands) <= 1).
Proof.
  intros Henv cands result mentioned. subst result.
  rewrite (scanAnchors_spec pageUrl links Henv). fold cands.
  cbn [adminUrl techUrl].
  destruct (scan_fold pageUrl Henv links (mkScan None None []) I I) as [_ Hne].
  fold cands in Hne.
  assert (Hgen : forall n u, nth_error (generic cands) n = Some u ->
                             In u (map fst cands)).
  { intros n u Hn. apply nth_error_In in Hn. unfold generic in Hn.
    now apply filter_In in Hn. }
  assert (Hurl : forall u, In u (map fst cands) -> u <> []).
  { intros u Hu. apply in_map_iff in Hu as (c & <- & Hc).
    rewrite Forall_forall in Hne. now apply Hne. }
  assert (Hment : forall words,
             ~ mentioned words <->
             forall link, In link links -> skipped (a_href link) = false ->
                          mentions words link = false).
  { intros words. unfold mentioned, mentions. split.
    - intros H link Hl Hs.
      destruct (existsb _ words) eqn:E; [|reflexivity]. exfalso. apply H.
      apply existsb_exists in E as (word & Hw & Hi). exists link, word. auto.
    - intros H (link & word & Hl & Hs & Hw & Hi).
      specialize (H link Hl Hs).
      assert (existsb (includes (normalizeText (link_words link))) words = true);
        [|congruence].
      apply existsb_exists. exists word. auto. }
  destruct (first_match_none env pageUrl links) as [Hadm Htec].
  fold cands in Hadm, Htec.
  change [js "pcap"; js "clausulas"; js "administrativ"; js "caratula";
          js "bases"; js "anexo"] with admin_words.
  change [js "ppt"; js "prescripciones"; js "tecnic"; js "memoria";
          js "proyecto"] with tech_words.
  rewrite !Hment, <- Hadm, <- Htec.
  split; [| split].
  - intros u Hu.
    assert (Hin : In u (map fst cands)).
    { destruct Hu as [Hu|Hu].
      - destruct (first_match isAdmin cands) as [a|] eqn:E; cbn [or_else] in Hu.
        + injection Hu as <-. eapply first_match_In; eassumption.
        + eapply Hgen; eassumption.
      - destruct (first_match isTech cands) as [a|] eqn:E; cbn [or_else] in Hu.
        + injection Hu as <-. eapply first_match_In; eassumption.
        + eapply Hgen; eassumption. }
    split; [now apply Hurl | exact Hin].
  - destruct (first_match isAdmin cands); cbn [or_else].
    + split; [discriminate | intros [H _]; discriminate].
    + destruct (generic cands); cbn [nth_error];
        split; auto; try discriminate. intros [_ H]. discriminate.
  - destruct (first_match isTech cands); cbn [or_else].
    + split; [discriminate | intros [H _]; discriminate].
    + destruct (generic cands) as [|g1 [|g2 gs]]; cbn [nth_error List.length];
        split; auto; try discriminate; try (intros [_ H]; lia).
Qed.

Lemma scanAnchors_urls_witness :
  adminUrl (scanAnchors page_server page_url keyword_page) <> None /\
  techUrl (scanAnchors page_server page_url keyword_page) <> None.
Proof.
  assert (Henv : href_nonempty page_server).
  { intros href base u E. injection E as <-. discriminate. }
  pose proof (@scanAnchors_urls page_server page_url keyword_page Henv)
    as (_ & Hadmin & Htech).
  split.
  - intros H. apply Hadmin in H as [H _]. apply H.
    exists (mkAnchor (Some (js "docs/pliego1.pdf"))
              (utf16 "Pliego de Cláusulas Administrativas") None None None None),
           (js "clausulas").
    split; [right; right; left; reflexivity|].
    split; [reflexivity|]. split; [right; left; reflexivity|].
    vm_compute. reflexivity.
  - intros H. apply Htech in H as [H _]. apply H.
    exists (mkAnchor (Some (js "docs/pliego2.pdf")) (js "Descargar")
              (Some (utf16 "Prescripciones Técnicas")) None None None),
           (js "tecnic").
    split; [right; right; right; left; reflexivity|].
    split; [reflexivity|]. split; [right; right; left; reflexivity|].
    vm_compute. reflexivity.
Defined.

(* ===================================================================== *)
(** ** Further properties: metadata extraction *)
(* ===================================================================== *)

(** X15: without an API key (missing or empty) the extraction throws at
    once, before the file is read or the service is called, and nothing is
    logged; a file that cannot be read makes it throw the reader's error,
    again with nothing logged. Only errors of the service call and of the
    parsing are logged before they are thrown on. *)
Theorem extractMetadata_early_errors :
  (forall env file w,
      env_api_key env = None \/ env_api_key env = Some [] ->
      extractMetadataFromTenderFile env file w
        = (Thrown (ErrorMsg "API Key no encontrada"), w)) /\
  (forall env file w key e,
      env_api_key env = Some key -> key <> [] ->
      env_file_to_part env file = Thrown e ->
      extractMetadataFromTenderFile env file w = (Thrown e, w)) /\
  (forall env file w json w',
      extractMetadataFromTenderFile env file w = (Value json, w') -> w' = w).
Proof.
  split; [| split].
  - intros env file w [H|H]; unfold extractMetadataFromTenderFile, getAiClient;
      rewrite H; reflexivity.
  - intros env file w key e Hk Hne He.
    unfold extractMetadataFromTenderFile, getAiClient, fileToPart. rewrite Hk.
    destruct key; [congruence|]. unfold_m. cbn [is_empty]. now rewrite He.
  - intros env file w json w'.
    unfold extractMetadataFromTenderFile, getAiClient, fileToPart.
    destruct (env_api_key env) as [[|c key]|]; unfold_m; cbn [is_empty];
      try discriminate.
    destruct (env_file_to_part env file) as [part|e]; [|discriminate].
    destruct (env_generate env part) as [text|e]; [|discriminate].
    destruct (negb (truthy text)).
    + intros H. now injection H.
    + destruct (env_json_parse env (or_empty text)); [|discriminate].
      intros H. now injection H.
Qed.

Lemma extractMetadata_early_errors_witness :
  extractMetadataFromTenderFile pdf_server pcap_file []
    = (Thrown (ErrorMsg "API Key no encontrada"), []) /\
  extractMetadataFromTenderFile unreadable_upload pcap_file []
    = (Thrown OtherError, []).
Proof.
  pose proof extractMetadata_early_errors as (Hkey & Hread & _).
  split.
  - apply Hkey. left. reflexivity.
  - apply (Hread unreadable_upload pcap_file [] (js "key") OtherError);
      solve [reflexivity | discriminate].
Defined.

(* ===================================================================== *)
(** ** Further properties: links embedded in a PDF *)
(* ===================================================================== *)

Lemma fold_addLink annotations : forall links,
  fold_left addLink annotations links =
    fold_left set_add
      (map (fun ant => or_empty (ant_url ant)) (filter is_link annotations)) links.
Proof.
  induction annotations as [|ant annotations IH]; intros links;
    cbn [fold_left filter]; [reflexivity|].
  rewrite IH. unfold addLink. fold (is_link ant).
  now destruct (is_link ant).
Qed.

(** The loop over the pages either reads them all, and returns the set of
    all link URLs, or stops at the first page that fails. *)
Lemma collectLinks_run pages : forall links w,
  (all_pages_load pages /\
   collectLinks pages links w =
     (Value (fold_left set_add (link_urls pages) links), w)) \/
  (~ all_pages_load pages /\
   exists e, collectLinks pages links w = (Thrown e, w)).
Proof.
  induction pages as [|page pages IH]; intros links w; cbn [collectLinks].
  - left. split; [constructor | reflexivity].
  - destruct page as [annotations|e]; unfold bind, await.
    + destruct (IH (fold_left addLink annotations links) w)
        as [[Hall Hrun] | [Hnot [e Hrun]]].
      * left. split; [now constructor|]. rewrite Hrun, fold_addLink.
        unfold link_urls, annotations_of. cbn [flat_map].
        now rewrite filter_app, map_app, fold_left_app.
      * right. split; [|eauto].
        intros Hall. inversion Hall; subst. contradiction.
    + right. split; [|eauto]. intros Hall. inversion Hall; subst. contradiction.
Qed.

Lemma extractLinksFromPdf_run pdfjs file w :
  (exists pages,
      pdfjs file = Value pages /\ all_pages_load pages /\
      extractLinksFromPdf pdfjs file w = (Value (array_from_set (link_urls pages)), w))
  \/
  ((forall pages, pdfjs file = Value pages -> ~ all_pages_load pages) /\
   extractLinksFromPdf pdfjs file w = (Value [], w ++ [EvConsole])).
Proof.
  unfold extractLinksFromPdf. unfold try_catch, bind, await.
  destruct (pdfjs file) as [pages|e].
  - destruct (collectLinks_run pages [] w) as [[Hall Hrun] | [Hnot [e Hrun]]];
      rewrite Hrun.
    + left. exists pages. auto.
    + right. split; [|reflexivity]. intros pages' E. now injection E as <-.
  - right. split; [discriminate | reflexivity].
Qed.

(** X16: extracting the links of a PDF never throws. When the document
    opens and every page loads, the result has no duplicates and consists
    exactly of the non-empty URLs of the link annotations. When the
    document does not open or any page fails to load, the result is empty,
    whatever links the pages before held, and one console message is
    written. *)
Theorem extractLinksFromPdf_links pdfjs file w :
  exists links evs,
    extractLinksFromPdf pdfjs file w = (Value links, w ++ evs) /\
    NoDup links /\
    ((exists pages,
        pdfjs file = Value pages /\ all_pages_load pages /\ evs = [] /\
        forall u, In u links <->
                  exists ant, In ant (annotations_of pages) /\
                              ant_subtype ant = js "Link" /\
                              ant_url ant = Some u /\ u <> []) \/
     ((forall pages, pdfjs file = Value pages -> ~ all_pages_load pages) /\
      evs = [EvConsole] /\ links = [])).
Proof.
  destruct (extractLinksFromPdf_run pdfjs file w)
    as [(pages & Hp & Hall & Hrun) | [Hfail Hrun]]; rewrite Hrun.
  - exists (array_from_set (link_urls pages)), []. rewrite app_nil_r.
    destruct (array_from_set_NoDup_In (link_urls pages)) as [Hnd Hin].
    split; [reflexivity|]. split; [exact Hnd|]. left.
    exists pages. repeat split; try assumption.
    + intros Hu. apply Hin in Hu. unfold link_urls in Hu.
      apply in_map_iff in Hu as (ant & <- & Hant).
      apply filter_In in Hant as [Hant Hlink]. unfold is_link in Hlink.
      apply andb_true_iff in Hlink as [Hsub Hurl]. apply eqb_true in Hsub.
      exists ant. destruct (ant_url ant) as [[|c v]|]; try discriminate.
      cbn [or_empty]. repeat split; try assumption. discriminate.
    + intros (ant & Hant & Hsub & Hurl & Hne). apply Hin. unfold link_urls.
      apply in_map_iff. exists ant. rewrite Hurl. split; [reflexivity|].
      apply filter_In. split; [exact Hant|]. unfold is_link.
      rewrite Hsub, Hurl, eqb_refl. now destruct u.
  - exists [], [EvConsole]. split; [reflexivity|]. split; [constructor|].
    right. auto.
Qed.

(** X17: the links extracted from a PDF need no further deduplication: the
    prober's probe list for them is just the relevant ones among them, in
    the same order. *)
Theorem extractLinksFromPdf_then_probe pdfjs file w links w' :
  extractLinksFromPdf pdfjs file w = (Value links, w') ->
  array_from_set links = links /\
  uniqueLinks links = filter isRelevantLink links.
Proof.
  intros Hrun.
  assert (Hnd : NoDup links).
  { destruct (extractLinksFromPdf_run pdfjs file w)
      as [(pages & _ & _ & H) | [_ H]]; rewrite H in Hrun;
      injection Hrun as <- _; [|constructor].
    now destruct (array_from_set_NoDup_In (link_urls pages)). }
  unfold uniqueLinks. rewrite (array_from_set_NoDup Hnd). auto.
Qed.

Lemma extractLinksFromPdf_then_probe_witness :
  array_from_set [link "02"; link "05"] = [link "02"; link "05"] /\
  uniqueLinks [link "02"; link "05"] = filter isRelevantLink [link "02"; link "05"].
Proof.
  apply (@extractLinksFromPdf_then_probe sample_pdf pcap_file []
           [link "02"; link "05"] []).
  vm_compute. reflexivity.
Defined.

(* ===================================================================== *)
(** ** Further properties: the feasibility analysis *)
(* ===================================================================== *)

Lemma attach_run env label file parts w :
  attach env label file parts w = (Value (parts ++ attached env label file), w).
Proof.
  unfold attach, attached, fileToPart. destruct file as [f|]; unfold_m.
  - destruct (env_file_to_part env f);
      [now rewrite <- app_assoc | reflexivity].
  - now rewrite app_nil_r.
Qed.

Lemma getAiClient_run env w :
  getAiClient env w =
    if truthy (env_api_key env) then (Value (or_empty (env_api_key env)), w)
    else (Thrown (ErrorMsg "API Key no encontrada"), w).
Proof.
  unfold getAiClient. now destruct (env_api_key env) as [[|c key]|].
Qed.

(** The analysis in terms of the one answer of the service. *)
Lemma analyze_run env generate tender rules w :
  analyzeTenderWithGemini env generate tender rules w =
    if truthy (env_api_key env) then
      match generate (buildAnalysisSystemPrompt rules) (requestParts env tender) with
      | Value text =>
          if truthy text then
            match env_json_parse env (or_empty text) with
            | Value json => (Value json, w)
            | Thrown e => (Thrown e, w ++ [EvConsole])
            end
          else (Thrown (ErrorMsg "No response from Gemini"), w ++ [EvConsole])
      | Thrown e => (Thrown e, w ++ [EvConsole])
      end
    else (Thrown (ErrorMsg "API Key no encontrada"), w).
Proof.
  unfold analyzeTenderWithGemini. unfold bind at 1. rewrite getAiClient_run.
  destruct (truthy (env_api_key env)); [|reflexivity].
  unfold bind at 1. rewrite attach_run. unfold bind at 1. rewrite attach_run.
  unfold bind at 1. rewrite attach_run.
  change ((([TextPart (tenderInfo tender)]
              ++ attached env summaryLabel (tender_summaryFile tender))
             ++ attached env adminLabel (tender_adminFile tender))
            ++ attached env techLabel (tender_techFile tender))
    with ((([TextPart (tenderInfo tender)]
              ++ attached env summaryLabel (tender_summaryFile tender))
             ++ attached env adminLabel (tender_adminFile tender))
            ++ attached env techLabel (tender_techFile tender)).
  replace (((_ ++ _) ++ _) ++ _) with (requestParts env tender)
    by (unfold requestParts; now rewrite <- !app_assoc).
  unfold_m.
  destruct (generate _ _) as [text|e]; [|reflexivity].
  destruct (truthy text); cbn [negb]; [|reflexivity].
  now destruct (env_json_parse env (or_empty text)).
Qed.

(** X18: without an API key the analysis throws at once, with nothing
    logged, whatever the service would answer. With a key, exactly one
    request decides the outcome, made of the system prompt for the rules
    and the parts of the tender, in which a file that cannot be read
    leaves its label and no data: an answer with a non-empty text is
    parsed, and the parsed value is the result; an answer without text, or
    with the empty text, makes the analysis throw (where the metadata
    extraction returns a default); a failure of the service or of the
    parser is thrown on. Every error after the key check is logged once. *)
Theorem analyzeTenderWithGemini_outcomes :
  (forall env generate tender rules w,
      truthy (env_api_key env) = false ->
      analyzeTenderWithGemini env generate tender rules w
        = (Thrown (ErrorMsg "API Key no encontrada"), w)) /\
  (forall env generate tender rules w,
      truthy (env_api_key env) = true ->
      let answer :=
        generate (buildAnalysisSystemPrompt rules) (requestParts env tender) in
      (forall text,
          answer = Value (Some text) -> text <> [] ->
          analyzeTenderWithGemini env generate tender rules w =
            match env_json_parse env text with
            | Value json => (Value json, w)
            | Thrown e => (Thrown e, w ++ [EvConsole])
            end) /\
      (answer = Value None \/ answer = Value (Some []) ->
       analyzeTenderWithGemini env generate tender rules w
         = (Thrown (ErrorMsg "No response from Gemini"), w ++ [EvConsole])) /\
      (forall e,
          answer = Thrown e ->
          analyzeTenderWithGemini env generate tender rules w
            = (Thrown e, w ++ [EvConsole]))).
Proof.
  split.
  - intros env generate tender rules w Hk. now rewrite analyze_run, Hk.
  - intros env generate tender rules w Hk answer. subst answer.
    split; [| split].
    + intros text Ha Hne. rewrite analyze_run, Hk, Ha.
      destruct text; [congruence | reflexivity].
    + intros [Ha|Ha]; now rewrite analyze_run, Hk, Ha.
    + intros e Ha. now rewrite analyze_run, Hk, Ha.
Qed.

Lemma analyzeTenderWithGemini_outcomes_witness :
  analyzeTenderWithGemini pdf_server keep_service sample_tender sample_rules []
    = (Thrown (ErrorMsg "API Key no encontrada"), []) /\
  requestParts analysis_client sample_tender
    = [TextPart (tenderInfo sample_tender);
       TextPart adminLabel;
       InlineData (js "JVBERi0xLjcK") (file_type pcap_file);
       TextPart techLabel] /\
  analyzeTenderWithGemini analysis_client keep_service sample_tender
      sample_rules []
    = (Value keep_json, []) /\
  analyzeTenderWithGemini analysis_client (fun _ _ => Value None) sample_tender
      sample_rules []
    = (Thrown (ErrorMsg "No response from Gemini"), [EvConsole]).
Proof.
  pose proof analyzeTenderWithGemini_outcomes as [Hnokey Hkey].
  split; [| split; [| split]].
  - apply Hnokey. reflexivity.
  - vm_compute. reflexivity.
  - destruct (Hkey analysis_client keep_service sample_tender sample_rules []
                eq_refl) as (Htext & _ & _).
    rewrite (Htext keep_text); [reflexivity | reflexivity | discriminate].
  - destruct (Hkey analysis_client (fun _ _ => Value None) sample_tender
                sample_rules [] eq_refl) as (_ & Hnone & _).
    apply Hnone. left. reflexivity.
Defined.

Lemma startsWith_app p s : startsWith (p ++ s) p = true.
Proof.
  induction p as [|c p IH]; [now destruct s|]. cbn. now rewrite N.eqb_refl.
Qed.

Lemma includes_middle a r b : includes (a ++ r ++ b) r = true.
Proof.
  induction a as [|c a IH]; cbn [app].
  - destruct (r ++ b) eqn:E; cbn [includes]; rewrite <- E, startsWith_app;
      reflexivity.
  - cbn [includes]. rewrite IH. apply orb_true_r.
Qed.

(** X19: the system prompt carries the rules verbatim between a fixed
    preamble and a fixed ending: it includes them, it begins and ends the
    same way for all rules, its length exceeds theirs by a constant, and
    two sets of rules give the same prompt only when they are equal. *)
Theorem buildAnalysisSystemPrompt_rules :
  (forall rules,
      includes (buildAnalysisSystemPrompt rules) rules = true /\
      startsWith (buildAnalysisSystemPrompt rules) promptHead = true /\
      endsWith (buildAnalysisSystemPrompt rules) promptTail = true /\
      List.length (buildAnalysisSystemPrompt rules)
        = List.length (buildAnalysisSystemPrompt []) + List.length rules) /\
  (forall rules1 rules2,
      buildAnalysisSystemPrompt rules1 = buildAnalysisSystemPrompt rules2 ->
      rules1 = rules2).
Proof.
  split.
  - intros rules. unfold buildAnalysisSystemPrompt.
    split; [apply includes_middle|]. split; [apply startsWith_app|].
    split.
    + rewrite app_assoc. apply endsWith_app.
    + rewrite !length_app. cbn [List.length app]. lia.
  - unfold buildAnalysisSystemPrompt. intros rules1 rules2 H.
    apply app_inv_head in H. now apply app_inv_tail in H.
Qed.

(* ===================================================================== *)
(** ** Further properties: the board *)
(* ===================================================================== *)

Ltac unfold_h :=
  unfold bindH, try_catchH, try_finallyH, with_locals, state, local, modify,
    get, lift, awaiting, retH.

Lemma filter_set_add ids id :
  filter (fun x => negb (JS.eqb x id)) (set_add ids id)
    = filter (fun x => negb (JS.eqb x id)) ids.
Proof.
  unfold set_add. destruct (existsb (JS.eqb id) ids); [reflexivity|].
  rewrite filter_app. cbn [filter]. rewrite eqb_refl. cbn [negb].
  apply app_nil_r.
Qed.

(** The handler in terms of the outcome of the analysis; [now] is the
    state when the analysis settles. *)
Lemma handleAnalyze_run env generate tender meanwhile st w :
  handleAnalyze env generate tender meanwhile st w =
    if truthy (env_api_key env) then
      let now := meanwhile (marked tender st) in
      let ids := filter (fun x => negb (JS.eqb x (tender_id tender)))
                        (app_analyzingIds now) in
      let failed w1 :=
        (Value tt,
         mkApp (app_rules now) (app_tenders now) ids (app_selectedTender now)
               (Some analysisErrorMessage),
         w1 ++ [EvConsole]) in
      match analyzeTenderWithGemini env generate tender (app_rules st) w with
      | (Value analysis, w1) =>
          match decision analysis with
          | Value d =>
              (Value tt,
               mkApp (app_rules now)
                     (map (fun t =>
                             if JS.eqb (tender_id t) (tender_id tender)
                             then analysed tender analysis d else t)
                          (app_tenders now))
                     ids
                     (if selected st (tender_id tender)
                      then Some (analysed tender analysis d)
                      else app_selectedTender now)
                     (app_error now),
               w1)
          | Thrown _ => failed w1
          end
      | (Thrown _, w1) => failed w1
      end
    else (Value tt, setError (Some noKeyMessage) st, w).
Proof.
  unfold handleAnalyze. destruct (truthy (env_api_key env)); cbn [negb];
    [|reflexivity].
  unfold_h. fold (marked tender st).
  destruct (analyzeTenderWithGemini env generate tender (app_rules st) w)
    as [[analysis|e] w1].
  - unfold await. destruct (decision analysis) as [d|e].
    + destruct (selected st (tender_id tender)); reflexivity.
    + reflexivity.
  - reflexivity.
Qed.

(** The state when nothing else ran while the analysis was awaited. *)
Lemma marked_fields tender st :
  app_rules (marked tender st) = app_rules st /\
  app_tenders (marked tender st) = app_tenders st /\
  app_selectedTender (marked tender st) = app_selectedTender st /\
  app_error (marked tender st) = app_error st /\
  filter (fun x => negb (JS.eqb x (tender_id tender)))
         (app_analyzingIds (marked tender st))
    = filter (fun x => negb (JS.eqb x (tender_id tender)))
             (app_analyzingIds st).
Proof.
  unfold marked. cbn. repeat split. apply filter_set_add.
Qed.

Lemma replaced_ids (id : JSString) (u : TenderDocument) tenders :
  tender_id u = id ->
  Forall2 (fun t t' =>
             tender_id t' = tender_id t /\ (tender_id t <> id -> t' = t))
          tenders
          (map (fun t => if JS.eqb (tender_id t) id then u else t) tenders).
Proof.
  intros Hu. induction tenders as [|t tenders IH]; cbn [map]; constructor;
    [|exact IH].
  destruct (JS.eqb (tender_id t) id) eqn:E.
  - apply eqb_true in E. split; [congruence | contradiction].
  - auto.
Qed.

Lemma unchanged_ids (id : JSString) tenders :
  Forall2 (fun t t' : TenderDocument =>
             tender_id t' = tender_id t /\ (tender_id t <> id -> t' = t))
          tenders tenders.
Proof. induction tenders; constructor; auto. Qed.

(** X20: the analysis handler never throws. Without an API key it only
    sets the error message and logs nothing. With a key the tender is
    first marked as being analysed and the analysis is awaited with the
    rules of the state in which the handler was called; for [now], the
    state when the analysis settles (whatever the other handlers did to
    the marked state meanwhile), the handler keeps the rules, the
    identifiers, the number and the order of the tenders of [now], leaves
    every tender with another identifier as it is, and takes the mark off
    the tender's identifier, however the analysis ended, the other marks
    staying. Either the analysis was parsed to a value other than null,
    nothing (more) was logged, the error message is untouched and every
    tender with the identifier is replaced by the analysed copy of the
    handler's tender, which is also selected when the tender was selected
    at the time of the call; or the tenders and the selected tender are
    untouched, an error message is set and only console events were
    logged, at least one. When no other handler ran meanwhile, the rules
    and the tenders with another identifier are those of the state in
    which the handler was called, and so are the marks but the tender's
    own. *)
Theorem handleAnalyze_completes env generate tender meanwhile st w :
  let now := meanwhile (marked tender st) in
  exists st' evs,
    handleAnalyze env generate tender meanwhile st w
      = (Value tt, st', w ++ evs) /\
    (truthy (env_api_key env) = false ->
     st' = setError (Some noKeyMessage) st /\ evs = []) /\
    (truthy (env_api_key env) = true ->
     app_rules st' = app_rules now /\
     Forall2 (fun t t' =>
                tender_id t' = tender_id t /\
                (tender_id t <> tender_id tender -> t' = t))
             (app_tenders now) (app_tenders st') /\
     app_analyzingIds st'
       = filter (fun x => negb (JS.eqb x (tender_id tender)))
                (app_analyzingIds now) /\
     ((exists analysis d,
          analyzeTenderWithGemini env generate tender (app_rules st) w
            = (Value analysis, w) /\
          decision analysis = Value d /\ analysis <> JNull /\
          evs = [] /\ app_error st' = app_error now /\
          app_tenders st'
            = map (fun t => if JS.eqb (tender_id t) (tender_id tender)
                            then analysed tender analysis d else t)
                  (app_tenders now) /\
          app_selectedTender st'
            = if selected st (tender_id tender)
              then Some (analysed tender analysis d)
              else app_selectedTender now) \/
      (app_tenders st' = app_tenders now /\
       app_selectedTender st' = app_selectedTender now /\
       Forall (eq EvConsole) evs /\ evs <> [] /\
       app_error st' = Some analysisErrorMessage))) /\
    ((forall s, meanwhile s = s) ->
     app_rules now = app_rules st /\ app_tenders now = app_tenders st /\
     app_selectedTender now = app_selectedTender st /\
     app_error now = app_error st /\
     app_rules st' = app_rules st /\
     Forall2 (fun t t' =>
                tender_id t' = tender_id t /\
                (tender_id t <> tender_id tender -> t' = t))
             (app_tenders st) (app_tenders st') /\
     (truthy (env_api_key env) = true ->
      app_analyzingIds st'
        = filter (fun x => negb (JS.eqb x (tender_id tender)))
                 (app_analyzingIds st))).
Proof.
  cbv zeta. rewrite handleAnalyze_run.
  destruct (truthy (env_api_key env)) eqn:Hk.
  2:{ exists (setError (Some noKeyMessage) st), []. rewrite app_nil_r.
      split; [reflexivity|]. split; [auto|]. split; [discriminate|].
      intros Hid. rewrite Hid.
      destruct (marked_fields tender st) as (Hr & Ht & Hs & He & _).
      repeat split; auto; [apply unchanged_ids | discriminate]. }
  cbv zeta.
  set (now := meanwhile (marked tender st)).
  assert (Hquiet : forall st',
    app_rules st' = app_rules now ->
    Forall2 (fun t t' =>
               tender_id t' = tender_id t /\
               (tender_id t <> tender_id tender -> t' = t))
            (app_tenders now) (app_tenders st') ->
    app_analyzingIds st'
      = filter (fun x => negb (JS.eqb x (tender_id tender)))
               (app_analyzingIds now) ->
    (forall s, meanwhile s = s) ->
    app_rules now = app_rules st /\ app_tenders now = app_tenders st /\
    app_selectedTender now = app_selectedTender st /\
    app_error now = app_error st /\
    app_rules st' = app_rules st /\
    Forall2 (fun t t' =>
               tender_id t' = tender_id t /\
               (tender_id t <> tender_id tender -> t' = t))
            (app_tenders st) (app_tenders st') /\
    (true = true ->
     app_analyzingIds st'
       = filter (fun x => negb (JS.eqb x (tender_id tender)))
                (app_analyzingIds st))).
  { intros st' Hr Ht Hi Hid. unfold now in *. rewrite Hid in *.
    destruct (marked_fields tender st) as (Hr' & Ht' & Hs' & He' & Hi').
    rewrite Hr' in Hr. rewrite Ht' in Ht. rewrite Hi' in Hi.
    repeat split; auto. }
  assert (Hfail : forall w1 evs1, w1 = w ++ evs1 -> Forall (eq EvConsole) evs1 ->
    exists st' evs,
      (Value tt,
       mkApp (app_rules now) (app_tenders now)
         (filter (fun x => negb (JS.eqb x (tender_id tender)))
                 (app_analyzingIds now))
         (app_selectedTender now) (Some analysisErrorMessage),
       w1 ++ [EvConsole]) = (Value tt, st', w ++ evs) /\
      app_rules st' = app_rules now /\
      Forall2 (fun t t' =>
                 tender_id t' = tender_id t /\
                 (tender_id t <> tender_id tender -> t' = t))
              (app_tenders now) (app_tenders st') /\
      app_analyzingIds st'
        = filter (fun x => negb (JS.eqb x (tender_id tender)))
                 (app_analyzingIds now) /\
      (app_tenders st' = app_tenders now /\
       app_selectedTender st' = app_selectedTender now /\
       Forall (eq EvConsole) evs /\ evs <> [] /\
       app_error st' = Some analysisErrorMessage)).
  { intros w1 evs1 -> Hevs. eexists _, (evs1 ++ [EvConsole]).
    rewrite app_assoc. split; [reflexivity|]. cbn.
    split; [reflexivity|]. split; [apply unchanged_ids|].
    split; [reflexivity|]. split; [reflexivity|]. split; [reflexivity|].
    split; [apply Forall_app; auto|]. split; [|reflexivity].
    intros E. now destruct evs1. }
  assert (Hend : forall w1 evs1, w1 = w ++ evs1 -> Forall (eq EvConsole) evs1 ->
    exists st' evs,
      (Value tt,
       mkApp (app_rules now) (app_tenders now)
         (filter (fun x => negb (JS.eqb x (tender_id tender)))
                 (app_analyzingIds now))
         (app_selectedTender now) (Some analysisErrorMessage),
       w1 ++ [EvConsole]) = (Value tt, st', w ++ evs) /\
      (true = false -> st' = setError (Some noKeyMessage) st /\ evs = []) /\
      (true = true ->
       app_rules st' = app_rules now /\
       Forall2 (fun t t' =>
                  tender_id t' = tender_id t /\
                  (tender_id t <> tender_id tender -> t' = t))
               (app_tenders now) (app_tenders st') /\
       app_analyzingIds st'
         = filter (fun x => negb (JS.eqb x (tender_id tender)))
                  (app_analyzingIds now) /\
       (app_tenders st' = app_tenders now /\
        app_selectedTender st' = app_selectedTender now /\
        Forall (eq EvConsole) evs /\ evs <> [] /\
        app_error st' = Some analysisErrorMessage)) /\
      ((forall s, meanwhile s = s) ->
       app_rules now = app_rules st /\ app_tenders now = app_tenders st /\
       app_selectedTender now = app_selectedTender st /\
       app_error now = app_error st /\
       app_rules st' = app_rules st /\
       Forall2 (fun t t' =>
                  tender_id t' = tender_id t /\
                  (tender_id t <> tender_id tender -> t' = t))
               (app_tenders st) (app_tenders st') /\
       (true = true ->
        app_analyzingIds st'
          = filter (fun x => negb (JS.eqb x (tender_id tender)))
                   (app_analyzingIds st)))).
  { intros w1 evs1 Hw Hevs.
    destruct (Hfail w1 evs1 Hw Hevs) as (st' & evs & H & Hr & Ht & Hi & Hrest).
    exists st', evs. split; [exact H|]. split; [discriminate|].
    split; [|now apply Hquiet]. intros _. auto. }
  rewrite analyze_run, Hk.
  destruct (generate _ _) as [text|e].
  2:{ destruct (Hend (w ++ [EvConsole]) [EvConsole] eq_refl)
        as (st' & evs & H & H1 & H2 & H3); [auto|].
      exists st', evs. split; [exact H|]. split; [exact H1|].
      split; [|exact H3]. intros Hkk.
      destruct (H2 Hkk) as (Ha & Hb & Hc & Hright). auto. }
  destruct (truthy text).
  2:{ destruct (Hend (w ++ [EvConsole]) [EvConsole] eq_refl)
        as (st' & evs & H & H1 & H2 & H3); [auto|].
      exists st', evs. split; [exact H|]. split; [exact H1|].
      split; [|exact H3]. intros Hkk.
      destruct (H2 Hkk) as (Ha & Hb & Hc & Hright). auto. }
  destruct (env_json_parse env (or_empty text)) as [analysis|e].
  2:{ destruct (Hend (w ++ [EvConsole]) [EvConsole] eq_refl)
        as (st' & evs & H & H1 & H2 & H3); [auto|].
      exists st', evs. split; [exact H|]. split; [exact H1|].
      split; [|exact H3]. intros Hkk.
      destruct (H2 Hkk) as (Ha & Hb & Hc & Hright). auto. }
  destruct (decision analysis) as [d|e] eqn:Hd.
  2:{ destruct (Hend w [] (eq_sym (app_nil_r w)))
        as (st' & evs & H & H1 & H2 & H3); [auto|].
      exists st', evs. split; [exact H|]. split; [exact H1|].
      split; [|exact H3]. intros Hkk.
      destruct (H2 Hkk) as (Ha & Hb & Hc & Hright). auto. }
  eexists _, []. rewrite app_nil_r. split; [reflexivity|].
  split; [discriminate|].
  assert (Hids : Forall2 (fun t t' =>
                 tender_id t' = tender_id t /\
                 (tender_id t <> tender_id tender -> t' = t))
            (app_tenders now)
            (map (fun t => if JS.eqb (tender_id t) (tender_id tender)
                           then analysed tender analysis d else t)
                 (app_tenders now))) by now apply replaced_ids.
  split; [|now apply Hquiet].
  intros _. cbn.
  split; [reflexivity|]. split; [exact Hids|].
  split; [reflexivity|]. left. exists analysis, d.
  repeat split; try reflexivity; try assumption.
  intros E. rewrite E in Hd. discriminate.
Qed.

Ltac status_cases :=
  repeat match goal with
  | |- context [JS.eqb ?a ?b] =>
      let E := fresh "E" in
      destruct (JS.eqb a b) eqn:E; [apply eqb_true in E; subst|]
  end.

Lemma eqb_false_neq s t : JS.eqb s t = false -> s <> t.
Proof. intros E ->. now rewrite eqb_refl in E. Qed.

(** X21: the status after an analysis is decided by the decision alone:
    KEEP moves the tender to the column in progress, DISCARD to the
    rejected ones, REVIEW to the ones in doubt, and anything else (no
    decision, a decision that is not a string, or another string, such as
    one in lower case) to the pending ones. An analysis never archives. *)
Theorem newStatus_decision d :
  (newStatus d = IN_PROGRESS <-> d = Some (JString (js "KEEP"))) /\
  (newStatus d = REJECTED <-> d = Some (JString (js "DISCARD"))) /\
  (newStatus d = IN_DOUBT <-> d = Some (JString (js "REVIEW"))) /\
  (newStatus d = PENDING <->
   d <> Some (JString (js "KEEP")) /\ d <> Some (JString (js "DISCARD")) /\
   d <> Some (JString (js "REVIEW"))) /\
  newStatus d <> ARCHIVED.
Proof.
  assert (Hother : forall s, is_string d s = false -> d <> Some (JString s)).
  { intros s E ->. cbn in E. now rewrite eqb_refl in E. }
  assert (Hsame : forall s, is_string d s = true -> d = Some (JString s)).
  { intros s E. destruct d as [[]|]; try discriminate.
    cbn in E. apply eqb_true in E. now subst. }
  unfold newStatus.
  destruct (is_string d (js "KEEP")) eqn:E1;
    [apply Hsame in E1; subst d; cbn
    |destruct (is_string d (js "DISCARD")) eqn:E2;
      [apply Hsame in E2; subst d; cbn
      |destruct (is_string d (js "REVIEW")) eqn:E3;
        [apply Hsame in E3; subst d; cbn|]]].
  4:{ apply Hother in E1, E2, E3.
      repeat split; try discriminate; try assumption; try contradiction;
        intros H; try (now rewrite H in *); tauto. }
  all: repeat split; try discriminate; try reflexivity;
         try (intros (H1 & H2 & H3); congruence).
Qed.


Lemma statusChange_map tenderId status st :
  app_tenders (handleStatusChange tenderId status st)
    = map (fun t => if JS.eqb (tender_id t) tenderId
                    then with_status t status else t) (app_tenders st).
Proof.
  unfold handleStatusChange. now destruct (selected st tenderId).
Qed.

(** X22: moving a tender changes statuses only: the rules, the marks of
    running analyses and the error message stay; every tender keeps its
    place and all its fields but the status (so its analysis too); the
    tenders with the given identifier get the new status and the others
    keep theirs. A second move of the same identifier overrides the
    first. *)
Theorem handleStatusChange_tenders tenderId status st :
  let st' := handleStatusChange tenderId status st in
  app_rules st' = app_rules st /\
  app_analyzingIds st' = app_analyzingIds st /\
  app_error st' = app_error st /\
  Forall2 (fun t t' =>
             same_but_status t t' /\
             tender_status t'
               = if JS.eqb (tender_id t) tenderId then status
                 else tender_status t)
          (app_tenders st) (app_tenders st') /\
  forall status2,
    handleStatusChange tenderId status2 st'
      = handleStatusChange tenderId status2 st.
Proof.
  cbv zeta. split; [|split; [|split; [|split]]].
  - unfold handleStatusChange. now destruct (selected st tenderId).
  - unfold handleStatusChange. now destruct (selected st tenderId).
  - unfold handleStatusChange. now destruct (selected st tenderId).
  - rewrite statusChange_map.
    induction (app_tenders st) as [|t l IH]; cbn [map]; constructor;
      [|exact IH].
    unfold same_but_status.
    destruct (JS.eqb (tender_id t) tenderId); [now split|].
    split; [now destruct t | reflexivity].
  - intros status2.
    assert (Hmap : forall l,
      map (fun t => if JS.eqb (tender_id t) tenderId
                    then with_status t status2 else t)
          (map (fun t => if JS.eqb (tender_id t) tenderId
                         then with_status t status else t) l)
      = map (fun t => if JS.eqb (tender_id t) tenderId
                      then with_status t status2 else t) l).
    { intros l. rewrite map_map. apply map_ext. intros t.
      destruct (JS.eqb (tender_id t) tenderId) eqn:E; cbn [tender_id with_status];
        now rewrite E. }
    unfold handleStatusChange, selected, setSelectedTender, setTenders.
    destruct st as [r ts ids [p|] err]; cbn.
    + destruct (JS.eqb (tender_id p) tenderId) eqn:E; cbn; rewrite E; cbn;
        now rewrite Hmap.
    + now rewrite Hmap.
Qed.


(** X23: the tender shown in the detail view stays a tender of the board
    when a tender is added or moved. It also stays one when a tender is
    analysed, provided that it is one in [now], the state when the
    analysis settles, and that the analysed tender is selected in [now]
    exactly when it was selected at the time of the call. Without the
    proviso it need not: when the detail view of the first tender of
    [closed_board] is opened while that tender is being analysed, the
    view keeps showing the tender as it was, which the board no longer
    holds. *)
Theorem selected_on_board_preserved st :
  selected_on_board st ->
  (forall t, selected_on_board (handleAddTender t st)) /\
  (forall tenderId status,
      selected_on_board (handleStatusChange tenderId status st)) /\
  (forall env generate tender meanwhile w st' w',
      let now := meanwhile (marked tender st) in
      selected_on_board now ->
      selected now (tender_id tender) = selected st (tender_id tender) ->
      handleAnalyze env generate tender meanwhile st w = (Value tt, st', w') ->
      selected_on_board st') /\
  (selected_on_board closed_board /\
   selected_on_board (open_first (marked sample_tender closed_board)) /\
   exists st' w',
     handleAnalyze analysis_client keep_service sample_tender open_first
                   closed_board []
       = (Value tt, st', w') /\
     app_selectedTender st' = Some sample_tender /\
     ~ In sample_tender (app_tenders st') /\
     ~ selected_on_board st').
Proof.
  unfold selected_on_board. intros Hsel. split; [|split; [|split]].
  - intros t s Hs. right. apply Hsel. exact Hs.
  - intros tenderId status s.
    rewrite statusChange_map.
    unfold handleStatusChange, selected.
    destruct (app_selectedTender st) as [p|] eqn:Hp;
      [|cbn; rewrite Hp; discriminate].
    specialize (Hsel p eq_refl).
    destruct (JS.eqb (tender_id p) tenderId) eqn:E; cbn; rewrite Hp; intros H;
      injection H as <-.
    + apply (in_map (fun t => if JS.eqb (tender_id t) tenderId
                              then with_status t status else t)) in Hsel.
      now rewrite E in Hsel.
    + apply (in_map (fun t => if JS.eqb (tender_id t) tenderId
                              then with_status t status else t)) in Hsel.
      now rewrite E in Hsel.
  - intros env generate tender meanwhile w st' w'. cbv zeta.
    pose proof Hsel as Hsel0. intros Hnow Hsame. rewrite handleAnalyze_run.
    destruct (truthy (env_api_key env)) eqn:Hk.
    2:{ intros H. injection H as <- _. cbn. exact Hsel0. }
    cbv zeta.
    destruct (analyzeTenderWithGemini env generate tender (app_rules st) w)
      as [[analysis|e] w1].
    2:{ intros H. injection H as <- _. exact Hnow. }
    destruct (decision analysis) as [d|e].
    2:{ intros H. injection H as <- _. exact Hnow. }
    intros H. injection H as <- _. cbn. rewrite <- Hsame. unfold selected.
    destruct (app_selectedTender (meanwhile (marked tender st))) as [p|] eqn:Hp;
      [|discriminate].
    specialize (Hnow p eq_refl).
    apply (in_map (fun t => if JS.eqb (tender_id t) (tender_id tender)
                            then analysed tender analysis d else t)) in Hnow.
    destruct (JS.eqb (tender_id p) (tender_id tender)) eqn:E; intros s H;
      injection H as <-; exact Hnow.
  - split; [discriminate|]. split.
    { intros s H. injection H as <-. left. reflexivity. }
    eexists _, _. split; [vm_compute; reflexivity|].
    assert (Hout : ~ In sample_tender
               [analysed sample_tender keep_json (Some (JString (js "KEEP")));
                mkTender (js "t-2") (js "Obras") None None [] None [] None None
                         None (js "ARCHIVED") None 1700000000001%N]).
    { intros [H|[H|[]]]; apply (f_equal tender_status) in H;
        vm_compute in H; discriminate. }
    split; [reflexivity|]. split.
    + vm_compute in Hout |- *. exact Hout.
    + intros H. apply Hout. specialize (H _ eq_refl).
      vm_compute in H |- *. exact H.
Qed.

Lemma selected_on_board_preserved_witness :
  selected_on_board (handleStatusChange (js "t-1") ARCHIVED sample_board).
Proof.
  apply (selected_on_board_preserved (st := sample_board)).
  intros s H. injection H as <-. left. reflexivity.
Defined.

Lemma shown_known t :
  (known_status (tender_status t) -> shown t = 1) /\
  (~ known_status (tender_status t) -> shown t = 0).
Proof.
  unfold shown, known_status. split.
  - intros H. cbn [In] in H.
    destruct H as [H|[H|[H|[H|[H|[]]]]]]; rewrite <- H; reflexivity.
  - intros H. cbn [filter].
    status_cases; try reflexivity; exfalso; apply H; cbn [In]; auto 6.
Qed.

Lemma columns_sum tenders :
  List.length (filter (fun t => JS.eqb (tender_status t) PENDING) tenders) +
  List.length (filter (fun t => JS.eqb (tender_status t) IN_PROGRESS) tenders) +
  List.length (filter (fun t => JS.eqb (tender_status t) IN_DOUBT) tenders) +
  List.length (filter (fun t => JS.eqb (tender_status t) REJECTED) tenders) +
  List.length (filter (fun t => JS.eqb (tender_status t) ARCHIVED) tenders)
  = list_sum (map shown tenders).
Proof.
  induction tenders as [|t l IH]; [reflexivity|].
  change (list_sum (map shown (t :: l)))
    with (shown t + list_sum (map shown l)).
  rewrite <- IH. unfold shown. cbn [filter].
  destruct (JS.eqb (tender_status t) PENDING),
           (JS.eqb (tender_status t) IN_PROGRESS),
           (JS.eqb (tender_status t) IN_DOUBT),
           (JS.eqb (tender_status t) REJECTED),
           (JS.eqb (tender_status t) ARCHIVED); cbn [List.length]; lia.
Qed.

Lemma shown_sum tenders :
  list_sum (map shown tenders) <= List.length tenders /\
  (list_sum (map shown tenders) = List.length tenders <-> all_known tenders).
Proof.
  unfold all_known.
  induction tenders as [|t l [IHle IHiff]].
  - split; [reflexivity|]. split; [constructor | reflexivity].
  - change (list_sum (map shown (t :: l)))
      with (shown t + list_sum (map shown l)).
    cbn [List.length].
    destruct (shown_known t) as [H1 H0].
    assert (Hd : known_status (tender_status t) \/
                 ~ known_status (tender_status t)).
    { unfold known_status.
      destruct (in_dec (list_eq_dec N.eq_dec) (tender_status t)
                  [PENDING; IN_PROGRESS; IN_DOUBT; REJECTED; ARCHIVED]); auto. }
    destruct Hd as [Hk|Hk].
    + rewrite (H1 Hk). split; [lia|]. split.
      * intros H. constructor; [exact Hk|]. apply IHiff. lia.
      * intros H. apply Forall_inv_tail in H. apply IHiff in H. lia.
    + rewrite (H0 Hk). split; [lia|]. split.
      * intros H. lia.
      * intros H. apply Forall_inv in H. contradiction.
Qed.

(** X24: no tender is shown twice: the five columns (the archive
    included) together hold at most as many cards as there are tenders,
    and exactly as many when, and only when, every tender has one of the
    five statuses. A tender with any other status is on no column. *)
Theorem columns_partition st :
  let cards :=
    List.length (pendingTenders st) + List.length (inProgressTenders st) +
    List.length (inDoubtTenders st) + List.length (rejectedTenders st) +
    List.length (archivedTenders st) in
  cards <= List.length (app_tenders st) /\
  (cards = List.length (app_tenders st) <-> all_known (app_tenders st)) /\
  (forall t, ~ known_status (tender_status t) ->
             ~ In t (pendingTenders st ++ inProgressTenders st ++
                     inDoubtTenders st ++ rejectedTenders st ++
                     archivedTenders st)).
Proof.
  cbv zeta.
  unfold pendingTenders, inProgressTenders, inDoubtTenders, rejectedTenders,
    archivedTenders.
  rewrite columns_sum.
  split; [apply shown_sum|]. split; [apply shown_sum|].
  intros t Hk Hin. apply Hk. unfold known_status. cbn [In].
  repeat (apply in_app_or in Hin as [Hin|Hin]);
    apply filter_In in Hin as [_ E]; apply eqb_true in E; auto 6.
Qed.

Lemma newStatus_known d : known_status (newStatus d).
Proof.
  unfold newStatus, known_status. cbn [In].
  destruct (is_string d (js "KEEP")); [auto|].
  destruct (is_string d (js "DISCARD")); [auto 6|].
  destruct (is_string d (js "REVIEW")); auto 6.
Qed.

(** X25: the statuses stay members of the enumeration: when every tender
    of the board has one of the five statuses, this is still so after a
    move to one of the five statuses and after an analysis, whatever the
    status of the analysed tender was, however the analysis ended and
    whatever the other handlers did while it was awaited, as long as
    they keep the statuses among the five (as doing nothing does). *)
Theorem all_known_preserved st :
  all_known (app_tenders st) ->
  (forall tenderId status,
      known_status status ->
      all_known (app_tenders (handleStatusChange tenderId status st))) /\
  (forall env generate tender w st' w',
      handleAnalyze env generate tender (fun s => s) st w = (Value tt, st', w') ->
      all_known (app_tenders st')) /\
  (forall env generate tender meanwhile w st' w',
      (forall s, all_known (app_tenders s) ->
                 all_known (app_tenders (meanwhile s))) ->
      handleAnalyze env generate tender meanwhile st w = (Value tt, st', w') ->
      all_known (app_tenders st')).
Proof.
  unfold all_known. intros Hall.
  assert (Hgen : forall env generate tender meanwhile w st' w',
      (forall s, Forall (fun t => known_status (tender_status t)) (app_tenders s) ->
                 Forall (fun t => known_status (tender_status t))
                        (app_tenders (meanwhile s))) ->
      handleAnalyze env generate tender meanwhile st w = (Value tt, st', w') ->
      Forall (fun t => known_status (tender_status t)) (app_tenders st')).
  { intros env generate tender meanwhile w st' w' Hmean.
    rewrite handleAnalyze_run.
    destruct (truthy (env_api_key env)).
    2:{ intros H. injection H as <- _. exact Hall. }
    cbv zeta.
    assert (Hnow : Forall (fun t => known_status (tender_status t))
                     (app_tenders (meanwhile (marked tender st)))).
    { apply Hmean. exact Hall. }
    destruct (analyzeTenderWithGemini env generate tender (app_rules st) w)
      as [[analysis|e] w1].
    2:{ intros H. injection H as <- _. exact Hnow. }
    destruct (decision analysis) as [d|e].
    2:{ intros H. injection H as <- _. exact Hnow. }
    intros H. injection H as <- _. cbn.
    apply Forall_map. apply Forall_impl with (2 := Hnow). intros t Ht.
    destruct (JS.eqb (tender_id t) (tender_id tender)); [|exact Ht].
    apply newStatus_known. }
  split; [|split].
  - intros tenderId status Hs. rewrite statusChange_map.
    apply Forall_map. apply Forall_impl with (2 := Hall). intros t Ht.
    now destruct (JS.eqb (tender_id t) tenderId).
  - intros env generate tender w st' w'. apply Hgen. auto.
  - exact Hgen.
Qed.

Lemma all_known_preserved_witness :
  all_known (app_tenders (handleStatusChange (js "t-1") ARCHIVED sample_board)).
Proof.
  apply (@all_known_preserved sample_board).
  - unfold all_known, sample_board. cbn [app_tenders].
    apply Forall_cons; [|apply Forall_cons; [|apply Forall_nil]];
      unfold known_status; cbn; auto 6.
  - unfold known_status. cbn. auto 6.
Defined.

(** X26: the migration of the stored tenders keeps their number, order
    and identifiers; it leaves no tender with the old status APPROVED,
    gives those that had it the status in progress and changes nothing
    else; applying it again changes nothing. When every stored status is
    APPROVED or one of the five, all statuses are among the five
    afterwards. *)
Theorem migratedTenders_statuses saved :
  Forall2 (fun t t' =>
             same_but_status t t' /\
             tender_status t' <> js "APPROVED" /\
             tender_status t'
               = if JS.eqb (tender_status t) (js "APPROVED") then IN_PROGRESS
                 else tender_status t)
          saved (migratedTenders saved) /\
  migratedTenders (migratedTenders saved) = migratedTenders saved /\
  (Forall (fun t => tender_status t = js "APPROVED" \/
                    known_status (tender_status t)) saved ->
   all_known (migratedTenders saved)).
Proof.
  unfold migratedTenders. split; [|split].
  - induction saved as [|t l IH]; cbn [map]; constructor; [|exact IH].
    unfold same_but_status.
    destruct (JS.eqb (tender_status t) (js "APPROVED")) eqn:E.
    + repeat split. discriminate.
    + split; [now destruct t|]. split; [|reflexivity].
      now apply eqb_false_neq.
  - rewrite map_map. apply map_ext. intros t.
    destruct (JS.eqb (tender_status t) (js "APPROVED")) eqn:E;
      [reflexivity | now rewrite E].
  - intros H. unfold all_known. apply Forall_map.
    apply Forall_impl with (2 := H). intros t [Ht|Ht].
    + rewrite Ht. cbn. auto.
    + destruct (JS.eqb (tender_status t) (js "APPROVED")); [cbn; auto | exact Ht].
Qed.

(* ===================================================================== *)
(** ** Further properties: the form *)
(* ===================================================================== *)

Lemma fetch_missing_cases env found current prefix w :
  exists f evs,
    fetch_missing env found current prefix w = (f, w ++ evs) /\
    Forall is_network evs /\ fetch_count evs <= 2 /\
    (truthy found && vacant current = true ->
     downloadFileFromUrl env (or_empty found) prefix w = (Value f, w ++ evs)) /\
    (truthy found && vacant current = false -> f = None /\ evs = []).
Proof.
  unfold fetch_missing. destruct (truthy found && vacant current).
  - destruct (download_trace env (or_empty found) prefix w)
      as (r & evs & H & Hnet & Hcount).
    exists r, evs. rewrite H. repeat split; auto; discriminate.
  - exists None, []. rewrite app_nil_r. repeat split; auto; discriminate.
Qed.

Opaque downloadFileFromUrl scrapeDocsFromWeb.

(** The handler in terms of the scrape and the two downloads. *)
Lemma processUrlForDocs_run env url ca ct st w links w0 fa w1 ft w2 :
  url <> [] ->
  scrapeDocsFromWeb env url w = (Value links, w0) ->
  fetch_missing env (adminUrl links) ca (js "PCAP") w0 = (fa, w1) ->
  fetch_missing env (techUrl links) ct (js "PPT") w1 = (ft, w2) ->
  exists st',
    processUrlForDocs env url ca ct st w
      = (Value (mkDocs (if vacant ca then fa else ca)
                       (if vacant ct then ft else ct)
                       (found_any links)),
         st', w2) /\
    scrape_effect st links fa ft st'.
Proof.
  intros Hne Hs Ha Ht.
  destruct url as [|c url]; [congruence|].
  destruct (fetch_missing_cases env (adminUrl links) ca (js "PCAP") w0)
    as (fa' & evsA & Ha' & _ & _ & HaT & HaF).
  rewrite Ha in Ha'. injection Ha' as -> ->.
  destruct (fetch_missing_cases env (techUrl links) ct (js "PPT") (w0 ++ evsA))
    as (ft' & evsT & Ht' & _ & _ & HtT & HtF).
  rewrite Ht in Ht'. injection Ht' as -> ->.
  clear Ha Ht.
  unfold processUrlForDocs, scrape_effect, scrape_frame, found_any.
  cbn [is_empty]. unfold_h. rewrite Hs. destruct links as [a t].
  cbn [adminUrl techUrl fst snd] in *. cbn -[js].
  destruct (truthy a) eqn:Eta; destruct ca as [ca|];
    cbn [andb vacant] in HaT, HaF; cbn -[js];
    first [ destruct (HaF eq_refl) as [-> ->]; rewrite ?app_nil_r in *
          | rewrite (HaT eq_refl); destruct fa' as [fa'|]; cbn -[js] ];
    destruct (truthy t) eqn:Ett; destruct ct as [ct|];
      cbn [andb vacant] in HtT, HtF; cbn -[js];
      first [ destruct (HtF eq_refl) as [-> ->]; rewrite ?app_nil_r in *
            | rewrite (HtT eq_refl); destruct ft' as [ft'|]; cbn -[js] ];
      (eexists; split; [reflexivity|]; cbn -[js];
       split; [now destruct st|]; split; [reflexivity|];
       split; [reflexivity|]; split; [reflexivity|];
       rewrite <- ?app_assoc; eexists; reflexivity).
Qed.

Transparent downloadFileFromUrl scrapeDocsFromWeb.

Lemma scrape_trace env pageUrl w :
  exists r evs,
    scrapeDocsFromWeb env pageUrl w = (Value r, w ++ evs) /\
    Forall is_network evs /\ fetch_count evs <= 1.
Proof.
  destruct (scrape_cases env pageUrl w) as (r & evs & H & Hcases).
  exists r, evs. split; [exact H|].
  destruct Hcases as [(_ & -> & _) | [(_ & _ & -> & _) | (enc & _ & _ & Hc)]].
  - split; [constructor | cbn; lia].
  - split; [repeat constructor | cbn; lia].
  - destruct Hc as [(_ & -> & _) | (html & _ & -> & _)];
      (split; [repeat constructor | cbn; lia]).
Qed.

(** The handler in terms of the scrape and the two downloads, with the
    events of each. *)
Lemma processUrlForDocs_cases env url ca ct st w :
  url <> [] ->
  exists links evs0 fa evsA ft evsT st',
    scrapeDocsFromWeb env url w = (Value links, w ++ evs0) /\
    fetch_missing env (adminUrl links) ca (js "PCAP") (w ++ evs0)
      = (fa, (w ++ evs0) ++ evsA) /\
    fetch_missing env (techUrl links) ct (js "PPT") ((w ++ evs0) ++ evsA)
      = (ft, ((w ++ evs0) ++ evsA) ++ evsT) /\
    processUrlForDocs env url ca ct st w
      = (Value (mkDocs (if vacant ca then fa else ca)
                       (if vacant ct then ft else ct)
                       (found_any links)),
         st', w ++ (evs0 ++ evsA ++ evsT)) /\
    scrape_effect st links fa ft st' /\
    Forall is_network (evs0 ++ evsA ++ evsT) /\
    fetch_count evs0 <= 1 /\ fetch_count evsA <= 2 /\ fetch_count evsT <= 2 /\
    (vacant ca = false -> fa = None /\ evsA = []) /\
    (vacant ct = false -> ft = None /\ evsT = []) /\
    (found_any links = false -> fa = None /\ ft = None) /\
    (forall f, fa = Some f ->
               downloadFileFromUrl env (or_empty (adminUrl links)) (js "PCAP")
                 (w ++ evs0) = (Value (Some f), (w ++ evs0) ++ evsA)) /\
    (forall f, ft = Some f ->
               downloadFileFromUrl env (or_empty (techUrl links)) (js "PPT")
                 ((w ++ evs0) ++ evsA)
               = (Value (Some f), ((w ++ evs0) ++ evsA) ++ evsT)).
Proof.
  intros Hne.
  destruct (scrape_trace env url w) as (links & evs0 & Hs & Hn0 & Hc0).
  destruct (fetch_missing_cases env (adminUrl links) ca (js "PCAP") (w ++ evs0))
    as (fa & evsA & Ha & HnA & HcA & HaT & HaF).
  destruct (fetch_missing_cases env (techUrl links) ct (js "PPT")
              ((w ++ evs0) ++ evsA))
    as (ft & evsT & Ht & HnT & HcT & HtT & HtF).
  destruct (@processUrlForDocs_run env url ca ct st w links _ fa _ ft _
              Hne Hs Ha Ht) as (st' & Hrun & Heff).
  exists links, evs0, fa, evsA, ft, evsT, st'.
  split; [exact Hs|]. split; [exact Ha|]. split; [exact Ht|].
  split; [rewrite Hrun; now rewrite !app_assoc|].
  split; [exact Heff|].
  split; [repeat (apply Forall_app; split); assumption|].
  split; [exact Hc0|]. split; [exact HcA|]. split; [exact HcT|].
  split; [intros E; apply HaF; rewrite E; apply andb_false_r|].
  split; [intros E; apply HtF; rewrite E; apply andb_false_r|].
  split.
  { unfold found_any. intros E. apply orb_false_iff in E as [E1 E2].
    split; [apply HaF | apply HtF]; [rewrite E1 | rewrite E2]; reflexivity. }
  split.
  - intros f ->.
    destruct (truthy (adminUrl links) && vacant ca) eqn:E;
      [now apply HaT | now destruct (HaF eq_refl)].
  - intros f ->.
    destruct (truthy (techUrl links) && vacant ct) eqn:E;
      [now apply HtT | now destruct (HtF eq_refl)].
Qed.

(** X27: looking for the documents of a page never throws, logs only
    fetches and console messages, and makes at most five fetches: one for
    the page and two for each document. Without a URL it does nothing. A
    file the form already holds is returned as it is, and nothing is
    downloaded in its place: with both files present only the page is
    fetched. A file that was not there before comes from a download of
    the URL that the scrape of the page gave for it. *)
Theorem processUrlForDocs_files env url ca ct st w :
  exists r st' evs,
    processUrlForDocs env url ca ct st w = (Value r, st', w ++ evs) /\
    Forall is_network evs /\ fetch_count evs <= 5 /\
    (url = [] -> r = mkDocs ca ct false /\ st' = st /\ evs = []) /\
    (forall f, ca = Some f -> docs_adminFile r = Some f) /\
    (forall f, ct = Some f -> docs_techFile r = Some f) /\
    (ca <> None -> ct <> None -> fetch_count evs <= 1) /\
    (forall f,
        ca = None -> docs_adminFile r = Some f ->
        exists links w0 w1,
          scrapeDocsFromWeb env url w = (Value links, w0) /\
          truthy (adminUrl links) = true /\
          downloadFileFromUrl env (or_empty (adminUrl links)) (js "PCAP") w0
            = (Value (Some f), w1)) /\
    (forall f,
        ct = None -> docs_techFile r = Some f ->
        exists links w0 w1 w2,
          scrapeDocsFromWeb env url w = (Value links, w0) /\
          truthy (techUrl links) = true /\
          downloadFileFromUrl env (or_empty (techUrl links)) (js "PPT") w1
            = (Value (Some f), w2)).
Proof.
  destruct url as [|c url].
  { exists (mkDocs ca ct false), st, []. rewrite app_nil_r.
    split; [reflexivity|]. split; [constructor|]. split; [cbn; lia|].
    split; [auto|]. split; [intros f ->; reflexivity|].
    split; [intros f ->; reflexivity|]. split; [cbn; lia|].
    split; intros f ->; discriminate. }
  destruct (@processUrlForDocs_cases env (c :: url) ca ct st w)
    as (links & evs0 & fa & evsA & ft & evsT & st' & Hs & Ha & Ht & Hrun &
        Heff & Hnet & Hc0 & HcA & HcT & Hca & Hct & Hnone & Hfa & Hft);
    [discriminate|].
  eexists _, st', _. split; [exact Hrun|]. split; [exact Hnet|].
  split; [rewrite !fetch_count_app; lia|].
  split; [discriminate|].
  split; [intros f ->; reflexivity|]. split; [intros f ->; reflexivity|].
  split.
  { intros H1 H2. destruct ca; [|congruence]. destruct ct; [|congruence].
    destruct (Hca eq_refl) as [_ ->]. destruct (Hct eq_refl) as [_ ->].
    rewrite !fetch_count_app. cbn. lia. }
  split.
  - intros f -> Hf. cbn in Hf. exists links, (w ++ evs0), ((w ++ evs0) ++ evsA).
    split; [exact Hs|]. split; [|now apply Hfa].
    destruct (found_any links) eqn:E.
    + destruct (truthy (adminUrl links)) eqn:E1; [reflexivity|]. exfalso.
      unfold fetch_missing in Ha. rewrite E1 in Ha. cbn in Ha. congruence.
    + destruct (Hnone eq_refl). congruence.
  - intros f -> Hf. cbn in Hf.
    exists links, (w ++ evs0), ((w ++ evs0) ++ evsA),
           (((w ++ evs0) ++ evsA) ++ evsT).
    split; [exact Hs|]. split; [|now apply Hft].
    destruct (truthy (techUrl links)) eqn:E1; [reflexivity|]. exfalso.
    unfold fetch_missing in Ht. rewrite E1 in Ht. cbn in Ht. congruence.
Qed.

(** X28: the verdict of a look at a page with a URL: it counts as a
    success exactly when the scrape gave a URL for one of the documents,
    whether or not anything could be downloaded. The form changes at most
    in the two document URLs, which take the URLs the scrape gave, in the
    log and in the error banner. The banner about blocked downloads is
    set exactly when a URL was given and no new file came of it (else it
    is left alone); so it is also set, with nothing fetched after the
    page, when the form held both files already. *)
Theorem processUrlForDocs_verdict env url ca ct st w links w0 r st' w' :
  url <> [] ->
  scrapeDocsFromWeb env url w = (Value links, w0) ->
  processUrlForDocs env url ca ct st w = (Value r, st', w') ->
  docs_scrapeSuccess r = found_any links /\
  scrape_frame st st' /\
  form_adminUrl st'
    = (if truthy (adminUrl links) then or_empty (adminUrl links)
       else form_adminUrl st) /\
  form_techUrl st'
    = (if truthy (techUrl links) then or_empty (techUrl links)
       else form_techUrl st) /\
  (found_any links = true ->
   docs_adminFile r = ca -> docs_techFile r = ct ->
   form_downloadError st' = (true, antiRobotMessage)) /\
  (found_any links = false \/ docs_adminFile r <> ca \/ docs_techFile r <> ct ->
   form_downloadError st' = form_downloadError st) /\
  (found_any links = true -> ca <> None -> ct <> None ->
   form_downloadError st' = (true, antiRobotMessage) /\ w' = w0).
Proof.
  intros Hne Hs Hp.
  destruct (@processUrlForDocs_cases env url ca ct st w Hne)
    as (links' & evs0 & fa & evsA & ft & evsT & st'' & Hs' & Ha & Ht & Hrun &
        Heff & _ & _ & _ & _ & Hca & Hct & Hnone & _ & _).
  rewrite Hs in Hs'. injection Hs' as <- ->.
  rewrite Hp in Hrun. injection Hrun as -> -> ->.
  destruct Heff as (Hframe & Hau & Htu & Herr & _).
  cbn [docs_scrapeSuccess docs_adminFile docs_techFile].
  assert (HA : (if vacant ca then fa else ca) = ca <-> vacant fa = true).
  { destruct ca as [c|]; cbn.
    - destruct (Hca eq_refl) as [-> _]. tauto.
    - destruct fa; cbn; split; congruence. }
  assert (HT : (if vacant ct then ft else ct) = ct <-> vacant ft = true).
  { destruct ct as [c|]; cbn.
    - destruct (Hct eq_refl) as [-> _]. tauto.
    - destruct ft; cbn; split; congruence. }
  split; [reflexivity|]. split; [exact Hframe|]. split; [exact Hau|].
  split; [exact Htu|]. split; [|split].
  - intros Hf H1 H2. apply HA in H1. apply HT in H2.
    now rewrite Herr, Hf, H1, H2.
  - intros [Hf|[H1|H2]]; rewrite Herr.
    + now rewrite Hf.
    + destruct (vacant fa) eqn:E; [exfalso; apply H1, HA; reflexivity|].
      now rewrite andb_false_r.
    + destruct (vacant ft) eqn:E; [exfalso; apply H2, HT; reflexivity|].
      now rewrite andb_false_r.
  - intros Hf H1 H2. destruct ca; [|congruence]. destruct ct; [|congruence].
    destruct (Hca eq_refl) as [-> ->]. destruct (Hct eq_refl) as [-> ->].
    split; [now rewrite Herr, Hf | now rewrite !app_nil_r].
Qed.

Lemma processUrlForDocs_verdict_witness :
  form_downloadError
    (snd (fst (processUrlForDocs page_server page_url None None typed_form [])))
    = (true, antiRobotMessage).
Proof.
  destruct (scrapeDocsFromWeb page_server page_url []) as [[links|e] w0] eqn:Hs;
    [|vm_compute in Hs; discriminate].
  destruct (processUrlForDocs page_server page_url None None typed_form [])
    as [[[r|e] st'] w'] eqn:Hp; [|vm_compute in Hp; discriminate].
  assert (Hne : page_url <> []) by discriminate.
  destruct (@processUrlForDocs_verdict page_server page_url None None
              typed_form [] links w0 r st' w' Hne Hs Hp)
    as (_ & _ & _ & _ & Hshown & _).
  cbn [fst snd]. apply Hshown.
  - vm_compute in Hs. injection Hs as <- _. reflexivity.
  - vm_compute in Hp. injection Hp as <- _ _. reflexivity.
  - vm_compute in Hp. injection Hp as <- _ _. reflexivity.
Defined.


Lemma kept_iff (current fetched : option File) :
  (vacant current = false -> fetched = None) ->
  (if vacant current then fetched else current) = current <->
  vacant fetched = true.
Proof.
  destruct current as [c|]; cbn.
  - intros H. rewrite (H eq_refl). tauto.
  - intros _. destruct fetched; cbn; split; congruence.
Qed.

Opaque processUrlForDocs.


Transparent processUrlForDocs.


(** X30: submitting the form. Without a name nothing happens. With a
    name, and the board's [handleAddTender] as the callback, the new
    tender is put first on the board and first in the pending column; it
    carries the given identifier, the form's name, budget, scoring
    system, page URL, document URLs and files, the status PENDING, the
    reading of the clock as its time of creation, and no analysis. The
    board keeps its other tenders, all statuses stay members of the
    enumeration if they were, and the selected tender stays on the board
    if it was. The form is closed and all its fields, its log and its
    download error are emptied (its extraction mark is left as it is),
    so that a second submission right after does nothing. *)
Theorem handleSubmit_adds_pending env id st app w :
  (form_name st = [] ->
   handleSubmit handleAddTender env id st app w = (st, app)) /\
  (form_name st <> [] ->
   let t := newTender id (env_clock env w) st in
   let st' := fst (handleSubmit handleAddTender env id st app w) in
   let app' := snd (handleSubmit handleAddTender env id st app w) in
   app_tenders app' = t :: app_tenders app /\
   pendingTenders app' = t :: pendingTenders app /\
   tender_id t = id /\ tender_name t = form_name st /\
   tender_adminFile t = form_adminFile st /\
   tender_techFile t = form_techFile st /\
   tender_summaryFile t = form_summaryFile st /\
   tender_aiAnalysis t = None /\
   tender_createdAt t = env_clock env w /\
   tender_status t = js "PENDING" /\
   tender_budget t = Some (form_budget st) /\
   tender_scoringSystem t = Some (form_scoringSystem st) /\
   tender_tenderPageUrl t = Some (form_tenderPageUrl st) /\
   tender_adminUrl t = form_adminUrl st /\
   tender_techUrl t = form_techUrl st /\
   (all_known (app_tenders app) -> all_known (app_tenders app')) /\
   (selected_on_board app -> selected_on_board app') /\
   form_isOpen st' = false /\ form_name st' = [] /\
   form_adminFile st' = None /\ form_techFile st' = None /\
   form_summaryFile st' = None /\ form_logs st' = [] /\
   form_isExtracting st' = form_isExtracting st /\
   form_budget st' = [] /\ form_scoringSystem st' = [] /\
   form_tenderPageUrl st' = [] /\ form_adminUrl st' = [] /\
   form_techUrl st' = [] /\ form_downloadError st' = (false, []) /\
   forall id2 w2,
     handleSubmit handleAddTender env id2 st' app' w2 = (st', app')).
Proof.
  unfold handleSubmit. split.
  - intros ->. reflexivity.
  - intros Hne. destruct (form_name st) as [|c name] eqn:Hname;
      [congruence|]. cbn [is_empty fst snd].
    split; [reflexivity|]. split; [reflexivity|].
    split; [reflexivity|]. split; [cbn; now rewrite Hname|].
    do 11 (split; [reflexivity|]).
    split.
    { intros Hall. constructor; [|exact Hall].
      unfold known_status. cbn. auto. }
    split.
    { intros Hsel s Hs. right. apply Hsel. exact Hs. }
    repeat split.
Qed.

Lemma handleSubmit_adds_pending_witness :
  pendingTenders
    (snd (handleSubmit handleAddTender pdf_server (js "t-3") filled_form
            sample_board []))
  = newTender (js "t-3") 1700000000000%N filled_form
      :: pendingTenders sample_board.
Proof.
  apply (handleSubmit_adds_pending pdf_server (js "t-3") filled_form
           sample_board []).
  discriminate.
Defined.
